(** * VFD SWMR coordination engine (H5Fvfd_swmr.c): shallow embedding

    The C functions of [src/H5Fvfd_swmr.c] are embedded as functions of a
    small state-and-error monad over an explicit machine state.

    - Unsigned C integers are [Z] with the wrap-around written out
      ([u32], [u64]).
    - C arrays are lists, indexed by position; a NULL array pointer is [None].
    - The TAILQ lists are lists, head first; a list element pointer is the
      position of the element.
    - [H5F_t *] is an address ([Z], NULL is 0); the file structures live in a
      heap [Z -> H5F_shared_t].
    - Functions of other modules (free-space manager, page buffer, metadata
      cache, reader VFD, libc) are the fields of an [Externals] record acting
      on an abstract [World]; the calls a property is about are logged in a
      trace of [event]s.
    - [HGOTO_ERROR] is the outcome [FAIL]; a failed [assert]/[HDassert] or a
      NULL dereference is the outcome [ABORT]. *)

From Stdlib Require Import ZArith List Bool Lia String.
From Stdlib Require Import Sorting.Sorted Sorting.Permutation.
Import ListNotations.
Local Open Scope Z_scope.

(* ================================================================== *)
(** ** Machine integers                                                *)
(* ================================================================== *)

Definition UINT32_MAX : Z := 2 ^ 32 - 1.
Definition UINT64_MAX : Z := 2 ^ 64 - 1.

(** Conversion to [uint32_t] / [uint64_t]. *)
Definition u32 (z : Z) : Z := z mod 2 ^ 32.
Definition u64 (z : Z) : Z := z mod 2 ^ 64.

Definition is_u32 (z : Z) : Prop := 0 <= z <= UINT32_MAX.
Definition is_u64 (z : Z) : Prop := 0 <= z <= UINT64_MAX.

(* ================================================================== *)
(** ** Data model                                                      *)
(* ================================================================== *)

Record timespec : Type := mk_timespec {
  tv_sec  : Z;
  tv_nsec : Z
}.

(** [H5FD_vfd_swmr_idx_entry_t]: the fields this file reads or writes.
    [length] is named [ie_length]; [entry_ptr] is the pending image, [None]
    for NULL. *)
Record H5FD_vfd_swmr_idx_entry_t : Type := mk_idx_entry {
  hdf5_page_offset    : Z;               (* uint64_t *)
  md_file_page_offset : Z;               (* uint64_t *)
  ie_length           : Z;               (* uint32_t *)
  chksum              : Z;               (* uint32_t *)
  entry_ptr           : option (list Z); (* void *   *)
  delayed_flush       : Z                (* uint64_t *)
}.

(** [shadow_defree_t]: fields [offset], [length], [tick_num]. *)
Record shadow_defree_t : Type := mk_shadow_defree {
  sd_offset   : Z;  (* uint64_t *)
  sd_length   : Z;  (* uint32_t *)
  sd_tick_num : Z   (* uint64_t *)
}.

(** [eot_queue_entry_t]: fields [vfd_swmr_writer], [tick_num],
    [end_of_tick], [vfd_swmr_file]. *)
Record eot_queue_entry_t : Type := mk_eot_entry {
  eot_vfd_swmr_writer : bool;
  eot_tick_num        : Z;
  eot_end_of_tick     : timespec;
  eot_vfd_swmr_file   : Z        (* H5F_t * *)
}.

Record H5F_vfd_swmr_config_t : Type := mk_config {
  tick_len          : Z;      (* uint32_t *)
  max_lag           : Z;      (* uint32_t *)
  writer            : bool;
  flush_raw_data    : bool;
  md_pages_reserved : Z;      (* uint32_t *)
  md_file_path      : string
}.

(** The page buffer, as far as this file looks into it. *)
Record H5PB_t : Type := mk_pb {
  page_size : Z;
  dwl_len   : Z
}.

(** [H5F_shared_t]: the VFD SWMR fields. *)
Record H5F_shared_t : Type := mk_shared {
  vfd_swmr                 : bool;
  vfd_swmr_writer          : bool;
  vfd_swmr_config          : H5F_vfd_swmr_config_t;
  tick_num                 : Z;                 (* uint64_t *)
  end_of_tick              : timespec;
  fs_page_size             : Z;                 (* hsize_t  *)
  vfd_swmr_md_fd           : Z;                 (* int      *)
  writer_index_offset      : Z;                 (* haddr_t  *)
  mdf_idx                  : option (list H5FD_vfd_swmr_idx_entry_t);
  mdf_idx_len              : Z;                 (* uint32_t *)
  mdf_idx_entries_used     : Z;                 (* uint32_t *)
  old_mdf_idx              : option (list H5FD_vfd_swmr_idx_entry_t);
  old_mdf_idx_len          : Z;
  old_mdf_idx_entries_used : Z;
  shadow_defrees           : list shadow_defree_t;  (* TAILQ, head first *)
  pb_ptr                   : option H5PB_t;
  lf                       : bool                    (* lf != NULL *)
}.

(** Field updates ([shared->field = v]). *)
Definition set_tick_num (v : Z) (s : H5F_shared_t) : H5F_shared_t :=
  mk_shared (vfd_swmr s) (vfd_swmr_writer s) (vfd_swmr_config s) v
    (end_of_tick s) (fs_page_size s) (vfd_swmr_md_fd s)
    (writer_index_offset s) (mdf_idx s) (mdf_idx_len s)
    (mdf_idx_entries_used s) (old_mdf_idx s) (old_mdf_idx_len s)
    (old_mdf_idx_entries_used s) (shadow_defrees s) (pb_ptr s) (lf s).

Definition set_end_of_tick (v : timespec) (s : H5F_shared_t) : H5F_shared_t :=
  mk_shared (vfd_swmr s) (vfd_swmr_writer s) (vfd_swmr_config s) (tick_num s)
    v (fs_page_size s) (vfd_swmr_md_fd s)
    (writer_index_offset s) (mdf_idx s) (mdf_idx_len s)
    (mdf_idx_entries_used s) (old_mdf_idx s) (old_mdf_idx_len s)
    (old_mdf_idx_entries_used s) (shadow_defrees s) (pb_ptr s) (lf s).

Definition set_vfd_swmr_md_fd (v : Z) (s : H5F_shared_t) : H5F_shared_t :=
  mk_shared (vfd_swmr s) (vfd_swmr_writer s) (vfd_swmr_config s) (tick_num s)
    (end_of_tick s) (fs_page_size s) v
    (writer_index_offset s) (mdf_idx s) (mdf_idx_len s)
    (mdf_idx_entries_used s) (old_mdf_idx s) (old_mdf_idx_len s)
    (old_mdf_idx_entries_used s) (shadow_defrees s) (pb_ptr s) (lf s).

Definition set_writer_index_offset (v : Z) (s : H5F_shared_t) : H5F_shared_t :=
  mk_shared (vfd_swmr s) (vfd_swmr_writer s) (vfd_swmr_config s) (tick_num s)
    (end_of_tick s) (fs_page_size s) (vfd_swmr_md_fd s)
    v (mdf_idx s) (mdf_idx_len s)
    (mdf_idx_entries_used s) (old_mdf_idx s) (old_mdf_idx_len s)
    (old_mdf_idx_entries_used s) (shadow_defrees s) (pb_ptr s) (lf s).

Definition set_mdf_idx (v : option (list H5FD_vfd_swmr_idx_entry_t))
    (s : H5F_shared_t) : H5F_shared_t :=
  mk_shared (vfd_swmr s) (vfd_swmr_writer s) (vfd_swmr_config s) (tick_num s)
    (end_of_tick s) (fs_page_size s) (vfd_swmr_md_fd s)
    (writer_index_offset s) v (mdf_idx_len s)
    (mdf_idx_entries_used s) (old_mdf_idx s) (old_mdf_idx_len s)
    (old_mdf_idx_entries_used s) (shadow_defrees s) (pb_ptr s) (lf s).

Definition set_mdf_idx_len (v : Z) (s : H5F_shared_t) : H5F_shared_t :=
  mk_shared (vfd_swmr s) (vfd_swmr_writer s) (vfd_swmr_config s) (tick_num s)
    (end_of_tick s) (fs_page_size s) (vfd_swmr_md_fd s)
    (writer_index_offset s) (mdf_idx s) v
    (mdf_idx_entries_used s) (old_mdf_idx s) (old_mdf_idx_len s)
    (old_mdf_idx_entries_used s) (shadow_defrees s) (pb_ptr s) (lf s).

Definition set_mdf_idx_entries_used (v : Z) (s : H5F_shared_t) : H5F_shared_t :=
  mk_shared (vfd_swmr s) (vfd_swmr_writer s) (vfd_swmr_config s) (tick_num s)
    (end_of_tick s) (fs_page_size s) (vfd_swmr_md_fd s)
    (writer_index_offset s) (mdf_idx s) (mdf_idx_len s)
    v (old_mdf_idx s) (old_mdf_idx_len s)
    (old_mdf_idx_entries_used s) (shadow_defrees s) (pb_ptr s) (lf s).

Definition set_old_mdf_idx (v : option (list H5FD_vfd_swmr_idx_entry_t))
    (s : H5F_shared_t) : H5F_shared_t :=
  mk_shared (vfd_swmr s) (vfd_swmr_writer s) (vfd_swmr_config s) (tick_num s)
    (end_of_tick s) (fs_page_size s) (vfd_swmr_md_fd s)
    (writer_index_offset s) (mdf_idx s) (mdf_idx_len s)
    (mdf_idx_entries_used s) v (old_mdf_idx_len s)
    (old_mdf_idx_entries_used s) (shadow_defrees s) (pb_ptr s) (lf s).

Definition set_old_mdf_idx_len (v : Z) (s : H5F_shared_t) : H5F_shared_t :=
  mk_shared (vfd_swmr s) (vfd_swmr_writer s) (vfd_swmr_config s) (tick_num s)
    (end_of_tick s) (fs_page_size s) (vfd_swmr_md_fd s)
    (writer_index_offset s) (mdf_idx s) (mdf_idx_len s)
    (mdf_idx_entries_used s) (old_mdf_idx s) v
    (old_mdf_idx_entries_used s) (shadow_defrees s) (pb_ptr s) (lf s).

Definition set_old_mdf_idx_entries_used (v : Z) (s : H5F_shared_t)
    : H5F_shared_t :=
  mk_shared (vfd_swmr s) (vfd_swmr_writer s) (vfd_swmr_config s) (tick_num s)
    (end_of_tick s) (fs_page_size s) (vfd_swmr_md_fd s)
    (writer_index_offset s) (mdf_idx s) (mdf_idx_len s)
    (mdf_idx_entries_used s) (old_mdf_idx s) (old_mdf_idx_len s)
    v (shadow_defrees s) (pb_ptr s) (lf s).

Definition set_shadow_defrees (v : list shadow_defree_t) (s : H5F_shared_t)
    : H5F_shared_t :=
  mk_shared (vfd_swmr s) (vfd_swmr_writer s) (vfd_swmr_config s) (tick_num s)
    (end_of_tick s) (fs_page_size s) (vfd_swmr_md_fd s)
    (writer_index_offset s) (mdf_idx s) (mdf_idx_len s)
    (mdf_idx_entries_used s) (old_mdf_idx s) (old_mdf_idx_len s)
    (old_mdf_idx_entries_used s) v (pb_ptr s) (lf s).

(** Updates of one index entry. *)
Definition set_md_file_page_offset (v : Z) (e : H5FD_vfd_swmr_idx_entry_t) :=
  mk_idx_entry (hdf5_page_offset e) v (ie_length e) (chksum e)
    (entry_ptr e) (delayed_flush e).

Definition set_chksum (v : Z) (e : H5FD_vfd_swmr_idx_entry_t) :=
  mk_idx_entry (hdf5_page_offset e) (md_file_page_offset e) (ie_length e) v
    (entry_ptr e) (delayed_flush e).

Definition set_entry_ptr (v : option (list Z)) (e : H5FD_vfd_swmr_idx_entry_t) :=
  mk_idx_entry (hdf5_page_offset e) (md_file_page_offset e) (ie_length e)
    (chksum e) v (delayed_flush e).

(** [index[i] = e] on an array held as a list; a position outside the
    array is never written by the loops below and leaves the list as is. *)
Fixpoint array_set {A : Type} (l : list A) (i : nat) (v : A) : list A :=
  match l, i with
  | [], _ => []
  | _ :: t, O => v :: t
  | h :: t, S i' => h :: array_set t i' v
  end.

(* ================================================================== *)
(** ** Outcomes, external collaborators, machine state                 *)
(* ================================================================== *)

Inductive result (A : Type) : Type :=
| SUCCEED (a : A)   (* ret_value >= 0 / non-NULL *)
| FAIL              (* HGOTO_ERROR *)
| ABORT.            (* failed assertion, NULL dereference *)
Arguments SUCCEED {A} a.
Arguments FAIL {A}.
Arguments ABORT {A}.

(** The calls into other modules that the properties of this file are
    stated on. *)
Inductive write_kind : Type :=
| WImage    (* the HDwrite of H5F_update_vfd_swmr_metadata_file    *)
| WIndex    (* the HDwrite of H5F__vfd_swmr_construct_write_md_idx *)
| WHeader.  (* the HDwrite of H5F__vfd_swmr_construct_write_md_hdr *)

Inductive event : Type :=
(* HDwrite(fd, buf, nbyte) at the offset of the preceding HDlseek, with
   the function that issues it *)
| EvWrite (k : write_kind) (fd offset : Z) (buf : list Z) (nbyte : Z)
| EvClose (fd : Z)                                   (* HDclose  *)
| EvUnlink (path : string)                           (* HDunlink *)
| EvMVAlloc (size : Z)                               (* H5MV_alloc *)
| EvMVFree (offset length : Z)                       (* H5MV_free  *)
| EvMVClose                                          (* H5MV_close *)
| EvPBRemove (page_addr : Z)                         (* H5PB_remove_entry *)
| EvMDCEvict (page tick : Z).  (* H5C_evict_or_refresh_all_entries_in_page *)

(** Functions defined outside this file.  Each acts on the state of its own
    module, gathered in [World]; a boolean result is [true] for a
    non-negative return value. *)
Record Externals : Type := mk_externals {
  World : Type;
  sizeof_idx_entry : Z;   (* sizeof(H5FD_vfd_swmr_idx_entry_t) *)
  H5FL_CALLOC : World -> bool * World;
  HDmalloc : Z -> World -> bool * World;
  (* HDmalloc of an index array of the given size: its uninitialised
     contents, None for NULL *)
  HDmalloc_idx :
    Z -> World -> option (list H5FD_vfd_swmr_idx_entry_t) * World;
  (* HDcalloc(nmemb, size) != NULL *)
  HDcalloc : Z -> Z -> World -> bool * World;
  H5MV_alloc : Z -> Z -> World -> option Z * World; (* None: HADDR_UNDEF *)
  H5MV_free : Z -> Z -> Z -> World -> bool * World;
  H5MV_close : Z -> World -> bool * World;
  HDlseek : Z -> Z -> World -> bool * World;
  HDwrite : Z -> Z -> list Z -> Z -> World -> Z * World; (* bytes written *)
  HDclose : Z -> World -> bool * World;
  HDunlink : string -> World -> bool * World;
  HDclock_gettime : World -> option timespec * World;
  H5_checksum_metadata : list Z -> Z -> Z -> Z;
  H5PB_vfd_swmr__set_tick : Z -> World -> bool * World;
  (* H5FD_vfd_swmr_get_tick_and_idx(lf, TRUE, &tick, NULL, NULL) *)
  H5FD_vfd_swmr_get_tick : World -> option Z * World;
  (* H5FD_vfd_swmr_get_tick_and_idx(lf, FALSE, NULL, &used, index):
     the entries copied to the front of [index], given its capacity *)
  H5FD_vfd_swmr_get_idx :
    Z -> World -> option (list H5FD_vfd_swmr_idx_entry_t) * World;
  H5PB_remove_entry : Z -> World -> bool * World;
  H5C_evict_or_refresh_all_entries_in_page :
    Z -> Z -> Z -> World -> bool * World
}.

Section Machine.

Context (X : Externals).

(** Process state: the world of the other modules, the file structures, the
    offset of the shadow file descriptor, the globals of this file and the
    trace of logged calls (oldest first). *)
Record machine : Type := mk_machine {
  m_world            : World X;
  m_files            : Z -> H5F_shared_t;
  m_pos              : Z;
  eot_queue_g        : list eot_queue_entry_t;   (* TAILQ, head first *)
  vfd_swmr_writer_g  : bool;
  end_of_tick_g      : timespec;
  m_trace            : list event
}.

Definition M (A : Type) : Type := machine -> result A * machine.

Definition ret {A} (a : A) : M A := fun m => (SUCCEED a, m).

Definition bind {A B} (c : M A) (k : A -> M B) : M B :=
  fun m =>
    match c m with
    | (SUCCEED a, m') => k a m'
    | (FAIL, m') => (FAIL, m')
    | (ABORT, m') => (ABORT, m')
    end.

Definition fail {A} : M A := fun m => (FAIL, m).
Definition abort {A} : M A := fun m => (ABORT, m).

(** [assert(b)] / [HDassert(b)]. *)
Definition HDassert (b : bool) : M unit :=
  fun m => if b then (SUCCEED tt, m) else (ABORT, m).

Definition get_machine : M machine := fun m => (SUCCEED m, m).

Definition set_world (w : World X) (m : machine) : machine :=
  mk_machine w (m_files m) (m_pos m) (eot_queue_g m) (vfd_swmr_writer_g m)
    (end_of_tick_g m) (m_trace m).

Definition set_files (h : Z -> H5F_shared_t) (m : machine) : machine :=
  mk_machine (m_world m) h (m_pos m) (eot_queue_g m) (vfd_swmr_writer_g m)
    (end_of_tick_g m) (m_trace m).

Definition set_pos (p : Z) (m : machine) : machine :=
  mk_machine (m_world m) (m_files m) p (eot_queue_g m) (vfd_swmr_writer_g m)
    (end_of_tick_g m) (m_trace m).

Definition set_eot_queue_g (q : list eot_queue_entry_t) (m : machine) :=
  mk_machine (m_world m) (m_files m) (m_pos m) q (vfd_swmr_writer_g m)
    (end_of_tick_g m) (m_trace m).

Definition set_vfd_swmr_writer_g (b : bool) (m : machine) :=
  mk_machine (m_world m) (m_files m) (m_pos m) (eot_queue_g m) b
    (end_of_tick_g m) (m_trace m).

Definition set_end_of_tick_g (t : timespec) (m : machine) :=
  mk_machine (m_world m) (m_files m) (m_pos m) (eot_queue_g m)
    (vfd_swmr_writer_g m) t (m_trace m).

Definition log (e : event) (m : machine) : machine :=
  mk_machine (m_world m) (m_files m) (m_pos m) (eot_queue_g m)
    (vfd_swmr_writer_g m) (end_of_tick_g m) (m_trace m ++ [e]).

Definition modify (g : machine -> machine) : M unit :=
  fun m => (SUCCEED tt, g m).

(** Call of an external function on the world. *)
Definition call {A} (c : World X -> A * World X) : M A :=
  fun m => let (a, w) := c (m_world m) in (SUCCEED a, set_world w m).

(** [f->shared], for a file pointer [f]; NULL is 0. *)
Definition shared_of (f : Z) : M H5F_shared_t :=
  fun m => if f =? 0 then (ABORT, m) else (SUCCEED (m_files m f), m).

Definition upd_files (f : Z) (s : H5F_shared_t) (h : Z -> H5F_shared_t)
    : Z -> H5F_shared_t :=
  fun p => if p =? f then s else h p.

Definition store_shared (f : Z) (s : H5F_shared_t) : M unit :=
  modify (fun m => set_files (upd_files f s (m_files m)) m).

End Machine.

Arguments ret {X A} a.
Arguments bind {X A B} c k.
Arguments fail {X A}.
Arguments abort {X A}.
Arguments HDassert {X} b.
Arguments get_machine {X}.
Arguments modify {X} g.
Arguments call {X A} c.
Arguments shared_of {X} f.
Arguments store_shared {X} f s.
Arguments log {X} e m.
Arguments set_world {X} w m.
Arguments set_files {X} h m.
Arguments set_pos {X} p m.
Arguments set_eot_queue_g {X} q m.
Arguments set_vfd_swmr_writer_g {X} b m.
Arguments set_end_of_tick_g {X} t m.
Arguments m_world {X} m.
Arguments m_files {X} m.
Arguments m_pos {X} m.
Arguments eot_queue_g {X} m.
Arguments vfd_swmr_writer_g {X} m.
Arguments end_of_tick_g {X} m.
Arguments m_trace {X} m.

Declare Scope swmr_scope.
Delimit Scope swmr_scope with swmr.
Notation "x <- c ;; k" := (bind c (fun x => k))
  (at level 61, c at next level, right associativity) : swmr_scope.
Notation "c ;;; k" := (bind c (fun _ => k))
  (at level 61, right associativity) : swmr_scope.
Local Open Scope swmr_scope.

(* ================================================================== *)
(** ** The EOT queue                                                   *)
(* ================================================================== *)

(** Modelled from the spec: the [timespeccmp] macro is declared outside this
    file (a system header); the queue is "ordered by deadline ascending", a
    deadline being the pair ([tv_sec], [tv_nsec]), so [timespeccmp(a, b, <=)]
    compares the seconds and, when they are equal, the nanoseconds. *)
Definition timespeccmp_le (a b : timespec) : bool :=
  if tv_sec a =? tv_sec b then tv_nsec a <=? tv_nsec b
  else tv_sec a <=? tv_sec b.

Definition TAILQ_INSERT_HEAD {A} (q : list A) (e : A) : list A := e :: q.

(** Insertion after the element at position [k]. *)
Definition TAILQ_INSERT_AFTER {A} (q : list A) (k : nat) (e : A) : list A :=
  firstn (S k) q ++ e :: skipn (S k) q.

(** Removal of the element at position [k]. *)
Definition TAILQ_REMOVE {A} (q : list A) (k : nat) : list A :=
  firstn k q ++ skipn (S k) q.

(** [TAILQ_FOREACH(curr, &eot_queue_g, link) if (curr->vfd_swmr_file == f)
    break;] from position [k] on: the position of [curr], [None] for NULL. *)
Fixpoint eot_find_file (q : list eot_queue_entry_t) (f : Z) (k : nat)
    : option nat :=
  match q with
  | [] => None
  | curr :: q' =>
      if eot_vfd_swmr_file curr =? f then Some k
      else eot_find_file q' f (S k)
  end.

(** [TAILQ_FOREACH_REVERSE(prec_ptr, &eot_queue_g, eot_queue, link)
      if (timespeccmp(&prec_ptr->end_of_tick, &entry_ptr->end_of_tick, <=))
        break;]
    over the positions [k-1], ..., [0]: the position of [prec_ptr], [None]
    for NULL. *)
Fixpoint eot_find_prec (q : list eot_queue_entry_t) (t : timespec) (k : nat)
    : option nat :=
  match k with
  | O => None
  | S k' =>
      match nth_error q k' with
      | Some prec =>
          if timespeccmp_le (eot_end_of_tick prec) t then Some k'
          else eot_find_prec q t k'
      | None => eot_find_prec q t k'
      end
  end.

Section Queue.

Context {X : Externals}.

(** "Set up globals accordingly": the tail shared by the two queue
    functions. *)
Definition eot_set_globals : M X unit :=
  modify (fun m =>
    match eot_queue_g m with
    | first :: _ =>
        set_end_of_tick_g (eot_end_of_tick first)
          (set_vfd_swmr_writer_g (eot_vfd_swmr_writer first) m)
    | [] => set_vfd_swmr_writer_g false m
    end).

Definition H5F_vfd_swmr_remove_entry_eot (f : Z) : M X unit :=
  m <- get_machine ;;
  let q := eot_queue_g m in
  match eot_find_file q f 0 with
  | Some curr => modify (set_eot_queue_g (TAILQ_REMOVE q curr))
  | None => ret tt
  end ;;;
  eot_set_globals.

Definition H5F_vfd_swmr_insert_entry_eot (f : Z) : M X unit :=
  (* Allocate an entry to be inserted onto the EOT queue *)
  allocated <- call (H5FL_CALLOC X) ;;
  if negb allocated then fail else
  (* Initialize the entry *)
  shared <- shared_of f ;;
  let entry_ptr :=
    mk_eot_entry (vfd_swmr_writer shared) (tick_num shared)
                 (end_of_tick shared) f in
  (* Found the position to insert the entry on the EOT queue *)
  m <- get_machine ;;
  let q := eot_queue_g m in
  let prec_ptr := eot_find_prec q (eot_end_of_tick entry_ptr) (List.length q) in
  (* Insert the entry onto the EOT queue *)
  modify (set_eot_queue_g
            match prec_ptr with
            | Some k => TAILQ_INSERT_AFTER q k entry_ptr
            | None => TAILQ_INSERT_HEAD q entry_ptr
            end) ;;;
  (* Set up globals accordingly *)
  eot_set_globals.

End Queue.

(* ================================================================== *)
(** ** The delay predicate                                             *)
(* ================================================================== *)

(** Modelled from the spec: [vfd_swmr_pageno_to_mdf_idx_entry] is defined in
    another file; the spec has it as "lookup(page) -> Option<&Entry> - binary
    search by hdf5_page_offset".  The search runs over [idx[bottom..top)];
    the result is the position of the entry.  [fuel] bounds the number of
    halvings. *)
Fixpoint idx_bsearch (fuel : nat) (idx : list H5FD_vfd_swmr_idx_entry_t)
    (bottom top : nat) (target_page : Z) : option nat :=
  match fuel with
  | O => None
  | S fuel' =>
      if (bottom <? top)%nat then
        let probe := ((top + bottom) / 2)%nat in
        match nth_error idx probe with
        | None => None
        | Some e =>
            if hdf5_page_offset e <? target_page then
              idx_bsearch fuel' idx (S probe) top target_page
            else if target_page <? hdf5_page_offset e then
              idx_bsearch fuel' idx bottom probe target_page
            else Some probe
        end
      else None
  end.

(** Modelled from the spec: see [idx_bsearch].  The last argument of the C
    function concerns garbage entries, which neither the spec nor this file
    defines; it is passed along and not looked at. *)
Definition vfd_swmr_pageno_to_mdf_idx_entry
    (idx : list H5FD_vfd_swmr_idx_entry_t) (nentries : Z) (target_page : Z)
    (reuse_garbage : bool) : option H5FD_vfd_swmr_idx_entry_t :=
  match idx_bsearch (S (Z.to_nat nentries)) idx 0 (Z.to_nat nentries)
          target_page with
  | Some k => nth_error idx k
  | None => None
  end.

(** [H5F_vfd_swmr_writer__delay_write(shared, page, untilp)]: the value
    stored into [*untilp] on success. *)
Definition H5F_vfd_swmr_writer__delay_write (shared : H5F_shared_t)
    (page : Z) : result Z :=
  if negb (vfd_swmr shared) then ABORT else
  if negb (vfd_swmr_writer shared) then ABORT else
  let idx := mdf_idx shared in
  if negb (match idx with Some _ => true | None => false end
           || (tick_num shared <=? 1)) then ABORT else
  (* do a binary search on the metadata file index to see if
     it already contains an entry for `page`. *)
  let ie_ptr :=
    match idx with
    | None => None
    | Some idx =>
        vfd_swmr_pageno_to_mdf_idx_entry idx (mdf_idx_entries_used shared)
          page false
    end in
  let until :=
    match ie_ptr with
    | None => u64 (tick_num shared + max_lag (vfd_swmr_config shared))
    | Some ie =>
        if delayed_flush ie >=? tick_num shared then delayed_flush ie
        else 0
    end in
  if negb (until =? 0) &&
     ((until <? tick_num shared) ||
      (u64 (tick_num shared + max_lag (vfd_swmr_config shared)) <? until))
  then FAIL
  else SUCCEED until.

(* ================================================================== *)
(** ** Codec and shadow-file writes                                    *)
(* ================================================================== *)

(** Modelled from the spec: the constants and macros of the shadow-file
    layout are declared in headers outside [src/].  The header is "written
    at shadow offset 0"; its fields are "magic tag (4 bytes), page size
    (u32), tick (u64), index offset (u64), index length (u64), checksum
    (u32)"; "Encoded index byte length is magic + 8 + 4 + N*16 + 4"; "All
    multi-byte integers are little-endian"; the magic values are "VHDR" and
    "VIDX". *)
Definition H5_SIZEOF_MAGIC : Z := 4.
Definition H5FD_MD_HEADER_OFF : Z := 0.
Definition H5FD_MD_HEADER_SIZE : Z := H5_SIZEOF_MAGIC + 4 + 8 + 8 + 8 + 4.
Definition H5FD_MD_INDEX_ENTRY_SIZE : Z := 16.
Definition H5FD_MD_INDEX_SIZE (N : Z) : Z :=
  H5_SIZEOF_MAGIC + 8 + 4 + N * H5FD_MD_INDEX_ENTRY_SIZE + 4.
Definition H5FD_MD_HEADER_MAGIC : list Z := [86; 72; 68; 82].
Definition H5FD_MD_INDEX_MAGIC : list Z := [86; 73; 68; 88].

(** Modelled from the spec: [UINT32ENCODE] / [UINT64ENCODE] (little-endian,
    the low [n] bytes of the value). *)
Fixpoint le_bytes (n : nat) (v : Z) : list Z :=
  match n with
  | O => []
  | S n' => (v mod 256) :: le_bytes n' (v / 256)
  end.
Definition UINT32ENCODE (v : Z) : list Z := le_bytes 4 v.
Definition UINT64ENCODE (v : Z) : list Z := le_bytes 8 v.

(** The casts [(HDoff_t)] and [(ssize_t)] of an unsigned 64-bit value. *)
Definition to_int64 (z : Z) : Z := if z <? 2 ^ 63 then z else z - 2 ^ 64.

(** "Encode the index entries". *)
Definition encode_idx_entry (e : H5FD_vfd_swmr_idx_entry_t) : list Z :=
  UINT32ENCODE (hdf5_page_offset e) ++
  UINT32ENCODE (md_file_page_offset e) ++
  UINT32ENCODE (ie_length e) ++
  UINT32ENCODE (chksum e).

Section Writer.

Context {X : Externals}.

(** [HDlseek(fd, offset, SEEK_SET) >= 0]; the offset of the descriptor
    moves on success. *)
Definition md_lseek (fd offset : Z) : M X bool :=
  ok <- call (HDlseek X fd offset) ;;
  if ok then modify (set_pos offset) ;;; ret true else ret false.

(** [HDwrite(fd, buf, nbyte)]: the number of bytes written. *)
Definition md_write (k : write_kind) (fd : Z) (buf : list Z) (nbyte : Z)
    : M X Z :=
  m <- get_machine ;;
  nwritten <- call (HDwrite X fd (m_pos m) buf nbyte) ;;
  modify (fun m' => set_pos (m_pos m + nwritten)
                      (log (EvWrite k fd (m_pos m) buf nbyte) m')) ;;;
  ret nwritten.

(** The image built by [H5F__vfd_swmr_construct_write_md_hdr]. *)
Definition md_hdr_image (shared : H5F_shared_t) (num_entries : Z) : list Z :=
  let body :=
    H5FD_MD_HEADER_MAGIC ++
    UINT32ENCODE (fs_page_size shared) ++
    UINT64ENCODE (tick_num shared) ++
    UINT64ENCODE (writer_index_offset shared) ++
    UINT64ENCODE (H5FD_MD_INDEX_SIZE num_entries) in
  body ++
  UINT32ENCODE (H5_checksum_metadata X body (Z.of_nat (List.length body)) 0).

Definition H5F__vfd_swmr_construct_write_md_hdr (f : Z) (num_entries : Z)
    : M X unit :=
  shared <- shared_of f ;;
  let hdr_size := H5FD_MD_HEADER_SIZE in
  let image := md_hdr_image shared num_entries in
  (* Sanity checks on header *)
  HDassert (Z.of_nat (List.length image) =? hdr_size) ;;;
  (* Set to beginning of the file *)
  sought <- md_lseek (vfd_swmr_md_fd shared) H5FD_MD_HEADER_OFF ;;
  if negb sought then fail else
  (* Write header to the metadata file *)
  nwritten <- md_write WHeader (vfd_swmr_md_fd shared) image hdr_size ;;
  if negb (nwritten =? hdr_size) then fail else ret tt.

(** The image built by [H5F__vfd_swmr_construct_write_md_idx] from the
    entries [index[0 .. num_entries)]. *)
Definition md_idx_image (shared : H5F_shared_t) (num_entries : Z)
    (entries : list H5FD_vfd_swmr_idx_entry_t) : list Z :=
  let body :=
    H5FD_MD_INDEX_MAGIC ++
    UINT64ENCODE (tick_num shared) ++
    UINT32ENCODE num_entries ++
    flat_map encode_idx_entry entries in
  body ++
  UINT32ENCODE (H5_checksum_metadata X body (Z.of_nat (List.length body)) 0).

Definition H5F__vfd_swmr_construct_write_md_idx (f : Z) (num_entries : Z)
    (index : option (list H5FD_vfd_swmr_idx_entry_t)) : M X unit :=
  shared <- shared_of f ;;
  let idx_size := H5FD_MD_INDEX_SIZE num_entries in
  HDassert ((num_entries =? 0)
            || match index with Some _ => true | None => false end) ;;;
  (* Allocate space for the buffer to hold the index *)
  allocated <- call (HDmalloc X idx_size) ;;
  if negb allocated then fail else
  (* Encode the index entries: index[i] for i < num_entries *)
  let entries :=
    firstn (Z.to_nat num_entries)
           match index with Some a => a | None => [] end in
  HDassert (Z.of_nat (List.length entries) =? num_entries) ;;;
  let image := md_idx_image shared num_entries entries in
  (* Sanity checks on index *)
  HDassert (Z.of_nat (List.length image) =? idx_size) ;;;
  (* Verify the md file descriptor exists *)
  HDassert (0 <=? vfd_swmr_md_fd shared) ;;;
  sought <- md_lseek (vfd_swmr_md_fd shared)
              (to_int64 (writer_index_offset shared)) ;;
  if negb sought then fail else
  (* Write index to the metadata file *)
  nwritten <- md_write WIndex (vfd_swmr_md_fd shared) image idx_size ;;
  if negb (nwritten =? idx_size) then fail else ret tt.

(* ---------------------------------------------------------------- *)
(** *** Deferred frees                                               *)
(* ---------------------------------------------------------------- *)

(** [shadow_range_defer_free(shared, offset, length)]: [true] for the return
    value 0, [false] for -1.  The parameters are a [uint64_t] and a
    [uint32_t]. *)
Definition shadow_range_defer_free (f : Z) (offset length : Z) : M X bool :=
  allocated <- call (H5FL_CALLOC X) ;;
  if negb allocated then ret false else
  shared <- shared_of f ;;
  let shadow_defree :=
    mk_shadow_defree (u64 offset) (u32 length) (tick_num shared) in
  (* TAILQ_INSERT_HEAD *)
  store_shared f
    (set_shadow_defrees
       (TAILQ_INSERT_HEAD (shadow_defrees shared) shadow_defree) shared) ;;;
  ret true.

Definition shadow_image_defer_free (f : Z) (entry : H5FD_vfd_swmr_idx_entry_t)
    : M X bool :=
  shared <- shared_of f ;;
  shadow_range_defer_free f
    (u64 (md_file_page_offset entry * fs_page_size shared))
    (ie_length entry).

End Writer.

Arguments md_hdr_image : clear implicits.
Arguments md_idx_image : clear implicits.

(* ================================================================== *)
(** ** Update of the metadata file                                     *)
(* ================================================================== *)

(** [H5F__idx_entry_cmp]: -1, 0 or 1. *)
Definition H5F__idx_entry_cmp (entry1 entry2 : H5FD_vfd_swmr_idx_entry_t)
    : Z :=
  if hdf5_page_offset entry1 <? hdf5_page_offset entry2 then -1
  else if hdf5_page_offset entry1 >? hdf5_page_offset entry2 then 1
  else 0.

(** [HDqsort(base, nmemb, size, compar)] is the C library's [qsort]: it
    sorts [base[0 .. nmemb)] in place into ascending order of [compar]; the
    order of elements that compare equal is unspecified.  It is modelled by
    an insertion sort. *)
Fixpoint qsort_insert {A} (compar : A -> A -> Z) (x : A) (l : list A)
    : list A :=
  match l with
  | [] => [x]
  | y :: t =>
      if compar x y <=? 0 then x :: y :: t
      else y :: qsort_insert compar x t
  end.

Fixpoint qsort_list {A} (compar : A -> A -> Z) (l : list A) : list A :=
  match l with
  | [] => []
  | x :: t => qsort_insert compar x (qsort_list compar t)
  end.

Definition HDqsort {A} (base : list A) (nmemb : nat) (compar : A -> A -> Z)
    : list A :=
  qsort_list compar (firstn nmemb base) ++ skipn nmemb base.

(** [for (i = 1; i < num_entries; i++)
       assert(index[i - 1].hdf5_page_offset < index[i].hdf5_page_offset);]
    as the conjunction of the asserted conditions, over the list of the
    first [num_entries] entries. *)
Fixpoint idx_no_duplicates (entries : list H5FD_vfd_swmr_idx_entry_t)
    : bool :=
  match entries with
  | [] => true
  | e :: rest =>
      match rest with
      | [] => true
      | e' :: _ =>
          (hdf5_page_offset e <? hdf5_page_offset e') && idx_no_duplicates rest
      end
  end.

Section Update.

Context {X : Externals}.

(** "For each non-null entry_ptr in the index": the loop
    [for (i = 0; i < num_entries; i++)], with [todo = num_entries - i]
    iterations left; the result is the array after the loop. *)
Fixpoint update_write_images (f : Z) (todo : nat) (i : nat)
    (index : list H5FD_vfd_swmr_idx_entry_t)
    : M X (list H5FD_vfd_swmr_idx_entry_t) :=
  match todo with
  | O => ret index
  | S todo' =>
      match nth_error index i with
      | None => abort
      | Some e =>
          match entry_ptr e with
          | None => (* continue *) update_write_images f todo' (S i) index
          | Some image =>
              shared <- shared_of f ;;
              (* Prepend previous image of the entry to the delayed list *)
              deferred <-
                (if md_file_page_offset e =? 0 then ret true
                 else shadow_image_defer_free f e) ;;
              if negb deferred then fail else
              (* Allocate space for the entry in the metadata file *)
              md_addr <- call (H5MV_alloc X f (ie_length e)) ;;
              modify (log (EvMVAlloc (ie_length e))) ;;;
              match md_addr with
              | None => fail
              | Some md_addr =>
                  HDassert (negb (fs_page_size shared =? 0) &&
                            (md_addr mod fs_page_size shared =? 0)) ;;;
                  (* Compute checksum and update the index entry *)
                  let e1 :=
                    set_chksum
                      (H5_checksum_metadata X image (ie_length e) 0)
                      (set_md_file_page_offset
                         (md_addr / fs_page_size shared) e) in
                  (* Seek and write the entry to the metadata file *)
                  sought <- md_lseek (vfd_swmr_md_fd shared)
                              (to_int64 md_addr) ;;
                  if negb sought then fail else
                  nwritten <- md_write WImage (vfd_swmr_md_fd shared) image
                                (ie_length e) ;;
                  if negb (nwritten =? ie_length e) then fail else
                  update_write_images f todo' (S i)
                    (array_set index i (set_entry_ptr None e1))
              end
          end
      end
  end.

(** First part of [H5F_update_vfd_swmr_metadata_file]: "Sort index entries
    by increasing offset in the HDF5 file", "Assert that no HDF5 page
    offsets are duplicated", and the loop over the entries with an image.
    The result is the array [index] as it is when the index and the header
    are constructed. *)
Definition update_sort_and_write_images (f : Z) (num_entries : Z)
    (index : list H5FD_vfd_swmr_idx_entry_t)
    : M X (list H5FD_vfd_swmr_idx_entry_t) :=
  let n := Z.to_nat num_entries in
  index <-
    (if 0 <? num_entries then
       (* the array holds at least num_entries elements *)
       HDassert (n <=? List.length index)%nat ;;;
       let index := HDqsort index n H5F__idx_entry_cmp in
       HDassert (idx_no_duplicates (firstn n index)) ;;;
       ret index
     else ret index) ;;
  update_write_images f n 0 index.

(** "Release time out entries from the delayed list by scanning the list
    from the bottom up": [TAILQ_FOREACH_REVERSE_SAFE] over the positions
    [k-1], ..., [0] of the queue.  The entries behind the current one have
    been removed, so the current one is the last. *)
Fixpoint shadow_defrees_reclaim (f : Z) (k : nat) : M X unit :=
  match k with
  | O => ret tt
  | S k' =>
      shared <- shared_of f ;;
      match nth_error (shadow_defrees shared) k' with
      | None => abort
      | Some shadow_defree =>
          if u64 (sd_tick_num shadow_defree +
                  max_lag (vfd_swmr_config shared)) >? tick_num shared
          then ret tt (* No more entries are due for reclamation. *)
          else
            freed <- call (H5MV_free X f (sd_offset shadow_defree)
                             (sd_length shadow_defree)) ;;
            modify (log (EvMVFree (sd_offset shadow_defree)
                                  (sd_length shadow_defree))) ;;;
            if negb freed then fail else
            store_shared f
              (set_shadow_defrees
                 (TAILQ_REMOVE (shadow_defrees shared) k') shared) ;;;
            shadow_defrees_reclaim f k'
      end
  end.

(** Second part of [H5F_update_vfd_swmr_metadata_file]: from "Construct and
    write index to the metadata file" to the end. *)
Definition update_publish_and_reclaim (f : Z) (num_entries : Z)
    (index : list H5FD_vfd_swmr_idx_entry_t) : M X unit :=
  (* Construct and write index to the metadata file *)
  H5F__vfd_swmr_construct_write_md_idx f num_entries (Some index) ;;;
  (* Construct and write header to the md file *)
  H5F__vfd_swmr_construct_write_md_hdr f num_entries ;;;
  shared <- shared_of f ;;
  if tick_num shared <=? max_lag (vfd_swmr_config shared)
  then ret tt (* It is too early for any reclamations to be due. *)
  else shadow_defrees_reclaim f (List.length (shadow_defrees shared)).

(** [H5F_update_vfd_swmr_metadata_file(f, num_entries, index)]; the result
    is the contents of the array [index] on return. *)
Definition H5F_update_vfd_swmr_metadata_file (f : Z) (num_entries : Z)
    (index : list H5FD_vfd_swmr_idx_entry_t)
    : M X (list H5FD_vfd_swmr_idx_entry_t) :=
  index <- update_sort_and_write_images f num_entries index ;;
  update_publish_and_reclaim f num_entries index ;;;
  ret index.

(* ================================================================== *)
(** ** Ticks, flush and close                                          *)
(* ================================================================== *)

Definition nanosecs_per_second : Z := 1000000000.
Definition nanosecs_per_tenth_sec : Z := 100000000.

(** [tick_len] is a [uint32_t], so the product with the [int] constant is
    taken in 32 bits. *)
Definition H5F__vfd_swmr_update_end_of_tick_and_tick_num (f : Z)
    (incr_tick_num : bool) : M X unit :=
  (* Get current time in struct timespec *)
  curr <- call (HDclock_gettime X) ;;
  match curr with
  | None => fail
  | Some curr =>
      (* Convert curr to nsecs *)
      let curr_nsecs := tv_sec curr * nanosecs_per_second + tv_nsec curr in
      shared <- shared_of f ;;
      (* Convert tick_len to nanosecs *)
      let tlen_nsecs :=
        u32 (tick_len (vfd_swmr_config shared) * nanosecs_per_tenth_sec) in
      (* Update tick_num_g, f->shared->tick_num *)
      (if incr_tick_num then
         store_shared f (set_tick_num (u64 (tick_num shared + 1)) shared) ;;;
         shared <- shared_of f ;;
         set <- call (H5PB_vfd_swmr__set_tick X (tick_num shared)) ;;
         if negb set then fail else ret tt
       else ret tt) ;;;
      (* Calculate new end_of_tick *)
      let new_end_nsecs := curr_nsecs + tlen_nsecs in
      let new_end_of_tick :=
        mk_timespec (Z.quot new_end_nsecs nanosecs_per_second)
                    (Z.rem new_end_nsecs nanosecs_per_second) in
      (* Update end_of_tick *)
      modify (set_end_of_tick_g new_end_of_tick) ;;;
      shared <- shared_of f ;;
      store_shared f (set_end_of_tick new_end_of_tick shared)
  end.

(** [while ((curr = TAILQ_FIRST(&f->shared->shadow_defrees)) != NULL)
      TAILQ_REMOVE(&f->shared->shadow_defrees, curr, link);]
    The loop runs once per element, so [fuel] is the length of the queue. *)
Fixpoint shadow_defrees_drain (fuel : nat) (q : list shadow_defree_t)
    : list shadow_defree_t :=
  match fuel with
  | O => q
  | S fuel' =>
      match q with
      | [] => q
      | curr :: _ => shadow_defrees_drain fuel' (TAILQ_REMOVE q 0)
      end
  end.

Definition H5F_vfd_swmr_close_or_flush (f : Z) (closing : bool) : M X unit :=
  shared <- shared_of f ;;
  HDassert (vfd_swmr_writer shared) ;;;
  HDassert (0 <=? vfd_swmr_md_fd shared) ;;;
  (* Write empty index to the md file *)
  H5F__vfd_swmr_construct_write_md_idx f 0 None ;;;
  (* Write header to the md file *)
  H5F__vfd_swmr_construct_write_md_hdr f 0 ;;;
  if closing then (* For file close *)
    shared <- shared_of f ;;
    store_shared f (set_tick_num (u64 (tick_num shared + 1)) shared) ;;;
    (* Close the md file *)
    shared <- shared_of f ;;
    closed <- call (HDclose X (vfd_swmr_md_fd shared)) ;;
    modify (log (EvClose (vfd_swmr_md_fd shared))) ;;;
    if negb closed then fail else
    store_shared f (set_vfd_swmr_md_fd (-1) shared) ;;;
    (* Unlink the md file *)
    shared <- shared_of f ;;
    unlinked <- call (HDunlink X (md_file_path (vfd_swmr_config shared))) ;;
    modify (log (EvUnlink (md_file_path (vfd_swmr_config shared)))) ;;;
    if negb unlinked then fail else
    (* Close the free-space manager for the metadata file *)
    mv_closed <- call (H5MV_close X f) ;;
    modify (log EvMVClose) ;;;
    if negb mv_closed then fail else
    (* Free the delayed list *)
    shared <- shared_of f ;;
    store_shared f
      (set_shadow_defrees
         (shadow_defrees_drain (List.length (shadow_defrees shared))
            (shadow_defrees shared))
         shared) ;;;
    shared <- shared_of f ;;
    HDassert (match shadow_defrees shared with [] => true | _ => false end)
  else (* For file flush *)
    (* Update end_of_tick *)
    H5F__vfd_swmr_update_end_of_tick_and_tick_num f true.

End Update.

(* ================================================================== *)
(** ** The in-memory index: creation and enlargement                   *)
(* ================================================================== *)

(** An entry of an array returned by [HDcalloc]. *)
Definition zero_idx_entry : H5FD_vfd_swmr_idx_entry_t :=
  mk_idx_entry 0 0 0 0 None 0.

(** [memcpy(dst, src, sizeof(dst[0]) * n)] on arrays of entries. *)
Definition memcpy_idx (dst src : list H5FD_vfd_swmr_idx_entry_t) (n : nat)
    : list H5FD_vfd_swmr_idx_entry_t :=
  firstn n src ++ skipn n dst.

Section Index.

Context {X : Externals}.

Definition H5F__vfd_swmr_writer__create_index (f : Z) : M X unit :=
  shared <- shared_of f ;;
  HDassert (vfd_swmr shared) ;;;
  HDassert (match mdf_idx shared with None => true | Some _ => false end) ;;;
  HDassert (mdf_idx_len shared =? 0) ;;;
  HDassert (mdf_idx_entries_used shared =? 0) ;;;
  let bytes_available :=
    u64 (u64 (fs_page_size shared) *
         u32 (md_pages_reserved (vfd_swmr_config shared) - 1)) in
  HDassert (0 <? bytes_available) ;;;
  let entries_in_index :=
    u64 (bytes_available - H5FD_MD_INDEX_SIZE 0) / H5FD_MD_INDEX_ENTRY_SIZE in
  HDassert (0 <? entries_in_index) ;;;
  allocated <- call (HDcalloc X entries_in_index (sizeof_idx_entry X)) ;;
  if negb allocated then fail else
  HDassert (entries_in_index <=? UINT32_MAX) ;;;
  store_shared f
    (set_mdf_idx_entries_used 0
       (set_mdf_idx_len (u32 entries_in_index)
          (set_mdf_idx
             (Some (repeat zero_idx_entry (Z.to_nat entries_in_index)))
             shared))).

(** [vfd_swmr_enlarge_shadow_index(f)]: the new array on success, [FAIL] for
    the return value NULL. *)
Definition vfd_swmr_enlarge_shadow_index (f : Z)
    : M X (list H5FD_vfd_swmr_idx_entry_t) :=
  shared <- shared_of f ;;
  let old_mdf_idx := mdf_idx shared in
  let old_mdf_idx_len := mdf_idx_len shared in
  let new_mdf_idx_len :=
    if UINT32_MAX - old_mdf_idx_len >=? old_mdf_idx_len
    then old_mdf_idx_len * 2
    else UINT32_MAX in
  let idx_size := H5FD_MD_INDEX_SIZE new_mdf_idx_len in
  idx_addr <- call (H5MV_alloc X f idx_size) ;;
  modify (log (EvMVAlloc idx_size)) ;;;
  match idx_addr with
  | None => fail
  | Some idx_addr =>
      new_mdf_idx <-
        call (HDmalloc_idx X (new_mdf_idx_len * sizeof_idx_entry X)) ;;
      match new_mdf_idx with
      | None =>
          _ <- call (H5MV_free X f idx_addr idx_size) ;;
          modify (log (EvMVFree idx_addr idx_size)) ;;;
          fail
      | Some new_mdf_idx =>
          (* Copy the old index in its entirety to the new *)
          let n := Z.to_nat old_mdf_idx_len in
          let old_entries :=
            match old_mdf_idx with Some a => a | None => [] end in
          HDassert ((n <=? List.length old_entries)%nat &&
                    (n <=? List.length new_mdf_idx)%nat) ;;;
          let new_mdf_idx := memcpy_idx new_mdf_idx old_entries n in
          store_shared f
            (set_mdf_idx_len new_mdf_idx_len
               (set_mdf_idx (Some new_mdf_idx)
                  (set_writer_index_offset idx_addr shared))) ;;;
          (* Postpone reclamation of the old index until max_lag ticks
             from now. *)
          shared <- shared_of f ;;
          deferred <-
            shadow_range_defer_free f (writer_index_offset shared)
              (H5FD_MD_INDEX_SIZE old_mdf_idx_len) ;;
          if negb deferred then fail else ret new_mdf_idx
      end
  end.

End Index.

(* ================================================================== *)
(** ** Reader end of tick                                              *)
(* ================================================================== *)

(** The local variables of the comparison loops of
    [H5F_vfd_swmr_reader_end_of_tick].  [removed_page] holds the elements
    written so far: the loops write at position
    [entries_removed + entries_changed], which they then increment. *)
Record diff_state : Type := mk_diff_state {
  ds_i               : nat;
  ds_j               : nat;
  ds_removed_page    : list Z;
  ds_entries_added   : Z;
  ds_entries_removed : Z;
  ds_entries_changed : Z
}.

(** "sanity checks to verify that the old and new indicies are sorted as
    expected":
    [(i == 0) || (i >= used) || (idx[i-1].hdf5_page_offset <
    idx[i].hdf5_page_offset)]. *)
Definition idx_sanity_check (idx : list H5FD_vfd_swmr_idx_entry_t)
    (used i : nat) : bool :=
  (i =? 0)%nat || (used <=? i)%nat ||
  match nth_error idx (i - 1), nth_error idx i with
  | Some a, Some b => hdf5_page_offset a <? hdf5_page_offset b
  | _, _ => false
  end.

(** The loop [for (i = j = 0; i < old_used && j < new_used; )].  Every
    iteration increments [i] or [j], so [old_used + new_used] iterations
    are enough; [fuel] is that bound. *)
Fixpoint reader_diff_loop (fuel : nat)
    (old_mdf_idx new_mdf_idx : list H5FD_vfd_swmr_idx_entry_t)
    (old_mdf_idx_entries_used new_mdf_idx_entries_used : nat)
    (st : diff_state) : result diff_state :=
  match fuel with
  | O => SUCCEED st
  | S fuel' =>
      if ((ds_i st <? old_mdf_idx_entries_used)%nat &&
          (ds_j st <? new_mdf_idx_entries_used)%nat)
      then
        match nth_error old_mdf_idx (ds_i st),
              nth_error new_mdf_idx (ds_j st) with
        | Some o, Some n =>
            let st' :=
              if hdf5_page_offset o =? hdf5_page_offset n then
                if negb (md_file_page_offset o =? md_file_page_offset n)
                then
                  (* the page has been altered *)
                  mk_diff_state (S (ds_i st)) (S (ds_j st))
                    (ds_removed_page st ++ [hdf5_page_offset n])
                    (ds_entries_added st) (ds_entries_removed st)
                    (ds_entries_changed st + 1)
                else
                  mk_diff_state (S (ds_i st)) (S (ds_j st))
                    (ds_removed_page st)
                    (ds_entries_added st) (ds_entries_removed st)
                    (ds_entries_changed st)
              else if hdf5_page_offset o <? hdf5_page_offset n then
                (* the page has been removed from the new version of the
                   index *)
                mk_diff_state (S (ds_i st)) (ds_j st)
                  (ds_removed_page st ++ [hdf5_page_offset o])
                  (ds_entries_added st) (ds_entries_removed st + 1)
                  (ds_entries_changed st)
              else
                (* the page has been added to the index.  No action is
                   required. *)
                mk_diff_state (ds_i st) (S (ds_j st))
                  (ds_removed_page st)
                  (ds_entries_added st + 1) (ds_entries_removed st)
                  (ds_entries_changed st) in
            if idx_sanity_check old_mdf_idx old_mdf_idx_entries_used
                 (ds_i st') &&
               idx_sanity_check new_mdf_idx new_mdf_idx_entries_used
                 (ds_j st')
            then reader_diff_loop fuel' old_mdf_idx new_mdf_idx
                   old_mdf_idx_entries_used new_mdf_idx_entries_used st'
            else ABORT
        | _, _ => ABORT
        end
      else SUCCEED st
  end.

(** "cleanup any left overs in the old index":
    [for (; i < old_used; i++)], with [todo = old_used - i]. *)
Fixpoint reader_diff_leftovers (todo : nat)
    (old_mdf_idx : list H5FD_vfd_swmr_idx_entry_t) (st : diff_state)
    : result diff_state :=
  match todo with
  | O => SUCCEED st
  | S todo' =>
      match nth_error old_mdf_idx (ds_i st) with
      | Some o =>
          reader_diff_leftovers todo' old_mdf_idx
            (mk_diff_state (S (ds_i st)) (ds_j st)
               (ds_removed_page st ++ [hdf5_page_offset o])
               (ds_entries_added st) (ds_entries_removed st + 1)
               (ds_entries_changed st))
      | None => ABORT
      end
  end.

(** The two comparison loops, from [i = j = 0]: the array [removed_page]
    that the eviction loops run over. *)
Definition reader_diff
    (old_mdf_idx new_mdf_idx : list H5FD_vfd_swmr_idx_entry_t)
    (old_mdf_idx_entries_used new_mdf_idx_entries_used : nat)
    : result diff_state :=
  match reader_diff_loop
          (old_mdf_idx_entries_used + new_mdf_idx_entries_used)
          old_mdf_idx new_mdf_idx
          old_mdf_idx_entries_used new_mdf_idx_entries_used
          (mk_diff_state 0 0 [] 0 0 0) with
  | SUCCEED st =>
      let st :=
        mk_diff_state (ds_i st) (ds_j st) (ds_removed_page st)
          (ds_entries_added st +
           (Z.of_nat new_mdf_idx_entries_used - Z.of_nat (ds_j st)))
          (ds_entries_removed st) (ds_entries_changed st) in
      reader_diff_leftovers (old_mdf_idx_entries_used - ds_i st)
        old_mdf_idx st
  | FAIL => FAIL
  | ABORT => ABORT
  end.

Section Reader.

Context {X : Externals}.

(** [for (i = 0; i < entries_removed + entries_changed; i++)
      H5PB_remove_entry(f->shared, removed_page[i] * page_size)]. *)
Fixpoint reader_evict_page_buffer (page_size : Z) (removed_page : list Z)
    : M X unit :=
  match removed_page with
  | [] => ret tt
  | page :: rest =>
      let page_addr := u64 (page * page_size) in
      removed <- call (H5PB_remove_entry X page_addr) ;;
      modify (log (EvPBRemove page_addr)) ;;;
      if negb removed then fail
      else reader_evict_page_buffer page_size rest
  end.

(** [for (i = 0; i < entries_removed + entries_changed; i++)
      H5C_evict_or_refresh_all_entries_in_page(f, removed_page[i],
                                               tmp_tick_num)]. *)
Fixpoint reader_evict_cache (f : Z) (tmp_tick_num : Z)
    (removed_page : list Z) : M X unit :=
  match removed_page with
  | [] => ret tt
  | page :: rest =>
      evicted <-
        call (H5C_evict_or_refresh_all_entries_in_page X f page
                tmp_tick_num) ;;
      modify (log (EvMDCEvict page tmp_tick_num)) ;;;
      if negb evicted then fail
      else reader_evict_cache f tmp_tick_num rest
  end.

(** The block of [H5F_vfd_swmr_reader_end_of_tick] under
    [if (tmp_tick_num != f->shared->tick_num)]. *)
Definition reader_new_tick (f : Z) (tmp_tick_num : Z) : M X unit :=
  shared <- shared_of f ;;
  (* swap the old and new metadata file indexes *)
  let tmp_mdf_idx := old_mdf_idx shared in
  let tmp_mdf_idx_len := old_mdf_idx_len shared in
  let tmp_mdf_idx_entries_used := old_mdf_idx_entries_used shared in
  store_shared f
    (set_mdf_idx_entries_used tmp_mdf_idx_entries_used
       (set_mdf_idx_len tmp_mdf_idx_len
          (set_mdf_idx tmp_mdf_idx
             (set_old_mdf_idx_entries_used (mdf_idx_entries_used shared)
                (set_old_mdf_idx_len (mdf_idx_len shared)
                   (set_old_mdf_idx (mdf_idx shared) shared)))))) ;;;
  (* if f->shared->mdf_idx is NULL, allocate an index *)
  shared <- shared_of f ;;
  (match mdf_idx shared with
   | None => H5F__vfd_swmr_writer__create_index f
   | Some _ => ret tt
   end) ;;;
  shared <- shared_of f ;;
  loaded <- call (H5FD_vfd_swmr_get_idx X (mdf_idx_len shared)) ;;
  match loaded, mdf_idx shared with
  | None, _ => fail
  | Some _, None => abort
  | Some entries, Some index =>
      (* the local variable mdf_idx_entries_used *)
      let entries_used := Z.of_nat (List.length entries) in
      HDassert (entries_used <=? mdf_idx_len shared) ;;;
      store_shared f
        (set_mdf_idx_entries_used entries_used
           (set_mdf_idx
              (Some (memcpy_idx index entries (List.length entries)))
              shared)) ;;;
      shared <- shared_of f ;;
      let new_mdf_idx :=
        match mdf_idx shared with Some a => a | None => [] end in
      let old_mdf_idx :=
        match old_mdf_idx shared with Some a => a | None => [] end in
      let new_mdf_idx_entries_used := mdf_idx_entries_used shared in
      let old_mdf_idx_entries_used := old_mdf_idx_entries_used shared in
      allocated <-
        call (HDmalloc X (8 * Z.max old_mdf_idx_entries_used
                                    new_mdf_idx_entries_used)) ;;
      if negb allocated then fail else
      match reader_diff old_mdf_idx new_mdf_idx
              (Z.to_nat old_mdf_idx_entries_used)
              (Z.to_nat new_mdf_idx_entries_used) with
      | ABORT => abort
      | FAIL => fail
      | SUCCEED st =>
          match pb_ptr shared with
          | None => abort
          | Some pb =>
              reader_evict_page_buffer (page_size pb) (ds_removed_page st)
          end ;;;
          reader_evict_cache f tmp_tick_num (ds_removed_page st) ;;;
          (* Start the next tick. *)
          shared <- shared_of f ;;
          store_shared f (set_tick_num tmp_tick_num shared) ;;;
          (* Update end_of_tick *)
          H5F__vfd_swmr_update_end_of_tick_and_tick_num f false
      end
  end.

Definition H5F_vfd_swmr_reader_end_of_tick (f : Z) : M X unit :=
  (* When called from FUNC ENTER/EXIT, get the first entry on the EOT
     queue *)
  m <- get_machine ;;
  f <- (if f =? 0 then
          match eot_queue_g m with
          | first :: _ => ret (eot_vfd_swmr_file first)
          | [] => abort
          end
        else ret f) ;;
  HDassert (negb (f =? 0)) ;;;
  shared <- shared_of f ;;
  HDassert (match pb_ptr shared with Some _ => true | None => false end) ;;;
  HDassert (vfd_swmr shared) ;;;
  HDassert (negb (vfd_swmr_writer shared)) ;;;
  HDassert (lf shared) ;;;
  (* 1) Direct the VFD SWMR reader VFD to load the current header from the
        metadata file, and report the current tick. *)
  tmp_tick_num <- call (H5FD_vfd_swmr_get_tick X) ;;
  match tmp_tick_num with
  | None => fail
  | Some tmp_tick_num =>
      (if negb (tmp_tick_num =? tick_num shared)
       then reader_new_tick f tmp_tick_num
       else ret tt) ;;;
      (* Remove the entry from the EOT queue *)
      H5F_vfd_swmr_remove_entry_eot f ;;;
      (* Re-insert the entry that corresponds to f onto the EOT queue *)
      H5F_vfd_swmr_insert_entry_eot f
  end.

End Reader.

(* ================================================================== *)
(** ** Predicates of the properties                                    *)
(* ================================================================== *)

(** The order of the queue: deadline of [a] at most the deadline of [b]. *)
Definition eot_le (a b : eot_queue_entry_t) : Prop :=
  timespeccmp_le (eot_end_of_tick a) (eot_end_of_tick b) = true.

(** The queue after the insertion of [e] into [q]: the pure part of
    [H5F_vfd_swmr_insert_entry_eot]. *)
Definition eot_queue_insert (q : list eot_queue_entry_t) (e : eot_queue_entry_t)
    : list eot_queue_entry_t :=
  match eot_find_prec q (eot_end_of_tick e) (List.length q) with
  | Some k => TAILQ_INSERT_AFTER q k e
  | None => TAILQ_INSERT_HEAD q e
  end.

(** Strict order of index entries by [hdf5_page_offset]; an array is sorted
    and key-unique when its used entries are [Sorted] by it. *)
Definition idx_lt (a b : H5FD_vfd_swmr_idx_entry_t) : Prop :=
  hdf5_page_offset a < hdf5_page_offset b.

(** The order [HDqsort] puts an array into with [H5F__idx_entry_cmp]:
    ascending by [hdf5_page_offset], equal keys side by side. *)
Definition idx_le (a b : H5FD_vfd_swmr_idx_entry_t) : Prop :=
  hdf5_page_offset a <= hdf5_page_offset b.

(** The entry of [page] among the first [nentries] entries of an index, if
    there is one: what "the page is (not) in the current index" means. *)
Definition idx_entry_of (idx : list H5FD_vfd_swmr_idx_entry_t)
    (nentries : Z) (page : Z) : option H5FD_vfd_swmr_idx_entry_t :=
  find (fun e => hdf5_page_offset e =? page) (firstn (Z.to_nat nentries) idx).

(** The delay predicate in the words of the spec: [current_tick + max_lag]
    (in 64 bits) when the page is not in the current index, the entry's
    [delayed_flush] when that is at least the current tick, 0 otherwise. *)
Definition may_publish (shared : H5F_shared_t) (page : Z) : Z :=
  match
    match mdf_idx shared with
    | None => None
    | Some idx => idx_entry_of idx (mdf_idx_entries_used shared) page
    end
  with
  | None => u64 (tick_num shared + max_lag (vfd_swmr_config shared))
  | Some ie =>
      if tick_num shared <=? delayed_flush ie then delayed_flush ie else 0
  end.

(** [q'] is [q] with [e] put right after the rightmost entry whose deadline
    is at most the deadline of [e], at the head when there is none; the
    other entries keep their places. *)
Definition eot_inserted_after_rightmost_le
    (q : list eot_queue_entry_t) (e : eot_queue_entry_t)
    (q' : list eot_queue_entry_t) : Prop :=
  exists l1 l2,
    q = l1 ++ l2 /\
    q' = l1 ++ e :: l2 /\
    (l1 = [] \/ exists l1' prec, l1 = l1' ++ [prec] /\ eot_le prec e) /\
    Forall (fun p => ~ eot_le p e) l2.

(** The entry that [H5F_vfd_swmr_insert_entry_eot(f)] builds in machine
    state [m]. *)
Definition eot_entry_of {X : Externals} (m : machine X) (f : Z)
    : eot_queue_entry_t :=
  mk_eot_entry (vfd_swmr_writer (m_files m f)) (tick_num (m_files m f))
               (end_of_tick (m_files m f)) f.

(** What the asserts of [H5F_vfd_swmr_writer__delay_write] and the types of
    the fields require of the file structure, with the index invariant: the
    used entries lie in the array, sorted and key-unique. *)
Definition delay_write_pre (shared : H5F_shared_t) : Prop :=
  vfd_swmr shared = true /\ vfd_swmr_writer shared = true /\
  (mdf_idx shared = None -> tick_num shared <= 1) /\
  is_u64 (tick_num shared) /\ is_u32 (max_lag (vfd_swmr_config shared)) /\
  (forall idx, mdf_idx shared = Some idx ->
     Sorted idx_lt (firstn (Z.to_nat (mdf_idx_entries_used shared)) idx) /\
     (Z.to_nat (mdf_idx_entries_used shared) <= List.length idx)%nat).

(** The outcome of the delay predicate for [page]: a successful call stores
    [may_publish shared page], which is then 0 or lies between the current
    tick and the current tick plus [max_lag]; the call fails whenever that
    value is not 0 and lies outside; and, when [tick_num + max_lag] does
    not wrap, it succeeds whenever the value is 0 or inside. *)
Definition delay_write_outcome (shared : H5F_shared_t) (page : Z) : Prop :=
  let t := tick_num shared in
  let lag := max_lag (vfd_swmr_config shared) in
  let v := may_publish shared page in
  (forall until,
     H5F_vfd_swmr_writer__delay_write shared page = SUCCEED until ->
     until = v /\ (until = 0 \/ t <= until <= t + lag)) /\
  (v <> 0 -> v < t \/ t + lag < v ->
   H5F_vfd_swmr_writer__delay_write shared page = FAIL) /\
  (t + lag <= UINT64_MAX -> v = 0 \/ t <= v <= t + lag ->
   H5F_vfd_swmr_writer__delay_write shared page = SUCCEED v).

(* ================================================================== *)
(** ** Concrete sessions                                               *)
(* ================================================================== *)

(** A world in which every call of another module succeeds: the shadow
    free-space manager hands out consecutive pages of 4096 bytes from
    [tw_next]; the reader VFD reports the tick [tw_tick] and the index
    [tw_idx]. *)
Record test_world : Type := mk_test_world {
  tw_next : Z;
  tw_tick : Z;
  tw_idx  : list H5FD_vfd_swmr_idx_entry_t
}.

Definition test_externals : Externals :=
  mk_externals test_world
    64
    (fun w => (true, w))
    (fun _ w => (true, w))
    (fun size w => (Some (repeat zero_idx_entry (Z.to_nat (size / 64))), w))
    (fun _ _ w => (true, w))
    (fun _ size w =>
       (Some (tw_next w),
        mk_test_world (tw_next w + ((size + 4095) / 4096) * 4096)
                      (tw_tick w) (tw_idx w)))
    (fun _ _ _ w => (true, w))
    (fun _ w => (true, w))
    (fun _ _ w => (true, w))
    (fun _ _ _ nbyte w => (nbyte, w))
    (fun _ w => (true, w))
    (fun _ w => (true, w))
    (fun w => (Some (mk_timespec 100 0), w))
    (fun buf _ _ => u32 (fold_right Z.add 0 buf))
    (fun _ w => (true, w))
    (fun w => (Some (tw_tick w), w))
    (fun _ w => (Some (tw_idx w), w))
    (fun _ w => (true, w))
    (fun _ _ _ w => (true, w)).

Definition test_config : H5F_vfd_swmr_config_t :=
  mk_config 1 3 true false 2 "shadow.md".

(** A writer in tick 4 with [max_lag = 3]: an index of four slots, two of
    them used, and one deferred free made in tick 1. *)
Definition test_writer : H5F_shared_t :=
  mk_shared true true test_config 4 (mk_timespec 50 0) 4096 3 4096
    (Some [mk_idx_entry 3 2 4096 11 None 6;
           mk_idx_entry 7 3 4096 12 None 0;
           zero_idx_entry; zero_idx_entry])
    4 2 None 0 0
    [mk_shadow_defree 8192 4096 1]
    (Some (mk_pb 4096 0)) true.

(** The writer before its first tick has ended: no index yet. *)
Definition test_writer_tick1 : H5F_shared_t :=
  mk_shared true true test_config 1 (mk_timespec 50 0) 4096 3 4096
    None 0 0 None 0 0 [] (Some (mk_pb 4096 0)) true.

(** A process with the EOT queue [q] in which every file pointer leads to
    the file structure [s]. *)
Definition test_machine (q : list eot_queue_entry_t) (s : H5F_shared_t)
    : machine test_externals :=
  mk_machine test_externals (mk_test_world 12288 5 [])
    (fun _ => s) 0 q false (mk_timespec 0 0) [].

Definition test_queue : list eot_queue_entry_t :=
  [mk_eot_entry false 2 (mk_timespec 40 0) 2;
   mk_eot_entry false 9 (mk_timespec 50 0) 3;
   mk_eot_entry false 5 (mk_timespec 60 0) 4].

(** Projections of a trace. *)
Definition is_shadow_write (e : event) : bool :=
  match e with EvWrite _ _ _ _ _ => true | _ => false end.

Definition is_header_write (e : event) : bool :=
  match e with EvWrite WHeader _ _ _ _ => true | _ => false end.

Definition is_mv_free (e : event) : bool :=
  match e with EvMVFree _ _ => true | _ => false end.

(** The writes to the shadow file, in the order of their issue. *)
Definition shadow_writes (tr : list event) : list event :=
  filter is_shadow_write tr.

(** The effect of a writer close on file [f], from machine state [m] to
    [m']: the trace gains the write of an index of no entries, the write of
    the header, the close and the unlink of the shadow file and the close of
    its free-space manager, in this order; the tick number is incremented
    (in 64 bits); the deferred-free queue is empty. *)
Definition close_outcome {X : Externals} (f : Z) (m m' : machine X) : Prop :=
  let s := m_files m f in
  let s' := m_files m' f in
  m_trace m' =
    m_trace m ++
    [EvWrite WIndex (vfd_swmr_md_fd s) (to_int64 (writer_index_offset s))
       (md_idx_image X s 0 []) (H5FD_MD_INDEX_SIZE 0);
     EvWrite WHeader (vfd_swmr_md_fd s) H5FD_MD_HEADER_OFF
       (md_hdr_image X s 0) H5FD_MD_HEADER_SIZE;
     EvClose (vfd_swmr_md_fd s);
     EvUnlink (md_file_path (vfd_swmr_config s));
     EvMVClose] /\
  md_idx_image X s 0 [] =
    (let body :=
       H5FD_MD_INDEX_MAGIC ++ UINT64ENCODE (tick_num s) ++ UINT32ENCODE 0 in
     body ++
     UINT32ENCODE
       (H5_checksum_metadata X body (Z.of_nat (List.length body)) 0)) /\
  tick_num s' = u64 (tick_num s + 1) /\
  vfd_swmr_md_fd s' = -1 /\
  shadow_defrees s' = [].

(** The images that the entries with a non-NULL [entry_ptr] carry, in the
    order of the entries. *)
Definition pending_images (entries : list H5FD_vfd_swmr_idx_entry_t)
    : list (list Z) :=
  flat_map (fun e => match entry_ptr e with Some image => [image] | None => [] end)
           entries.

Definition write_buf (e : event) : list Z :=
  match e with EvWrite _ _ _ buf _ => buf | _ => [] end.

Definition is_image_write (e : event) : bool :=
  match e with EvWrite WImage _ _ _ _ => true | _ => false end.

(** The call of [H5MV_free] that returns a deferred-free record to the
    shadow free-space manager. *)
Definition free_event (sd : shadow_defree_t) : event :=
  EvMVFree (sd_offset sd) (sd_length sd).

(** The test of the reclamation walk, for a file structure [s]: a record is
    due when the current tick is above [max_lag] and the record's tick plus
    [max_lag] (in 64 bits) is at most the current tick; it is within the
    window when that sum is above the current tick. *)
Definition reclaim_due (s : H5F_shared_t) (sd : shadow_defree_t) : Prop :=
  max_lag (vfd_swmr_config s) < tick_num s /\
  u64 (sd_tick_num sd + max_lag (vfd_swmr_config s)) <= tick_num s.

Definition within_window (s : H5F_shared_t) (sd : shadow_defree_t) : Prop :=
  tick_num s < u64 (sd_tick_num sd + max_lag (vfd_swmr_config s)).

(** Every outcome of a computation relates the states before and after
    by [R]. *)
Definition preserves {X : Externals} {A : Type}
    (R : machine X -> machine X -> Prop) (c : M X A) : Prop :=
  forall m r m1, c m = (r, m1) -> R m m1.

(** What the first part of [H5F_update_vfd_swmr_metadata_file] may do to
    file [f] and to the trace, whatever its outcome: push deferred frees of
    the current tick, and log calls other than header writes, index writes
    and calls of [H5MV_free]. *)
Definition images_step {X : Externals} (f : Z) (m m1 : machine X) : Prop :=
  exists pushed evs,
    m_files m1 f =
      set_shadow_defrees (pushed ++ shadow_defrees (m_files m f))
                         (m_files m f) /\
    Forall (fun sd => sd_tick_num sd = tick_num (m_files m f)) pushed /\
    m_trace m1 = m_trace m ++ evs /\
    Forall (fun e => is_mv_free e = false /\
                     (is_shadow_write e = true -> is_image_write e = true))
           evs.

(** The reclamation of one call of [H5F_update_vfd_swmr_metadata_file] on
    file [f], of outcome [r], from machine state [m] to [m'].  [pushed] are
    the records the call pushes, [attempted] the records it hands to
    [H5MV_free], oldest first in the trace, and [kept] the records it leaves
    on the queue. *)
Definition reclaims_due_entries {X : Externals} {A : Type} (f : Z)
    (m m' : machine X) (r : result A) : Prop :=
  let s := m_files m f in
  exists pushed kept attempted evs,
    m_trace m' = m_trace m ++ evs /\
    filter is_mv_free evs = map free_event (rev attempted) /\
    pushed ++ shadow_defrees s = kept ++ attempted /\
    Forall (fun sd => sd_tick_num sd = tick_num s) pushed /\
    Forall (reclaim_due s) attempted /\
    (forall a, r = SUCCEED a ->
       tick_num (m_files m' f) = tick_num s /\
       shadow_defrees (m_files m' f) = kept /\
       (tick_num s <= max_lag (vfd_swmr_config s) \/ kept = [] \/
        exists kept' last, kept = kept' ++ [last] /\ within_window s last)).

(** The writes to the shadow file of a successful call of
    [H5F_update_vfd_swmr_metadata_file]: the images of the entries that had
    one, in the order of the sorted index; then the index, at
    [writer_index_offset]; then the header, at offset 0. *)
Definition update_write_order {X : Externals} (f num_entries : Z)
    (index index' : list H5FD_vfd_swmr_idx_entry_t) (m m' : machine X)
    : Prop :=
  let s := m_files m f in
  let n := Z.to_nat num_entries in
  exists evs images,
    m_trace m' = m_trace m ++ evs /\
    shadow_writes evs =
      images ++
      [EvWrite WIndex (vfd_swmr_md_fd s) (to_int64 (writer_index_offset s))
         (md_idx_image X s num_entries (firstn n index'))
         (H5FD_MD_INDEX_SIZE num_entries);
       EvWrite WHeader (vfd_swmr_md_fd s) H5FD_MD_HEADER_OFF
         (md_hdr_image X s num_entries) H5FD_MD_HEADER_SIZE] /\
    Forall (fun e => is_image_write e = true) images /\
    map write_buf images =
      pending_images (firstn n (HDqsort index n H5F__idx_entry_cmp)).

(** Two dirty pages at the end of tick 4: page 7, new in the index, and page
    3, whose previous image sits at shadow page 2. *)
Definition test_dirty_index : list H5FD_vfd_swmr_idx_entry_t :=
  [mk_idx_entry 7 0 3 0 (Some [1; 2; 3]) 0;
   mk_idx_entry 3 2 2 11 (Some [4; 5]) 0;
   zero_idx_entry; zero_idx_entry].

(** The result of a run and the state it ends in. *)
Definition run_result {X : Externals} {A : Type} (c : M X A) (m : machine X)
    : result A := fst (c m).

Definition run_state {X : Externals} {A : Type} (c : M X A) (m : machine X)
    : machine X := snd (c m).

(** The value of a successful result. *)
Definition result_value {A : Type} (default : A) (r : result A) : A :=
  match r with SUCCEED a => a | _ => default end.

(** The comparison of the reader on two lists of entries: the pages that the
    loops of [reader_diff] write into [removed_page] when they run over
    arrays holding these entries. *)
Fixpoint diff_pages (old : list H5FD_vfd_swmr_idx_entry_t)
    : list H5FD_vfd_swmr_idx_entry_t -> list Z :=
  fix against (new : list H5FD_vfd_swmr_idx_entry_t) : list Z :=
    match old with
    | [] => []
    | o :: old' =>
        match new with
        | [] => map hdf5_page_offset old
        | n :: new' =>
            if hdf5_page_offset o =? hdf5_page_offset n then
              if negb (md_file_page_offset o =? md_file_page_offset n)
              then hdf5_page_offset n :: diff_pages old' new'
              else diff_pages old' new'
            else if hdf5_page_offset o <? hdf5_page_offset n then
              hdf5_page_offset o :: diff_pages old' new
            else against new'
        end
    end.

(** Page [p] is in both indices, at different places of the shadow file. *)
Definition page_changed (old new : list H5FD_vfd_swmr_idx_entry_t) (p : Z)
    : Prop :=
  exists o n,
    In o old /\ In n new /\
    hdf5_page_offset o = p /\ hdf5_page_offset n = p /\
    md_file_page_offset o <> md_file_page_offset n.

(** Page [p] is in the old index only. *)
Definition page_removed (old new : list H5FD_vfd_swmr_idx_entry_t) (p : Z)
    : Prop :=
  (exists o, In o old /\ hdf5_page_offset o = p) /\
  ~ (exists n, In n new /\ hdf5_page_offset n = p).

(** The elements [l[a .. b)] of an array. *)
Definition slice {A} (l : list A) (a b : nat) : list A :=
  firstn (b - a) (skipn a l).

(** The array behind an index pointer. *)
Definition array_of (idx : option (list H5FD_vfd_swmr_idx_entry_t))
    : list H5FD_vfd_swmr_idx_entry_t :=
  match idx with Some a => a | None => [] end.

(** The file that [H5F_vfd_swmr_reader_end_of_tick(f)] works on: [f], or the
    file of the first entry of the EOT queue when [f] is NULL. *)
Definition reader_file {X : Externals} (m : machine X) (f : Z) : Z :=
  if f =? 0 then
    match eot_queue_g m with
    | first :: _ => eot_vfd_swmr_file first
    | [] => 0
    end
  else f.

(** The queue after [H5F_vfd_swmr_remove_entry_eot(f)]. *)
Definition eot_queue_remove (q : list eot_queue_entry_t) (f : Z)
    : list eot_queue_entry_t :=
  match eot_find_file q f 0 with
  | Some curr => TAILQ_REMOVE q curr
  | None => q
  end.

(** The evictions of a reader end of tick on file [f], from machine state
    [m] to [m']: the index that was current becomes the old index, and the
    calls logged are one page-buffer eviction for each page of
    [removed_page], then one metadata-cache eviction for each of them, where
    [removed_page] holds the pages that changed place between the used
    entries of the old and of the new index and the pages that only the old
    index has. *)
Definition reader_evictions {X : Externals} (f : Z) (m m' : machine X)
    : Prop :=
  let s := m_files m f in
  let s' := m_files m' f in
  let old_index :=
    firstn (Z.to_nat (old_mdf_idx_entries_used s'))
           (array_of (old_mdf_idx s')) in
  let new_index :=
    firstn (Z.to_nat (mdf_idx_entries_used s')) (array_of (mdf_idx s')) in
  old_mdf_idx s' = mdf_idx s /\
  old_mdf_idx_entries_used s' = mdf_idx_entries_used s /\
  exists removed_page pb,
    pb_ptr s = Some pb /\
    m_trace m' =
      m_trace m ++
      map (fun page => EvPBRemove (u64 (page * page_size pb))) removed_page ++
      map (fun page => EvMDCEvict page (tick_num s')) removed_page /\
    forall p,
      In p removed_page <->
      page_changed old_index new_index p \/
      page_removed old_index new_index p.

(** The frame of a reader end of tick that finds the tick unchanged: nothing
    is logged, no file structure is modified, and on success the entry of
    the file has been removed from the EOT queue and inserted again. *)
Definition reader_same_tick_frame {X : Externals} (f : Z) (m m' : machine X)
    (r : result unit) : Prop :=
  m_trace m' = m_trace m /\
  m_files m' = m_files m /\
  (r = SUCCEED tt ->
   eot_queue_g m' =
     eot_queue_insert (eot_queue_remove (eot_queue_g m) f) (eot_entry_of m f)).

(** A reader in tick 2 that has seen the index of tick 1, page 3 at shadow
    page 1; the writer has published tick 5 with page 3 at shadow page 4 and
    the new page 9. *)
Definition test_reader : H5F_shared_t :=
  mk_shared true false test_config 2 (mk_timespec 50 0) 4096 (-1) 0
    (Some [mk_idx_entry 3 1 4096 11 None 0; zero_idx_entry])
    2 1
    (Some [zero_idx_entry; zero_idx_entry]) 2 0
    [] (Some (mk_pb 4096 0)) true.

Definition test_reader_machine (tick : Z) : machine test_externals :=
  mk_machine test_externals
    (mk_test_world 12288 tick
       [mk_idx_entry 3 4 4096 21 None 0; mk_idx_entry 9 5 4096 22 None 0])
    (fun _ => test_reader) 0
    [mk_eot_entry false 2 (mk_timespec 50 0) 1] false (mk_timespec 50 0) [].

(** A step that leaves the machine state alone. *)
Definition pure_step {X : Externals} {A} (c : M X A) : Prop :=
  forall m r m1, c m = (r, m1) -> m1 = m.

(* ================================================================== *)
(** ** Predicates of the further properties                            *)
(* ================================================================== *)

(** [q'] is [q] without its first entry for file [f], the other entries in
    their order; it is [q] when [q] holds no entry for [f]. *)
Definition eot_first_removed (q : list eot_queue_entry_t) (f : Z)
    (q' : list eot_queue_entry_t) : Prop :=
  (Forall (fun e => eot_vfd_swmr_file e <> f) q /\ q' = q) \/
  exists l1 e l2,
    q = l1 ++ e :: l2 /\ eot_vfd_swmr_file e = f /\
    Forall (fun e' => eot_vfd_swmr_file e' <> f) l1 /\ q' = l1 ++ l2.

(** "Set up globals accordingly", from state [m] to [m']: the two globals
    are those of the first entry of the queue; with an empty queue
    [vfd_swmr_writer_g] is FALSE and [end_of_tick_g] keeps its value. *)
Definition eot_globals_mirror_head {X : Externals} (m m' : machine X) : Prop :=
  match eot_queue_g m' with
  | first :: _ =>
      vfd_swmr_writer_g m' = eot_vfd_swmr_writer first /\
      end_of_tick_g m' = eot_end_of_tick first
  | [] =>
      vfd_swmr_writer_g m' = false /\ end_of_tick_g m' = end_of_tick_g m
  end.

(** No entry of the queue is for file [f]. *)
Definition eot_not_queued (q : list eot_queue_entry_t) (f : Z) : Prop :=
  Forall (fun e => eot_vfd_swmr_file e <> f) q.

(** The files of the entries of a queue, in the order of the queue. *)
Definition eot_files (q : list eot_queue_entry_t) : list Z :=
  map eot_vfd_swmr_file q.

(** The queue [q'] holds the entries of [q] with the entry of file [g]
    renewed: [e] is in [q'], the entries of the other files are those of
    [q], a queue sorted by [end_of_tick] stays sorted, and a queue with at
    most one entry per file stays so. *)
Definition eot_requeued (q : list eot_queue_entry_t) (g : Z)
    (e : eot_queue_entry_t) (q' : list eot_queue_entry_t) : Prop :=
  In e q' /\
  (forall x, eot_vfd_swmr_file x <> g -> (In x q' <-> In x q)) /\
  (Sorted eot_le q -> Sorted eot_le q') /\
  (NoDup (eot_files q) -> NoDup (eot_files q')).

(** The deadline [t] lies [tick_len] tenths of a second after the time
    [now], as a timespec with its nanoseconds below one second. *)
Definition deadline_after (now : timespec) (tick_len : Z) (t : timespec)
    : Prop :=
  tv_sec t * nanosecs_per_second + tv_nsec t =
    tv_sec now * nanosecs_per_second + tv_nsec now +
    tick_len * nanosecs_per_tenth_sec /\
  0 <= tv_nsec t < nanosecs_per_second.

(** The values for which the arithmetic of
    [H5F__vfd_swmr_update_end_of_tick_and_tick_num] stays within its C
    types: a clock reading that is not negative, a tick length whose
    nanoseconds fit 32 bits, and a sum that fits [int64_t]. *)
Definition deadline_in_range (now : timespec) (tick_len : Z) : Prop :=
  0 <= tv_sec now /\ 0 <= tv_nsec now /\
  0 <= tick_len /\ tick_len * nanosecs_per_tenth_sec <= UINT32_MAX /\
  tv_sec now * nanosecs_per_second + tv_nsec now +
    tick_len * nanosecs_per_tenth_sec < 2 ^ 63.

(** A world as [test_externals] has it, except that
    [H5PB_vfd_swmr__set_tick] fails. *)
Definition set_tick_failing_externals : Externals :=
  mk_externals test_world
    (sizeof_idx_entry test_externals)
    (H5FL_CALLOC test_externals)
    (HDmalloc test_externals)
    (HDmalloc_idx test_externals)
    (HDcalloc test_externals)
    (H5MV_alloc test_externals)
    (H5MV_free test_externals)
    (H5MV_close test_externals)
    (HDlseek test_externals)
    (HDwrite test_externals)
    (HDclose test_externals)
    (HDunlink test_externals)
    (HDclock_gettime test_externals)
    (H5_checksum_metadata test_externals)
    (fun _ w => (false, w))
    (H5FD_vfd_swmr_get_tick test_externals)
    (H5FD_vfd_swmr_get_idx test_externals)
    (H5PB_remove_entry test_externals)
    (H5C_evict_or_refresh_all_entries_in_page test_externals).

(** The process of [test_machine] in a world of externals [X] that share
    the state of [test_externals]. *)
Definition test_machine_in (X : Externals) (w : World X)
    (q : list eot_queue_entry_t) (s : H5F_shared_t) : machine X :=
  mk_machine X w (fun _ => s) 0 q false (mk_timespec 0 0) [].

(** What a call of [H5F__vfd_swmr_update_end_of_tick_and_tick_num] that
    does not succeed leaves behind, from state [m] to [m']: the deadline of
    the file, the global deadline and the queue are untouched; the tick
    number is untouched too, unless the call was to increment it and
    failed after the increment. *)
Definition end_of_tick_failure_frame {X : Externals} (f : Z)
    (incr_tick_num : bool) (r : result unit) (m m' : machine X) : Prop :=
  let s := m_files m f in
  let s' := m_files m' f in
  end_of_tick s' = end_of_tick s /\
  end_of_tick_g m' = end_of_tick_g m /\
  eot_queue_g m' = eot_queue_g m /\
  (tick_num s' = tick_num s \/
   incr_tick_num = true /\ r = FAIL /\ tick_num s' = u64 (tick_num s + 1)).

(** The calls that [H5F_vfd_swmr_close_or_flush] logs for file [f] from
    machine state [m], in the order of the code: the write of an index of
    no entries, the write of the header, and, when closing, the close and
    the unlink of the shadow file and the close of its free-space
    manager. *)
Definition close_or_flush_events {X : Externals} (f : Z) (closing : bool)
    (m : machine X) : list event :=
  let s := m_files m f in
  [EvWrite WIndex (vfd_swmr_md_fd s) (to_int64 (writer_index_offset s))
     (md_idx_image X s 0 []) (H5FD_MD_INDEX_SIZE 0);
   EvWrite WHeader (vfd_swmr_md_fd s) H5FD_MD_HEADER_OFF
     (md_hdr_image X s 0) H5FD_MD_HEADER_SIZE] ++
  (if closing
   then [EvClose (vfd_swmr_md_fd s);
         EvUnlink (md_file_path (vfd_swmr_config s));
         EvMVClose]
   else []).

(** The effect of a writer flush on file [f], from machine state [m] to
    [m']: an index of no entries and the header are written, both with the
    tick number the file had; the tick number is then incremented and a new
    deadline is set; the shadow file stays open, and the deferred-free
    queue and the in-memory index are not touched. *)
Definition flush_outcome {X : Externals} (f : Z) (m m' : machine X) : Prop :=
  let s := m_files m f in
  let s' := m_files m' f in
  m_trace m' = m_trace m ++ close_or_flush_events f false m /\
  tick_num s' = u64 (tick_num s + 1) /\
  end_of_tick s' = end_of_tick_g m' /\
  vfd_swmr_md_fd s' = vfd_swmr_md_fd s /\
  shadow_defrees s' = shadow_defrees s /\
  mdf_idx s' = mdf_idx s /\
  mdf_idx_entries_used s' = mdf_idx_entries_used s.

(** The calls logged by a call of [H5F_vfd_swmr_close_or_flush], of any
    outcome, are a prefix of [close_or_flush_events]: none is issued before
    the ones that precede it in the code have succeeded. *)
Definition close_or_flush_prefix {X : Externals} (f : Z) (closing : bool)
    (r : result unit) (m m' : machine X) : Prop :=
  exists k,
    m_trace m' = m_trace m ++ firstn k (close_or_flush_events f closing m) /\
    (r = SUCCEED tt -> m_trace m' = m_trace m ++ close_or_flush_events f closing m).

(** [bytes_available] of [H5F__vfd_swmr_writer__create_index]: the pages
    reserved for the shadow file but the first, in bytes, as a [size_t]. *)
Definition index_bytes_available (s : H5F_shared_t) : Z :=
  u64 (u64 (fs_page_size s) *
       u32 (md_pages_reserved (vfd_swmr_config s) - 1)).

(** The index that [H5F__vfd_swmr_writer__create_index] leaves in file [f]:
    [n] zeroed slots, none used, where [n] is the largest number of entries
    whose encoded index fits the bytes available, and is at least 1 and at
    most [UINT32_MAX]. *)
Definition create_index_outcome {X : Externals} (f : Z) (m m' : machine X)
    : Prop :=
  let s := m_files m f in
  let s' := m_files m' f in
  exists n,
    mdf_idx s' = Some (repeat zero_idx_entry (Z.to_nat n)) /\
    mdf_idx_len s' = n /\
    mdf_idx_entries_used s' = 0 /\
    0 < n <= UINT32_MAX /\
    H5FD_MD_INDEX_SIZE n <= index_bytes_available s /\
    index_bytes_available s < H5FD_MD_INDEX_SIZE (n + 1).

(** The length [vfd_swmr_enlarge_shadow_index] gives the index of a file
    structure [s]. *)
Definition enlarged_idx_len (s : H5F_shared_t) : Z :=
  if UINT32_MAX - mdf_idx_len s >=? mdf_idx_len s
  then mdf_idx_len s * 2 else UINT32_MAX.

(** A failed enlargement that gave back what it took: the file structures
    are as before, and the shadow range [idx_addr] that was allocated for
    the new index has been handed to [H5MV_free]. *)
Definition enlarge_rolled_back {X : Externals} (f : Z) (idx_addr : Z)
    (m m' : machine X) : Prop :=
  let idx_size := H5FD_MD_INDEX_SIZE (enlarged_idx_len (m_files m f)) in
  m_files m' = m_files m /\
  m_trace m' = m_trace m ++ [EvMVAlloc idx_size; EvMVFree idx_addr idx_size].

(** A failed enlargement that did not roll back: the file structure holds
    the new array at the new offset [idx_addr], the allocated range is not
    freed, and no record has been pushed on the deferred-free queue. *)
Definition enlarge_left_switched {X : Externals} (f : Z) (idx_addr : Z)
    (m m' : machine X) : Prop :=
  let s := m_files m f in
  let s' := m_files m' f in
  writer_index_offset s' = idx_addr /\
  mdf_idx_len s' = enlarged_idx_len s /\
  (exists new_mdf_idx,
     mdf_idx s' = Some new_mdf_idx /\
     firstn (Z.to_nat (mdf_idx_len s)) new_mdf_idx =
       firstn (Z.to_nat (mdf_idx_len s)) (array_of (mdf_idx s))) /\
  shadow_defrees s' = shadow_defrees s /\
  m_trace m' = m_trace m ++ [EvMVAlloc (H5FD_MD_INDEX_SIZE (enlarged_idx_len s))].

(** A world as [test_externals] has it, except that the allocations of
    [HDmalloc] for an index array fail. *)
Definition malloc_failing_externals : Externals :=
  mk_externals test_world
    (sizeof_idx_entry test_externals)
    (H5FL_CALLOC test_externals)
    (HDmalloc test_externals)
    (fun _ w => (None, w))
    (HDcalloc test_externals)
    (H5MV_alloc test_externals)
    (H5MV_free test_externals)
    (H5MV_close test_externals)
    (HDlseek test_externals)
    (HDwrite test_externals)
    (HDclose test_externals)
    (HDunlink test_externals)
    (HDclock_gettime test_externals)
    (H5_checksum_metadata test_externals)
    (H5PB_vfd_swmr__set_tick test_externals)
    (H5FD_vfd_swmr_get_tick test_externals)
    (H5FD_vfd_swmr_get_idx test_externals)
    (H5PB_remove_entry test_externals)
    (H5C_evict_or_refresh_all_entries_in_page test_externals).

(** A world as [test_externals] has it, except that the allocations of
    [H5FL_CALLOC] fail. *)
Definition calloc_failing_externals : Externals :=
  mk_externals test_world
    (sizeof_idx_entry test_externals)
    (fun w => (false, w))
    (HDmalloc test_externals)
    (HDmalloc_idx test_externals)
    (HDcalloc test_externals)
    (H5MV_alloc test_externals)
    (H5MV_free test_externals)
    (H5MV_close test_externals)
    (HDlseek test_externals)
    (HDwrite test_externals)
    (HDclose test_externals)
    (HDunlink test_externals)
    (HDclock_gettime test_externals)
    (H5_checksum_metadata test_externals)
    (H5PB_vfd_swmr__set_tick test_externals)
    (H5FD_vfd_swmr_get_tick test_externals)
    (H5FD_vfd_swmr_get_idx test_externals)
    (H5PB_remove_entry test_externals)
    (H5C_evict_or_refresh_all_entries_in_page test_externals).

(** The kinds of the writes to the shadow file in a trace, in the order of
    their issue. *)
Definition write_kinds (tr : list event) : list write_kind :=
  flat_map (fun e => match e with EvWrite k _ _ _ _ => [k] | _ => [] end) tr.

(** The writes to the shadow file of a call of
    [H5F_update_vfd_swmr_metadata_file], of any outcome: [k] images, then
    the first [j] of: the index, the header.  The index is written only
    when every pending image of the sorted entries has been written. *)
Definition update_writes_prefix {X : Externals} (f num_entries : Z)
    (index : list H5FD_vfd_swmr_idx_entry_t) (m m' : machine X) : Prop :=
  let n := Z.to_nat num_entries in
  exists evs k j,
    m_trace m' = m_trace m ++ evs /\
    write_kinds evs = repeat WImage k ++ firstn j [WIndex; WHeader] /\
    ((0 < j)%nat ->
     k = List.length
           (pending_images (firstn n (HDqsort index n H5F__idx_entry_cmp)))).

(** The record that [shadow_image_defer_free] pushes for the entry [e] of a
    file of structure [s]: the shadow range of the image the entry points
    to, with the current tick. *)
Definition image_defree (s : H5F_shared_t) (e : H5FD_vfd_swmr_idx_entry_t)
    : shadow_defree_t :=
  mk_shadow_defree (u64 (md_file_page_offset e * fs_page_size s))
                   (u32 (ie_length e)) (tick_num s).

(** The entry has a new image to publish and an image in the shadow file
    already. *)
Definition has_previous_image (e : H5FD_vfd_swmr_idx_entry_t) : bool :=
  match entry_ptr e with
  | Some _ => negb (md_file_page_offset e =? 0)
  | None => false
  end.

(** The records of the previous images of [entries], the one of the last
    entry first, as successive insertions at the head leave them. *)
Definition deferred_images (s : H5F_shared_t)
    (entries : list H5FD_vfd_swmr_idx_entry_t) : list shadow_defree_t :=
  rev (map (image_defree s) (filter has_previous_image entries)).

(** A successful call of [H5F_update_vfd_swmr_metadata_file] on file [f],
    from machine state [m] to [m'], has pushed on the deferred-free queue
    the record of the previous image of every entry it rewrote, and of no
    other range: the records pushed and the records that were queued are
    the records still queued and the records handed to [H5MV_free] in this
    call. *)
Definition update_defers_images {X : Externals} (f num_entries : Z)
    (index : list H5FD_vfd_swmr_idx_entry_t) (m m' : machine X) : Prop :=
  let s := m_files m f in
  let n := Z.to_nat num_entries in
  exists attempted evs,
    m_trace m' = m_trace m ++ evs /\
    filter is_mv_free evs = map free_event (rev attempted) /\
    deferred_images s (firstn n (HDqsort index n H5F__idx_entry_cmp)) ++
      shadow_defrees s =
    shadow_defrees (m_files m' f) ++ attempted.

(** What the loop over the entries makes of an entry [e]: an entry without
    image is left alone; an entry with an image keeps its page, its length
    and its [delayed_flush], has its [entry_ptr] set to NULL and carries
    the checksum of the image. *)
Definition entry_published (X : Externals)
    (e e' : H5FD_vfd_swmr_idx_entry_t) : Prop :=
  match entry_ptr e with
  | None => e' = e
  | Some image =>
      hdf5_page_offset e' = hdf5_page_offset e /\
      ie_length e' = ie_length e /\
      delayed_flush e' = delayed_flush e /\
      entry_ptr e' = None /\
      chksum e' = H5_checksum_metadata X image (ie_length e) 0
  end.

(** The array [index'] that a successful call of
    [H5F_update_vfd_swmr_metadata_file] on [index] leaves: the first
    [num_entries] entries, sorted, each as [entry_published] has it, and
    the slots behind them as they were. *)
Definition update_array_outcome (X : Externals) (num_entries : Z)
    (index index' : list H5FD_vfd_swmr_idx_entry_t) : Prop :=
  let n := Z.to_nat num_entries in
  exists published,
    index' = published ++ skipn n index /\
    Forall2 (entry_published X)
      (firstn n (HDqsort index n H5F__idx_entry_cmp)) published.

(** The order that head insertion with the current tick gives the
    deferred-free queue of a file structure [s]: from the head to the tail
    the ticks of the records do not increase, and every record was made in
    a tick from 1 to the current one. *)
Definition defrees_ordered (s : H5F_shared_t) : Prop :=
  StronglySorted (fun a b => sd_tick_num b <= sd_tick_num a)
                 (shadow_defrees s) /\
  Forall (fun sd => 1 <= sd_tick_num sd <= tick_num s) (shadow_defrees s).

(** A list of bytes. *)
Definition all_bytes (l : list Z) : Prop := Forall (fun b => 0 <= b < 256) l.

(** The two entries agree on the low 32 bits of the four fields that the
    index image holds. *)
Definition same_low_32_bits (e e' : H5FD_vfd_swmr_idx_entry_t) : Prop :=
  u32 (hdf5_page_offset e) = u32 (hdf5_page_offset e') /\
  u32 (md_file_page_offset e) = u32 (md_file_page_offset e') /\
  u32 (ie_length e) = u32 (ie_length e') /\
  u32 (chksum e) = u32 (chksum e').

(** The two headers agree on the fields that the header image holds: the
    low 32 bits of the page size, and the tick number, the index offset and
    the encoded length of the index as 64-bit values. *)
Definition same_header_fields (s : H5F_shared_t) (num_entries : Z)
    (s' : H5F_shared_t) (num_entries' : Z) : Prop :=
  u32 (fs_page_size s) = u32 (fs_page_size s') /\
  u64 (tick_num s) = u64 (tick_num s') /\
  u64 (writer_index_offset s) = u64 (writer_index_offset s') /\
  u64 (H5FD_MD_INDEX_SIZE num_entries) = u64 (H5FD_MD_INDEX_SIZE num_entries').

(** What holds of the local variables of the comparison loops of
    [H5F_vfd_swmr_reader_end_of_tick] throughout: [removed_page] has been
    written at the positions below [entries_removed + entries_changed],
    which are at most [i]; and [i + entries_added = j + entries_removed]. *)
Definition diff_counts_inv (st : diff_state) : Prop :=
  Z.of_nat (List.length (ds_removed_page st)) =
    ds_entries_removed st + ds_entries_changed st /\
  (List.length (ds_removed_page st) <= ds_i st)%nat /\
  Z.of_nat (ds_i st) + ds_entries_added st =
    Z.of_nat (ds_j st) + ds_entries_removed st /\
  0 <= ds_entries_removed st /\ 0 <= ds_entries_changed st.

(** The counters of the comparison on return, for indices with [old_used]
    and [new_used] entries: the pages written to [removed_page] are
    [entries_removed + entries_changed] in number and at most [old_used],
    so within the [MAX(old_used, new_used)] slots allocated; and the
    entries of the two indices are accounted for,
    [old_used + entries_added = new_used + entries_removed]. *)
Definition diff_counts_outcome (old_used new_used : nat) (st : diff_state)
    : Prop :=
  Z.of_nat (List.length (ds_removed_page st)) =
    ds_entries_removed st + ds_entries_changed st /\
  (List.length (ds_removed_page st) <= old_used)%nat /\
  (List.length (ds_removed_page st) <= Nat.max old_used new_used)%nat /\
  Z.of_nat old_used + ds_entries_added st =
    Z.of_nat new_used + ds_entries_removed st.

(* ================================================================== *)
(** ** Writer end of tick, flush preparation and initialisation        *)
(* ================================================================== *)

Definition set_vfd_swmr (v : bool) (s : H5F_shared_t) : H5F_shared_t :=
  mk_shared v (vfd_swmr_writer s) (vfd_swmr_config s) (tick_num s)
    (end_of_tick s) (fs_page_size s) (vfd_swmr_md_fd s)
    (writer_index_offset s) (mdf_idx s) (mdf_idx_len s)
    (mdf_idx_entries_used s) (old_mdf_idx s) (old_mdf_idx_len s)
    (old_mdf_idx_entries_used s) (shadow_defrees s) (pb_ptr s) (lf s).

Definition set_vfd_swmr_writer (v : bool) (s : H5F_shared_t) : H5F_shared_t :=
  mk_shared (vfd_swmr s) v (vfd_swmr_config s) (tick_num s)
    (end_of_tick s) (fs_page_size s) (vfd_swmr_md_fd s)
    (writer_index_offset s) (mdf_idx s) (mdf_idx_len s)
    (mdf_idx_entries_used s) (old_mdf_idx s) (old_mdf_idx_len s)
    (old_mdf_idx_entries_used s) (shadow_defrees s) (pb_ptr s) (lf s).

Definition set_pb_ptr (v : option H5PB_t) (s : H5F_shared_t) : H5F_shared_t :=
  mk_shared (vfd_swmr s) (vfd_swmr_writer s) (vfd_swmr_config s) (tick_num s)
    (end_of_tick s) (fs_page_size s) (vfd_swmr_md_fd s)
    (writer_index_offset s) (mdf_idx s) (mdf_idx_len s)
    (mdf_idx_entries_used s) (old_mdf_idx s) (old_mdf_idx_len s)
    (old_mdf_idx_entries_used s) (shadow_defrees s) v (lf s).

(** The functions of other modules that the functions below call.  The
    ones that are handed the file work on its structure (the index, the
    page buffer) as well as on the state of their module, so they are
    computations on the machine; a negative return value is the outcome
    [FAIL].  [shared_cache] reads the field [cache] of [H5F_shared_t],
    which belongs to the metadata cache: whether it is not NULL. *)
Record Collaborators (X : Externals) : Type := mk_collaborators {
  shared_cache : Z -> machine X -> bool;
  H5D_flush_all : Z -> M X unit;
  H5MF_free_aggrs : Z -> M X unit;
  H5AC_flush : Z -> M X unit;
  H5FD_truncate : Z -> M X unit;
  (* H5PB_vfd_swmr__update_index(f, &idx_entries_added, ...): the value
     stored into idx_entries_added *)
  H5PB_vfd_swmr__update_index : Z -> M X Z;
  H5PB_vfd_swmr__release_tick_list : Z -> M X unit;
  H5PB_vfd_swmr__release_delayed_writes : Z -> M X unit;
  (* HDnanosleep(&req, &rem): the return value and rem *)
  HDnanosleep : timespec -> World X -> (Z * timespec) * World X;
  (* HDopen(path, O_CREAT|O_RDWR, H5_POSIX_CREATE_MODE_RW) *)
  HDopen : string -> World X -> Z * World X;
  (* HDftruncate(fd, length) *)
  HDftruncate : Z -> Z -> World X -> Z * World X;
  (* H5FD_vfd_swmr_get_tick_and_idx(lf, FALSE, &tick, &used, index), for
     an index of the given capacity: the tick and the entries loaded *)
  H5FD_vfd_swmr_get_tick_and_idx :
    Z -> World X -> option (Z * list H5FD_vfd_swmr_idx_entry_t) * World X
}.

Arguments shared_cache {X} c f m.
Arguments H5D_flush_all {X} c f.
Arguments H5MF_free_aggrs {X} c f.
Arguments H5AC_flush {X} c f.
Arguments H5FD_truncate {X} c f.
Arguments H5PB_vfd_swmr__update_index {X} c f.
Arguments H5PB_vfd_swmr__release_tick_list {X} c f.
Arguments H5PB_vfd_swmr__release_delayed_writes {X} c f.
Arguments HDnanosleep {X} c req w.
Arguments HDopen {X} c path w.
Arguments HDftruncate {X} c fd length w.
Arguments H5FD_vfd_swmr_get_tick_and_idx {X} c capacity w.

(** A loop whose number of iterations the code does not bound has a
    result of this type: [None] when [fuel] iterations were not enough. *)
Definition fueled (A : Type) : Type := option A.

Section WriterTick.

Context {X : Externals}.
Variable C : Collaborators X.

(** [H5F_vfd_swmr_writer_end_of_tick(f)].  The array handed to
    [H5F_update_vfd_swmr_metadata_file] is [f->shared->mdf_idx] itself,
    sorted and updated in place: what a successful call leaves in it is
    stored back.  (What a failed call leaves in the array is not
    followed.) *)
Definition H5F_vfd_swmr_writer_end_of_tick (f : Z) : M X unit :=
  (* When called from FUNC ENTER/EXIT, get the first entry on the EOT
     queue *)
  m <- get_machine ;;
  f <- (if f =? 0 then
          match eot_queue_g m with
          | first :: _ => ret (eot_vfd_swmr_file first)
          | [] => abort
          end
        else ret f) ;;
  HDassert (negb (f =? 0)) ;;;
  shared <- shared_of f ;;
  HDassert (match pb_ptr shared with Some _ => true | None => false end) ;;;
  HDassert (vfd_swmr_writer shared) ;;;
  (* 1) If requested, flush all raw data to the HDF5 file. *)
  HDassert (negb (flush_raw_data (vfd_swmr_config shared))) ;;;
  H5D_flush_all C f ;;;
  H5MF_free_aggrs C f ;;;
  m <- get_machine ;;
  (if shared_cache C f m then H5AC_flush C f else ret tt) ;;;
  H5FD_truncate C f ;;;
  (* 2) If it exists, flush the metadata cache to the page buffer. *)
  m <- get_machine ;;
  (if shared_cache C f m then H5AC_flush C f else ret tt) ;;;
  (* 3) If this is the first tick (i.e. tick == 1), create the in memory
        version of the metadata file index. *)
  shared <- shared_of f ;;
  (if tick_num shared =? 1
   then H5F__vfd_swmr_writer__create_index f
   else ret tt) ;;;
  (* 4) Scan the page buffer tick list, and use it to update the metadata
        file index, adding or modifying entries as appropriate. *)
  idx_entries_added <- H5PB_vfd_swmr__update_index C f ;;
  (* 6) Update the metadata file. *)
  shared <- shared_of f ;;
  index <-
    H5F_update_vfd_swmr_metadata_file f
      (u32 (mdf_idx_entries_used shared + idx_entries_added))
      (array_of (mdf_idx shared)) ;;
  shared <- shared_of f ;;
  store_shared f
    (set_mdf_idx
       match mdf_idx shared with Some _ => Some index | None => None end
       shared) ;;;
  (* at this point the metadata file index should be sorted -- update
     f->shared->mdf_idx_entries_used. *)
  shared <- shared_of f ;;
  store_shared f
    (set_mdf_idx_entries_used
       (u32 (mdf_idx_entries_used shared + idx_entries_added)) shared) ;;;
  shared <- shared_of f ;;
  HDassert (mdf_idx_entries_used shared <=? mdf_idx_len shared) ;;;
  (* 7) Release the page buffer tick list. *)
  H5PB_vfd_swmr__release_tick_list C f ;;;
  (* 8) Release any delayed writes whose delay has expired *)
  H5PB_vfd_swmr__release_delayed_writes C f ;;;
  (* 9) Increment the tick, and update the end of tick. *)
  H5F__vfd_swmr_update_end_of_tick_and_tick_num f true ;;;
  (* Remove the entry from the EOT queue *)
  H5F_vfd_swmr_remove_entry_eot f ;;;
  (* Re-insert the entry that corresponds to f onto the EOT queue *)
  H5F_vfd_swmr_insert_entry_eot f.

(** [result = HDnanosleep(&req, &rem);
     while (result == -1) { req = rem; result = HDnanosleep(&req, &rem); }]:
    the value of [result] after the loop. *)
Fixpoint nanosleep_restarted (fuel : nat) (req : timespec) : M X (fueled Z) :=
  match fuel with
  | O => ret None
  | S fuel' =>
      slept <- call (HDnanosleep C req) ;;
      let (result, rem) := slept : Z * timespec in
      if result =? -1 then nanosleep_restarted fuel' rem
      else ret (Some result)
  end.

(** [H5F__vfd_swmr_writer__wait_a_tick(f)].  [tick_len] is a [uint32_t],
    so the product with the [int] constant is taken in 32 bits, and then
    widened to the [uint64_t] [tick_in_nsec]. *)
Definition H5F__vfd_swmr_writer__wait_a_tick (fuel : nat) (f : Z)
    : M X (fueled unit) :=
  HDassert (negb (f =? 0)) ;;;
  shared <- shared_of f ;;
  HDassert (vfd_swmr shared) ;;;
  HDassert (vfd_swmr_writer shared) ;;;
  let tick_in_nsec :=
    u32 (tick_len (vfd_swmr_config shared) * nanosecs_per_tenth_sec) in
  let req :=
    mk_timespec (tick_in_nsec / nanosecs_per_second)
                (tick_in_nsec mod nanosecs_per_second) in
  result <- nanosleep_restarted fuel req ;;
  match result with
  | None => ret None
  | Some result =>
      if negb (result =? 0) then fail else
      H5F_vfd_swmr_writer_end_of_tick f ;;;
      ret (Some tt)
  end.

(** [while (f->shared->pb_ptr->dwl_len > 0)
      if (H5F__vfd_swmr_writer__wait_a_tick(f) < 0) HGOTO_ERROR(...)]. *)
Fixpoint wait_until_drained (fuel : nat) (f : Z) : M X (fueled unit) :=
  shared <- shared_of f ;;
  match pb_ptr shared with
  | None => abort
  | Some pb =>
      if 0 <? dwl_len pb then
        match fuel with
        | O => ret None
        | S fuel' =>
            waited <- H5F__vfd_swmr_writer__wait_a_tick fuel' f ;;
            match waited with
            | None => ret None
            | Some _ => wait_until_drained fuel' f
            end
        end
      else ret (Some tt)
  end.

Definition H5F_vfd_swmr_writer__prep_for_flush_or_close (fuel : nat) (f : Z)
    : M X (fueled unit) :=
  HDassert (negb (f =? 0)) ;;;
  shared <- shared_of f ;;
  HDassert (vfd_swmr shared) ;;;
  HDassert (vfd_swmr_writer shared) ;;;
  HDassert (match pb_ptr shared with Some _ => true | None => false end) ;;;
  (* since we are about to flush the page buffer, force and end of tick *)
  H5F_vfd_swmr_writer_end_of_tick f ;;;
  wait_until_drained fuel f.

End WriterTick.

(** The file that [H5F_vfd_swmr_writer_end_of_tick(f)] works on: [f], or
    the file of the first entry of the EOT queue when [f] is NULL. *)
Definition writer_file {X : Externals} (m : machine X) (f : Z) : Z :=
  if f =? 0 then
    match eot_queue_g m with
    | first :: _ => eot_vfd_swmr_file first
    | [] => 0
    end
  else f.

(** From state [m] to [m1] the EOT queue and the tick number of file [f]
    are left alone. *)
Definition same_tick_and_queue {X : Externals} (f : Z) (m m1 : machine X)
    : Prop :=
  eot_queue_g m1 = eot_queue_g m /\
  tick_num (m_files m1 f) = tick_num (m_files m f).

(** From state [m] to [m1] the in-memory index of file [f] is left
    alone. *)
Definition same_index {X : Externals} (f : Z) (m m1 : machine X) : Prop :=
  mdf_idx (m_files m1 f) = mdf_idx (m_files m f) /\
  mdf_idx_len (m_files m1 f) = mdf_idx_len (m_files m f) /\
  mdf_idx_entries_used (m_files m1 f) = mdf_idx_entries_used (m_files m f).

(** The functions that [H5F_vfd_swmr_writer_end_of_tick] calls in other
    modules keep the relation [R], whatever their outcome. *)
Definition writer_collaborators_preserve {X : Externals}
    (C : Collaborators X) (f : Z) (R : machine X -> machine X -> Prop)
    : Prop :=
  preserves R (H5D_flush_all C f) /\
  preserves R (H5MF_free_aggrs C f) /\
  preserves R (H5AC_flush C f) /\
  preserves R (H5FD_truncate C f) /\
  preserves R (H5PB_vfd_swmr__update_index C f) /\
  preserves R (H5PB_vfd_swmr__release_tick_list C f) /\
  preserves R (H5PB_vfd_swmr__release_delayed_writes C f).

(** The in-memory index of a file structure after a writer end of tick:
    the entries in use are within the array, sorted strictly by page, and
    none of them holds an image still to be written. *)
Definition index_published (s : H5F_shared_t) : Prop :=
  let used := firstn (Z.to_nat (mdf_idx_entries_used s)) (array_of (mdf_idx s)) in
  mdf_idx_entries_used s <= mdf_idx_len s /\
  Sorted idx_lt used /\
  Forall (fun e => entry_ptr e = None) used.

(** Collaborators that do nothing and succeed: no metadata cache, no page
    added to the index, a sleep that is never interrupted, and a reader
    VFD that reports the tick and the index of the world of
    [test_externals].  [released] is what
    [H5PB_vfd_swmr__release_delayed_writes] does. *)
Definition test_collaborators (released : Z -> M test_externals unit)
    : Collaborators test_externals :=
  mk_collaborators test_externals
    (fun _ _ => false)
    (fun _ => ret tt)
    (fun _ => ret tt)
    (fun _ => ret tt)
    (fun _ => ret tt)
    (fun _ => ret 0)
    (fun _ => ret tt)
    released
    (fun req w => ((0, req), w))
    (fun _ w => (3, w))
    (fun _ _ w => (0, w))
    (fun _ w => (Some (tw_tick w, tw_idx w), w)).

(** A page buffer that completes one delayed write at each end of tick. *)
Definition release_one_delayed_write (f : Z) : M test_externals unit :=
  shared <- shared_of f ;;
  store_shared f
    (set_pb_ptr
       match pb_ptr shared with
       | Some pb => Some (mk_pb (page_size pb) (Z.max 0 (dwl_len pb - 1)))
       | None => None
       end
       shared).

(** The writer of [test_writer] with two writes on the delayed write
    list. *)
Definition test_writer_delayed : H5F_shared_t :=
  set_pb_ptr (Some (mk_pb 4096 2)) test_writer.

(** A computation with fuel whose outcome, once it has one other than "not
    enough fuel", is the same for every larger amount of fuel. *)
Definition fuel_monotone {X : Externals} {A : Type}
    (c : nat -> M X (fueled A)) : Prop :=
  forall fuel fuel' m r m',
    c fuel m = (r, m') -> r <> SUCCEED None -> (fuel <= fuel')%nat ->
    c fuel' m = (r, m').

(** The delayed write list of the page buffer of file [f] is empty. *)
Definition delayed_writes_drained {X : Externals} (f : Z) (m : machine X)
    : Prop :=
  exists pb, pb_ptr (m_files m f) = Some pb /\ dwl_len pb <= 0.

Section Init.

Context {X : Externals}.
Variable C : Collaborators X.

(** [H5F_vfd_swmr_init(f, file_create)].  [swmr_config] and [rdwr] are the
    values of [H5F_VFD_SWMR_CONFIG(f)] and of
    [H5F_INTENT(f) & H5F_ACC_RDWR], macros of another file.  The
    assignments to [lower_defrees] and to [vfd_swmr_md_eoa], fields that no
    function of this file reads, are left out. *)
Definition H5F_vfd_swmr_init (f : Z) (file_create : bool)
    (swmr_config rdwr : bool) : M X unit :=
  HDassert swmr_config ;;;
  shared <- shared_of f ;;
  store_shared f (set_vfd_swmr true shared) ;;;
  (if rdwr then
     shared <- shared_of f ;;
     HDassert (writer (vfd_swmr_config shared)) ;;;
     store_shared f (set_tick_num 1 (set_vfd_swmr_writer true shared)) ;;;
     shared <- shared_of f ;;
     set <- call (H5PB_vfd_swmr__set_tick X (tick_num shared)) ;;
     if negb set then fail else
     (* Create the metadata file *)
     md_fd <- call (HDopen C (md_file_path (vfd_swmr_config shared))) ;;
     store_shared f (set_vfd_swmr_md_fd md_fd shared) ;;;
     if md_fd <? 0 then fail else
     shared <- shared_of f ;;
     let md_size :=
       u64 (md_pages_reserved (vfd_swmr_config shared) *
            fs_page_size shared) in
     HDassert (H5FD_MD_HEADER_SIZE <=? fs_page_size shared) ;;;
     (* Allocate an entire page from the shadow file for the header. *)
     hdr_addr <- call (H5MV_alloc X f (fs_page_size shared)) ;;
     modify (log (EvMVAlloc (fs_page_size shared))) ;;;
     match hdr_addr with
     | None => fail
     | Some hdr_addr =>
         HDassert (hdr_addr =? H5FD_MD_HEADER_OFF) ;;;
         idx_addr <-
           call (H5MV_alloc X f (u64 (md_size - fs_page_size shared))) ;;
         modify (log (EvMVAlloc (u64 (md_size - fs_page_size shared)))) ;;;
         match idx_addr with
         | None => fail
         | Some idx_addr =>
             HDassert (idx_addr =? fs_page_size shared) ;;;
             store_shared f (set_writer_index_offset idx_addr shared) ;;;
             (* Set the metadata file size to md_pages_reserved *)
             truncated <-
               call (HDftruncate C (vfd_swmr_md_fd shared)
                       (to_int64 md_size)) ;;
             if truncated =? -1 then fail else
             (* When opening an existing HDF5 file, create header and
                empty index in the metadata file *)
             if negb file_create then
               H5F__vfd_swmr_construct_write_md_idx f 0 None ;;;
               H5F__vfd_swmr_construct_write_md_hdr f 0
             else ret tt
         end
     end
   else (* VFD SWMR reader *)
     shared <- shared_of f ;;
     HDassert (negb (writer (vfd_swmr_config shared))) ;;;
     store_shared f (set_vfd_swmr_writer false shared) ;;;
     shared <- shared_of f ;;
     HDassert (match mdf_idx shared with None => true | Some _ => false end) ;;;
     (* allocate an index to save the initial index *)
     H5F__vfd_swmr_writer__create_index f ;;;
     (* Set tick_num_g to the current tick read from the metadata file *)
     shared <- shared_of f ;;
     store_shared f
       (set_mdf_idx_entries_used (mdf_idx_len shared) shared) ;;;
     shared <- shared_of f ;;
     loaded <-
       call (H5FD_vfd_swmr_get_tick_and_idx C (mdf_idx_entries_used shared)) ;;
     match loaded, mdf_idx shared with
     | None, _ => fail
     | Some _, None => abort
     | Some (tick, entries), Some index =>
         store_shared f
           (set_tick_num tick
              (set_mdf_idx_entries_used (Z.of_nat (List.length entries))
                 (set_mdf_idx
                    (Some (memcpy_idx index entries (List.length entries)))
                    shared)))
     end) ;;;
  (* Update end_of_tick *)
  H5F__vfd_swmr_update_end_of_tick_and_tick_num f false.

End Init.

(** The state of file [f] after a successful [H5F_vfd_swmr_init] of a
    writer, from machine state [m] to [m']: tick 1, the shadow file open,
    its first page allocated for the header and the rest for the index,
    which starts at [fs_page_size]; for an existing HDF5 file an index of
    no entries and the header have been written, for a file being created
    nothing has been written. *)
Definition writer_init_outcome {X : Externals} (f : Z) (file_create : bool)
    (m m' : machine X) : Prop :=
  let s := m_files m f in
  let s' := m_files m' f in
  let md_size := u64 (md_pages_reserved (vfd_swmr_config s) * fs_page_size s) in
  vfd_swmr s' = true /\ vfd_swmr_writer s' = true /\ tick_num s' = 1 /\
  0 <= vfd_swmr_md_fd s' /\
  writer_index_offset s' = fs_page_size s /\
  H5FD_MD_HEADER_SIZE <= fs_page_size s /\
  end_of_tick s' = end_of_tick_g m' /\
  m_trace m' =
    m_trace m ++
    [EvMVAlloc (fs_page_size s); EvMVAlloc (u64 (md_size - fs_page_size s))] ++
    (if file_create then []
     else [EvWrite WIndex (vfd_swmr_md_fd s') (to_int64 (fs_page_size s))
             (md_idx_image X s' 0 []) (H5FD_MD_INDEX_SIZE 0);
           EvWrite WHeader (vfd_swmr_md_fd s') H5FD_MD_HEADER_OFF
             (md_hdr_image X s' 0) H5FD_MD_HEADER_SIZE]).

(** The state of file [f] after a successful [H5F_vfd_swmr_init] of a
    reader that found the tick [tick] and the index entries [entries] in
    the shadow file: the file is at that tick, its index holds these
    entries in its first slots, and nothing has been written or
    allocated in the shadow file. *)
Definition reader_init_outcome {X : Externals} (f : Z) (tick : Z)
    (entries : list H5FD_vfd_swmr_idx_entry_t) (m m' : machine X) : Prop :=
  let s' := m_files m' f in
  vfd_swmr s' = true /\ vfd_swmr_writer s' = false /\
  tick_num s' = tick /\
  mdf_idx_entries_used s' = Z.of_nat (List.length entries) /\
  firstn (List.length entries) (array_of (mdf_idx s')) = entries /\
  0 < mdf_idx_len s' /\
  end_of_tick s' = end_of_tick_g m' /\
  m_trace m' = m_trace m.

(** A reader about to be initialised: no index yet. *)
Definition test_reader_closed : H5F_shared_t :=
  mk_shared false false (mk_config 1 3 false false 2 "shadow.md") 0
    (mk_timespec 0 0) 4096 (-1) 0 None 0 0 None 0 0 []
    (Some (mk_pb 4096 0)) true.

(** A writer about to be initialised. *)
Definition test_writer_closed : H5F_shared_t :=
  mk_shared false false test_config 0 (mk_timespec 0 0) 4096 (-1) 0
    None 0 0 None 0 0 [] (Some (mk_pb 4096 0)) true.

(** [HDnanosleep] as POSIX has it: the return value is 0, or -1 with the
    reason in [errno]. *)
Definition nanosleep_returns_0_or_minus_1 {X : Externals}
    (C : Collaborators X) : Prop :=
  forall req w,
    fst (fst (HDnanosleep C req w)) = 0 \/
    fst (fst (HDnanosleep C req w)) = -1.

(** The layout of the index image [image] of the entries [entries] for a
    file structure [s]: the magic at offset 0, the tick number at offset 4,
    the number of entries at offset 12, the entries from offset 16 on, 16
    bytes each, and the checksum of all that in the last four bytes. *)
Definition idx_image_layout (X : Externals) (s : H5F_shared_t)
    (entries : list H5FD_vfd_swmr_idx_entry_t) (image : list Z) : Prop :=
  let n := List.length entries in
  firstn 4 image = H5FD_MD_INDEX_MAGIC /\
  firstn 8 (skipn 4 image) = UINT64ENCODE (tick_num s) /\
  firstn 4 (skipn 12 image) = UINT32ENCODE (Z.of_nat n) /\
  (forall i e, nth_error entries i = Some e ->
     firstn 16 (skipn (16 + 16 * i) image) = encode_idx_entry e) /\
  skipn (16 + 16 * n) image =
    UINT32ENCODE
      (H5_checksum_metadata X (firstn (16 + 16 * n) image)
         (Z.of_nat (16 + 16 * n)) 0).

(** The state in which a reader end of tick that cannot load the new index
    leaves file [f], from machine state [m] to [m']: the lengths and counts
    of the current and of the old index have changed places, the old index
    is the index of [m], and the tick number and the queue are those of
    [m].  What the failed load has left in the array of the current index
    is not part of it. *)
Definition reader_indexes_swapped {X : Externals} (f : Z) (m m' : machine X)
    : Prop :=
  let s := m_files m f in
  let s' := m_files m' f in
  mdf_idx_len s' = old_mdf_idx_len s /\
  mdf_idx_entries_used s' = old_mdf_idx_entries_used s /\
  old_mdf_idx s' = mdf_idx s /\
  old_mdf_idx_len s' = mdf_idx_len s /\
  old_mdf_idx_entries_used s' = mdf_idx_entries_used s /\
  tick_num s' = tick_num s /\
  eot_queue_g m' = eot_queue_g m /\
  m_trace m' = m_trace m.

(** A world as [test_externals] has it, except that the reader VFD cannot
    load the index. *)
Definition get_idx_failing_externals : Externals :=
  mk_externals test_world
    (sizeof_idx_entry test_externals)
    (H5FL_CALLOC test_externals)
    (HDmalloc test_externals)
    (HDmalloc_idx test_externals)
    (HDcalloc test_externals)
    (H5MV_alloc test_externals)
    (H5MV_free test_externals)
    (H5MV_close test_externals)
    (HDlseek test_externals)
    (HDwrite test_externals)
    (HDclose test_externals)
    (HDunlink test_externals)
    (HDclock_gettime test_externals)
    (H5_checksum_metadata test_externals)
    (H5PB_vfd_swmr__set_tick test_externals)
    (H5FD_vfd_swmr_get_tick test_externals)
    (fun _ w => (None, w))
    (H5PB_remove_entry test_externals)
    (H5C_evict_or_refresh_all_entries_in_page test_externals).


(* ================================================================== *)
(** * Properties                                                       *)
(* ================================================================== *)

(** ** Facts on lists and machine integers *)

Lemma u64_small (z : Z) : 0 <= z < 2 ^ 64 -> u64 z = z.
Proof. intros H. unfold u64. apply Z.mod_small. exact H. Qed.

Lemma u64_range (z : Z) : 0 <= u64 z < 2 ^ 64.
Proof. unfold u64. apply Z.mod_pos_bound. lia. Qed.

Lemma u64_le (z : Z) : 0 <= z -> u64 z <= z.
Proof. intros H. unfold u64. apply Z.mod_le; lia. Qed.

Lemma nth_error_skipn_Forall {A} (P : A -> Prop) (l : list A) (k : nat) :
  (forall i x, (k <= i)%nat -> nth_error l i = Some x -> P x) ->
  Forall P (skipn k l).
Proof.
  intros H. apply Forall_forall. intros x Hin.
  apply In_nth_error in Hin. destruct Hin as [i Hi].
  rewrite nth_error_skipn in Hi. apply (H (k + i)%nat); [lia | exact Hi].
Qed.

Lemma firstn_S_snoc {A} (l : list A) (k : nat) (x : A) :
  nth_error l k = Some x -> firstn (S k) l = firstn k l ++ [x].
Proof.
  revert k. induction l as [|a l IH]; intros [|k] H; simpl in *;
    try discriminate.
  - injection H as ->. reflexivity.
  - rewrite (IH k H). reflexivity.
Qed.

(** Insertion of [e] inside a sorted list, between an element below it and
    elements above it. *)
Lemma Sorted_insert_between {A} (R : A -> A -> Prop) (l1 l2 : list A) (e : A) :
  Sorted R (l1 ++ l2) ->
  (l1 = [] \/ exists l1' p, l1 = l1' ++ [p] /\ R p e) ->
  HdRel R e l2 ->
  Sorted R (l1 ++ e :: l2).
Proof.
  induction l1 as [|a l1 IH]; intros Hs Hp Hh; simpl in *.
  - constructor; assumption.
  - inversion Hs as [|? ? Hs' Hhd]; subst.
    destruct Hp as [Hnil | (l1' & p & Heq & Hr)]; [discriminate|].
    destruct l1 as [|b l1].
    + destruct l1' as [|c l1']; simpl in Heq.
      * injection Heq as Ha. subst p. simpl in *.
        constructor; [constructor; assumption | constructor; exact Hr].
      * destruct l1'; discriminate.
    + destruct l1' as [|c l1']; simpl in Heq; [discriminate|].
      injection Heq as Ha Heq.
      constructor.
      * apply IH; [exact Hs' | | exact Hh].
        right. exists l1', p. split; [exact Heq | exact Hr].
      * simpl in *. inversion Hhd; subst. constructor. assumption.
Qed.

(** ** The EOT queue (C9) *)


Lemma timespeccmp_le_total (a b : timespec) :
  timespeccmp_le a b = false -> timespeccmp_le b a = true.
Proof.
  unfold timespeccmp_le.
  destruct (Z.eqb_spec (tv_sec a) (tv_sec b)) as [E | E].
  - rewrite E, Z.eqb_refl. intros H. apply Z.leb_gt in H. apply Z.leb_le. lia.
  - destruct (Z.eqb_spec (tv_sec b) (tv_sec a)) as [E' | E']; [congruence|].
    intros H. apply Z.leb_gt in H. apply Z.leb_le. lia.
Qed.

Lemma eot_find_prec_Some (q : list eot_queue_entry_t) (t : timespec) (k j : nat) :
  eot_find_prec q t k = Some j ->
  (j < k)%nat /\
  (exists prec, nth_error q j = Some prec /\
                timespeccmp_le (eot_end_of_tick prec) t = true) /\
  (forall i p, (j < i < k)%nat -> nth_error q i = Some p ->
               timespeccmp_le (eot_end_of_tick p) t = false).
Proof.
  induction k as [|k IH]; simpl; [discriminate|].
  destruct (nth_error q k) as [prec|] eqn:Hn.
  - destruct (timespeccmp_le (eot_end_of_tick prec) t) eqn:Hle.
    + intros H. injection H as <-. split; [lia|]. split.
      * exists prec. split; assumption.
      * intros i p Hi. lia.
    + intros H. destruct (IH H) as (Hlt & Hp & Hall).
      split; [lia|]. split; [exact Hp|].
      intros i p Hi Hp'. destruct (Nat.eq_dec i k) as [-> | Hne].
      * rewrite Hn in Hp'. injection Hp' as <-. exact Hle.
      * apply (Hall i p); [lia | exact Hp'].
  - intros H. destruct (IH H) as (Hlt & Hp & Hall).
    split; [lia|]. split; [exact Hp|].
    intros i p Hi Hp'. destruct (Nat.eq_dec i k) as [-> | Hne].
    + rewrite Hn in Hp'. discriminate.
    + apply (Hall i p); [lia | exact Hp'].
Qed.

Lemma eot_find_prec_None (q : list eot_queue_entry_t) (t : timespec) (k : nat) :
  eot_find_prec q t k = None ->
  forall i p, (i < k)%nat -> nth_error q i = Some p ->
              timespeccmp_le (eot_end_of_tick p) t = false.
Proof.
  induction k as [|k IH]; simpl; intros H i p Hi Hp; [lia|].
  destruct (nth_error q k) as [prec|] eqn:Hn.
  - destruct (timespeccmp_le (eot_end_of_tick prec) t) eqn:Hle; [discriminate|].
    destruct (Nat.eq_dec i k) as [-> | Hne].
    + rewrite Hn in Hp. injection Hp as <-. exact Hle.
    + apply (IH H i p); [lia | exact Hp].
  - destruct (Nat.eq_dec i k) as [-> | Hne]; [congruence|].
    apply (IH H i p); [lia | exact Hp].
Qed.


Lemma timespeccmp_le_not (a b : eot_queue_entry_t) :
  ~ eot_le a b -> eot_le b a.
Proof.
  unfold eot_le. intros H. apply timespeccmp_le_total.
  destruct (timespeccmp_le (eot_end_of_tick a) (eot_end_of_tick b));
    [contradiction H; reflexivity | reflexivity].
Qed.

Lemma eot_queue_insert_split (q : list eot_queue_entry_t) (e : eot_queue_entry_t) :
  eot_inserted_after_rightmost_le q e (eot_queue_insert q e).
Proof.
  unfold eot_queue_insert, eot_inserted_after_rightmost_le.
  destruct (eot_find_prec q (eot_end_of_tick e) (List.length q)) as [k|] eqn:Hf.
  - apply eot_find_prec_Some in Hf.
    destruct Hf as (Hlt & (prec & Hn & Hle) & Hall).
    exists (firstn (S k) q), (skipn (S k) q).
    split; [symmetry; apply firstn_skipn|].
    split; [reflexivity|]. split.
    + right. exists (firstn k q), prec.
      split; [apply firstn_S_snoc; exact Hn | exact Hle].
    + apply nth_error_skipn_Forall. intros i x Hi Hx. unfold eot_le.
      rewrite (Hall i x); [discriminate | | exact Hx]. split; [lia|].
      apply nth_error_Some. congruence.
  - exists [], q. split; [reflexivity|]. split; [reflexivity|].
    split; [left; reflexivity|].
    replace q with (skipn 0 q) at 1 by reflexivity.
    apply nth_error_skipn_Forall. intros i x _ Hx. unfold eot_le.
    rewrite (eot_find_prec_None _ _ _ Hf i x); [discriminate | | exact Hx].
    apply nth_error_Some. congruence.
Qed.

Lemma eot_inserted_sorted (q q' : list eot_queue_entry_t)
    (e : eot_queue_entry_t) :
  eot_inserted_after_rightmost_le q e q' ->
  Sorted eot_le q -> Sorted eot_le q'.
Proof.
  intros (l1 & l2 & -> & -> & Hprec & Hafter) Hs.
  apply Sorted_insert_between; [exact Hs | exact Hprec |].
  destruct l2 as [|p l2]; constructor.
  inversion Hafter; subst. apply timespeccmp_le_not. assumption.
Qed.

Lemma insert_entry_eot_run {X : Externals} (f : Z) (m m' : machine X) :
  H5F_vfd_swmr_insert_entry_eot f m = (SUCCEED tt, m') ->
  f <> 0 /\
  eot_queue_g m' = eot_queue_insert (eot_queue_g m) (eot_entry_of m f) /\
  m_files m' = m_files m /\ m_trace m' = m_trace m.
Proof.
  unfold H5F_vfd_swmr_insert_entry_eot, eot_queue_insert, eot_entry_of, bind,
    call, shared_of, get_machine, modify, eot_set_globals, fail, ret.
  destruct (H5FL_CALLOC X (m_world m)) as [[|] w]; simpl; [|discriminate].
  destruct (Z.eqb_spec f 0) as [E | E]; [discriminate|].
  intros H. injection H as <-. split; [exact E|].
  destruct (eot_find_prec _ _ _); simpl;
    unfold TAILQ_INSERT_AFTER, TAILQ_INSERT_HEAD;
    [destruct (firstn _ _ ++ _) eqn:Hq | ]; simpl; repeat split; reflexivity.
Qed.

(** C9. A successful [H5F_vfd_swmr_insert_entry_eot] keeps the entries of
    the queue in their order and puts the new entry right after the
    rightmost entry whose [end_of_tick] is at most its own (at the head when
    there is none), so behind the entries of equal deadline; and a queue
    sorted by [end_of_tick] ascending is still sorted afterwards. *)
Theorem insert_entry_eot_sorted_stable {X : Externals} (f : Z)
    (m m' : machine X) :
  H5F_vfd_swmr_insert_entry_eot f m = (SUCCEED tt, m') ->
  eot_inserted_after_rightmost_le
    (eot_queue_g m) (eot_entry_of m f) (eot_queue_g m') /\
  (Sorted eot_le (eot_queue_g m) -> Sorted eot_le (eot_queue_g m')).
Proof.
  intros Hrun.
  destruct (insert_entry_eot_run f m m' Hrun) as (_ & Hq & _).
  rewrite Hq. split; [apply eot_queue_insert_split|].
  apply eot_inserted_sorted with (e := eot_entry_of m f).
  apply eot_queue_insert_split.
Qed.

(** The writer of deadline 50 enters a queue of deadlines 40, 50, 60 behind
    the entry of deadline 50. *)
Lemma insert_entry_eot_sorted_stable_witness :
  let m := test_machine test_queue test_writer in
  let m' := snd (H5F_vfd_swmr_insert_entry_eot 1 m) in
  H5F_vfd_swmr_insert_entry_eot 1 m = (SUCCEED tt, m') /\
  eot_inserted_after_rightmost_le
    (eot_queue_g m) (eot_entry_of m 1) (eot_queue_g m') /\
  (Sorted eot_le (eot_queue_g m) -> Sorted eot_le (eot_queue_g m')).
Proof.
  intros m m'.
  assert (Hrun : H5F_vfd_swmr_insert_entry_eot 1 m = (SUCCEED tt, m'))
    by reflexivity.
  split; [exact Hrun|].
  exact (insert_entry_eot_sorted_stable 1 m m' Hrun).
Defined.

(** ** The delay predicate (C3, C10) *)

Lemma idx_lt_trans : Relations_1.Transitive idx_lt.
Proof. intros a b c. unfold idx_lt. lia. Qed.

Lemma StronglySorted_nth_error {A} (R : A -> A -> Prop) (l : list A) :
  StronglySorted R l ->
  forall i j a b, (i < j)%nat ->
    nth_error l i = Some a -> nth_error l j = Some b -> R a b.
Proof.
  induction 1 as [|x l Hs IH Hall]; intros i j a b Hij Ha Hb.
  - destruct i; discriminate.
  - destruct j as [|j]; [lia|]. simpl in Hb.
    destruct i as [|i]; simpl in Ha.
    + injection Ha as <-. rewrite Forall_forall in Hall.
      apply Hall. eapply nth_error_In. exact Hb.
    + apply (IH i j); [lia | assumption | assumption].
Qed.

(** Entries of a sorted index prefix, by position. *)
Lemma idx_sorted_nth (idx : list H5FD_vfd_swmr_idx_entry_t) (n : nat) :
  Sorted idx_lt (firstn n idx) ->
  forall i j a b, (i < j < n)%nat ->
    nth_error idx i = Some a -> nth_error idx j = Some b ->
    hdf5_page_offset a < hdf5_page_offset b.
Proof.
  intros Hs i j a b Hij Ha Hb.
  apply (Sorted_StronglySorted idx_lt_trans) in Hs.
  apply (StronglySorted_nth_error _ _ Hs i j a b); [lia | |];
    rewrite nth_error_firstn.
  - destruct (Nat.ltb_spec i n); [exact Ha | lia].
  - destruct (Nat.ltb_spec j n); [exact Hb | lia].
Qed.

Lemma probe_bounds (bottom top : nat) :
  (bottom < top)%nat ->
  (bottom <= (top + bottom) / 2 < top)%nat.
Proof.
  intros H.
  pose proof (Nat.div_mod_eq (top + bottom) 2) as E.
  pose proof (Nat.mod_upper_bound (top + bottom) 2) as B.
  lia.
Qed.

Lemma idx_bsearch_correct (idx : list H5FD_vfd_swmr_idx_entry_t) (n : nat)
    (page : Z) :
  Sorted idx_lt (firstn n idx) -> (n <= List.length idx)%nat ->
  forall fuel bottom top,
    (top <= n)%nat -> (top - bottom < fuel)%nat ->
    match idx_bsearch fuel idx bottom top page with
    | Some k =>
        (bottom <= k < top)%nat /\
        exists e, nth_error idx k = Some e /\ hdf5_page_offset e = page
    | None =>
        forall k e, (bottom <= k < top)%nat -> nth_error idx k = Some e ->
                    hdf5_page_offset e <> page
    end.
Proof.
  intros Hs Hlen. pose proof (idx_sorted_nth idx n Hs) as Hord.
  induction fuel as [|fuel IH]; intros bottom top Htop Hfuel; [lia|].
  cbn [idx_bsearch]. destruct (Nat.ltb_spec bottom top) as [Hlt | Hge].
  2:{ intros k e Hk. lia. }
  pose proof (probe_bounds bottom top Hlt) as Hp.
  set (probe := ((top + bottom) / 2)%nat) in *.
  destruct (nth_error idx probe) as [e|] eqn:He.
  2:{ apply nth_error_None in He. lia. }
  destruct (Z.ltb_spec (hdf5_page_offset e) page) as [Hl | Hl].
  - specialize (IH (S probe) top Htop ltac:(lia)).
    destruct (idx_bsearch fuel idx (S probe) top page) as [k|].
    + destruct IH as (Hk & Hex). split; [lia | exact Hex].
    + intros k e' Hk He'.
      destruct (Nat.le_gt_cases k probe) as [Hkp | Hkp].
      * destruct (Nat.eq_dec k probe) as [-> | Hne].
        -- rewrite He in He'. injection He' as <-. lia.
        -- pose proof (Hord k probe e' e ltac:(lia) He' He). lia.
      * apply (IH k e'); [lia | exact He'].
  - destruct (Z.ltb_spec page (hdf5_page_offset e)) as [Hg | Hg].
    + specialize (IH bottom probe ltac:(lia) ltac:(lia)).
      destruct (idx_bsearch fuel idx bottom probe page) as [k|].
      * destruct IH as (Hk & Hex). split; [lia | exact Hex].
      * intros k e' Hk He'.
        destruct (Nat.lt_ge_cases k probe) as [Hkp | Hkp].
        -- apply (IH k e'); [lia | exact He'].
        -- destruct (Nat.eq_dec k probe) as [-> | Hne].
           ++ rewrite He in He'. injection He' as <-. lia.
           ++ pose proof (Hord probe k e e' ltac:(lia) He He'). lia.
    + split; [lia|]. exists e. split; [exact He | lia].
Qed.

Lemma idx_bsearch_S (fuel : nat) (idx : list H5FD_vfd_swmr_idx_entry_t)
    (bottom top : nat) (page : Z) :
  idx_bsearch (S fuel) idx bottom top page =
    if (bottom <? top)%nat then
      match nth_error idx ((top + bottom) / 2) with
      | None => None
      | Some e =>
          if hdf5_page_offset e <? page then
            idx_bsearch fuel idx (S ((top + bottom) / 2)) top page
          else if page <? hdf5_page_offset e then
            idx_bsearch fuel idx bottom ((top + bottom) / 2) page
          else Some ((top + bottom) / 2)%nat
      end
    else None.
Proof. reflexivity. Qed.

(** The fuel of the binary search is enough on every input: more fuel than
    the length of the interval does not change the result. *)
Lemma idx_bsearch_fuel (idx : list H5FD_vfd_swmr_idx_entry_t) (page : Z) :
  forall fuel bottom top,
    (top - bottom < fuel)%nat ->
    idx_bsearch (S fuel) idx bottom top page =
    idx_bsearch fuel idx bottom top page.
Proof.
  induction fuel as [|fuel IH]; intros bottom top Hfuel; [lia|].
  rewrite (idx_bsearch_S (S fuel) idx bottom top page).
  rewrite (idx_bsearch_S fuel idx bottom top page).
  destruct (Nat.ltb_spec bottom top) as [Hlt | Hge]; [|reflexivity].
  pose proof (probe_bounds bottom top Hlt) as Hp.
  set (probe := ((top + bottom) / 2)%nat) in *.
  destruct (nth_error idx probe) as [e|]; [|reflexivity].
  destruct (hdf5_page_offset e <? page); [apply IH; lia|].
  destruct (page <? hdf5_page_offset e); [apply IH; lia | reflexivity].
Qed.

Lemma find_key_sorted (l : list H5FD_vfd_swmr_idx_entry_t) (page : Z)
    (e : H5FD_vfd_swmr_idx_entry_t) :
  Sorted idx_lt l -> In e l -> hdf5_page_offset e = page ->
  find (fun e => hdf5_page_offset e =? page) l = Some e.
Proof.
  intros Hs. apply (Sorted_StronglySorted idx_lt_trans) in Hs.
  induction Hs as [|x l Hs IH Hall]; intros Hin Hk; [contradiction|].
  simpl. destruct (Z.eqb_spec (hdf5_page_offset x) page) as [E | E].
  - destruct Hin as [-> | Hin]; [reflexivity|].
    rewrite Forall_forall in Hall. specialize (Hall e Hin).
    unfold idx_lt in Hall. lia.
  - destruct Hin as [-> | Hin]; [contradiction|]. apply IH; assumption.
Qed.

(** On a sorted index the binary search finds the entry of the page, if
    there is one. *)
Lemma pageno_to_mdf_idx_entry_sorted (idx : list H5FD_vfd_swmr_idx_entry_t)
    (nentries page : Z) (reuse_garbage : bool) :
  Sorted idx_lt (firstn (Z.to_nat nentries) idx) ->
  (Z.to_nat nentries <= List.length idx)%nat ->
  vfd_swmr_pageno_to_mdf_idx_entry idx nentries page reuse_garbage =
  idx_entry_of idx nentries page.
Proof.
  intros Hs Hlen. unfold vfd_swmr_pageno_to_mdf_idx_entry, idx_entry_of.
  set (n := Z.to_nat nentries) in *.
  pose proof (idx_bsearch_correct idx n page Hs Hlen (S n) 0%nat n
                ltac:(lia) ltac:(lia)) as H.
  destruct (idx_bsearch (S n) idx 0 n page) as [k|].
  - destruct H as (Hk & e & He & Hp). rewrite He. symmetry.
    apply find_key_sorted; [exact Hs | | exact Hp].
    apply (nth_error_In _ k). rewrite nth_error_firstn.
    destruct (Nat.ltb_spec k n); [exact He | lia].
  - destruct (find _ (firstn n idx)) as [e|] eqn:Hf; [|reflexivity].
    apply find_some in Hf. destruct Hf as (Hin & Hp).
    apply In_nth_error in Hin. destruct Hin as (k & Hk).
    rewrite nth_error_firstn in Hk.
    destruct (Nat.ltb_spec k n) as [Hlt|]; [|discriminate].
    apply Z.eqb_eq in Hp. exfalso. apply (H k e); [lia | exact Hk | exact Hp].
Qed.

(** When its asserts hold and the index is sorted, the delay predicate
    computes [may_publish] and fails exactly on a value that is not 0 and
    lies outside the interval the code tests. *)
Lemma delay_write_value (shared : H5F_shared_t) (page : Z) :
  vfd_swmr shared = true -> vfd_swmr_writer shared = true ->
  (mdf_idx shared = None -> tick_num shared <= 1) ->
  (forall idx, mdf_idx shared = Some idx ->
     Sorted idx_lt (firstn (Z.to_nat (mdf_idx_entries_used shared)) idx) /\
     (Z.to_nat (mdf_idx_entries_used shared) <= List.length idx)%nat) ->
  let t := tick_num shared in
  let lag := max_lag (vfd_swmr_config shared) in
  let v := may_publish shared page in
  H5F_vfd_swmr_writer__delay_write shared page =
    if negb (v =? 0) && ((v <? t) || (u64 (t + lag) <? v)) then FAIL
    else SUCCEED v.
Proof.
  intros Hv Hw Hnull Hidx t lag v.
  unfold H5F_vfd_swmr_writer__delay_write. rewrite Hv, Hw. simpl.
  assert (Hlook :
    match mdf_idx shared with
    | Some idx => vfd_swmr_pageno_to_mdf_idx_entry idx
                    (mdf_idx_entries_used shared) page false
    | None => None
    end =
    match mdf_idx shared with
    | None => None
    | Some idx => idx_entry_of idx (mdf_idx_entries_used shared) page
    end).
  { destruct (mdf_idx shared) as [idx|] eqn:E; [|reflexivity].
    destruct (Hidx idx eq_refl) as (Hs & Hl).
    apply pageno_to_mdf_idx_entry_sorted; assumption. }
  rewrite Hlook.
  assert (Hassert :
    (match mdf_idx shared with Some _ => true | None => false end
     || (tick_num shared <=? 1)) = true).
  { destruct (mdf_idx shared); [reflexivity|]. simpl.
    apply Z.leb_le. apply Hnull. reflexivity. }
  rewrite Hassert. simpl.
  subst v. unfold may_publish. fold t. fold lag.
  destruct (match mdf_idx shared with
            | None => None
            | Some idx => idx_entry_of idx (mdf_idx_entries_used shared) page
            end) as [ie|]; [|reflexivity].
  rewrite Z.geb_leb. reflexivity.
Qed.

(** C3. Under the asserted preconditions of
    [H5F_vfd_swmr_writer__delay_write], a successful call stores
    [tick_num + max_lag] (64-bit sum) for a page without index entry, the
    entry's [delayed_flush] when that is at least the current tick, and 0
    otherwise; a stored value other than 0 lies in
    [[tick_num, tick_num + max_lag]]; and the call fails whenever the value
    computed is not 0 and lies outside that interval. *)
Theorem delay_write_until_in_range (shared : H5F_shared_t) (page : Z) :
  delay_write_pre shared -> delay_write_outcome shared page.
Proof.
  intros (Hv & Hw & Hnull & Ht & Hlag & Hidx).
  unfold delay_write_outcome.
  rewrite (delay_write_value shared page Hv Hw Hnull Hidx).
  set (t := tick_num shared). set (lag := max_lag (vfd_swmr_config shared)).
  set (v := may_publish shared page).
  unfold is_u64, is_u32, UINT64_MAX, UINT32_MAX in *. fold t in Ht. fold lag in Hlag.
  pose proof (u64_le (t + lag) ltac:(lia)) as Hwrap.
  pose proof (u64_range (t + lag)) as Hrange.
  repeat split.
  - destruct (Z.eqb_spec v 0); destruct (Z.ltb_spec v t);
      destruct (Z.ltb_spec (u64 (t + lag)) v); simpl in H; congruence.
  - destruct (Z.eqb_spec v 0); destruct (Z.ltb_spec v t);
      destruct (Z.ltb_spec (u64 (t + lag)) v); simpl in H; try discriminate;
      injection H as <-; lia.
  - intros Hnz Hout.
    destruct (Z.eqb_spec v 0); destruct (Z.ltb_spec v t);
      destruct (Z.ltb_spec (u64 (t + lag)) v); simpl; try reflexivity; lia.
  - intros Hno Hin. rewrite (u64_small (t + lag)) by lia.
    destruct (Z.eqb_spec v 0); destruct (Z.ltb_spec v t);
      destruct (Z.ltb_spec (t + lag) v); simpl; try reflexivity; lia.
Qed.

Lemma test_writer_pre : delay_write_pre test_writer.
Proof.
  unfold delay_write_pre, is_u64, is_u32, UINT64_MAX, UINT32_MAX. simpl.
  repeat split; try reflexivity; try discriminate; try lia.
  - injection H as <-. repeat constructor; unfold idx_lt; simpl; lia.
  - injection H as <-. simpl. lia.
Qed.

(** Page 3 has an entry with [delayed_flush = 6] in tick 4. *)
Lemma delay_write_until_in_range_witness :
  delay_write_pre test_writer /\ delay_write_outcome test_writer 3.
Proof.
  split; [exact test_writer_pre|].
  exact (delay_write_until_in_range test_writer 3 test_writer_pre).
Defined.

(** C10. Without an in-memory index ([mdf_idx] is NULL) the delay predicate
    succeeds for every page with [until = tick_num + max_lag], as long as
    [tick_num <= 1]; with a later tick the assertion of the function
    fails. *)
Theorem delay_write_without_index (shared : H5F_shared_t) (page : Z) :
  vfd_swmr shared = true -> vfd_swmr_writer shared = true ->
  is_u64 (tick_num shared) -> is_u32 (max_lag (vfd_swmr_config shared)) ->
  mdf_idx shared = None ->
  (tick_num shared <= 1 ->
   H5F_vfd_swmr_writer__delay_write shared page =
     SUCCEED (tick_num shared + max_lag (vfd_swmr_config shared))) /\
  (1 < tick_num shared ->
   H5F_vfd_swmr_writer__delay_write shared page = ABORT).
Proof.
  intros Hv Hw Ht Hlag Hnull.
  unfold H5F_vfd_swmr_writer__delay_write. rewrite Hv, Hw, Hnull. simpl.
  unfold is_u64, is_u32, UINT64_MAX, UINT32_MAX in *.
  set (t := tick_num shared) in *.
  set (lag := max_lag (vfd_swmr_config shared)) in *.
  split; intros Htick.
  - destruct (Z.leb_spec t 1); [|lia]. simpl.
    rewrite (u64_small (t + lag)) by lia.
    destruct (Z.eqb_spec (t + lag) 0); destruct (Z.ltb_spec (t + lag) t);
      destruct (Z.ltb_spec (t + lag) (t + lag)); simpl; try reflexivity; lia.
  - destruct (Z.leb_spec t 1); [lia|]. reflexivity.
Qed.

Lemma delay_write_without_index_witness :
  H5F_vfd_swmr_writer__delay_write test_writer_tick1 7 = SUCCEED (1 + 3).
Proof.
  apply (delay_write_without_index test_writer_tick1 7);
    unfold is_u64, is_u32, UINT64_MAX, UINT32_MAX; simpl;
    try reflexivity; lia.
Defined.

(** ** Runs of the shadow-file writes *)

Lemma upd_files_same (f : Z) (s : H5F_shared_t) (h : Z -> H5F_shared_t) :
  upd_files f s h f = s.
Proof. unfold upd_files. rewrite Z.eqb_refl. reflexivity. Qed.

Ltac unfold_monad :=
  unfold md_lseek, md_write, store_shared, eot_set_globals in *;
  unfold bind, call, ret, fail, abort, HDassert, shared_of, modify,
    get_machine in *.

(** Reduction of the accessors of the machine and of the file structure. *)
Ltac msimpl_in H :=
  cbn [m_world m_files m_pos eot_queue_g vfd_swmr_writer_g end_of_tick_g
       m_trace set_world set_files set_pos set_eot_queue_g
       set_vfd_swmr_writer_g set_end_of_tick_g log fst snd negb
       vfd_swmr vfd_swmr_writer vfd_swmr_config tick_num end_of_tick
       fs_page_size vfd_swmr_md_fd writer_index_offset mdf_idx mdf_idx_len
       mdf_idx_entries_used old_mdf_idx old_mdf_idx_len
       old_mdf_idx_entries_used shadow_defrees pb_ptr lf
       set_tick_num set_end_of_tick set_vfd_swmr_md_fd
       set_writer_index_offset set_mdf_idx set_mdf_idx_len
       set_mdf_idx_entries_used set_old_mdf_idx set_old_mdf_idx_len
       set_old_mdf_idx_entries_used set_shadow_defrees] in H.

Ltac msimpl :=
  cbn [m_world m_files m_pos eot_queue_g vfd_swmr_writer_g end_of_tick_g
       m_trace set_world set_files set_pos set_eot_queue_g
       set_vfd_swmr_writer_g set_end_of_tick_g log fst snd negb
       vfd_swmr vfd_swmr_writer vfd_swmr_config tick_num end_of_tick
       fs_page_size vfd_swmr_md_fd writer_index_offset mdf_idx mdf_idx_len
       mdf_idx_entries_used old_mdf_idx old_mdf_idx_len
       old_mdf_idx_entries_used shadow_defrees pb_ptr lf
       set_tick_num set_end_of_tick set_vfd_swmr_md_fd
       set_writer_index_offset set_mdf_idx set_mdf_idx_len
       set_mdf_idx_entries_used set_old_mdf_idx set_old_mdf_idx_len
       set_old_mdf_idx_entries_used set_shadow_defrees].

(** Case analysis on the first test that blocks the run in [H]. *)
Ltac inner_scrutinee c :=
  lazymatch c with
  | context [match ?c' with _ => _ end] => inner_scrutinee c'
  | negb ?b => constr:(b)
  | _ => constr:(c)
  end.

Ltac break_run H :=
  repeat (msimpl_in H; rewrite ?upd_files_same in H;
    match type of H with
    | context [match ?c with _ => _ end] =>
        let c' := inner_scrutinee c in
        let E := fresh "E" in destruct c' eqn:E; try discriminate H
    end).

Lemma bind_SUCCEED {X A B} (c : M X A) (k : A -> M X B) (m m' : machine X)
    (b : B) :
  bind c k m = (SUCCEED b, m') ->
  exists a m1, c m = (SUCCEED a, m1) /\ k a m1 = (SUCCEED b, m').
Proof.
  unfold bind. destruct (c m) as [[a | |] m1]; try discriminate.
  intros H. exists a, m1. split; [reflexivity | exact H].
Qed.

Lemma bind_outcome {X A B} (c : M X A) (k : A -> M X B) (m m' : machine X)
    (r : result B) :
  bind c k m = (r, m') ->
  (exists a m1, c m = (SUCCEED a, m1) /\ k a m1 = (r, m')) \/
  (c m = (FAIL, m') /\ r = FAIL) \/ (c m = (ABORT, m') /\ r = ABORT).
Proof.
  unfold bind. destruct (c m) as [[a | |] m1]; intros H.
  - left. exists a, m1. split; [reflexivity | exact H].
  - right. left. injection H as <- <-. split; reflexivity.
  - right. right. injection H as <- <-. split; reflexivity.
Qed.


(** [H5F__vfd_swmr_construct_write_md_idx]: the file structures are left
    alone, and the trace gains at most the write of the index image, at
    [writer_index_offset]; it gains it when the call succeeds. *)
Lemma construct_write_md_idx_run {X : Externals} (f num_entries : Z)
    (index : option (list H5FD_vfd_swmr_idx_entry_t)) (m m1 : machine X)
    (r : result unit) :
  H5F__vfd_swmr_construct_write_md_idx f num_entries index m = (r, m1) ->
  let s := m_files m f in
  let w :=
    EvWrite WIndex (vfd_swmr_md_fd s) (to_int64 (writer_index_offset s))
      (md_idx_image X s num_entries
         (firstn (Z.to_nat num_entries)
            match index with Some a => a | None => [] end))
      (H5FD_MD_INDEX_SIZE num_entries) in
  m_files m1 = m_files m /\
  eot_queue_g m1 = eot_queue_g m /\
  (m_trace m1 = m_trace m \/ m_trace m1 = m_trace m ++ [w]) /\
  (r = SUCCEED tt -> m_trace m1 = m_trace m ++ [w]).
Proof.
  unfold H5F__vfd_swmr_construct_write_md_idx. unfold_monad.
  intros H. break_run H; injection H as <- <-; msimpl;
    repeat split; auto; try discriminate.
Qed.

(** [H5F__vfd_swmr_construct_write_md_hdr]: likewise, with the write of the
    header image at offset [H5FD_MD_HEADER_OFF]. *)
Lemma construct_write_md_hdr_run {X : Externals} (f num_entries : Z)
    (m m1 : machine X) (r : result unit) :
  H5F__vfd_swmr_construct_write_md_hdr f num_entries m = (r, m1) ->
  let s := m_files m f in
  let w :=
    EvWrite WHeader (vfd_swmr_md_fd s) H5FD_MD_HEADER_OFF
      (md_hdr_image X s num_entries) H5FD_MD_HEADER_SIZE in
  m_files m1 = m_files m /\
  eot_queue_g m1 = eot_queue_g m /\
  (m_trace m1 = m_trace m \/ m_trace m1 = m_trace m ++ [w]) /\
  (r = SUCCEED tt -> m_trace m1 = m_trace m ++ [w]).
Proof.
  unfold H5F__vfd_swmr_construct_write_md_hdr. unfold_monad.
  intros H. break_run H; injection H as <- <-; msimpl;
    repeat split; auto; try discriminate.
Qed.

(** ** Steps of successful runs *)

Lemma shared_of_SUCCEED {X : Externals} (f : Z) (m m1 : machine X)
    (s : H5F_shared_t) :
  shared_of f m = (SUCCEED s, m1) -> f <> 0 /\ s = m_files m f /\ m1 = m.
Proof.
  unfold shared_of. destruct (Z.eqb_spec f 0); [discriminate|].
  intros H. injection H as <- <-. auto.
Qed.

Lemma HDassert_SUCCEED {X : Externals} (b : bool) (m m1 : machine X) (u : unit) :
  HDassert b m = (SUCCEED u, m1) -> b = true /\ m1 = m.
Proof.
  unfold HDassert. destruct b; [|discriminate].
  intros H. injection H as _ <-. auto.
Qed.

Lemma store_shared_SUCCEED {X : Externals} (f : Z) (s : H5F_shared_t)
    (m m1 : machine X) (u : unit) :
  store_shared f s m = (SUCCEED u, m1) ->
  m1 = set_files (upd_files f s (m_files m)) m.
Proof. intros H. injection H as _ <-. reflexivity. Qed.

Lemma modify_SUCCEED {X : Externals} (g : machine X -> machine X)
    (m m1 : machine X) (u : unit) :
  modify g m = (SUCCEED u, m1) -> m1 = g m.
Proof. intros H. injection H as _ <-. reflexivity. Qed.

Lemma call_SUCCEED {X : Externals} {A} (c : World X -> A * World X)
    (m m1 : machine X) (a : A) :
  call c m = (SUCCEED a, m1) ->
  exists w, c (m_world m) = (a, w) /\ m1 = set_world w m.
Proof.
  unfold call. destruct (c (m_world m)) as [a' w].
  intros H. injection H as <- <-. exists w. auto.
Qed.

Lemma ret_SUCCEED {X : Externals} {A} (a b : A) (m m1 : machine X) :
  ret a m = (SUCCEED b, m1) -> b = a /\ m1 = m.
Proof. intros H. injection H as <- <-. auto. Qed.

(** One step of a successful run [H : (x <- c ;; k) m = (SUCCEED _, _)];
    [a] names the value of the step. *)
Ltac run_step_as H a :=
  let m0 := fresh "m" in
  let Hc := fresh "Hc" in
  apply bind_SUCCEED in H; destruct H as (a & m0 & Hc & H);
  first
    [ apply shared_of_SUCCEED in Hc;
      let Hf := fresh "Hf" in destruct Hc as (Hf & -> & ->)
    | apply HDassert_SUCCEED in Hc;
      let Hb := fresh "Hb" in destruct Hc as (Hb & ->)
    | apply store_shared_SUCCEED in Hc; subst m0
    | apply modify_SUCCEED in Hc; subst m0
    | apply ret_SUCCEED in Hc; destruct Hc as (-> & ->)
    | apply call_SUCCEED in Hc;
      let w := fresh "w" in
      let Hw := fresh "Hw" in destruct Hc as (w & Hw & ->)
    | idtac ];
  msimpl_in H; rewrite ?upd_files_same in H; msimpl_in H.

Ltac run_step H := let a := fresh "a" in run_step_as H a.

(** A step whose boolean result must be [true] for the run to go on. *)
Ltac run_step_true H :=
  let b := fresh "b" in
  run_step_as H b; destruct b; cbn [negb] in H; [|discriminate H].

(** ** Writer close (C8) *)

Lemma shadow_defrees_drain_all (q : list shadow_defree_t) :
  shadow_defrees_drain (List.length q) q = [].
Proof.
  induction q as [|curr q IH]; [reflexivity|].
  simpl. unfold TAILQ_REMOVE. simpl. exact IH.
Qed.



(** ** Enlargement of the index (C1) *)

(** What a successful [vfd_swmr_enlarge_shadow_index] does: the length
    doubles or saturates, the old slots are all copied, the index offset is
    the newly allocated one, and the record pushed on the deferred-free
    queue holds the value of [writer_index_offset] at the time of the push,
    the new offset, with the encoded size of the old index. *)
Lemma enlarge_shadow_index_run {X : Externals} (f : Z) (m m' : machine X)
    (new_mdf_idx : list H5FD_vfd_swmr_idx_entry_t) :
  vfd_swmr_enlarge_shadow_index f m = (SUCCEED new_mdf_idx, m') ->
  let s := m_files m f in
  let s' := m_files m' f in
  let old_len := mdf_idx_len s in
  let old_entries := match mdf_idx s with Some a => a | None => [] end in
  mdf_idx_len s' =
    (if UINT32_MAX - old_len >=? old_len then old_len * 2 else UINT32_MAX) /\
  mdf_idx s' = Some new_mdf_idx /\
  firstn (Z.to_nat old_len) new_mdf_idx =
    firstn (Z.to_nat old_len) old_entries /\
  (exists idx_addr w,
     H5MV_alloc X f (H5FD_MD_INDEX_SIZE (mdf_idx_len s')) (m_world m)
       = (Some idx_addr, w) /\
     writer_index_offset s' = idx_addr /\
     shadow_defrees s' =
       mk_shadow_defree (u64 idx_addr) (u32 (H5FD_MD_INDEX_SIZE old_len))
                        (tick_num s)
       :: shadow_defrees s).
Proof.
  unfold vfd_swmr_enlarge_shadow_index, shadow_range_defer_free.
  unfold_monad. intros H. break_run H.
  all: injection H as <- <-; msimpl; rewrite ?upd_files_same; msimpl.
  all: match goal with
       | Hb : (_ && _) = true |- _ =>
           apply andb_prop in Hb; destruct Hb as (Hold & Hnew)
       end;
       apply Nat.leb_le in Hold; apply Nat.leb_le in Hnew.
  all: repeat split;
    [ unfold memcpy_idx; rewrite firstn_app, firstn_firstn, Nat.min_id;
      rewrite length_firstn, Nat.min_l by exact Hold;
      rewrite Nat.sub_diag, firstn_O, app_nil_r; reflexivity
    | match goal with
      | Ha : H5MV_alloc _ _ _ _ = (Some ?a, ?w) |- _ =>
          exists a, w; split; [exact Ha|]; split; reflexivity
      end ].
Qed.

(** C1 (the code differs).  Enlargement of the index of [test_writer]: four
    slots at shadow offset 4096, the new range allocated at 12288.  The
    length doubles to 8, the four old slots are copied and
    [writer_index_offset] becomes 12288, but the range pushed on the
    deferred-free queue starts at the new offset 12288, not at the old
    offset 4096. *)
Theorem enlarge_defers_new_index_offset :
  let m := test_machine [] test_writer in
  match vfd_swmr_enlarge_shadow_index 1 m with
  | (SUCCEED new_mdf_idx, m') =>
      writer_index_offset (m_files m 1) = 4096 /\
      mdf_idx (m_files m 1) = Some (firstn 4 new_mdf_idx) /\
      mdf_idx_len (m_files m' 1) = 8 /\
      writer_index_offset (m_files m' 1) = 12288 /\
      shadow_defrees (m_files m' 1) =
        mk_shadow_defree 12288 (H5FD_MD_INDEX_SIZE 4) 4
        :: shadow_defrees (m_files m 1) /\
      ~ In (mk_shadow_defree 4096 (H5FD_MD_INDEX_SIZE 4) 4)
           (shadow_defrees (m_files m' 1))
  | _ => False
  end.
Proof.
  vm_compute. repeat split; try reflexivity.
  intros [H | [H | []]]; discriminate H.
Qed.

(** ** Invariants of all outcomes *)

Section Preserves.

Context {X : Externals}.
Variable R : machine X -> machine X -> Prop.
Hypothesis R_trans : forall m1 m2 m3, R m1 m2 -> R m2 m3 -> R m1 m3.
(** [R] looks at the file structures and at the trace only. *)
Hypothesis R_same :
  forall m m1, m_files m1 = m_files m -> m_trace m1 = m_trace m -> R m m1.

Lemma preserves_bind {A B} (c : M X A) (k : A -> M X B) :
  preserves R c -> (forall a, preserves R (k a)) -> preserves R (bind c k).
Proof.
  intros Hc Hk m r m1 H. apply bind_outcome in H.
  destruct H as [(a & m0 & Ha & Hb) | [(Ha & _) | (Ha & _)]].
  - apply R_trans with m0; [apply (Hc _ _ _ Ha) | apply (Hk a _ _ _ Hb)].
  - apply (Hc _ _ _ Ha).
  - apply (Hc _ _ _ Ha).
Qed.

Lemma preserves_ret {A} (a : A) : preserves R (ret a).
Proof. intros m r m1 H. injection H as _ <-. apply R_same; reflexivity. Qed.

Lemma preserves_fail {A} : preserves R (@fail X A).
Proof. intros m r m1 H. injection H as _ <-. apply R_same; reflexivity. Qed.

Lemma preserves_abort {A} : preserves R (@abort X A).
Proof. intros m r m1 H. injection H as _ <-. apply R_same; reflexivity. Qed.

Lemma preserves_HDassert (b : bool) : preserves R (HDassert b).
Proof.
  intros m r m1 H. unfold HDassert in H.
  destruct b; injection H as _ <-; apply R_same; reflexivity.
Qed.

Lemma preserves_get_machine : preserves R get_machine.
Proof. intros m r m1 H. injection H as _ <-. apply R_same; reflexivity. Qed.

Lemma preserves_shared_of (f : Z) : preserves R (shared_of f).
Proof.
  intros m r m1 H. unfold shared_of in H.
  destruct (f =? 0); injection H as _ <-; apply R_same; reflexivity.
Qed.

Lemma preserves_call {A} (c : World X -> A * World X) : preserves R (call c).
Proof.
  intros m r m1 H. unfold call in H. destruct (c (m_world m)) as [a w].
  injection H as _ <-. apply R_same; reflexivity.
Qed.

Lemma preserves_modify (g : machine X -> machine X) :
  (forall m, R m (g m)) -> preserves R (modify g).
Proof. intros Hg m r m1 H. injection H as _ <-. apply Hg. Qed.

Lemma preserves_md_lseek (fd offset : Z) : preserves R (md_lseek fd offset).
Proof.
  unfold md_lseek. apply preserves_bind; [apply preserves_call|].
  intros [|]; [|apply preserves_ret].
  apply preserves_bind; [|intros; apply preserves_ret].
  apply preserves_modify. intros m. apply R_same; reflexivity.
Qed.

Lemma preserves_md_write (k : write_kind) (fd : Z) (buf : list Z) (nbyte : Z) :
  (forall m off, R m (log (EvWrite k fd off buf nbyte) m)) ->
  preserves R (md_write k fd buf nbyte).
Proof.
  intros Hlog. unfold md_write.
  apply preserves_bind; [apply preserves_get_machine|]. intros m0.
  apply preserves_bind; [apply preserves_call|]. intros nw.
  apply preserves_bind; [|intros; apply preserves_ret].
  apply preserves_modify. intros m.
  apply R_trans with (log (EvWrite k fd (m_pos m0) buf nbyte) m);
    [apply Hlog | apply R_same; reflexivity].
Qed.

End Preserves.

(** ** Update of the metadata file: the entries with an image *)

Lemma set_shadow_defrees_id (s : H5F_shared_t) :
  set_shadow_defrees (shadow_defrees s) s = s.
Proof. destruct s; reflexivity. Qed.

Lemma images_step_same {X : Externals} (f : Z) (m m1 : machine X) :
  m_files m1 = m_files m -> m_trace m1 = m_trace m -> images_step f m m1.
Proof.
  intros Hf Ht. exists [], []. rewrite Hf, Ht, app_nil_r. simpl.
  rewrite set_shadow_defrees_id. repeat split; constructor.
Qed.

Lemma images_step_trans {X : Externals} (f : Z) (m1 m2 m3 : machine X) :
  images_step f m1 m2 -> images_step f m2 m3 -> images_step f m1 m3.
Proof.
  intros (p1 & e1 & Hf1 & Hp1 & Ht1 & He1) (p2 & e2 & Hf2 & Hp2 & Ht2 & He2).
  exists (p2 ++ p1), (e1 ++ e2).
  rewrite Hf2, Ht2, Hf1, Ht1. msimpl.
  rewrite <- !app_assoc. repeat split.
  - apply Forall_app. split; [|exact Hp1].
    rewrite Hf1 in Hp2. exact Hp2.
  - apply Forall_app. split; assumption.
Qed.

Lemma images_step_log {X : Externals} (f : Z) (m : machine X) (e : event) :
  is_mv_free e = false ->
  (is_shadow_write e = true -> is_image_write e = true) ->
  images_step f m (log e m).
Proof.
  intros H1 H2. exists [], [e]. simpl. rewrite set_shadow_defrees_id.
  repeat split; repeat constructor; assumption.
Qed.

Lemma images_step_defer_free {X : Externals} (f : Z) (offset length : Z) :
  preserves (images_step f) (@shadow_range_defer_free X f offset length).
Proof.
  unfold shadow_range_defer_free.
  pose proof (@images_step_trans X f) as T.
  pose proof (@images_step_same X f) as S.
  apply (preserves_bind _ T); [apply (preserves_call _ S)|].
  intros [|]; [|apply (preserves_ret _ S)]. simpl.
  intros m r m1 H. unfold_monad. break_run H; injection H as _ <-.
  - apply S; reflexivity.
  - exists [mk_shadow_defree (u64 offset) (u32 length) (tick_num (m_files m f))], [].
    msimpl. rewrite upd_files_same, app_nil_r.
    repeat split; repeat constructor.
Qed.

Lemma images_step_write_images {X : Externals} (f : Z) :
  forall todo i index,
    preserves (images_step f) (@update_write_images X f todo i index).
Proof.
  pose proof (@images_step_trans X f) as T.
  pose proof (@images_step_same X f) as S.
  induction todo as [|todo IH]; intros i index; simpl.
  - apply (preserves_ret _ S).
  - destruct (nth_error index i) as [e|]; [|apply (preserves_abort _ S)].
    destruct (entry_ptr e) as [image|]; [|apply IH].
    apply (preserves_bind _ T); [apply (preserves_shared_of _ S)|].
    intros shared.
    apply (preserves_bind _ T).
    { destruct (md_file_page_offset e =? 0); [apply (preserves_ret _ S)|].
      unfold shadow_image_defer_free.
      apply (preserves_bind _ T); [apply (preserves_shared_of _ S)|].
      intros s0. apply images_step_defer_free. }
    intros [|]; [|apply (preserves_fail _ S)]. simpl.
    apply (preserves_bind _ T); [apply (preserves_call _ S)|]. intros md_addr.
    apply (preserves_bind _ T).
    { apply preserves_modify. intros m. apply images_step_log;
        [reflexivity | discriminate]. }
    intros _. destruct md_addr as [md_addr|]; [|apply (preserves_fail _ S)].
    apply (preserves_bind _ T); [apply (preserves_HDassert _ S)|]. intros _.
    apply (preserves_bind _ T); [apply (preserves_md_lseek _ T S)|].
    intros [|]; [|apply (preserves_fail _ S)]. simpl.
    apply (preserves_bind _ T).
    { apply (preserves_md_write _ T S). intros m off.
      apply images_step_log; reflexivity. }
    intros nw. destruct (negb (nw =? ie_length e));
      [apply (preserves_fail _ S) | apply IH].
Qed.

Lemma images_step_sort_and_write_images {X : Externals} (f num_entries : Z)
    (index : list H5FD_vfd_swmr_idx_entry_t) :
  preserves (images_step f)
    (@update_sort_and_write_images X f num_entries index).
Proof.
  pose proof (@images_step_trans X f) as T.
  pose proof (@images_step_same X f) as S.
  unfold update_sort_and_write_images.
  apply (preserves_bind _ T); [|intros; apply images_step_write_images].
  destruct (0 <? num_entries); [|apply (preserves_ret _ S)].
  apply (preserves_bind _ T); [apply (preserves_HDassert _ S)|]. intros _.
  apply (preserves_bind _ T); [apply (preserves_HDassert _ S)|]. intros _.
  apply (preserves_ret _ S).
Qed.

Lemma skipn_nth_error_cons {A} (l : list A) (i : nat) (x : A) :
  nth_error l i = Some x -> skipn i l = x :: skipn (S i) l.
Proof.
  revert i. induction l as [|a l IH]; intros [|i] H; simpl in *;
    try discriminate.
  - injection H as ->. reflexivity.
  - apply IH. exact H.
Qed.

Lemma skipn_array_set {A} (l : list A) (i : nat) (v : A) :
  skipn (S i) (array_set l i v) = skipn (S i) l.
Proof.
  revert i. induction l as [|a l IH]; intros [|i]; simpl; try reflexivity.
  apply IH.
Qed.

Lemma map_array_set {A B} (g : A -> B) (l : list A) (i : nat) (x v : A) :
  nth_error l i = Some x -> g v = g x ->
  map g (array_set l i v) = map g l.
Proof.
  revert i. induction l as [|a l IH]; intros [|i] H Hg; simpl in *;
    try discriminate.
  - injection H as ->. rewrite Hg. reflexivity.
  - rewrite (IH i H Hg). reflexivity.
Qed.

Lemma shadow_writes_app (l1 l2 : list event) :
  shadow_writes (l1 ++ l2) = shadow_writes l1 ++ shadow_writes l2.
Proof. apply filter_app. Qed.

(** A successful run of the loop over the entries: the keys of the array are
    left alone, and the writes to the shadow file are those of the pending
    images of the entries visited, in the order of the array. *)
Lemma update_write_images_success {X : Externals} (f : Z) :
  forall todo i index (m m1 : machine X) index',
    update_write_images f todo i index m = (SUCCEED index', m1) ->
    map hdf5_page_offset index' = map hdf5_page_offset index /\
    exists evs,
      m_trace m1 = m_trace m ++ evs /\
      Forall (fun e => is_image_write e = true) (shadow_writes evs) /\
      map write_buf (shadow_writes evs) =
        pending_images (firstn todo (skipn i index)).
Proof.
  induction todo as [|todo IH]; intros i index m m1 index' H.
  - injection H as <- <-. split; [reflexivity|].
    exists []. rewrite app_nil_r. repeat split. constructor.
  - cbn [update_write_images] in H.
    destruct (nth_error index i) as [e|] eqn:Hn; [|discriminate].
    rewrite (skipn_nth_error_cons _ _ _ Hn). cbn [firstn].
    unfold pending_images. cbn [flat_map]. fold pending_images.
    destruct (entry_ptr e) as [image|] eqn:Hp.
    + unfold shadow_image_defer_free, shadow_range_defer_free in H.
      unfold_monad. break_run H.
      all: apply IH in H; destruct H as (Hk & evs & Ht & Hi & Hb);
        msimpl_in Ht; rewrite skipn_array_set in Hb.
      all: (split;
        [ rewrite Hk; apply (map_array_set _ _ _ e); [exact Hn | reflexivity]
        | eexists; split; [rewrite Ht, <- !app_assoc; reflexivity|];
          rewrite !shadow_writes_app; cbn [shadow_writes filter is_shadow_write app];
          split; [constructor; [reflexivity | exact Hi]
                 | cbn [map write_buf app]; rewrite Hb; reflexivity] ]).
    + apply IH in H. destruct H as (Hk & evs & Ht & Hi & Hb).
      split; [exact Hk|]. exists evs. repeat split; assumption.
Qed.

(** ** Update of the metadata file: sorting *)

Lemma idx_no_duplicates_Sorted (l : list H5FD_vfd_swmr_idx_entry_t) :
  idx_no_duplicates l = true -> Sorted idx_lt l.
Proof.
  induction l as [|e l IH]; intros H; [constructor|].
  destruct l as [|e' l]; [repeat constructor|].
  cbn [idx_no_duplicates] in H. apply andb_prop in H. destruct H as (Hlt & Hrest).
  constructor; [apply IH; exact Hrest|].
  constructor. apply Z.ltb_lt. exact Hlt.
Qed.

Lemma Sorted_idx_lt_keys (l l' : list H5FD_vfd_swmr_idx_entry_t) :
  map hdf5_page_offset l' = map hdf5_page_offset l ->
  Sorted idx_lt l -> Sorted idx_lt l'.
Proof.
  revert l'. induction l as [|e l IH]; intros [|e' l'] Hk Hs;
    try discriminate; [constructor|].
  simpl in Hk. injection Hk as He Hk.
  inversion Hs as [|? ? Hs' Hhd]; subst.
  constructor; [apply IH; assumption|].
  destruct l as [|x l]; destruct l' as [|x' l']; try discriminate;
    constructor.
  simpl in Hk. injection Hk as Hx _.
  inversion Hhd; subst. unfold idx_lt in *. lia.
Qed.

Lemma qsort_insert_perm {A} (compar : A -> A -> Z) (x : A) (l : list A) :
  Permutation (qsort_insert compar x l) (x :: l).
Proof.
  induction l as [|y l IH]; simpl; [reflexivity|].
  destruct (compar x y <=? 0); [reflexivity|].
  rewrite IH. apply perm_swap.
Qed.

Lemma qsort_list_perm {A} (compar : A -> A -> Z) (l : list A) :
  Permutation (qsort_list compar l) l.
Proof.
  induction l as [|x l IH]; simpl; [reflexivity|].
  rewrite qsort_insert_perm. constructor. exact IH.
Qed.

Lemma firstn_HDqsort {A} (compar : A -> A -> Z) (base : list A) (n : nat) :
  (n <= List.length base)%nat ->
  firstn n (HDqsort base n compar) = qsort_list compar (firstn n base).
Proof.
  intros H. unfold HDqsort.
  assert (Hl : List.length (qsort_list compar (firstn n base)) = n).
  { rewrite (Permutation_length (qsort_list_perm compar _)).
    rewrite length_firstn. lia. }
  rewrite firstn_app, Hl, Nat.sub_diag, firstn_O, app_nil_r.
  rewrite <- Hl at 1. apply firstn_all.
Qed.

(** A successful run of the first part of
    [H5F_update_vfd_swmr_metadata_file]: the first [num_entries] entries of
    the resulting array are sorted strictly ascending by
    [hdf5_page_offset], with the keys they had on entry. *)
Lemma update_sort_and_write_images_success {X : Externals}
    (f num_entries : Z) (index index' : list H5FD_vfd_swmr_idx_entry_t)
    (m m1 : machine X) :
  update_sort_and_write_images f num_entries index m = (SUCCEED index', m1) ->
  let n := Z.to_nat num_entries in
  Sorted idx_lt (firstn n index') /\
  Permutation (map hdf5_page_offset (firstn n index'))
              (map hdf5_page_offset (firstn n index)) /\
  exists evs,
    m_trace m1 = m_trace m ++ evs /\
    Forall (fun e => is_image_write e = true) (shadow_writes evs) /\
    map write_buf (shadow_writes evs) =
      pending_images (firstn n (HDqsort index n H5F__idx_entry_cmp)).
Proof.
  intros H n. unfold update_sort_and_write_images in H.
  cbv zeta in H. fold n in H.
  apply bind_SUCCEED in H. destruct H as (index1 & m0 & Hsort & Hloop).
  apply update_write_images_success in Hloop.
  destruct Hloop as (Hk & evs & Ht & Hi & Hb). rewrite skipn_O in Hb.
  assert (Hpre : m0 = m /\
            (index1 = HDqsort index n H5F__idx_entry_cmp /\
             (n <= List.length index)%nat /\
             idx_no_duplicates (firstn n index1) = true
             \/ n = 0%nat /\ index1 = index)).
  { destruct (Z.ltb_spec 0 num_entries) as [Hpos | Hzero].
    - unfold_monad. break_run Hsort. injection Hsort as <- <-.
      split; [reflexivity|]. left. apply Nat.leb_le in E.
      repeat split; assumption.
    - injection Hsort as <- <-. split; [reflexivity|]. right.
      split; [unfold n; lia | reflexivity]. }
  destruct Hpre as (-> & Hpre).
  assert (Hkn : map hdf5_page_offset (firstn n index') =
                map hdf5_page_offset (firstn n index1)).
  { rewrite <- !firstn_map, Hk. reflexivity. }
  destruct Hpre as [(-> & Hlen & Hnd) | (Hn0 & ->)].
  - split; [|split].
    + apply (Sorted_idx_lt_keys _ _ Hkn).
      apply idx_no_duplicates_Sorted. exact Hnd.
    + rewrite Hkn, firstn_HDqsort by exact Hlen.
      apply Permutation_map. apply qsort_list_perm.
    + exists evs. repeat split; assumption.
  - rewrite Hn0 in *. split; [constructor | split; [reflexivity|]].
    exists evs. repeat split; assumption.
Qed.

(** ** Update of the metadata file: reclamation *)

Lemma queue_last {A} (q : list A) (k : nat) (x : A) :
  List.length q = S k -> nth_error q k = Some x -> q = firstn k q ++ [x].
Proof.
  intros Hl Hn. rewrite <- (firstn_S_snoc _ _ _ Hn).
  symmetry. apply firstn_all2. lia.
Qed.

Lemma TAILQ_REMOVE_last {A} (q : list A) (k : nat) :
  List.length q = S k -> TAILQ_REMOVE q k = firstn k q.
Proof.
  intros Hl. unfold TAILQ_REMOVE. rewrite skipn_all2 by lia.
  apply app_nil_r.
Qed.

(** The walk over the deferred-free queue, from its last record: the
    records handed to [H5MV_free] form the end of the queue, each of them
    fails the test [tick_num + max_lag > current tick], and a walk that
    succeeds leaves the queue empty or ending with a record within the
    window. *)
Lemma shadow_defrees_reclaim_run {X : Externals} (f : Z) :
  forall k (m m1 : machine X) (r : result unit),
    let s := m_files m f in
    List.length (shadow_defrees s) = k ->
    shadow_defrees_reclaim f k m = (r, m1) ->
    exists kept attempted,
      shadow_defrees s = kept ++ attempted /\
      m_trace m1 = m_trace m ++ map free_event (rev attempted) /\
      Forall (fun sd => u64 (sd_tick_num sd + max_lag (vfd_swmr_config s))
                        <= tick_num s) attempted /\
      (r = SUCCEED tt ->
       m_files m1 f = set_shadow_defrees kept s /\
       (kept = [] \/
        exists kept' last, kept = kept' ++ [last] /\ within_window s last)).
Proof.
  induction k as [|k IH]; intros m m1 r s Hlen H.
  - injection H as <- <-. exists [], [].
    destruct (shadow_defrees s) eqn:Hq; [|discriminate].
    cbn [rev map app]. rewrite app_nil_r.
    repeat split; [constructor | | left; reflexivity].
    subst s. rewrite <- Hq. symmetry. apply set_shadow_defrees_id.
  - cbn [shadow_defrees_reclaim] in H. unfold_monad.
    assert (Hstay : forall r', r' <> SUCCEED tt ->
              exists kept attempted,
                shadow_defrees s = kept ++ attempted /\
                m_trace m = m_trace m ++ map free_event (rev attempted) /\
                Forall (fun sd =>
                          u64 (sd_tick_num sd + max_lag (vfd_swmr_config s))
                          <= tick_num s) attempted /\
                (r' = SUCCEED tt ->
                 m_files m f = set_shadow_defrees kept s /\
                 (kept = [] \/
                  exists kept' last,
                    kept = kept' ++ [last] /\ within_window s last))).
    { intros r' Hr'. exists (shadow_defrees s), [].
      cbn [rev map app]. rewrite !app_nil_r.
      repeat split; [constructor | contradiction | contradiction]. }
    destruct (f =? 0) eqn:Ef.
    { injection H as <- <-. apply Hstay. discriminate. }
    fold s in H.
    destruct (nth_error (shadow_defrees s) k) as [sd|] eqn:Hn.
    2:{ injection H as <- <-. apply Hstay. discriminate. }
    pose proof (queue_last _ _ _ Hlen Hn) as Hq.
    destruct (u64 (sd_tick_num sd + max_lag (vfd_swmr_config s)) >? tick_num s)
      eqn:Hw.
    { injection H as <- <-. exists (shadow_defrees s), [].
      cbn [rev map app]. rewrite !app_nil_r.
      repeat split; [constructor | | ].
      - symmetry. apply set_shadow_defrees_id.
      - right. exists (firstn k (shadow_defrees s)), sd.
        split; [exact Hq|]. unfold within_window. apply Z.gtb_lt. exact Hw. }
    assert (Hdue : u64 (sd_tick_num sd + max_lag (vfd_swmr_config s))
                   <= tick_num s).
    { rewrite Z.gtb_ltb in Hw. apply Z.ltb_ge. exact Hw. }
    destruct (H5MV_free X f (sd_offset sd) (sd_length sd) (m_world m))
      as [freed w] eqn:Hfree.
    msimpl_in H. destruct freed; msimpl_in H.
    + rewrite (TAILQ_REMOVE_last _ _ Hlen) in H.
      apply IH in H.
      2:{ msimpl. rewrite upd_files_same. msimpl.
          rewrite length_firstn. lia. }
      msimpl_in H. rewrite upd_files_same in H. msimpl_in H.
      destruct H as (kept & attempted & Hsplit & Ht & Hall & Hok).
      exists kept, (attempted ++ [sd]).
      split; [rewrite Hq at 1; rewrite Hsplit, app_assoc; reflexivity|].
      split; [rewrite Ht, rev_app_distr, <- app_assoc; reflexivity|].
      split; [apply Forall_app; split;
              [exact Hall | repeat constructor; exact Hdue]|].
      exact Hok.
    + injection H as <- <-. exists (firstn k (shadow_defrees s)), [sd].
      split; [exact Hq|]. msimpl.
      repeat split; [repeat constructor; exact Hdue | discriminate | discriminate].
Qed.

Lemma filter_mv_free_free_events (l : list shadow_defree_t) :
  filter is_mv_free (map free_event l) = map free_event l.
Proof.
  induction l as [|x l IH]; [reflexivity|]. simpl. rewrite IH. reflexivity.
Qed.

Lemma shadow_writes_free_events (l : list shadow_defree_t) :
  shadow_writes (map free_event l) = [].
Proof. induction l as [|x l IH]; [reflexivity | exact IH]. Qed.

(** The second part of [H5F_update_vfd_swmr_metadata_file], from a state
    [m] of file structure [s]: whatever the outcome, the records handed to
    [H5MV_free] are at the end of the queue and due; on success the writes
    to the shadow file are the index and then the header. *)
Lemma update_publish_and_reclaim_run {X : Externals} (f num_entries : Z)
    (index : list H5FD_vfd_swmr_idx_entry_t) (m m1 : machine X)
    (r : result unit) :
  update_publish_and_reclaim f num_entries index m = (r, m1) ->
  let s := m_files m f in
  exists kept attempted evs,
    m_trace m1 = m_trace m ++ evs /\
    filter is_mv_free evs = map free_event (rev attempted) /\
    shadow_defrees s = kept ++ attempted /\
    Forall (reclaim_due s) attempted /\
    (r = SUCCEED tt ->
     m_files m1 f = set_shadow_defrees kept s /\
     (tick_num s <= max_lag (vfd_swmr_config s) \/ kept = [] \/
      exists kept' last, kept = kept' ++ [last] /\ within_window s last) /\
     shadow_writes evs =
       [EvWrite WIndex (vfd_swmr_md_fd s) (to_int64 (writer_index_offset s))
          (md_idx_image X s num_entries (firstn (Z.to_nat num_entries) index))
          (H5FD_MD_INDEX_SIZE num_entries);
        EvWrite WHeader (vfd_swmr_md_fd s) H5FD_MD_HEADER_OFF
          (md_hdr_image X s num_entries) H5FD_MD_HEADER_SIZE]).
Proof.
  intros H s. unfold update_publish_and_reclaim in H.
  assert (Hnone : forall (m' : machine X) (r' : result unit) evs,
            m_trace m' = m_trace m ++ evs -> filter is_mv_free evs = [] ->
            r' <> SUCCEED tt ->
            exists kept attempted evs,
              m_trace m' = m_trace m ++ evs /\
              filter is_mv_free evs = map free_event (rev attempted) /\
              shadow_defrees s = kept ++ attempted /\
              Forall (reclaim_due s) attempted /\
              (r' = SUCCEED tt ->
               m_files m' f = set_shadow_defrees kept s /\
               (tick_num s <= max_lag (vfd_swmr_config s) \/ kept = [] \/
                exists kept' last,
                  kept = kept' ++ [last] /\ within_window s last) /\
               shadow_writes evs =
                 [EvWrite WIndex (vfd_swmr_md_fd s)
                    (to_int64 (writer_index_offset s))
                    (md_idx_image X s num_entries
                       (firstn (Z.to_nat num_entries) index))
                    (H5FD_MD_INDEX_SIZE num_entries);
                  EvWrite WHeader (vfd_swmr_md_fd s) H5FD_MD_HEADER_OFF
                    (md_hdr_image X s num_entries) H5FD_MD_HEADER_SIZE])).
  { intros m' r' evs Ht Hf Hr. exists (shadow_defrees s), [], evs.
    rewrite app_nil_r. repeat split; try assumption; try constructor;
      contradiction. }
  apply bind_outcome in H.
  destruct H as [([] & m2 & Hidx & H) | [(Hidx & ->) | (Hidx & ->)]].
  2:{ apply construct_write_md_idx_run in Hidx.
      destruct Hidx as (_ & _ & [Ht | Ht] & _);
        [apply (Hnone _ _ []) | eapply Hnone]; try eassumption;
        try discriminate; try reflexivity. rewrite app_nil_r. exact Ht. }
  2:{ apply construct_write_md_idx_run in Hidx.
      destruct Hidx as (_ & _ & [Ht | Ht] & _);
        [apply (Hnone _ _ []) | eapply Hnone]; try eassumption;
        try discriminate; try reflexivity. rewrite app_nil_r. exact Ht. }
  apply construct_write_md_idx_run in Hidx.
  destruct Hidx as (Hf2 & _ & _ & Ht2). specialize (Ht2 eq_refl).
  cbn [firstn] in Ht2. fold s in Ht2.
  apply bind_outcome in H.
  destruct H as [([] & m3 & Hhdr & H) | [(Hhdr & ->) | (Hhdr & ->)]].
  2:{ apply construct_write_md_hdr_run in Hhdr.
      destruct Hhdr as (_ & _ & [Ht | Ht] & _); rewrite Ht2 in Ht;
        [| rewrite <- app_assoc in Ht]; eapply Hnone; try eassumption;
        try discriminate; reflexivity. }
  2:{ apply construct_write_md_hdr_run in Hhdr.
      destruct Hhdr as (_ & _ & [Ht | Ht] & _); rewrite Ht2 in Ht;
        [| rewrite <- app_assoc in Ht]; eapply Hnone; try eassumption;
        try discriminate; reflexivity. }
  apply construct_write_md_hdr_run in Hhdr.
  destruct Hhdr as (Hf3 & _ & _ & Ht3). specialize (Ht3 eq_refl).
  rewrite Hf2 in Ht3. fold s in Ht3. rewrite Ht2, <- app_assoc in Ht3.
  assert (Hs3 : m_files m3 f = s) by (rewrite Hf3, Hf2; reflexivity).
  unfold bind at 1 in H. unfold shared_of in H.
  destruct (f =? 0).
  { injection H as <- <-. eapply Hnone; try eassumption;
      [reflexivity | discriminate]. }
  rewrite Hs3 in H.
  destruct (Z.leb_spec (tick_num s) (max_lag (vfd_swmr_config s))) as [Hearly | Hlate].
  { injection H as <- <-. exists (shadow_defrees s), []. eexists.
    split; [exact Ht3|]. rewrite app_nil_r.
    split; [reflexivity|]. split; [reflexivity|]. split; [constructor|].
    intros _. split; [|split; [left; exact Hearly | reflexivity]].
    rewrite Hs3. symmetry. apply set_shadow_defrees_id. }
  apply shadow_defrees_reclaim_run in H; [|rewrite Hs3; reflexivity].
  rewrite Hs3 in H.
  destruct H as (kept & attempted & Hsplit & Ht & Hall & Hok).
  exists kept, attempted. eexists.
  split; [rewrite Ht, Ht3, <- app_assoc; reflexivity|].
  pose proof (filter_mv_free_free_events (rev attempted)) as Hfree.
  pose proof (shadow_writes_free_events (rev attempted)) as Hwr.
  split; [simpl; exact Hfree|].
  split; [exact Hsplit|].
  split.
  { eapply Forall_impl; [|exact Hall]. intros sd Hd. split; assumption. }
  intros ->. destruct (Hok eq_refl) as (Hfiles & Hstop).
  split; [exact Hfiles|]. split; [right; exact Hstop|].
  rewrite !shadow_writes_app, Hwr. reflexivity.
Qed.

(** ** Update of the metadata file (C2, C4, C5) *)

Lemma images_events_filters (evs : list event) :
  Forall (fun e => is_mv_free e = false /\
                   (is_shadow_write e = true -> is_image_write e = true))
         evs ->
  filter is_mv_free evs = [] /\ filter is_header_write evs = [].
Proof.
  induction 1 as [|e l (Hfree & Hw) _ (IH1 & IH2)]; [split; reflexivity|].
  simpl. rewrite Hfree. split; [exact IH1|].
  destruct e as [[| |] ? ? ? ?| | | | | | |]; try exact IH2.
  specialize (Hw eq_refl). discriminate Hw.
Qed.

Lemma images_step_filters {X : Externals} (f : Z) (m m1 : machine X) :
  images_step f m m1 ->
  exists pushed evs,
    m_files m1 f =
      set_shadow_defrees (pushed ++ shadow_defrees (m_files m f))
                         (m_files m f) /\
    Forall (fun sd => sd_tick_num sd = tick_num (m_files m f)) pushed /\
    m_trace m1 = m_trace m ++ evs /\
    filter is_mv_free evs = [] /\ filter is_header_write evs = [].
Proof.
  intros (pushed & evs & Hf & Hp & Ht & He).
  exists pushed, evs. apply images_events_filters in He.
  destruct He as (H1 & H2). repeat split; assumption.
Qed.

(** *** The sort of the index

    [H5F__idx_entry_cmp] is the three-way comparison of the keys. *)
Lemma idx_entry_cmp_spec (entry1 entry2 : H5FD_vfd_swmr_idx_entry_t) :
  (H5F__idx_entry_cmp entry1 entry2 = -1 /\
   hdf5_page_offset entry1 < hdf5_page_offset entry2) \/
  (H5F__idx_entry_cmp entry1 entry2 = 0 /\
   hdf5_page_offset entry1 = hdf5_page_offset entry2) \/
  (H5F__idx_entry_cmp entry1 entry2 = 1 /\
   hdf5_page_offset entry1 > hdf5_page_offset entry2).
Proof.
  unfold H5F__idx_entry_cmp.
  destruct (Z.ltb_spec (hdf5_page_offset entry1) (hdf5_page_offset entry2));
    [left; split; [reflexivity | assumption]|].
  rewrite Z.gtb_ltb.
  destruct (Z.ltb_spec (hdf5_page_offset entry2) (hdf5_page_offset entry1)).
  - right. right. split; [reflexivity | lia].
  - right. left. split; [reflexivity | lia].
Qed.

Lemma idx_entry_cmp_le (entry1 entry2 : H5FD_vfd_swmr_idx_entry_t) :
  (H5F__idx_entry_cmp entry1 entry2 <=? 0) = true <-> idx_le entry1 entry2.
Proof.
  unfold idx_le. rewrite Z.leb_le.
  destruct (idx_entry_cmp_spec entry1 entry2)
    as [(-> & H) | [(-> & H) | (-> & H)]]; lia.
Qed.

Lemma qsort_insert_HdRel (y x : H5FD_vfd_swmr_idx_entry_t)
    (l : list H5FD_vfd_swmr_idx_entry_t) :
  idx_le y x -> HdRel idx_le y l ->
  HdRel idx_le y (qsort_insert H5F__idx_entry_cmp x l).
Proof.
  intros Hyx Hl. destruct l as [|z l]; cbn [qsort_insert].
  - constructor. exact Hyx.
  - destruct (H5F__idx_entry_cmp x z <=? 0); constructor;
      [exact Hyx | inversion Hl; assumption].
Qed.

Lemma qsort_insert_sorted (x : H5FD_vfd_swmr_idx_entry_t)
    (l : list H5FD_vfd_swmr_idx_entry_t) :
  Sorted idx_le l -> Sorted idx_le (qsort_insert H5F__idx_entry_cmp x l).
Proof.
  induction l as [|y l IH]; intros Hs; cbn [qsort_insert].
  - repeat constructor.
  - destruct (H5F__idx_entry_cmp x y <=? 0) eqn:E.
    + constructor; [exact Hs|]. constructor.
      apply idx_entry_cmp_le. exact E.
    + inversion Hs as [|? ? Hs' Hhd]; subst.
      constructor; [apply IH; exact Hs'|].
      apply qsort_insert_HdRel; [|exact Hhd].
      assert (Hn : ~ idx_le x y)
        by (intros Hle; apply idx_entry_cmp_le in Hle; congruence).
      unfold idx_le in *. lia.
Qed.

(** The sort with [H5F__idx_entry_cmp] puts every list into ascending order
    of [hdf5_page_offset]. *)
Lemma qsort_list_sorted (l : list H5FD_vfd_swmr_idx_entry_t) :
  Sorted idx_le (qsort_list H5F__idx_entry_cmp l).
Proof.
  induction l as [|x l IH]; cbn [qsort_list]; [constructor|].
  apply qsort_insert_sorted. exact IH.
Qed.

Lemma firstn_HDqsort_all {A} (compar : A -> A -> Z) (base : list A)
    (n : nat) :
  firstn n (HDqsort base n compar) = qsort_list compar (firstn n base).
Proof.
  destruct (Nat.le_gt_cases n (List.length base)) as [Hle | Hgt].
  - apply firstn_HDqsort. exact Hle.
  - unfold HDqsort. rewrite skipn_all2 by lia. rewrite app_nil_r.
    apply firstn_all2.
    rewrite (Permutation_length (qsort_list_perm compar _)).
    rewrite length_firstn. lia.
Qed.

Lemma Sorted_idx_lt_NoDup (l : list H5FD_vfd_swmr_idx_entry_t) :
  Sorted idx_lt l -> NoDup (map hdf5_page_offset l).
Proof.
  intros Hs. apply Sorted_StronglySorted in Hs; [|exact idx_lt_trans].
  induction Hs as [|a l Hs IH Hall]; cbn [map]; constructor; [|exact IH].
  intros Hin. apply in_map_iff in Hin. destruct Hin as (b & Hk & Hb).
  rewrite Forall_forall in Hall. specialize (Hall b Hb).
  unfold idx_lt in Hall. lia.
Qed.

Lemma Sorted_idx_le_NoDup (l : list H5FD_vfd_swmr_idx_entry_t) :
  Sorted idx_le l -> NoDup (map hdf5_page_offset l) -> Sorted idx_lt l.
Proof.
  induction 1 as [|a l Hs IH Hhd]; intros Hnd; [constructor|].
  cbn [map] in Hnd. inversion Hnd as [|? ? Hnotin Hnd']; subst.
  constructor; [apply IH; exact Hnd'|].
  destruct Hhd as [|b l Hab]; constructor.
  assert (hdf5_page_offset a <> hdf5_page_offset b)
    by (intros E; apply Hnotin; rewrite E; left; reflexivity).
  unfold idx_le, idx_lt in *. lia.
Qed.

(** What [HDqsort] with [H5F__idx_entry_cmp] does to the first [n] entries
    of an array: they are the entries that were there, in ascending order
    of [hdf5_page_offset]; the order is strict exactly when no two of them
    have the same page. *)
Lemma HDqsort_idx_entry_cmp_sorts (index : list H5FD_vfd_swmr_idx_entry_t)
    (n : nat) :
  let sorted := HDqsort index n H5F__idx_entry_cmp in
  Sorted idx_le (firstn n sorted) /\
  Permutation (firstn n sorted) (firstn n index) /\
  (Sorted idx_lt (firstn n sorted) <->
   NoDup (map hdf5_page_offset (firstn n index))).
Proof.
  intros sorted. unfold sorted. rewrite firstn_HDqsort_all.
  pose proof (qsort_list_sorted (firstn n index)) as Hs.
  pose proof (qsort_list_perm H5F__idx_entry_cmp (firstn n index)) as Hp.
  split; [exact Hs|]. split; [exact Hp|]. split.
  - intros Hlt. apply Sorted_idx_lt_NoDup in Hlt.
    apply (Permutation_NoDup (Permutation_map hdf5_page_offset Hp) Hlt).
  - intros Hnd. apply Sorted_idx_le_NoDup; [exact Hs|].
    apply (Permutation_NoDup
             (Permutation_map hdf5_page_offset (Permutation_sym Hp)) Hnd).
Qed.

(** The keys of the array after a successful first part of
    [H5F_update_vfd_swmr_metadata_file] are those of the sorted array: the
    loop over the images moves no entry. *)
Lemma update_sort_and_write_images_keys {X : Externals}
    (f num_entries : Z) (index index' : list H5FD_vfd_swmr_idx_entry_t)
    (m m1 : machine X) :
  update_sort_and_write_images f num_entries index m = (SUCCEED index', m1) ->
  let n := Z.to_nat num_entries in
  map hdf5_page_offset (firstn n index') =
  map hdf5_page_offset (firstn n (HDqsort index n H5F__idx_entry_cmp)).
Proof.
  intros H n. unfold update_sort_and_write_images in H.
  cbv zeta in H. fold n in H.
  apply bind_SUCCEED in H. destruct H as (index1 & m0 & Hsort & Hloop).
  apply update_write_images_success in Hloop. destruct Hloop as (Hk & _).
  destruct (Z.ltb_spec 0 num_entries) as [Hpos | Hzero].
  - unfold_monad. break_run Hsort. injection Hsort as <- <-.
    rewrite <- !firstn_map, Hk. reflexivity.
  - assert (Hn0 : n = 0%nat) by (unfold n; lia).
    rewrite Hn0. reflexivity.
Qed.


(** C4. In a successful call of [H5F_update_vfd_swmr_metadata_file] the
    writes to the shadow file are, in this order: one write per entry with
    a pending image, in the order of the sorted index; the write of the
    encoded index at [writer_index_offset]; the write of the encoded header
    at offset 0, which is the last write of the call. *)
Theorem update_writes_images_index_header {X : Externals}
    (f num_entries : Z) (index index' : list H5FD_vfd_swmr_idx_entry_t)
    (m m' : machine X) :
  H5F_update_vfd_swmr_metadata_file f num_entries index m
    = (SUCCEED index', m') ->
  update_write_order f num_entries index index' m m'.
Proof.
  intros H. unfold H5F_update_vfd_swmr_metadata_file in H.
  apply bind_SUCCEED in H. destruct H as (index1 & m1 & H1 & H).
  apply bind_SUCCEED in H. destruct H as ([] & m2 & H2 & H).
  injection H as <- <-.
  pose proof (images_step_sort_and_write_images f num_entries index _ _ _ H1)
    as (pushed & evs0 & Hf1 & _).
  apply update_sort_and_write_images_success in H1.
  destruct H1 as (_ & _ & evs1 & Ht1 & Himg & Hbuf).
  apply update_publish_and_reclaim_run in H2.
  destruct H2 as (kept & attempted & evs2 & Ht2 & _ & _ & _ & Hok).
  destruct (Hok eq_refl) as (_ & _ & Hw).
  rewrite Hf1 in Hw. msimpl_in Hw.
  exists (evs1 ++ evs2), (shadow_writes evs1).
  split; [rewrite Ht2, Ht1, app_assoc; reflexivity|].
  split; [rewrite shadow_writes_app, Hw; reflexivity|].
  split; assumption.
Qed.

(** The reclamation walk, by the tests the code makes.  Whatever the
    outcome of [H5F_update_vfd_swmr_metadata_file] in tick [t], the records
    it hands to [H5MV_free] are the last records of the queue, and each of
    them has [t > max_lag] and [tick_num + max_lag <= t] (the sum in 64
    bits): the walk frees a record as soon as its age [t - tick_num]
    reaches [max_lag].  A successful call leaves the queue empty or ending
    with a record that is still within the window, unless [t <= max_lag]. *)
Theorem update_reclaims_due_entries {X : Externals}
    (f num_entries : Z) (index : list H5FD_vfd_swmr_idx_entry_t)
    (m m' : machine X) (r : result (list H5FD_vfd_swmr_idx_entry_t)) :
  H5F_update_vfd_swmr_metadata_file f num_entries index m = (r, m') ->
  reclaims_due_entries f m m' r /\
  (forall sd, reclaim_due (m_files m f) sd ->
     0 <= sd_tick_num sd -> 0 <= max_lag (vfd_swmr_config (m_files m f)) ->
     sd_tick_num sd + max_lag (vfd_swmr_config (m_files m f)) <= UINT64_MAX ->
     tick_num (m_files m f) - sd_tick_num sd
       >= max_lag (vfd_swmr_config (m_files m f))).
Proof.
  intros H. split.
  2:{ intros sd (_ & Hdue) H0 Hl Hno. unfold UINT64_MAX in Hno.
      rewrite u64_small in Hdue by lia. lia. }
  unfold reclaims_due_entries. set (s := m_files m f).
  unfold H5F_update_vfd_swmr_metadata_file in H.
  apply bind_outcome in H.
  assert (Hpart1 : forall m1 r1,
            update_sort_and_write_images f num_entries index m = (r1, m1) ->
            exists pushed evs,
              m_files m1 f = set_shadow_defrees (pushed ++ shadow_defrees s) s /\
              Forall (fun sd => sd_tick_num sd = tick_num s) pushed /\
              m_trace m1 = m_trace m ++ evs /\ filter is_mv_free evs = []).
  { intros m1 r1 H1.
    apply images_step_sort_and_write_images in H1.
    apply images_step_filters in H1.
    destruct H1 as (pushed & evs & Hf & Hp & Ht & Hfree & _).
    exists pushed, evs. repeat split; assumption. }
  destruct H as [(index1 & m1 & H1 & H) | [(H1 & ->) | (H1 & ->)]].
  2:{ destruct (Hpart1 _ _ H1) as (pushed & evs & Hf & Hp & Ht & Hfree).
      exists pushed, (pushed ++ shadow_defrees s), [], evs.
      rewrite app_nil_r. repeat split; try assumption; try constructor.
      all: discriminate. }
  2:{ destruct (Hpart1 _ _ H1) as (pushed & evs & Hf & Hp & Ht & Hfree).
      exists pushed, (pushed ++ shadow_defrees s), [], evs.
      rewrite app_nil_r. repeat split; try assumption; try constructor.
      all: discriminate. }
  destruct (Hpart1 _ _ H1) as (pushed & evs1 & Hf & Hp & Ht & Hfree).
  apply bind_outcome in H.
  destruct H as [([] & m2 & H2 & H) | [(H2 & ->) | (H2 & ->)]].
  1: injection H as <- <-.
  all: apply update_publish_and_reclaim_run in H2;
    destruct H2 as (kept & attempted & evs2 & Ht2 & Hfree2 & Hsplit & Hdue & Hok);
    rewrite Hf in Hsplit, Hdue, Hok; msimpl_in Hsplit;
    exists pushed, kept, attempted, (evs1 ++ evs2);
    (split; [rewrite Ht2, Ht, app_assoc; reflexivity|]);
    (split; [rewrite filter_app, Hfree, Hfree2; reflexivity|]);
    (split; [exact Hsplit|]); (split; [exact Hp|]);
    (split; [exact Hdue|]); try (intros a Ha; discriminate Ha).
  intros a _. destruct (Hok eq_refl) as (Hfiles & Hstop & _).
  rewrite Hfiles. msimpl. repeat split. exact Hstop.
Qed.

(** A run ends with the result and in the state that [run_result] and
    [run_state] give. *)
Lemma run_eq {X : Externals} {A : Type} (c : M X A) (m : machine X)
    (r : result A) :
  run_result c m = r -> c m = (r, run_state c m).
Proof.
  unfold run_result, run_state. intros <-. apply surjective_pairing.
Qed.


Lemma update_writes_images_index_header_witness :
  let m := test_machine [] test_writer in
  let c := H5F_update_vfd_swmr_metadata_file 1 2 test_dirty_index in
  let index' := result_value [] (run_result c m) in
  c m = (SUCCEED index', run_state c m) /\
  update_write_order 1 2 test_dirty_index index' m (run_state c m).
Proof.
  intros m c index'.
  assert (Hrun : c m = (SUCCEED index', run_state c m))
    by (apply run_eq; vm_compute; reflexivity).
  split; [exact Hrun|].
  exact (update_writes_images_index_header 1 2 test_dirty_index index' m
           (run_state c m) Hrun).
Defined.

Lemma update_reclaims_due_entries_witness :
  let m := test_machine [] test_writer in
  let c := H5F_update_vfd_swmr_metadata_file 1 2 test_dirty_index in
  let index' := result_value [] (run_result c m) in
  c m = (SUCCEED index', run_state c m) /\
  reclaims_due_entries 1 m (run_state c m) (SUCCEED index').
Proof.
  intros m c index'.
  assert (Hrun : c m = (SUCCEED index', run_state c m))
    by (apply run_eq; vm_compute; reflexivity).
  split; [exact Hrun|].
  exact (proj1 (update_reclaims_due_entries 1 2 test_dirty_index m
                  (run_state c m) (SUCCEED index') Hrun)).
Defined.

(** C2. The comment above the reclamation walk says that it releases the
    records that have resided on the list for more than [max_lag] ticks;
    the test of the walk, [tick_num + max_lag > f->shared->tick_num], stops
    only at a record of a smaller age.  In tick 4 with [max_lag = 3], the
    call hands to [H5MV_free] the record made in tick 1 and takes it off
    the queue: its age 4 - 1 is [max_lag], not more. *)
Lemma reclaimed_at_age_max_lag :
  let m := test_machine [] test_writer in
  let c := H5F_update_vfd_swmr_metadata_file 1 0 [] in
  let sd := mk_shadow_defree 8192 4096 1 in
  run_result c m = SUCCEED [] /\
  shadow_defrees (m_files m 1) = [sd] /\
  filter is_mv_free (m_trace (run_state c m)) = [free_event sd] /\
  shadow_defrees (m_files (run_state c m) 1) = [] /\
  ~ (tick_num (m_files m 1) - sd_tick_num sd
     > max_lag (vfd_swmr_config (m_files m 1))).
Proof.
  intros m c sd.
  repeat split; try (vm_compute; reflexivity).
  simpl. lia.
Qed.

(** ** Reader end of tick: the comparison of the indices *)

Lemma diff_pages_nil_r (old : list H5FD_vfd_swmr_idx_entry_t) :
  diff_pages old [] = map hdf5_page_offset old.
Proof. destruct old; reflexivity. Qed.

Lemma diff_pages_cons (o n : H5FD_vfd_swmr_idx_entry_t)
    (old new : list H5FD_vfd_swmr_idx_entry_t) :
  diff_pages (o :: old) (n :: new) =
    if hdf5_page_offset o =? hdf5_page_offset n then
      if negb (md_file_page_offset o =? md_file_page_offset n)
      then hdf5_page_offset n :: diff_pages old new
      else diff_pages old new
    else if hdf5_page_offset o <? hdf5_page_offset n then
      hdf5_page_offset o :: diff_pages old (n :: new)
    else diff_pages (o :: old) new.
Proof. reflexivity. Qed.

Lemma Sorted_idx_lt_head (e : H5FD_vfd_swmr_idx_entry_t)
    (l : list H5FD_vfd_swmr_idx_entry_t) :
  Sorted idx_lt (e :: l) ->
  Sorted idx_lt l /\
  forall x, In x l -> hdf5_page_offset e < hdf5_page_offset x.
Proof.
  intros H. apply (Sorted_StronglySorted idx_lt_trans) in H.
  apply StronglySorted_inv in H. destruct H as (Hs & Hall).
  split; [apply StronglySorted_Sorted; exact Hs|].
  rewrite Forall_forall in Hall. exact Hall.
Qed.

(** On sorted, key-unique lists the comparison yields the pages that
    changed place and the pages that were removed, and no other. *)
Lemma diff_pages_exact (old : list H5FD_vfd_swmr_idx_entry_t) :
  forall new,
    Sorted idx_lt old -> Sorted idx_lt new ->
    forall p, In p (diff_pages old new) <->
              page_changed old new p \/ page_removed old new p.
Proof.
  induction old as [|o old IHold]; intros new Hold Hnew p.
  - simpl. destruct new; simpl; split; try contradiction.
    + intros [(x & y & [] & _) | ((x & [] & _) & _)].
    + intros [(x & y & [] & _) | ((x & [] & _) & _)].
  - apply Sorted_idx_lt_head in Hold. destruct Hold as (Hold & Ho).
    induction new as [|n new IHnew].
    + rewrite diff_pages_nil_r. rewrite in_map_iff. split.
      * intros (x & Hx & Hin). right. split; [exists x; auto|].
        intros (y & [] & _).
      * intros [(x & y & _ & [] & _) | ((x & Hin & Hx) & _)].
        exists x. auto.
    + apply Sorted_idx_lt_head in Hnew. destruct Hnew as (Hnew & Hn).
      rewrite diff_pages_cons.
      destruct (Z.eqb_spec (hdf5_page_offset o) (hdf5_page_offset n))
        as [Heq | Hneq].
      * (* same key *)
        assert (Hrest : In p (diff_pages old new) <->
                  (p <> hdf5_page_offset o /\
                   (page_changed (o :: old) (n :: new) p \/
                    page_removed (o :: old) (n :: new) p))).
        { rewrite (IHold new Hold Hnew p). split.
          - intros [(x & y & Hx & Hy & Hkx & Hky & Hmd)
                   | ((x & Hx & Hkx) & Hnone)].
            + split; [specialize (Ho x Hx); lia|].
              left. exists x, y. simpl. auto 10.
            + split; [specialize (Ho x Hx); lia|].
              right. split; [exists x; simpl; auto|].
              intros (y & [<- | Hy] & Hky).
              * specialize (Ho x Hx). lia.
              * apply Hnone. exists y. auto.
          - intros (Hp & [(x & y & [<- | Hx] & Hy & Hkx & Hky & Hmd)
                         | ((x & [<- | Hx] & Hkx) & Hnone)]);
              try (exfalso; apply Hp; symmetry; assumption).
            + left. destruct Hy as [<- | Hy]; [exfalso; lia|].
              exists x, y. auto 10.
            + right. split; [exists x; auto|].
              intros (y & Hy & Hky). apply Hnone. exists y. simpl. auto. }
        destruct (Z.eqb_spec (md_file_page_offset o) (md_file_page_offset n))
          as [Hmd | Hmd]; cbn [negb].
        -- rewrite Hrest. split; [intros (_ & H); exact H|].
           intros H. split; [|exact H]. intros ->.
           destruct H as [(x & y & Hx & Hy & Hkx & Hky & Hne)
                         | (_ & Hnone)].
           ++ assert (x = o).
              { destruct Hx as [<- | Hx]; [reflexivity|].
                specialize (Ho x Hx). lia. }
              assert (y = n).
              { destruct Hy as [<- | Hy]; [reflexivity|].
                specialize (Hn y Hy). lia. }
              subst. contradiction.
           ++ apply Hnone. exists n. simpl. auto.
        -- cbn [In]. rewrite Hrest. split.
           ++ intros [<- | (_ & H)]; [|exact H].
              left. exists o, n. simpl. auto 10.
           ++ intros H.
              destruct (Z.eq_dec p (hdf5_page_offset o)) as [-> | Hp];
                [left; symmetry; exact Heq | right; split; assumption].
      * destruct (Z.ltb_spec (hdf5_page_offset o) (hdf5_page_offset n))
          as [Hlt | Hge].
        -- (* o is below the new entries: removed *)
           cbn [In]. rewrite (IHold (n :: new) Hold
                                (ltac:(apply Sorted_cons;
                                       [exact Hnew |
                                        destruct new; constructor;
                                        apply Hn; left; reflexivity])) p).
           assert (Hnot : forall y, In y (n :: new) ->
                            hdf5_page_offset o < hdf5_page_offset y).
           { intros y [<- | Hy]; [exact Hlt|]. specialize (Hn y Hy). lia. }
           split.
           ++ intros [<- | [(x & y & Hx & Hy & Hkx & Hky & Hmd)
                           | ((x & Hx & Hkx) & Hnone)]].
              ** right. split; [exists o; simpl; auto|].
                 intros (y & Hy & Hky). specialize (Hnot y Hy). lia.
              ** left. exists x, y. simpl. auto 10.
              ** right. split; [exists x; simpl; auto | exact Hnone].
           ++ intros [(x & y & [<- | Hx] & Hy & Hkx & Hky & Hmd)
                     | ((x & [<- | Hx] & Hkx) & Hnone)].
              ** specialize (Hnot y Hy). lia.
              ** right. left. exists x, y. auto 10.
              ** left. exact Hkx.
              ** right. right. split; [exists x; auto | exact Hnone].
        -- (* n is below the old entries: added *)
           rewrite (IHnew Hnew).
           assert (Hnot : forall x, In x (o :: old) ->
                            hdf5_page_offset n < hdf5_page_offset x).
           { intros x [<- | Hx]; [lia|]. specialize (Ho x Hx). lia. }
           split.
           ++ intros [(x & y & Hx & Hy & Hkx & Hky & Hmd)
                     | ((x & Hx & Hkx) & Hnone)].
              ** left. exists x, y. simpl. auto 10.
              ** right. split; [exists x; auto|].
                 intros (y & [<- | Hy] & Hky).
                 --- specialize (Hnot x Hx). lia.
                 --- apply Hnone. exists y. auto.
           ++ intros [(x & y & Hx & [<- | Hy] & Hkx & Hky & Hmd)
                     | ((x & Hx & Hkx) & Hnone)].
              ** specialize (Hnot x Hx). lia.
              ** left. exists x, y. auto 10.
              ** right. split; [exists x; auto|].
                 intros (y & Hy & Hky). apply Hnone. exists y. simpl. auto.
Qed.

Lemma diff_pages_nil_l (new : list H5FD_vfd_swmr_idx_entry_t) :
  diff_pages [] new = [].
Proof. destruct new; reflexivity. Qed.

Lemma slice_cons {A} (l : list A) (a b : nat) (x : A) :
  nth_error l a = Some x -> (a < b)%nat ->
  slice l a b = x :: slice l (S a) b.
Proof.
  intros Hn Hlt. unfold slice. rewrite (skipn_nth_error_cons _ _ _ Hn).
  replace (b - a)%nat with (S (b - S a)) by lia. reflexivity.
Qed.

Lemma slice_empty {A} (l : list A) (a b : nat) :
  (b <= a)%nat -> slice l a b = [].
Proof.
  intros H. unfold slice. replace (b - a)%nat with 0%nat by lia. reflexivity.
Qed.

Lemma slice_from_0 {A} (l : list A) (n : nat) : slice l 0 n = firstn n l.
Proof. unfold slice. rewrite Nat.sub_0_r. reflexivity. Qed.

Lemma nth_error_in_bounds {A} (l : list A) (i : nat) :
  (i < List.length l)%nat -> exists x, nth_error l i = Some x.
Proof.
  intros H. destruct (nth_error l i) as [x|] eqn:E; [exists x; reflexivity|].
  apply nth_error_None in E. lia.
Qed.

(** The sanity checks of the comparison loop hold on a sorted index. *)
Lemma idx_sanity_check_sorted (idx : list H5FD_vfd_swmr_idx_entry_t)
    (used i : nat) :
  (used <= List.length idx)%nat -> Sorted idx_lt (firstn used idx) ->
  idx_sanity_check idx used i = true.
Proof.
  intros Hlen Hs. unfold idx_sanity_check.
  destruct (Nat.eqb_spec i 0) as [|Hi]; [reflexivity|].
  destruct (Nat.leb_spec used i) as [|Hlt]; [reflexivity|]. simpl.
  destruct (nth_error_in_bounds idx (i - 1) ltac:(lia)) as (a & Ha).
  destruct (nth_error_in_bounds idx i ltac:(lia)) as (b & Hb).
  rewrite Ha, Hb. apply Z.ltb_lt.
  apply (idx_sorted_nth idx used Hs (i - 1)%nat i a b); [lia | assumption..].
Qed.

(** The fuel of the comparison loop is enough on every input: when the loop
    returns, its condition [i < old_used && j < new_used] is false. *)
Lemma reader_diff_loop_terminates
    (old new : list H5FD_vfd_swmr_idx_entry_t) (old_used new_used : nat) :
  forall fuel st st',
    ((old_used - ds_i st) + (new_used - ds_j st) <= fuel)%nat ->
    reader_diff_loop fuel old new old_used new_used st = SUCCEED st' ->
    ((ds_i st' <? old_used)%nat && (ds_j st' <? new_used)%nat) = false.
Proof.
  induction fuel as [|fuel IH]; intros st st' Hfuel H.
  - injection H as <-.
    destruct (Nat.ltb_spec (ds_i st) old_used);
      destruct (Nat.ltb_spec (ds_j st) new_used); try reflexivity; lia.
  - cbn [reader_diff_loop] in H.
    destruct (Nat.ltb_spec (ds_i st) old_used) as [Hi | Hi];
      cbn [andb] in H.
    2:{ injection H as <-.
        destruct (Nat.ltb_spec (ds_i st) old_used); [lia | reflexivity]. }
    destruct (Nat.ltb_spec (ds_j st) new_used) as [Hj | Hj].
    2:{ injection H as <-.
        destruct (Nat.ltb_spec (ds_j st) new_used); [lia|].
        apply andb_false_r. }
    destruct (nth_error old (ds_i st)) as [o|]; [|discriminate].
    destruct (nth_error new (ds_j st)) as [n|]; [|discriminate].
    match type of H with
    | (if ?b then _ else _) = _ => destruct b; [|discriminate]
    end.
    apply IH in H; [exact H|].
    destruct (hdf5_page_offset o =? hdf5_page_offset n);
      [destruct (negb (md_file_page_offset o =? md_file_page_offset n))
      | destruct (hdf5_page_offset o <? hdf5_page_offset n)];
      cbn [ds_i ds_j]; lia.
Qed.

(** The comparison loop over sorted arrays computes [diff_pages] of the
    entries still to compare, up to the entries of the old index that the
    loop leaves to the clean-up loop. *)
Lemma reader_diff_loop_pages (old new : list H5FD_vfd_swmr_idx_entry_t)
    (old_used new_used : nat) :
  (old_used <= List.length old)%nat -> (new_used <= List.length new)%nat ->
  Sorted idx_lt (firstn old_used old) -> Sorted idx_lt (firstn new_used new) ->
  forall fuel st,
    (ds_i st <= old_used)%nat -> (ds_j st <= new_used)%nat ->
    ((old_used - ds_i st) + (new_used - ds_j st) <= fuel)%nat ->
    exists st',
      reader_diff_loop fuel old new old_used new_used st = SUCCEED st' /\
      (ds_i st' <= old_used)%nat /\
      ds_removed_page st' ++
        map hdf5_page_offset (slice old (ds_i st') old_used) =
      ds_removed_page st ++
        diff_pages (slice old (ds_i st) old_used)
                   (slice new (ds_j st) new_used).
Proof.
  intros Hlo Hln Hso Hsn.
  induction fuel as [|fuel IH]; intros st Hi Hj Hfuel.
  - exists st. split; [reflexivity|]. split; [exact Hi|].
    rewrite !(slice_empty old) by lia. rewrite diff_pages_nil_l. reflexivity.
  - cbn [reader_diff_loop].
    destruct (Nat.ltb_spec (ds_i st) old_used) as [Hil | Hil]; cbn [andb].
    2:{ exists st. split; [reflexivity|]. split; [exact Hi|].
        rewrite !(slice_empty old) by lia. rewrite diff_pages_nil_l.
        reflexivity. }
    destruct (Nat.ltb_spec (ds_j st) new_used) as [Hjl | Hjl].
    2:{ exists st. split; [reflexivity|]. split; [exact Hi|].
        rewrite (slice_empty new) by lia. rewrite diff_pages_nil_r.
        reflexivity. }
    destruct (nth_error_in_bounds old (ds_i st) ltac:(lia)) as (o & Ho).
    destruct (nth_error_in_bounds new (ds_j st) ltac:(lia)) as (n & Hn).
    rewrite Ho, Hn.
    rewrite !(idx_sanity_check_sorted old) by assumption.
    rewrite !(idx_sanity_check_sorted new) by assumption.
    cbn [andb].
    rewrite (slice_cons old _ _ o Ho Hil), (slice_cons new _ _ n Hn Hjl).
    rewrite diff_pages_cons.
    destruct (hdf5_page_offset o =? hdf5_page_offset n).
    + destruct (negb (md_file_page_offset o =? md_file_page_offset n)).
      * match goal with
        | |- context [reader_diff_loop fuel old new old_used new_used ?s] =>
            destruct (IH s) as (st' & Hrun & Hi' & Heq);
              cbn [ds_i ds_j]; try lia
        end.
        exists st'. split; [exact Hrun|]. split; [exact Hi'|].
        rewrite Heq. cbn [ds_i ds_j ds_removed_page].
        rewrite <- app_assoc. reflexivity.
      * match goal with
        | |- context [reader_diff_loop fuel old new old_used new_used ?s] =>
            destruct (IH s) as (st' & Hrun & Hi' & Heq);
              cbn [ds_i ds_j]; try lia
        end.
        exists st'. split; [exact Hrun|]. split; [exact Hi'|].
        rewrite Heq. reflexivity.
    + destruct (hdf5_page_offset o <? hdf5_page_offset n).
      * match goal with
        | |- context [reader_diff_loop fuel old new old_used new_used ?s] =>
            destruct (IH s) as (st' & Hrun & Hi' & Heq);
              cbn [ds_i ds_j]; try lia
        end.
        exists st'. split; [exact Hrun|]. split; [exact Hi'|].
        rewrite Heq. cbn [ds_i ds_j ds_removed_page].
        rewrite <- app_assoc.
        rewrite (slice_cons new _ _ n Hn Hjl). reflexivity.
      * match goal with
        | |- context [reader_diff_loop fuel old new old_used new_used ?s] =>
            destruct (IH s) as (st' & Hrun & Hi' & Heq);
              cbn [ds_i ds_j]; try lia
        end.
        exists st'. split; [exact Hrun|]. split; [exact Hi'|].
        rewrite Heq. cbn [ds_i ds_j ds_removed_page].
        rewrite (slice_cons old _ _ o Ho Hil). reflexivity.
Qed.

Lemma reader_diff_leftovers_pages (old : list H5FD_vfd_swmr_idx_entry_t) :
  forall todo st,
    (ds_i st + todo <= List.length old)%nat ->
    exists st',
      reader_diff_leftovers todo old st = SUCCEED st' /\
      ds_removed_page st' =
        ds_removed_page st ++
        map hdf5_page_offset (slice old (ds_i st) (ds_i st + todo)).
Proof.
  induction todo as [|todo IH]; intros st Hlen.
  - exists st. split; [reflexivity|].
    rewrite slice_empty by lia. rewrite app_nil_r. reflexivity.
  - cbn [reader_diff_leftovers].
    destruct (nth_error_in_bounds old (ds_i st) ltac:(lia)) as (o & Ho).
    rewrite Ho.
    match goal with
    | |- context [reader_diff_leftovers todo old ?s] =>
        destruct (IH s) as (st' & Hrun & Heq); cbn [ds_i]; try lia
    end.
    exists st'. split; [exact Hrun|].
    rewrite Heq. cbn [ds_i ds_removed_page].
    rewrite (slice_cons old _ _ o Ho) by lia. rewrite <- app_assoc. cbn [map app].
    replace (S (ds_i st) + todo)%nat with (ds_i st + S todo)%nat by lia.
    reflexivity.
Qed.

(** The comparison of the reader, on sorted arrays: it terminates within its
    fuel and yields [diff_pages] of the used entries. *)
Lemma reader_diff_pages (old new : list H5FD_vfd_swmr_idx_entry_t)
    (old_used new_used : nat) :
  (old_used <= List.length old)%nat -> (new_used <= List.length new)%nat ->
  Sorted idx_lt (firstn old_used old) -> Sorted idx_lt (firstn new_used new) ->
  exists st,
    reader_diff old new old_used new_used = SUCCEED st /\
    ds_removed_page st =
      diff_pages (firstn old_used old) (firstn new_used new).
Proof.
  intros Hlo Hln Hso Hsn. unfold reader_diff.
  destruct (reader_diff_loop_pages old new old_used new_used Hlo Hln Hso Hsn
              (old_used + new_used) (mk_diff_state 0 0 [] 0 0 0))
    as (st1 & Hrun & Hi & Heq); cbn [ds_i ds_j]; try lia.
  rewrite Hrun.
  match goal with
  | |- context [reader_diff_leftovers _ old ?s] =>
      destruct (reader_diff_leftovers_pages old (old_used - ds_i st1) s)
        as (st2 & Hrun2 & Heq2); cbn [ds_i]; try lia
  end.
  exists st2. cbn [ds_i] in *. split; [exact Hrun2|].
  rewrite Heq2. cbn [ds_i ds_removed_page].
  replace (ds_i st1 + (old_used - ds_i st1))%nat with old_used by lia.
  rewrite Heq. cbn [ds_i ds_j ds_removed_page app].
  rewrite !slice_from_0. reflexivity.
Qed.

(** ** Reader end of tick: successful runs *)

Lemma reader_evict_page_buffer_success {X : Externals} (page_size : Z) :
  forall (removed_page : list Z) (m m1 : machine X),
    reader_evict_page_buffer page_size removed_page m = (SUCCEED tt, m1) ->
    m_files m1 = m_files m /\ eot_queue_g m1 = eot_queue_g m /\
    m_trace m1 =
      m_trace m ++
      map (fun page => EvPBRemove (u64 (page * page_size))) removed_page.
Proof.
  induction removed_page as [|page rest IH]; intros m m1 H.
  - injection H as <-. rewrite app_nil_r. auto.
  - cbn [reader_evict_page_buffer] in H.
    run_step_true H. run_step H.
    apply IH in H. msimpl_in H. destruct H as (Hf & Hq & Ht).
    repeat split; [exact Hf | exact Hq |].
    rewrite Ht, <- app_assoc. reflexivity.
Qed.

Lemma reader_evict_cache_success {X : Externals} (f tmp_tick_num : Z) :
  forall (removed_page : list Z) (m m1 : machine X),
    reader_evict_cache f tmp_tick_num removed_page m = (SUCCEED tt, m1) ->
    m_files m1 = m_files m /\ eot_queue_g m1 = eot_queue_g m /\
    m_trace m1 =
      m_trace m ++
      map (fun page => EvMDCEvict page tmp_tick_num) removed_page.
Proof.
  induction removed_page as [|page rest IH]; intros m m1 H.
  - injection H as <-. rewrite app_nil_r. auto.
  - cbn [reader_evict_cache] in H.
    run_step_true H. run_step H.
    apply IH in H. msimpl_in H. destruct H as (Hf & Hq & Ht).
    repeat split; [exact Hf | exact Hq |].
    rewrite Ht, <- app_assoc. reflexivity.
Qed.

Lemma create_index_success {X : Externals} (f : Z) (m m1 : machine X) :
  H5F__vfd_swmr_writer__create_index f m = (SUCCEED tt, m1) ->
  m_trace m1 = m_trace m /\
  exists array,
    m_files m1 f =
      set_mdf_idx_entries_used 0
        (set_mdf_idx_len (u32 (Z.of_nat (List.length array)))
           (set_mdf_idx (Some array) (m_files m f))).
Proof.
  unfold H5F__vfd_swmr_writer__create_index. intros H.
  do 7 run_step H. run_step_true H. run_step H.
  apply store_shared_SUCCEED in H. subst m1. msimpl.
  rewrite upd_files_same. split; [reflexivity|].
  eexists. rewrite repeat_length, Z2Nat.id; [reflexivity|].
  match goal with
  | Hpos : (0 <? _ / _) = true |- _ => apply Z.ltb_lt in Hpos; lia
  end.
Qed.

Lemma update_end_of_tick_success {X : Externals} (f : Z) (m m1 : machine X) :
  H5F__vfd_swmr_update_end_of_tick_and_tick_num f false m = (SUCCEED tt, m1) ->
  m_trace m1 = m_trace m /\ eot_queue_g m1 = eot_queue_g m /\
  exists t, m_files m1 f = set_end_of_tick t (m_files m f).
Proof.
  unfold H5F__vfd_swmr_update_end_of_tick_and_tick_num. intros H.
  run_step H. destruct a as [curr|]; [|discriminate].
  do 4 run_step H.
  apply store_shared_SUCCEED in H. subst m1. msimpl.
  rewrite upd_files_same. repeat split. eexists. reflexivity.
Qed.

(** [H5F_vfd_swmr_remove_entry_eot] has no error return; it touches the
    queue and the two globals derived from it. *)
Lemma remove_entry_eot_run {X : Externals} (f : Z) (m m1 : machine X)
    (r : result unit) :
  H5F_vfd_swmr_remove_entry_eot f m = (r, m1) ->
  r = SUCCEED tt /\ m_files m1 = m_files m /\ m_trace m1 = m_trace m /\
  eot_queue_g m1 = eot_queue_remove (eot_queue_g m) f.
Proof.
  unfold H5F_vfd_swmr_remove_entry_eot, eot_queue_remove. unfold_monad.
  intros H. break_run H; injection H as <- <-; msimpl; auto.
Qed.

(** [H5F_vfd_swmr_insert_entry_eot], whatever its outcome, leaves the file
    structures and the trace alone. *)
Lemma insert_entry_eot_frame {X : Externals} (f : Z) (m m1 : machine X)
    (r : result unit) :
  H5F_vfd_swmr_insert_entry_eot f m = (r, m1) ->
  m_files m1 = m_files m /\ m_trace m1 = m_trace m.
Proof.
  unfold H5F_vfd_swmr_insert_entry_eot. unfold_monad.
  intros H. break_run H; injection H as <- <-; msimpl; auto.
Qed.

(** A successful run of the block under [tmp_tick_num != tick_num]: the
    previous index becomes the old index, the new index is loaded, the
    comparison succeeds, every page of [removed_page] is evicted from the
    page buffer, then from the metadata cache, and the tick is adopted. *)
Lemma reader_new_tick_success {X : Externals} (f tmp_tick_num : Z)
    (m m1 : machine X) :
  reader_new_tick f tmp_tick_num m = (SUCCEED tt, m1) ->
  let s := m_files m f in
  let s1 := m_files m1 f in
  old_mdf_idx s1 = mdf_idx s /\
  old_mdf_idx_entries_used s1 = mdf_idx_entries_used s /\
  tick_num s1 = tmp_tick_num /\
  (Z.to_nat (mdf_idx_entries_used s1)
     <= List.length (array_of (mdf_idx s1)))%nat /\
  eot_queue_g m1 = eot_queue_g m /\
  exists st pb,
    pb_ptr s = Some pb /\
    reader_diff (array_of (old_mdf_idx s1)) (array_of (mdf_idx s1))
      (Z.to_nat (old_mdf_idx_entries_used s1))
      (Z.to_nat (mdf_idx_entries_used s1)) = SUCCEED st /\
    m_trace m1 =
      m_trace m ++
      map (fun page => EvPBRemove (u64 (page * page_size pb)))
          (ds_removed_page st) ++
      map (fun page => EvMDCEvict page tmp_tick_num) (ds_removed_page st).
Proof.
  intros H s s1. unfold reader_new_tick in H.
  run_step H. fold s in H. run_step H. run_step H.
  (* the index to load into: the former old index, or a new array *)
  apply bind_SUCCEED in H. destruct H as ([] & m2 & Hcreate & H).
  assert (Hm2 : m_trace m2 = m_trace m /\ eot_queue_g m2 = eot_queue_g m /\
                exists s2, m_files m2 f = s2 /\
                  old_mdf_idx s2 = mdf_idx s /\
                  old_mdf_idx_entries_used s2 = mdf_idx_entries_used s /\
                  pb_ptr s2 = pb_ptr s).
  { destruct (old_mdf_idx s) eqn:Hold.
    - apply ret_SUCCEED in Hcreate. destruct Hcreate as (_ & ->). msimpl.
      rewrite upd_files_same. repeat split. eexists. split; [reflexivity|].
      repeat split.
    - pose proof Hcreate as Hq.
      apply create_index_success in Hcreate.
      destruct Hcreate as (Ht & array & Hfiles). msimpl_in Ht.
      msimpl_in Hfiles. rewrite upd_files_same in Hfiles.
      split; [exact Ht|]. split.
      + unfold H5F__vfd_swmr_writer__create_index in Hq.
        do 7 run_step Hq. run_step_true Hq. run_step Hq.
        apply store_shared_SUCCEED in Hq. subst m2. reflexivity.
      + eexists. split; [exact Hfiles|]. repeat split. }
  destruct Hm2 as (Htrace2 & Hqueue2 & s2 & Hs2 & Hold2 & Hused2 & Hpb2).
  run_step H. rewrite Hs2 in H.
  run_step_as H loaded.
  destruct loaded as [entries|]; [|discriminate].
  destruct (mdf_idx s2) as [index|] eqn:Hidx2; [|discriminate].
  run_step H. run_step H. run_step H. run_step_true H.
  match type of H with
  | context [reader_diff ?o ?n ?ou ?nu] =>
      destruct (reader_diff o n ou nu) as [st| |] eqn:Hdiff;
        try discriminate H
  end.
  rewrite Hpb2 in H.
  apply bind_SUCCEED in H. destruct H as ([] & m3 & Hpbuf & H).
  destruct (pb_ptr s) as [pb|] eqn:Hpb; [|discriminate].
  apply reader_evict_page_buffer_success in Hpbuf.
  destruct Hpbuf as (Hfiles3 & Hqueue3 & Htrace3). msimpl_in Hfiles3. msimpl_in Htrace3.
  msimpl_in Hqueue3.
  apply bind_SUCCEED in H. destruct H as ([] & m4 & Hcache & H).
  apply reader_evict_cache_success in Hcache.
  destruct Hcache as (Hfiles4 & Hqueue4 & Htrace4).
  run_step H. run_step H.
  apply update_end_of_tick_success in H.
  destruct H as (Htrace5 & Hqueue5 & t & Hfiles5). msimpl_in Htrace5. msimpl_in Hqueue5.
  msimpl_in Hfiles5. rewrite upd_files_same in Hfiles5.
  rewrite Hfiles4, Hfiles3 in Hfiles5. rewrite upd_files_same in Hfiles5.
  subst s1. rewrite Hfiles5. msimpl.
  rewrite Hold2, Hused2.
  split; [reflexivity|]. split; [reflexivity|]. split; [reflexivity|].
  split.
  { unfold array_of, memcpy_idx. rewrite Nat2Z.id, length_app.
    rewrite firstn_all. lia. }
  split; [rewrite Hqueue5, Hqueue4, Hqueue3; exact Hqueue2|].
  exists st, pb. split; [reflexivity|].
  split.
  { rewrite <- Hdiff. rewrite Hold2, Hused2. reflexivity. }
  rewrite Htrace5, Htrace4, Htrace3, Htrace2, <- app_assoc. reflexivity.
Qed.

(** ** Reader end of tick (C6, C7) *)

Lemma get_machine_SUCCEED {X : Externals} (m m1 a : machine X) :
  get_machine m = (SUCCEED a, m1) -> a = m /\ m1 = m.
Proof. intros H. injection H as <- <-. auto. Qed.

(** The start of a successful reader end of tick: the file, and the tick
    read from the header of the shadow file. *)
Lemma reader_end_of_tick_success {X : Externals} (f : Z) (m m' : machine X) :
  H5F_vfd_swmr_reader_end_of_tick f m = (SUCCEED tt, m') ->
  let g := reader_file m f in
  exists tmp_tick_num w m1,
    H5FD_vfd_swmr_get_tick X (m_world m) = (Some tmp_tick_num, w) /\
    (if negb (tmp_tick_num =? tick_num (m_files m g))
     then reader_new_tick g tmp_tick_num
     else ret tt) (set_world w m) = (SUCCEED tt, m1) /\
    m_files m' = m_files m1 /\ m_trace m' = m_trace m1.
Proof.
  intros H g. unfold H5F_vfd_swmr_reader_end_of_tick in H.
  apply bind_SUCCEED in H. destruct H as (m0 & ? & Hm & H).
  apply get_machine_SUCCEED in Hm. destruct Hm as (-> & ->).
  apply bind_SUCCEED in H. destruct H as (g' & m2 & Hg & H).
  assert (Hg' : g' = g /\ m2 = m).
  { subst g. unfold reader_file.
    destruct (f =? 0).
    - destruct (eot_queue_g m); [discriminate|].
      apply ret_SUCCEED in Hg. exact Hg.
    - apply ret_SUCCEED in Hg. exact Hg. }
  destruct Hg' as (-> & ->).
  do 6 run_step H. run_step_as H tmp.
  destruct tmp as [tmp_tick_num|]; [|discriminate].
  apply bind_SUCCEED in H. destruct H as ([] & m1 & Hnew & H).
  apply bind_SUCCEED in H. destruct H as ([] & m3 & Hrem & H).
  apply remove_entry_eot_run in Hrem. destruct Hrem as (_ & Hf3 & Ht3 & _).
  apply insert_entry_eot_frame in H. destruct H as (Hf4 & Ht4).
  exists tmp_tick_num, w, m1. split; [exact Hw|]. split; [exact Hnew|].
  split; congruence.
Qed.

(** C6. In a successful reader end of tick that observes a new tick, with
    the index known so far and the index loaded both sorted and key-unique
    on their used entries, the pages evicted from the page buffer and then
    from the metadata cache are the pages present in both indices with
    different [md_file_page_offset] and the pages present in the old index
    only; no other page is evicted. *)
Theorem reader_eot_evicts_changed_and_removed {X : Externals} (f : Z)
    (m m' : machine X) :
  H5F_vfd_swmr_reader_end_of_tick f m = (SUCCEED tt, m') ->
  let g := reader_file m f in
  let s := m_files m g in
  let s' := m_files m' g in
  tick_num s' <> tick_num s ->
  (Z.to_nat (mdf_idx_entries_used s) <= List.length (array_of (mdf_idx s)))%nat ->
  Sorted idx_lt
    (firstn (Z.to_nat (mdf_idx_entries_used s)) (array_of (mdf_idx s))) ->
  Sorted idx_lt
    (firstn (Z.to_nat (mdf_idx_entries_used s')) (array_of (mdf_idx s'))) ->
  reader_evictions g m m'.
Proof.
  intros H g s s' Htick Hlen Hold Hnew.
  apply reader_end_of_tick_success in H. fold g in H.
  destruct H as (tmp_tick_num & w & m1 & _ & Hrun & Hf & Ht).
  fold s in Hrun.
  destruct (Z.eqb_spec tmp_tick_num (tick_num s)) as [Heq | Hne];
    cbn [negb] in Hrun.
  { apply ret_SUCCEED in Hrun. destruct Hrun as (_ & ->).
    exfalso. apply Htick. subst s'. rewrite Hf. reflexivity. }
  apply reader_new_tick_success in Hrun.
  cbv zeta in Hrun. msimpl_in Hrun. fold s in Hrun.
  rewrite <- Hf in Hrun. fold s' in Hrun.
  destruct Hrun as (Hold' & Hused' & Htick' & Hlen' & _ & st & pb & Hpb
                    & Hdiff & Htrace).
  unfold reader_evictions. fold s. fold s'.
  split; [exact Hold'|]. split; [exact Hused'|].
  exists (ds_removed_page st), pb. split; [exact Hpb|].
  split; [rewrite Ht, Htrace, Htick'; reflexivity|].
  rewrite Hold', Hused' in *.
  destruct (reader_diff_pages _ _ _ _ Hlen Hlen' Hold Hnew)
    as (st' & Hdiff' & Hpages).
  rewrite Hdiff in Hdiff'. injection Hdiff' as <-.
  intros p. rewrite Hpages. apply diff_pages_exact; assumption.
Qed.

(** The reader of [test_reader] observes tick 5: page 3 changed place, page
    9 was added; page 3 is evicted. *)
Lemma reader_eot_evicts_changed_and_removed_witness :
  let m := test_reader_machine 5 in
  let c := H5F_vfd_swmr_reader_end_of_tick 1 in
  c m = (SUCCEED tt, run_state c m) /\
  reader_evictions 1 m (run_state c m) /\
  m_trace (run_state c m) = [EvPBRemove (3 * 4096); EvMDCEvict 3 5].
Proof.
  intros m c.
  assert (Hrun : c m = (SUCCEED tt, run_state c m))
    by (apply run_eq; vm_compute; reflexivity).
  split; [exact Hrun|]. split; [|vm_compute; reflexivity].
  apply (reader_eot_evicts_changed_and_removed 1 m (run_state c m) Hrun).
  - vm_compute. discriminate.
  - vm_compute. lia.
  - vm_compute. repeat constructor.
  - vm_compute. repeat constructor; unfold idx_lt; simpl; lia.
Defined.

Lemma bind_pure_outcome {X : Externals} {A B} (c : M X A) (k : A -> M X B)
    (m m' : machine X) (r : result B) :
  pure_step c -> bind c k m = (r, m') ->
  (exists a, c m = (SUCCEED a, m) /\ k a m = (r, m')) \/
  (m' = m /\ forall b, r <> SUCCEED b).
Proof.
  intros Hp H. apply bind_outcome in H.
  destruct H as [(a & m0 & Hc & H) | [(Hc & ->) | (Hc & ->)]].
  - left. exists a. rewrite <- (Hp _ _ _ Hc) at 2 3.
    split; [exact Hc | exact H].
  - right. split; [apply (Hp _ _ _ Hc) | discriminate].
  - right. split; [apply (Hp _ _ _ Hc) | discriminate].
Qed.

Lemma pure_get_machine {X : Externals} : pure_step (@get_machine X).
Proof. intros m r m1 H. injection H as _ <-. reflexivity. Qed.

Lemma pure_ret {X : Externals} {A} (a : A) : pure_step (@ret X A a).
Proof. intros m r m1 H. injection H as _ <-. reflexivity. Qed.

Lemma pure_abort {X : Externals} {A} : pure_step (@abort X A).
Proof. intros m r m1 H. injection H as _ <-. reflexivity. Qed.

Lemma pure_HDassert {X : Externals} (b : bool) : pure_step (@HDassert X b).
Proof.
  intros m r m1 H. unfold HDassert in H.
  destruct b; injection H as _ <-; reflexivity.
Qed.

Lemma pure_shared_of {X : Externals} (f : Z) : pure_step (@shared_of X f).
Proof.
  intros m r m1 H. unfold shared_of in H.
  destruct (f =? 0); injection H as _ <-; reflexivity.
Qed.

(** C7. When the tick read from the header of the shadow file is the tick
    of the reader, [H5F_vfd_swmr_reader_end_of_tick] issues no page-buffer
    and no metadata-cache call and modifies no file structure, so neither
    the index mirrors nor the tick; a successful call has removed the entry
    of the file from the EOT queue and inserted it again. *)
Theorem reader_eot_same_tick {X : Externals} (f : Z) (m m' : machine X)
    (r : result unit) (w : World X) :
  H5F_vfd_swmr_reader_end_of_tick f m = (r, m') ->
  H5FD_vfd_swmr_get_tick X (m_world m)
    = (Some (tick_num (m_files m (reader_file m f))), w) ->
  reader_same_tick_frame (reader_file m f) m m' r.
Proof.
  intros H Hget. set (g := reader_file m f) in *.
  assert (Hstop : forall r0 : result unit,
            (forall b, r0 <> SUCCEED b) -> reader_same_tick_frame g m m r0).
  { intros r0 Hr. repeat split. intros ->. exfalso. apply (Hr tt).
    reflexivity. }
  unfold H5F_vfd_swmr_reader_end_of_tick in H.
  apply bind_pure_outcome in H; [|apply pure_get_machine].
  destruct H as [(m0 & Hm & H) | (-> & Hr)]; [|apply Hstop; exact Hr].
  apply get_machine_SUCCEED in Hm. destruct Hm as (-> & _).
  apply bind_pure_outcome in H.
  2:{ destruct (f =? 0); [destruct (eot_queue_g m)|];
        first [apply pure_ret | apply pure_abort]. }
  destruct H as [(g' & Hg & H) | (-> & Hr)]; [|apply Hstop; exact Hr].
  assert (Hg' : g' = g).
  { subst g. unfold reader_file.
    destruct (f =? 0); [destruct (eot_queue_g m); [discriminate|]|];
      apply ret_SUCCEED in Hg; apply Hg. }
  subst g'. clear Hg.
  apply bind_pure_outcome in H; [|apply pure_HDassert].
  destruct H as [([] & _ & H) | (-> & Hr)]; [|apply Hstop; exact Hr].
  apply bind_pure_outcome in H; [|apply pure_shared_of].
  destruct H as [(shared & Hs & H) | (-> & Hr)]; [|apply Hstop; exact Hr].
  apply shared_of_SUCCEED in Hs. destruct Hs as (Hg0 & -> & _).
  do 4 (apply bind_pure_outcome in H; [|apply pure_HDassert];
        destruct H as [([] & _ & H) | (-> & Hr)]; [|apply Hstop; exact Hr]).
  unfold bind at 1 in H. unfold call at 1 in H. rewrite Hget in H.
  rewrite Z.eqb_refl in H. cbn [negb] in H.
  unfold bind at 1 in H. unfold ret at 1 in H.
  apply bind_outcome in H.
  destruct H as [([] & m3 & Hrem & H) | [(Hrem & ->) | (Hrem & ->)]];
    apply remove_entry_eot_run in Hrem;
    destruct Hrem as (Hr3 & Hf3 & Ht3 & Hq3); try discriminate Hr3.
  msimpl_in Hf3. msimpl_in Ht3. msimpl_in Hq3.
  pose proof (insert_entry_eot_frame _ _ _ _ H) as (Hf4 & Ht4).
  split; [congruence|]. split; [congruence|].
  intros ->. apply insert_entry_eot_run in H.
  destruct H as (_ & Hq4 & _). rewrite Hq4, Hq3.
  unfold eot_entry_of. rewrite Hf3. reflexivity.
Qed.

(** The reader of [test_reader], in tick 2, finds tick 2 in the header. *)
Lemma reader_eot_same_tick_witness :
  let m := test_reader_machine 2 in
  let c := H5F_vfd_swmr_reader_end_of_tick 1 in
  c m = (SUCCEED tt, run_state c m) /\
  reader_same_tick_frame (reader_file m 1) m (run_state c m) (SUCCEED tt).
Proof.
  intros m c.
  assert (Hrun : c m = (SUCCEED tt, run_state c m))
    by (apply run_eq; vm_compute; reflexivity).
  split; [exact Hrun|].
  apply (reader_eot_same_tick 1 m (run_state c m) (SUCCEED tt)
           (m_world m) Hrun).
  reflexivity.
Defined.

(* ================================================================== *)
(** * Further properties of the code                                   *)
(* ================================================================== *)

(** ** The EOT queue: removal, globals, round trip *)

Lemma eot_find_file_Some (q : list eot_queue_entry_t) (f : Z) :
  forall k j,
    eot_find_file q f k = Some j ->
    exists l1 e l2,
      q = l1 ++ e :: l2 /\ eot_vfd_swmr_file e = f /\
      Forall (fun e' => eot_vfd_swmr_file e' <> f) l1 /\
      j = (k + List.length l1)%nat.
Proof.
  induction q as [|curr q IH]; intros k j H; [discriminate|].
  cbn [eot_find_file] in H.
  destruct (Z.eqb_spec (eot_vfd_swmr_file curr) f) as [E | E].
  - injection H as <-. exists [], curr, q.
    repeat split; [exact E | constructor | simpl; lia].
  - apply IH in H. destruct H as (l1 & e & l2 & -> & He & Hl1 & ->).
    exists (curr :: l1), e, l2.
    repeat split; [exact He | constructor; assumption | simpl; lia].
Qed.

Lemma eot_find_file_None (q : list eot_queue_entry_t) (f : Z) :
  forall k, eot_find_file q f k = None ->
    Forall (fun e => eot_vfd_swmr_file e <> f) q.
Proof.
  induction q as [|curr q IH]; intros k H; [constructor|].
  cbn [eot_find_file] in H.
  destruct (Z.eqb_spec (eot_vfd_swmr_file curr) f) as [E | E];
    [discriminate|].
  constructor; [exact E | apply (IH _ H)].
Qed.

Lemma eot_find_file_app (l1 l2 : list eot_queue_entry_t)
    (e : eot_queue_entry_t) (f : Z) :
  Forall (fun e' => eot_vfd_swmr_file e' <> f) l1 ->
  eot_vfd_swmr_file e = f ->
  forall k, eot_find_file (l1 ++ e :: l2) f k = Some (k + List.length l1)%nat.
Proof.
  intros Hl1 He. induction Hl1 as [|x l1 Hx _ IH]; intros k; simpl.
  - rewrite He, Z.eqb_refl. f_equal. lia.
  - destruct (Z.eqb_spec (eot_vfd_swmr_file x) f) as [E | _];
      [contradiction|].
    rewrite IH. f_equal. lia.
Qed.

Lemma TAILQ_REMOVE_app {A} (l1 l2 : list A) (e : A) :
  TAILQ_REMOVE (l1 ++ e :: l2) (List.length l1) = l1 ++ l2.
Proof.
  unfold TAILQ_REMOVE.
  rewrite firstn_app, firstn_all, Nat.sub_diag, firstn_O, app_nil_r.
  replace (S (List.length l1)) with (List.length (l1 ++ [e]))
    by (rewrite length_app; simpl; lia).
  replace (l1 ++ e :: l2) with ((l1 ++ [e]) ++ l2)
    by (rewrite <- app_assoc; reflexivity).
  rewrite skipn_app, skipn_all, Nat.sub_diag. reflexivity.
Qed.

Lemma eot_queue_remove_first (q : list eot_queue_entry_t) (f : Z) :
  eot_first_removed q f (eot_queue_remove q f).
Proof.
  unfold eot_queue_remove, eot_first_removed.
  destruct (eot_find_file q f 0) as [k|] eqn:Hfind.
  - right. apply eot_find_file_Some in Hfind.
    destruct Hfind as (l1 & e & l2 & -> & He & Hl1 & ->).
    exists l1, e, l2. repeat split; try assumption.
    apply TAILQ_REMOVE_app.
  - left. split; [|reflexivity]. apply (eot_find_file_None _ _ _ Hfind).
Qed.

Lemma eot_set_globals_run {X : Externals} (m : machine X) :
  exists m',
    eot_set_globals m = (SUCCEED tt, m') /\
    eot_queue_g m' = eot_queue_g m /\ m_files m' = m_files m /\
    m_trace m' = m_trace m /\ eot_globals_mirror_head m m'.
Proof.
  unfold eot_set_globals, modify, eot_globals_mirror_head.
  eexists. split; [reflexivity|].
  destruct (eot_queue_g m) as [|first rest] eqn:Hq; msimpl; rewrite Hq;
    repeat split.
Qed.

(** X1. [H5F_vfd_swmr_remove_entry_eot] has no failure: it always returns
    SUCCEED, for a NULL file pointer too.  It takes the first entry for the
    file off the queue and leaves the other entries in their order; a queue
    without an entry for the file is left as it is.  Afterwards the two
    globals are those of the first entry left; when no entry is left,
    [vfd_swmr_writer_g] is FALSE and [end_of_tick_g] keeps the deadline it
    had. *)
Theorem remove_entry_eot_removes_first {X : Externals} (f : Z)
    (m : machine X) :
  exists m',
    H5F_vfd_swmr_remove_entry_eot f m = (SUCCEED tt, m') /\
    eot_first_removed (eot_queue_g m) f (eot_queue_g m') /\
    eot_globals_mirror_head m m' /\
    m_files m' = m_files m /\ m_trace m' = m_trace m.
Proof.
  pose proof (eot_queue_remove_first (eot_queue_g m) f) as Hfirst.
  unfold H5F_vfd_swmr_remove_entry_eot, eot_queue_remove in *.
  unfold bind at 1. unfold get_machine at 1. unfold bind at 1.
  destruct (eot_find_file (eot_queue_g m) f 0) as [curr|].
  - unfold modify at 1.
    destruct (eot_set_globals_run
                (set_eot_queue_g (TAILQ_REMOVE (eot_queue_g m) curr) m))
      as (m' & Hrun & Hq & Hf & Ht & Hg).
    exists m'. rewrite Hrun. msimpl_in Hq. msimpl_in Hf. msimpl_in Ht.
    split; [reflexivity|]. rewrite Hq. split; [exact Hfirst|].
    split; [|split; assumption].
    unfold eot_globals_mirror_head in *. rewrite Hq in *. exact Hg.
  - unfold ret at 1.
    destruct (eot_set_globals_run m) as (m' & Hrun & Hq & Hf & Ht & Hg).
    exists m'. rewrite Hrun. split; [reflexivity|]. rewrite Hq.
    repeat split; assumption.
Qed.

Lemma timespeccmp_le_refl (a : timespec) : timespeccmp_le a a = true.
Proof. unfold timespeccmp_le. rewrite Z.eqb_refl. apply Z.leb_refl. Qed.

Lemma timespeccmp_le_trans (a b c : timespec) :
  timespeccmp_le a b = true -> timespeccmp_le b c = true ->
  timespeccmp_le a c = true.
Proof.
  unfold timespeccmp_le.
  destruct (Z.eqb_spec (tv_sec a) (tv_sec b)),
           (Z.eqb_spec (tv_sec b) (tv_sec c)),
           (Z.eqb_spec (tv_sec a) (tv_sec c));
    rewrite ?Z.leb_le; lia.
Qed.

Lemma eot_le_trans : Relations_1.Transitive eot_le.
Proof. intros a b c. unfold eot_le. apply timespeccmp_le_trans. Qed.

Lemma insert_entry_eot_globals {X : Externals} (f : Z) (m m' : machine X) :
  H5F_vfd_swmr_insert_entry_eot f m = (SUCCEED tt, m') ->
  eot_queue_g m' <> [] /\ eot_globals_mirror_head m m'.
Proof.
  intros H. unfold H5F_vfd_swmr_insert_entry_eot in H.
  run_step_true H. do 3 run_step H.
  match type of H with
  | eot_set_globals ?m0 = _ =>
      destruct (eot_set_globals_run m0) as (m1 & Hrun & Hq & _ & _ & Hg)
  end.
  rewrite Hrun in H. injection H as <-.
  assert (Hne : eot_queue_g m1 <> []).
  { rewrite Hq. msimpl.
    destruct (eot_find_prec _ _ _);
      unfold TAILQ_INSERT_AFTER, TAILQ_INSERT_HEAD;
      [intros E; apply app_eq_nil in E; destruct E; discriminate
      | discriminate]. }
  split; [exact Hne|].
  unfold eot_globals_mirror_head in *.
  destruct (eot_queue_g m1); [contradiction | exact Hg].
Qed.

(** X2. After a successful [H5F_vfd_swmr_insert_entry_eot] on a queue
    sorted by [end_of_tick], the queue is not empty, [vfd_swmr_writer_g]
    and [end_of_tick_g] are those of its first entry, and no entry of the
    queue has a deadline before [end_of_tick_g]: the global deadline is the
    earliest one. *)
Theorem insert_entry_eot_global_deadline_earliest {X : Externals} (f : Z)
    (m m' : machine X) :
  H5F_vfd_swmr_insert_entry_eot f m = (SUCCEED tt, m') ->
  Sorted eot_le (eot_queue_g m) ->
  exists first rest,
    eot_queue_g m' = first :: rest /\
    vfd_swmr_writer_g m' = eot_vfd_swmr_writer first /\
    end_of_tick_g m' = eot_end_of_tick first /\
    Forall (fun e =>
              timespeccmp_le (end_of_tick_g m') (eot_end_of_tick e) = true)
           (eot_queue_g m').
Proof.
  intros H Hs.
  destruct (insert_entry_eot_globals f m m' H) as (Hne & Hg).
  destruct (insert_entry_eot_run f m m' H) as (_ & Hq & _).
  assert (Hs' : Sorted eot_le (eot_queue_g m')).
  { rewrite Hq.
    apply eot_inserted_sorted with (q := eot_queue_g m) (e := eot_entry_of m f);
      [apply eot_queue_insert_split | exact Hs]. }
  unfold eot_globals_mirror_head in Hg.
  destruct (eot_queue_g m') as [|first rest]; [contradiction|].
  destruct Hg as (Hw & Hd). exists first, rest.
  split; [reflexivity|]. split; [exact Hw|]. split; [exact Hd|].
  rewrite Hd.
  apply (Sorted_StronglySorted eot_le_trans) in Hs'.
  inversion Hs' as [|? ? _ Hall]; subst.
  constructor; [apply timespeccmp_le_refl | exact Hall].
Qed.

Lemma insert_entry_eot_global_deadline_earliest_witness :
  let m := test_machine test_queue test_writer in
  let m' := snd (H5F_vfd_swmr_insert_entry_eot 1 m) in
  H5F_vfd_swmr_insert_entry_eot 1 m = (SUCCEED tt, m') /\
  Sorted eot_le (eot_queue_g m) /\
  exists first rest,
    eot_queue_g m' = first :: rest /\
    vfd_swmr_writer_g m' = eot_vfd_swmr_writer first /\
    end_of_tick_g m' = eot_end_of_tick first /\
    Forall (fun e =>
              timespeccmp_le (end_of_tick_g m') (eot_end_of_tick e) = true)
           (eot_queue_g m').
Proof.
  intros m m'.
  assert (Hrun : H5F_vfd_swmr_insert_entry_eot 1 m = (SUCCEED tt, m'))
    by reflexivity.
  assert (Hs : Sorted eot_le (eot_queue_g m))
    by (repeat constructor; reflexivity).
  split; [exact Hrun|]. split; [exact Hs|].
  exact (insert_entry_eot_global_deadline_earliest 1 m m' Hrun Hs).
Defined.

(** X3. Insertion and removal compose to the identity on the queue: when
    the queue holds no entry for the file, a successful
    [H5F_vfd_swmr_insert_entry_eot] followed by
    [H5F_vfd_swmr_remove_entry_eot] for the same file gives back the queue
    as it was. *)
Theorem insert_then_remove_entry_eot {X : Externals} (f : Z)
    (m m1 : machine X) :
  H5F_vfd_swmr_insert_entry_eot f m = (SUCCEED tt, m1) ->
  eot_not_queued (eot_queue_g m) f ->
  exists m2,
    H5F_vfd_swmr_remove_entry_eot f m1 = (SUCCEED tt, m2) /\
    eot_queue_g m2 = eot_queue_g m.
Proof.
  intros H Hnot.
  destruct (insert_entry_eot_run f m m1 H) as (_ & Hq & _).
  destruct (H5F_vfd_swmr_remove_entry_eot f m1) as [r m2] eqn:Hrem.
  apply remove_entry_eot_run in Hrem. destruct Hrem as (-> & _ & _ & Hq2).
  exists m2. split; [reflexivity|]. rewrite Hq2, Hq.
  destruct (eot_queue_insert_split (eot_queue_g m) (eot_entry_of m f))
    as (l1 & l2 & Hsplit & -> & _).
  rewrite Hsplit in *. unfold eot_not_queued in Hnot.
  apply Forall_app in Hnot. destruct Hnot as (Hl1 & _).
  unfold eot_queue_remove.
  rewrite (eot_find_file_app l1 l2 (eot_entry_of m f) f Hl1 eq_refl).
  apply TAILQ_REMOVE_app.
Qed.

Lemma insert_then_remove_entry_eot_witness :
  let m := test_machine test_queue test_writer in
  let m1 := snd (H5F_vfd_swmr_insert_entry_eot 1 m) in
  H5F_vfd_swmr_insert_entry_eot 1 m = (SUCCEED tt, m1) /\
  eot_not_queued (eot_queue_g m) 1 /\
  exists m2,
    H5F_vfd_swmr_remove_entry_eot 1 m1 = (SUCCEED tt, m2) /\
    eot_queue_g m2 = eot_queue_g m.
Proof.
  intros m m1.
  assert (Hrun : H5F_vfd_swmr_insert_entry_eot 1 m = (SUCCEED tt, m1))
    by reflexivity.
  assert (Hnot : eot_not_queued (eot_queue_g m) 1)
    by (repeat constructor; discriminate).
  split; [exact Hrun|]. split; [exact Hnot|].
  exact (insert_then_remove_entry_eot 1 m m1 Hrun Hnot).
Defined.

(** ** The EOT queue across an end of tick *)

Lemma StronglySorted_app_remove {A} (R : A -> A -> Prop) (l1 l2 : list A)
    (e : A) :
  StronglySorted R (l1 ++ e :: l2) -> StronglySorted R (l1 ++ l2).
Proof.
  induction l1 as [|x l1 IH]; simpl; intros H.
  - inversion H; assumption.
  - inversion H as [|? ? Hs Hall]; subst. constructor; [apply IH; exact Hs|].
    apply Forall_app in Hall. destruct Hall as (H1 & H2).
    apply Forall_app. split; [exact H1|]. inversion H2; assumption.
Qed.

Lemma eot_first_removed_sorted (q q' : list eot_queue_entry_t) (g : Z) :
  eot_first_removed q g q' -> Sorted eot_le q -> Sorted eot_le q'.
Proof.
  intros [(_ & ->) | (l1 & e & l2 & -> & _ & _ & ->)] Hs; [exact Hs|].
  apply StronglySorted_Sorted.
  apply StronglySorted_app_remove with (e := e).
  apply (Sorted_StronglySorted eot_le_trans). exact Hs.
Qed.

Lemma eot_not_queued_files (q : list eot_queue_entry_t) (g : Z) :
  eot_not_queued q g <-> ~ In g (eot_files q).
Proof.
  unfold eot_not_queued, eot_files. rewrite Forall_forall. split.
  - intros H Hin. apply in_map_iff in Hin. destruct Hin as (e & He & Hin).
    apply (H e Hin He).
  - intros H e Hin He. apply H. apply in_map_iff. exists e. auto.
Qed.

(** Removal and insertion again of the entry of a file. *)
Lemma eot_queue_requeued (q : list eot_queue_entry_t) (g : Z)
    (e : eot_queue_entry_t) :
  eot_vfd_swmr_file e = g ->
  eot_requeued q g e (eot_queue_insert (eot_queue_remove q g) e).
Proof.
  intros He.
  pose proof (eot_queue_remove_first q g) as Hrem.
  set (r := eot_queue_remove q g) in *.
  pose proof (eot_queue_insert_split r e) as Hins.
  set (q' := eot_queue_insert r e) in *.
  pose proof Hins as (a & b & Hr & Hq' & _).
  unfold eot_requeued. split; [|split; [|split]].
  - rewrite Hq'. apply in_or_app. right. left. reflexivity.
  - intros x Hx.
    assert (Hqr : In x q' <-> In x r).
    { rewrite Hq', Hr, !in_app_iff. simpl. split.
      - intros [H | [H | H]]; [left; exact H | | right; exact H].
        subst x. contradiction.
      - intros [H | H]; [left; exact H | right; right; exact H]. }
    rewrite Hqr.
    destruct Hrem as [(_ & ->) | (l1 & y & l2 & -> & Hy & _ & ->)];
      [reflexivity|].
    rewrite !in_app_iff. simpl. split.
    + intros [H | H]; [left; exact H | right; right; exact H].
    + intros [H | [H | H]]; [left; exact H | | right; exact H].
      subst x. contradiction.
  - intros Hs. apply eot_inserted_sorted with (q := r) (e := e);
      [exact Hins|].
    apply (eot_first_removed_sorted q r g Hrem Hs).
  - intros Hnd.
    assert (Hr' : NoDup (eot_files r) /\ ~ In g (eot_files r)).
    { destruct Hrem as [(Hnot & ->) | (l1 & y & l2 & -> & Hy & _ & ->)].
      - split; [exact Hnd|]. apply eot_not_queued_files. exact Hnot.
      - unfold eot_files in *. rewrite map_app in *. simpl in Hnd.
        rewrite Hy in Hnd. apply NoDup_remove in Hnd. exact Hnd. }
    destruct Hr' as (Hnd' & Hnot).
    unfold eot_files in *. rewrite Hq', map_app. simpl. rewrite He.
    rewrite Hr, map_app in Hnd', Hnot.
    apply (Permutation_NoDup (Permutation_middle _ _ _)).
    constructor; assumption.
Qed.

(** The queue after a successful reader end of tick. *)
Lemma reader_end_of_tick_queue {X : Externals} (f : Z) (m m' : machine X) :
  H5F_vfd_swmr_reader_end_of_tick f m = (SUCCEED tt, m') ->
  let g := reader_file m f in
  eot_queue_g m' =
    eot_queue_insert (eot_queue_remove (eot_queue_g m) g) (eot_entry_of m' g).
Proof.
  intros H g. unfold H5F_vfd_swmr_reader_end_of_tick in H.
  apply bind_SUCCEED in H. destruct H as (m0 & ? & Hm & H).
  apply get_machine_SUCCEED in Hm. destruct Hm as (-> & ->).
  apply bind_SUCCEED in H. destruct H as (g' & m2 & Hg & H).
  assert (Hg' : g' = g /\ m2 = m).
  { subst g. unfold reader_file.
    destruct (f =? 0).
    - destruct (eot_queue_g m); [discriminate|].
      apply ret_SUCCEED in Hg. exact Hg.
    - apply ret_SUCCEED in Hg. exact Hg. }
  destruct Hg' as (-> & ->).
  do 6 run_step H. run_step_as H tmp.
  destruct tmp as [tmp_tick_num|]; [|discriminate].
  apply bind_SUCCEED in H. destruct H as ([] & m1 & Hnew & H).
  assert (Hq1 : eot_queue_g m1 = eot_queue_g m).
  { destruct (negb (tmp_tick_num =? tick_num (m_files m g))).
    - apply reader_new_tick_success in Hnew.
      destruct Hnew as (_ & _ & _ & _ & Hq & _). exact Hq.
    - apply ret_SUCCEED in Hnew. destruct Hnew as (_ & ->). reflexivity. }
  apply bind_SUCCEED in H. destruct H as ([] & m3 & Hrem & H).
  apply remove_entry_eot_run in Hrem. destruct Hrem as (_ & Hf3 & _ & Hq3).
  apply insert_entry_eot_run in H. destruct H as (_ & Hq4 & Hf4 & _).
  rewrite Hq4, Hq3, Hq1. unfold eot_entry_of. rewrite Hf4. reflexivity.
Qed.

(** X4. A successful [H5F_vfd_swmr_reader_end_of_tick] leaves in the EOT
    queue an entry for the file that carries the tick number and the
    deadline the file has on return; the entries of the other files are
    the ones that were queued; a queue sorted by deadline is still sorted,
    and a queue with at most one entry per file still has at most one. *)
Theorem reader_eot_requeues_file {X : Externals} (f : Z) (m m' : machine X) :
  H5F_vfd_swmr_reader_end_of_tick f m = (SUCCEED tt, m') ->
  let g := reader_file m f in
  eot_requeued (eot_queue_g m) g (eot_entry_of m' g) (eot_queue_g m').
Proof.
  intros H g. rewrite (reader_end_of_tick_queue f m m' H). fold g.
  apply eot_queue_requeued. reflexivity.
Qed.

Lemma reader_eot_requeues_file_witness :
  let m := test_reader_machine 5 in
  let c := H5F_vfd_swmr_reader_end_of_tick 1 in
  c m = (SUCCEED tt, run_state c m) /\
  eot_requeued (eot_queue_g m) (reader_file m 1)
    (eot_entry_of (run_state c m) (reader_file m 1))
    (eot_queue_g (run_state c m)).
Proof.
  intros m c.
  assert (Hrun : c m = (SUCCEED tt, run_state c m))
    by (apply run_eq; vm_compute; reflexivity).
  split; [exact Hrun|].
  exact (reader_eot_requeues_file 1 m (run_state c m) Hrun).
Defined.

(** ** Ticks and deadlines *)

(** X5. A successful [H5F__vfd_swmr_update_end_of_tick_and_tick_num] sets
    the deadline of the file and the global deadline [end_of_tick_g] to the
    same value: the reading of the monotonic clock plus [tick_len] tenths
    of a second, with the nanoseconds normalised below one second.  The
    tick number is incremented (in 64 bits) exactly when [incr_tick_num] is
    set.  The clock reading and the tick length are taken in the range
    where the C arithmetic does not overflow. *)
Theorem update_end_of_tick_sets_deadline {X : Externals} (f : Z)
    (incr_tick_num : bool) (m m' : machine X) (now : timespec)
    (w : World X) :
  H5F__vfd_swmr_update_end_of_tick_and_tick_num f incr_tick_num m
    = (SUCCEED tt, m') ->
  HDclock_gettime X (m_world m) = (Some now, w) ->
  deadline_in_range now (tick_len (vfd_swmr_config (m_files m f))) ->
  let s := m_files m f in
  let s' := m_files m' f in
  deadline_after now (tick_len (vfd_swmr_config s)) (end_of_tick s') /\
  end_of_tick_g m' = end_of_tick s' /\
  tick_num s' = (if incr_tick_num then u64 (tick_num s + 1) else tick_num s).
Proof.
  intros H Hclock (Hsec & Hnsec & Hlen & Hfit & _) s s'.
  unfold H5F__vfd_swmr_update_end_of_tick_and_tick_num in H.
  run_step_as H curr. rewrite Hclock in Hw. injection Hw as <- <-.
  run_step H. fold s in H. fold s in Hlen, Hfit.
  assert (Htl : u32 (tick_len (vfd_swmr_config s) * nanosecs_per_tenth_sec)
                = tick_len (vfd_swmr_config s) * nanosecs_per_tenth_sec).
  { unfold u32. apply Z.mod_small. unfold UINT32_MAX in Hfit.
    unfold nanosecs_per_tenth_sec in *. lia. }
  assert (Hdead : forall t,
            t = mk_timespec
                  (Z.quot (tv_sec now * nanosecs_per_second + tv_nsec now +
                           u32 (tick_len (vfd_swmr_config s) *
                                nanosecs_per_tenth_sec))
                          nanosecs_per_second)
                  (Z.rem (tv_sec now * nanosecs_per_second + tv_nsec now +
                          u32 (tick_len (vfd_swmr_config s) *
                               nanosecs_per_tenth_sec))
                         nanosecs_per_second) ->
            deadline_after now (tick_len (vfd_swmr_config s)) t).
  { intros t ->. rewrite Htl. unfold deadline_after. cbn [tv_sec tv_nsec].
    set (n := tv_sec now * nanosecs_per_second + tv_nsec now +
              tick_len (vfd_swmr_config s) * nanosecs_per_tenth_sec).
    assert (Hn : 0 <= n)
      by (unfold n, nanosecs_per_second, nanosecs_per_tenth_sec; lia).
    pose proof (Z.quot_rem' n nanosecs_per_second) as Hqr.
    pose proof (Z.rem_bound_pos n nanosecs_per_second Hn) as Hb.
    unfold nanosecs_per_second in *. lia. }
  apply bind_SUCCEED in H. destruct H as ([] & m0 & Hinc & H).
  destruct incr_tick_num.
  - do 2 run_step Hinc. run_step_true Hinc.
    apply ret_SUCCEED in Hinc. destruct Hinc as (_ & ->).
    do 2 run_step H.
    apply store_shared_SUCCEED in H. subst m'. subst s'. msimpl.
    rewrite !upd_files_same. msimpl.
    split; [apply Hdead; reflexivity|]. split; reflexivity.
  - apply ret_SUCCEED in Hinc. destruct Hinc as (_ & ->).
    do 2 run_step H.
    apply store_shared_SUCCEED in H. subst m'. subst s'. msimpl.
    rewrite !upd_files_same. msimpl.
    split; [apply Hdead; reflexivity|]. split; reflexivity.
Qed.

Lemma update_end_of_tick_sets_deadline_witness :
  let m := test_machine [] test_writer in
  let c := H5F__vfd_swmr_update_end_of_tick_and_tick_num 1 true in
  c m = (SUCCEED tt, run_state c m) /\
  deadline_after (mk_timespec 100 0) 1
    (end_of_tick (m_files (run_state c m) 1)) /\
  end_of_tick_g (run_state c m) = end_of_tick (m_files (run_state c m) 1) /\
  tick_num (m_files (run_state c m) 1) = 5.
Proof.
  intros m c.
  assert (Hrun : c m = (SUCCEED tt, run_state c m))
    by (apply run_eq; vm_compute; reflexivity).
  split; [exact Hrun|].
  apply (update_end_of_tick_sets_deadline 1 true m (run_state c m)
           (mk_timespec 100 0) (m_world m) Hrun eq_refl).
  unfold deadline_in_range. vm_compute. repeat split; discriminate.
Defined.

(** X6. A call of [H5F__vfd_swmr_update_end_of_tick_and_tick_num] that
    does not succeed changes no deadline: the deadline of the file,
    [end_of_tick_g] and the EOT queue are as before.  The update is not
    atomic, though: when [H5PB_vfd_swmr__set_tick] fails, the call returns
    FAIL with the tick number already incremented. *)
Theorem update_end_of_tick_failure_keeps_deadline {X : Externals} (f : Z)
    (incr_tick_num : bool) (m m' : machine X) (r : result unit) :
  H5F__vfd_swmr_update_end_of_tick_and_tick_num f incr_tick_num m = (r, m') ->
  r <> SUCCEED tt ->
  end_of_tick_failure_frame f incr_tick_num r m m'.
Proof.
  intros H Hr. unfold end_of_tick_failure_frame.
  unfold H5F__vfd_swmr_update_end_of_tick_and_tick_num in H.
  unfold_monad. break_run H.
  all: injection H as <- <-; msimpl; rewrite ?upd_files_same; msimpl.
  all: try (exfalso; apply Hr; reflexivity).
  all: repeat split; auto.
Qed.

Lemma update_end_of_tick_failure_keeps_deadline_witness :
  let X := set_tick_failing_externals in
  let m := test_machine_in X (mk_test_world 12288 5 []) [] test_writer in
  let c := @H5F__vfd_swmr_update_end_of_tick_and_tick_num X 1 true in
  c m = (FAIL, run_state c m) /\
  end_of_tick_failure_frame 1 true FAIL m (run_state c m) /\
  tick_num (m_files (run_state c m) 1) = 5.
Proof.
  intros X m c.
  assert (Hrun : c m = (FAIL, run_state c m))
    by (apply run_eq; vm_compute; reflexivity).
  split; [exact Hrun|]. split; [|vm_compute; reflexivity].
  apply (update_end_of_tick_failure_keeps_deadline 1 true m (run_state c m)
           FAIL Hrun).
  discriminate.
Defined.

(** ** Flush and close *)

(** Whatever its outcome, [H5F__vfd_swmr_update_end_of_tick_and_tick_num]
    logs no call. *)
Lemma update_end_of_tick_trace {X : Externals} (f : Z) (incr_tick_num : bool)
    (m m' : machine X) (r : result unit) :
  H5F__vfd_swmr_update_end_of_tick_and_tick_num f incr_tick_num m = (r, m') ->
  m_trace m' = m_trace m.
Proof.
  intros H. unfold H5F__vfd_swmr_update_end_of_tick_and_tick_num in H.
  unfold_monad. break_run H.
  all: injection H as <- <-; reflexivity.
Qed.

(** X7. A successful [H5F_vfd_swmr_close_or_flush] with [closing] false (a
    flush) writes an index of no entries and then the header, both carrying
    the tick number of the file at the call, and then increments the tick
    number and sets a new deadline; it neither closes nor unlinks the
    shadow file, and leaves the deferred-free queue and the in-memory index
    as they are. *)
Theorem flush_writes_empty_index_and_advances_tick {X : Externals} (f : Z)
    (m m' : machine X) :
  H5F_vfd_swmr_close_or_flush f false m = (SUCCEED tt, m') ->
  flush_outcome f m m'.
Proof.
  intros H. unfold H5F_vfd_swmr_close_or_flush in H.
  do 3 run_step H.
  apply bind_SUCCEED in H. destruct H as ([] & m1 & Hidx & H).
  apply construct_write_md_idx_run in Hidx.
  destruct Hidx as (Hfiles1 & _ & _ & Htrace1). specialize (Htrace1 eq_refl).
  apply bind_SUCCEED in H. destruct H as ([] & m2 & Hhdr & H).
  apply construct_write_md_hdr_run in Hhdr.
  destruct Hhdr as (Hfiles2 & _ & _ & Htrace2). specialize (Htrace2 eq_refl).
  rewrite Hfiles1 in Htrace2. rewrite Htrace1 in Htrace2.
  cbn [firstn Z.to_nat] in Htrace2.
  pose proof (update_end_of_tick_trace _ _ _ _ _ H) as Htrace3.
  unfold H5F__vfd_swmr_update_end_of_tick_and_tick_num in H.
  run_step_as H curr. destruct curr as [curr|]; [|discriminate].
  run_step H. rewrite Hfiles2, Hfiles1 in H.
  apply bind_SUCCEED in H. destruct H as ([] & m3 & Hinc & H).
  do 2 run_step Hinc. run_step_true Hinc.
  apply ret_SUCCEED in Hinc. destruct Hinc as (_ & ->).
  do 2 run_step H. apply store_shared_SUCCEED in H.
  unfold flush_outcome, close_or_flush_events.
  rewrite Htrace3, Htrace2, <- app_assoc. subst m'. msimpl.
  rewrite !upd_files_same. msimpl. repeat split.
Qed.

Lemma flush_writes_empty_index_and_advances_tick_witness :
  let m := test_machine [] test_writer in
  let c := H5F_vfd_swmr_close_or_flush 1 false in
  c m = (SUCCEED tt, run_state c m) /\ flush_outcome 1 m (run_state c m).
Proof.
  intros m c.
  assert (Hrun : c m = (SUCCEED tt, run_state c m))
    by (apply run_eq; vm_compute; reflexivity).
  split; [exact Hrun|].
  exact (flush_writes_empty_index_and_advances_tick 1 m (run_state c m) Hrun).
Defined.

(** X8. Whatever the outcome of [H5F_vfd_swmr_close_or_flush], the calls it
    has issued are a prefix of: write of the empty index, write of the
    header, close of the shadow file, unlink of the shadow file, close of
    the free-space manager.  So the shadow file is never unlinked before it
    was closed, and never closed before the final header was written; a
    flush issues the two writes at most. *)
Theorem close_or_flush_issues_prefix {X : Externals} (f : Z) (closing : bool)
    (m m' : machine X) (r : result unit) :
  H5F_vfd_swmr_close_or_flush f closing m = (r, m') ->
  close_or_flush_prefix f closing r m m'.
Proof.
  intros H. unfold close_or_flush_prefix, close_or_flush_events.
  set (s := m_files m f).
  set (wi := EvWrite WIndex (vfd_swmr_md_fd s)
               (to_int64 (writer_index_offset s)) (md_idx_image X s 0 [])
               (H5FD_MD_INDEX_SIZE 0)).
  set (wh := EvWrite WHeader (vfd_swmr_md_fd s) H5FD_MD_HEADER_OFF
               (md_hdr_image X s 0) H5FD_MD_HEADER_SIZE).
  assert (Hstop0 : forall r0, r0 <> SUCCEED tt ->
            exists k,
              m_trace m = m_trace m ++ firstn k ([wi; wh] ++
                (if closing
                 then [EvClose (vfd_swmr_md_fd s);
                       EvUnlink (md_file_path (vfd_swmr_config s));
                       EvMVClose]
                 else [])) /\
              (r0 = SUCCEED tt -> m_trace m = m_trace m ++ [wi; wh] ++
                (if closing
                 then [EvClose (vfd_swmr_md_fd s);
                       EvUnlink (md_file_path (vfd_swmr_config s));
                       EvMVClose]
                 else []))).
  { intros r0 Hr0. exists 0%nat. rewrite app_nil_r.
    split; [reflexivity | contradiction]. }
  unfold H5F_vfd_swmr_close_or_flush in H.
  apply bind_pure_outcome in H; [|apply pure_shared_of].
  destruct H as [(shared & Hs & H) | (-> & Hr)];
    [|apply Hstop0; apply Hr].
  apply shared_of_SUCCEED in Hs. destruct Hs as (Hf0 & -> & _). fold s in H.
  do 2 (apply bind_pure_outcome in H; [|apply pure_HDassert];
        destruct H as [([] & _ & H) | (-> & Hr)];
          [|apply Hstop0; apply Hr]).
  apply bind_outcome in H.
  destruct H as [([] & m1 & Hidx & H) | [(Hidx & ->) | (Hidx & ->)]].
  2,3: apply construct_write_md_idx_run in Hidx;
    destruct Hidx as (_ & _ & [Ht | Ht] & _);
    [exists 0%nat | exists 1%nat]; rewrite Ht; cbn [firstn app];
    rewrite ?app_nil_r; (split; [reflexivity | discriminate]).
  apply construct_write_md_idx_run in Hidx.
  destruct Hidx as (Hfiles1 & _ & _ & Htrace1). specialize (Htrace1 eq_refl).
  cbn [firstn Z.to_nat] in Htrace1. fold s in Htrace1. fold wi in Htrace1.
  apply bind_outcome in H.
  destruct H as [([] & m2 & Hhdr & H) | [(Hhdr & ->) | (Hhdr & ->)]].
  2,3: apply construct_write_md_hdr_run in Hhdr;
    destruct Hhdr as (_ & _ & [Ht | Ht] & _);
    [exists 1%nat | exists 2%nat]; rewrite Ht, Htrace1, ?Hfiles1;
    cbn [firstn app]; rewrite <- ?app_assoc;
    (split; [reflexivity | discriminate]).
  apply construct_write_md_hdr_run in Hhdr.
  destruct Hhdr as (Hfiles2 & _ & _ & Htrace2). specialize (Htrace2 eq_refl).
  rewrite Hfiles1 in Htrace2. fold s in Htrace2. fold wh in Htrace2.
  rewrite Htrace1, <- app_assoc in Htrace2. cbn [app] in Htrace2.
  assert (Hs2 : m_files m2 f = s) by (rewrite Hfiles2, Hfiles1; reflexivity).
  destruct closing.
  - unfold_monad. rewrite Hs2 in H. break_run H.
    all: rewrite ?Hs2 in H; msimpl_in H; rewrite ?upd_files_same in H;
      msimpl_in H.
    all: injection H as <- <-; msimpl; rewrite Htrace2, <- ?app_assoc;
      cbn [app].
    all: first
      [ exists 5%nat; split; [reflexivity | intros _; reflexivity]
      | exists 5%nat; split; [reflexivity | discriminate]
      | exists 4%nat; split; [reflexivity | discriminate]
      | exists 3%nat; split; [reflexivity | discriminate]
      | exists 2%nat; split; [reflexivity | discriminate] ].
  - apply update_end_of_tick_trace in H. rewrite H, Htrace2.
    exists 2%nat. split; reflexivity.
Qed.

Lemma close_or_flush_issues_prefix_witness :
  let m := test_machine [] test_writer in
  let c := H5F_vfd_swmr_close_or_flush 1 true in
  c m = (SUCCEED tt, run_state c m) /\
  close_or_flush_prefix 1 true (SUCCEED tt) m (run_state c m).
Proof.
  intros m c.
  assert (Hrun : c m = (SUCCEED tt, run_state c m))
    by (apply run_eq; vm_compute; reflexivity).
  split; [exact Hrun|].
  exact (close_or_flush_issues_prefix 1 true m (run_state c m) (SUCCEED tt)
           Hrun).
Defined.

(** ** Creation and enlargement of the in-memory index *)

(** X9. A successful [H5F__vfd_swmr_writer__create_index] gives the file an
    index of zeroed slots, none of them used, whose length is the largest
    number of entries whose encoded index fits the reserved pages but the
    first: the index of that length fits, an index of one more entry does
    not.  The length is at least 1 and at most [UINT32_MAX]; in particular
    the call cannot succeed when the bytes available are fewer than the
    size of an index of one entry, the wrapped subtraction being caught by
    the assertion on the length. *)
Theorem create_index_largest_that_fits {X : Externals} (f : Z)
    (m m' : machine X) :
  H5F__vfd_swmr_writer__create_index f m = (SUCCEED tt, m') ->
  create_index_outcome f m m'.
Proof.
  unfold H5F__vfd_swmr_writer__create_index. intros H.
  do 7 run_step H. run_step_true H. run_step H.
  apply store_shared_SUCCEED in H. subst m'.
  unfold create_index_outcome. msimpl. rewrite upd_files_same. msimpl.
  fold (index_bytes_available (m_files m f)) in *.
  set (B := index_bytes_available (m_files m f)) in *.
  match goal with
  | Hpos : (0 <? u64 (B - H5FD_MD_INDEX_SIZE 0) / H5FD_MD_INDEX_ENTRY_SIZE)
           = true,
    Hmax : (u64 (B - H5FD_MD_INDEX_SIZE 0) / H5FD_MD_INDEX_ENTRY_SIZE
            <=? UINT32_MAX) = true,
    HB : (0 <? B) = true |- _ =>
      apply Z.ltb_lt in Hpos; apply Z.leb_le in Hmax; apply Z.ltb_lt in HB;
      rename Hpos into Hn0; rename Hmax into Hn1; rename HB into HB0
  end.
  assert (HBr : 0 <= B < 2 ^ 64) by (apply Z.mod_pos_bound; lia).
  unfold H5FD_MD_INDEX_SIZE, H5FD_MD_INDEX_ENTRY_SIZE, H5_SIZEOF_MAGIC,
    UINT32_MAX in *.
  replace (4 + 8 + 4 + 0 * 16 + 4) with 20 in * by reflexivity.
  assert (HB20 : 20 <= B).
  { destruct (Z.lt_ge_cases B 20) as [Hlt | Hge]; [|exact Hge]. exfalso.
    assert (Hwrap : u64 (B - 20) = B - 20 + 2 ^ 64).
    { unfold u64. symmetry. apply Z.mod_unique with (q := -1); lia. }
    rewrite Hwrap in Hn1.
    assert (2 ^ 32 <= (B - 20 + 2 ^ 64) / 16)
      by (apply Z.div_le_lower_bound; lia).
    lia. }
  assert (Hu : u64 (B - 20) = B - 20) by (apply u64_small; lia).
  rewrite Hu in *.
  set (n := (B - 20) / 16) in *.
  exists n.
  assert (Hu32 : u32 n = n) by (unfold u32; apply Z.mod_small; lia).
  rewrite Hu32.
  pose proof (Z.div_mod (B - 20) 16 ltac:(lia)) as Hdm.
  pose proof (Z.mod_pos_bound (B - 20) 16 ltac:(lia)) as Hmb.
  fold n in Hdm.
  repeat split; try reflexivity; lia.
Qed.

Lemma create_index_largest_that_fits_witness :
  let m := test_machine [] test_writer_tick1 in
  let c := H5F__vfd_swmr_writer__create_index 1 in
  c m = (SUCCEED tt, run_state c m) /\
  create_index_outcome 1 m (run_state c m) /\
  mdf_idx_len (m_files (run_state c m) 1) = 254.
Proof.
  intros m c.
  assert (Hrun : c m = (SUCCEED tt, run_state c m))
    by (apply run_eq; vm_compute; reflexivity).
  split; [exact Hrun|]. split; [|vm_compute; reflexivity].
  exact (create_index_largest_that_fits 1 m (run_state c m) Hrun).
Defined.

(** X10. A successful [vfd_swmr_enlarge_shadow_index] gives the index
    twice its length, or [UINT32_MAX] slots when twice the length does not
    fit 32 bits.  So the index gains slots exactly when its length was
    neither 0 nor [UINT32_MAX]: for these two lengths the call allocates,
    copies and succeeds, and the caller gets an index that is no longer
    than before. *)
Theorem enlarge_gains_slots_unless_saturated {X : Externals} (f : Z)
    (m m' : machine X) (new_mdf_idx : list H5FD_vfd_swmr_idx_entry_t) :
  vfd_swmr_enlarge_shadow_index f m = (SUCCEED new_mdf_idx, m') ->
  0 <= mdf_idx_len (m_files m f) <= UINT32_MAX ->
  let old_len := mdf_idx_len (m_files m f) in
  let new_len := mdf_idx_len (m_files m' f) in
  new_len = Z.min (2 * old_len) UINT32_MAX /\
  mdf_idx (m_files m' f) = Some new_mdf_idx /\
  (old_len < new_len <-> 0 < old_len < UINT32_MAX).
Proof.
  intros H Hrange old_len new_len.
  apply enlarge_shadow_index_run in H.
  destruct H as (Hlen & Hidx & _). fold old_len in Hlen, Hrange.
  fold new_len in Hlen.
  assert (Hmin : new_len = Z.min (2 * old_len) UINT32_MAX).
  { rewrite Hlen. unfold UINT32_MAX in *.
    destruct (Z.geb_spec (2 ^ 32 - 1 - old_len) old_len); lia. }
  split; [exact Hmin|]. split; [exact Hidx|].
  rewrite Hmin. unfold UINT32_MAX in *. lia.
Qed.

Lemma enlarge_gains_slots_unless_saturated_witness :
  let m := test_machine [] test_writer in
  let c := vfd_swmr_enlarge_shadow_index 1 in
  let new_mdf_idx := result_value [] (run_result c m) in
  c m = (SUCCEED new_mdf_idx, run_state c m) /\
  mdf_idx_len (m_files (run_state c m) 1) = 8 /\
  mdf_idx (m_files (run_state c m) 1) = Some new_mdf_idx /\
  (4 < mdf_idx_len (m_files (run_state c m) 1) <-> 0 < 4 < UINT32_MAX).
Proof.
  intros m c new_mdf_idx.
  assert (Hrun : c m = (SUCCEED new_mdf_idx, run_state c m))
    by (apply run_eq; vm_compute; reflexivity).
  split; [exact Hrun|].
  apply (enlarge_gains_slots_unless_saturated 1 m (run_state c m)
           new_mdf_idx Hrun).
  vm_compute. split; discriminate.
Defined.

(** X11. When [H5MV_alloc] has given [vfd_swmr_enlarge_shadow_index] a
    shadow range for the new index and the allocation of the new array
    fails, the call fails after handing the range back to [H5MV_free], with
    the size it was allocated with; the file structure still has its index,
    its index offset and its deferred-free queue. *)
Theorem enlarge_malloc_failure_rolls_back {X : Externals} (f : Z)
    (m m' : machine X) (r : result (list H5FD_vfd_swmr_idx_entry_t))
    (idx_addr : Z) (w1 w2 : World X) :
  vfd_swmr_enlarge_shadow_index f m = (r, m') ->
  f <> 0 ->
  H5MV_alloc X f (H5FD_MD_INDEX_SIZE (enlarged_idx_len (m_files m f)))
    (m_world m) = (Some idx_addr, w1) ->
  HDmalloc_idx X (enlarged_idx_len (m_files m f) * sizeof_idx_entry X) w1
    = (None, w2) ->
  r = FAIL /\ enlarge_rolled_back f idx_addr m m'.
Proof.
  intros H Hf Halloc Hmalloc.
  unfold vfd_swmr_enlarge_shadow_index in H.
  fold (enlarged_idx_len (m_files m f)) in H.
  unfold_monad. apply Z.eqb_neq in Hf. rewrite Hf in H.
  fold (enlarged_idx_len (m_files m f)) in H.
  rewrite Halloc in H. msimpl_in H. rewrite Hmalloc in H. msimpl_in H.
  destruct (H5MV_free X f idx_addr _ w2) as [freed w3] eqn:Hfree.
  msimpl_in H. injection H as <- <-.
  split; [reflexivity|]. unfold enlarge_rolled_back. msimpl.
  rewrite <- app_assoc. split; reflexivity.
Qed.

Lemma enlarge_malloc_failure_rolls_back_witness :
  let X := malloc_failing_externals in
  let m := test_machine_in X (mk_test_world 12288 5 []) [] test_writer in
  let c := @vfd_swmr_enlarge_shadow_index X 1 in
  c m = (FAIL, run_state c m) /\
  enlarge_rolled_back 1 12288 m (run_state c m).
Proof.
  intros X m c.
  assert (Hrun : c m = (run_result c m, run_state c m))
    by (apply run_eq; reflexivity).
  assert (Hr : 1 <> 0) by discriminate.
  pose proof (enlarge_malloc_failure_rolls_back 1 m (run_state c m)
                (run_result c m) 12288
                (mk_test_world 16384 5 []) (mk_test_world 16384 5 [])
                Hrun Hr eq_refl eq_refl) as (Hfail & Hback).
  split; [rewrite <- Hfail; exact Hrun | exact Hback].
Defined.

(** X12. When the shadow range and the new array have been allocated and
    the record for the deferred free cannot be allocated,
    [vfd_swmr_enlarge_shadow_index] returns NULL without undoing the
    switch: the file structure already holds the new array (with the old
    slots copied), the new length and the new index offset; the allocated
    range is not freed, and nothing has been pushed on the deferred-free
    queue. *)
Theorem enlarge_defer_failure_leaves_new_index {X : Externals} (f : Z)
    (m m' : machine X) (r : result (list H5FD_vfd_swmr_idx_entry_t))
    (idx_addr : Z) (array : list H5FD_vfd_swmr_idx_entry_t)
    (w1 w2 w3 : World X) :
  vfd_swmr_enlarge_shadow_index f m = (r, m') ->
  f <> 0 ->
  H5MV_alloc X f (H5FD_MD_INDEX_SIZE (enlarged_idx_len (m_files m f)))
    (m_world m) = (Some idx_addr, w1) ->
  HDmalloc_idx X (enlarged_idx_len (m_files m f) * sizeof_idx_entry X) w1
    = (Some array, w2) ->
  H5FL_CALLOC X w2 = (false, w3) ->
  (Z.to_nat (mdf_idx_len (m_files m f))
     <= List.length (array_of (mdf_idx (m_files m f))))%nat ->
  (Z.to_nat (mdf_idx_len (m_files m f)) <= List.length array)%nat ->
  r = FAIL /\ enlarge_left_switched f idx_addr m m'.
Proof.
  intros H Hf Halloc Hmalloc Hcalloc Hold Hnew.
  unfold vfd_swmr_enlarge_shadow_index, shadow_range_defer_free in H.
  fold (enlarged_idx_len (m_files m f)) in H.
  unfold_monad. apply Z.eqb_neq in Hf. rewrite Hf in H.
  fold (enlarged_idx_len (m_files m f)) in H.
  rewrite Halloc in H. msimpl_in H. rewrite Hmalloc in H. msimpl_in H.
  unfold array_of in Hold.
  apply Nat.leb_le in Hold. apply Nat.leb_le in Hnew.
  rewrite Hold, Hnew in H. cbn [andb] in H.
  msimpl_in H. rewrite ?upd_files_same in H. msimpl_in H.
  rewrite Hcalloc in H. msimpl_in H.
  injection H as <- <-.
  split; [reflexivity|]. unfold enlarge_left_switched. msimpl.
  rewrite upd_files_same. msimpl.
  split; [reflexivity|]. split; [reflexivity|].
  split; [|split; reflexivity].
  eexists. split; [reflexivity|].
  apply Nat.leb_le in Hold. unfold memcpy_idx, array_of.
  rewrite firstn_app, firstn_firstn, Nat.min_id.
  rewrite length_firstn, Nat.min_l by exact Hold.
  rewrite Nat.sub_diag, firstn_O, app_nil_r. reflexivity.
Qed.

Lemma enlarge_defer_failure_leaves_new_index_witness :
  let X := calloc_failing_externals in
  let m := test_machine_in X (mk_test_world 12288 5 []) [] test_writer in
  let c := @vfd_swmr_enlarge_shadow_index X 1 in
  c m = (FAIL, run_state c m) /\
  enlarge_left_switched 1 12288 m (run_state c m).
Proof.
  intros X m c.
  assert (Hrun : c m = (run_result c m, run_state c m))
    by (apply run_eq; reflexivity).
  assert (Hr : 1 <> 0) by discriminate.
  pose proof (enlarge_defer_failure_leaves_new_index 1 m (run_state c m)
                (run_result c m) 12288
                (repeat zero_idx_entry 8)
                (mk_test_world 16384 5 []) (mk_test_world 16384 5 [])
                (mk_test_world 16384 5 [])
                Hrun Hr eq_refl eq_refl eq_refl) as Hthm.
  destruct Hthm as (Hfail & Hsw).
  - vm_compute. lia.
  - vm_compute. lia.
  - split; [rewrite <- Hfail; exact Hrun | exact Hsw].
Defined.

(** ** Update of the metadata file: the order of the writes, all outcomes *)

Lemma write_kinds_app (l1 l2 : list event) :
  write_kinds (l1 ++ l2) = write_kinds l1 ++ write_kinds l2.
Proof. apply flat_map_app. Qed.

Lemma write_kinds_images (evs : list event) :
  Forall (fun e => is_mv_free e = false /\
                   (is_shadow_write e = true -> is_image_write e = true))
         evs ->
  write_kinds evs = repeat WImage (List.length (shadow_writes evs)).
Proof.
  induction 1 as [|e l (_ & Hw) _ IH]; [reflexivity|].
  destruct e as [[| |] ? ? ? ?| | | | | | |]; simpl; try exact IH.
  - f_equal. exact IH.
  - specialize (Hw eq_refl). discriminate Hw.
  - specialize (Hw eq_refl). discriminate Hw.
Qed.

Lemma write_kinds_free_events (l : list shadow_defree_t) :
  write_kinds (map free_event l) = [].
Proof. induction l as [|x l IH]; [reflexivity | exact IH]. Qed.

(** Whatever its outcome, the walk over the deferred-free queue writes
    nothing to the shadow file. *)
Lemma shadow_defrees_reclaim_kinds {X : Externals} (f : Z) (k : nat)
    (m m1 : machine X) (r : result unit) :
  List.length (shadow_defrees (m_files m f)) = k ->
  shadow_defrees_reclaim f k m = (r, m1) ->
  exists evs, m_trace m1 = m_trace m ++ evs /\ write_kinds evs = [].
Proof.
  intros Hlen H. apply shadow_defrees_reclaim_run in H; [|exact Hlen].
  destruct H as (kept & attempted & _ & Ht & _).
  eexists. split; [exact Ht | apply write_kinds_free_events].
Qed.

(** The second part of [H5F_update_vfd_swmr_metadata_file], whatever its
    outcome: the index is written, then the header, and nothing else. *)
Lemma update_publish_and_reclaim_kinds {X : Externals} (f num_entries : Z)
    (index : list H5FD_vfd_swmr_idx_entry_t) (m m1 : machine X)
    (r : result unit) :
  update_publish_and_reclaim f num_entries index m = (r, m1) ->
  exists evs j,
    m_trace m1 = m_trace m ++ evs /\
    write_kinds evs = firstn j [WIndex; WHeader] /\
    (r = SUCCEED tt -> j = 2%nat).
Proof.
  intros H. unfold update_publish_and_reclaim in H.
  apply bind_outcome in H.
  destruct H as [([] & m2 & Hidx & H) | [(Hidx & ->) | (Hidx & ->)]].
  2,3: apply construct_write_md_idx_run in Hidx;
    destruct Hidx as (_ & _ & [Ht | Ht] & _);
    [exists [], 0%nat; rewrite Ht, app_nil_r
    | eexists; exists 1%nat; rewrite Ht];
    (split; [reflexivity | split; [reflexivity | discriminate]]).
  apply construct_write_md_idx_run in Hidx.
  destruct Hidx as (Hf2 & _ & _ & Ht2). specialize (Ht2 eq_refl).
  apply bind_outcome in H.
  destruct H as [([] & m3 & Hhdr & H) | [(Hhdr & ->) | (Hhdr & ->)]].
  2,3: apply construct_write_md_hdr_run in Hhdr;
    destruct Hhdr as (_ & _ & [Ht | Ht] & _); rewrite Ht, Ht2, <- ?app_assoc;
    [eexists; exists 1%nat | eexists; exists 2%nat];
    (split; [reflexivity | split; [reflexivity | discriminate]]).
  apply construct_write_md_hdr_run in Hhdr.
  destruct Hhdr as (Hf3 & _ & _ & Ht3). specialize (Ht3 eq_refl).
  rewrite Ht2, <- app_assoc in Ht3.
  assert (Hdone : forall (m' : machine X) evs,
            m_trace m' = m_trace m3 ++ evs -> write_kinds evs = [] ->
            exists evs' j,
              m_trace m' = m_trace m ++ evs' /\
              write_kinds evs' = firstn j [WIndex; WHeader] /\
              (r = SUCCEED tt -> j = 2%nat)).
  { intros m' evs Ht Hk. eexists. exists 2%nat.
    split; [rewrite Ht, Ht3, <- app_assoc; reflexivity|].
    split; [|reflexivity].
    rewrite write_kinds_app, Hk. reflexivity. }
  unfold bind at 1 in H. unfold shared_of in H.
  destruct (f =? 0).
  { injection H as <- <-. apply (Hdone _ []); [|reflexivity].
    rewrite app_nil_r. reflexivity. }
  destruct (tick_num (m_files m3 f) <=? max_lag (vfd_swmr_config (m_files m3 f))).
  { injection H as <- <-. apply (Hdone _ []); [|reflexivity].
    rewrite app_nil_r. reflexivity. }
  apply shadow_defrees_reclaim_kinds in H; [|reflexivity].
  destruct H as (evs & Ht & Hk). apply (Hdone _ evs Ht Hk).
Qed.

(** X13. Whatever the outcome of [H5F_update_vfd_swmr_metadata_file], its
    writes to the shadow file are image writes, then at most the write of
    the index, then at most the write of the header: the header, which
    makes the new index visible to readers, is never written before the
    index, and the index is written only after every pending image of the
    sorted entries has been written in full. *)
Theorem update_never_writes_header_early {X : Externals}
    (f num_entries : Z) (index : list H5FD_vfd_swmr_idx_entry_t)
    (m m' : machine X) (r : result (list H5FD_vfd_swmr_idx_entry_t)) :
  H5F_update_vfd_swmr_metadata_file f num_entries index m = (r, m') ->
  update_writes_prefix f num_entries index m m'.
Proof.
  intros H. unfold update_writes_prefix.
  unfold H5F_update_vfd_swmr_metadata_file in H.
  apply bind_outcome in H.
  assert (Hpart1 : forall m1 r1,
            update_sort_and_write_images f num_entries index m = (r1, m1) ->
            exists evs,
              m_trace m1 = m_trace m ++ evs /\
              write_kinds evs = repeat WImage (List.length (shadow_writes evs))).
  { intros m1 r1 H1.
    apply images_step_sort_and_write_images in H1.
    destruct H1 as (pushed & evs & _ & _ & Ht & He).
    exists evs. split; [exact Ht | apply write_kinds_images; exact He]. }
  destruct H as [(index1 & m1 & H1 & H) | [(H1 & ->) | (H1 & ->)]].
  2,3: destruct (Hpart1 _ _ H1) as (evs & Ht & Hk);
    exists evs, (List.length (shadow_writes evs)), 0%nat;
    cbn [firstn]; rewrite app_nil_r;
    (split; [exact Ht | split; [exact Hk | lia]]).
  destruct (Hpart1 _ _ H1) as (evs1 & Ht1 & Hk1).
  apply update_sort_and_write_images_success in H1.
  destruct H1 as (_ & _ & evs1' & Ht1' & _ & Hbuf).
  assert (evs1' = evs1)
    by (rewrite Ht1 in Ht1'; apply app_inv_head in Ht1'; congruence).
  subst evs1'.
  assert (Hcount : List.length (shadow_writes evs1) =
                   List.length
                     (pending_images
                        (firstn (Z.to_nat num_entries)
                           (HDqsort index (Z.to_nat num_entries)
                              H5F__idx_entry_cmp)))).
  { rewrite <- Hbuf. symmetry. apply length_map. }
  assert (Hpart2 : forall m2 r2,
            update_publish_and_reclaim f num_entries index1 m1 = (r2, m2) ->
            exists evs k j,
              m_trace m2 = m_trace m ++ evs /\
              write_kinds evs = repeat WImage k ++ firstn j [WIndex; WHeader] /\
              ((0 < j)%nat ->
               k = List.length
                     (pending_images
                        (firstn (Z.to_nat num_entries)
                           (HDqsort index (Z.to_nat num_entries)
                              H5F__idx_entry_cmp))))).
  { intros m2 r2 H2. apply update_publish_and_reclaim_kinds in H2.
    destruct H2 as (evs2 & j & Ht2 & Hk2 & _).
    exists (evs1 ++ evs2), (List.length (shadow_writes evs1)), j.
    split; [rewrite Ht2, Ht1, app_assoc; reflexivity|].
    split; [rewrite write_kinds_app, Hk1, Hk2; reflexivity|].
    intros _. exact Hcount. }
  apply bind_outcome in H.
  destruct H as [([] & m2 & H2 & H) | [(H2 & ->) | (H2 & ->)]].
  1: injection H as <- <-.
  all: apply (Hpart2 _ _ H2).
Qed.

Lemma update_never_writes_header_early_witness :
  let m := test_machine [] test_writer in
  let c := H5F_update_vfd_swmr_metadata_file 1 2 test_dirty_index in
  let index' := result_value [] (run_result c m) in
  c m = (SUCCEED index', run_state c m) /\
  update_writes_prefix 1 2 test_dirty_index m (run_state c m).
Proof.
  intros m c index'.
  assert (Hrun : c m = (SUCCEED index', run_state c m))
    by (apply run_eq; vm_compute; reflexivity).
  split; [exact Hrun|].
  exact (update_never_writes_header_early 1 2 test_dirty_index m
           (run_state c m) (SUCCEED index') Hrun).
Defined.

(** ** Update of the metadata file: the entries and their previous images *)

Lemma u64_idem (z : Z) : u64 (u64 z) = u64 z.
Proof. unfold u64. apply Z.mod_mod. lia. Qed.

Lemma array_set_nth {A} (l : list A) (i : nat) (x v : A) :
  nth_error l i = Some x ->
  array_set l i v = firstn i l ++ v :: skipn (S i) l.
Proof.
  revert i. induction l as [|a l IH]; intros [|i] H; simpl in *;
    try discriminate; [reflexivity|].
  rewrite (IH i H). reflexivity.
Qed.

Lemma nth_error_length_firstn {A} (l : list A) (i : nat) (x : A) :
  nth_error l i = Some x -> List.length (firstn i l) = i.
Proof.
  intros H. rewrite length_firstn. apply Nat.min_l.
  apply Nat.lt_le_incl. apply nth_error_Some. congruence.
Qed.

Lemma deferred_images_set_defrees (s : H5F_shared_t)
    (q : list shadow_defree_t) (l : list H5FD_vfd_swmr_idx_entry_t) :
  deferred_images (set_shadow_defrees q s) l = deferred_images s l.
Proof. reflexivity. Qed.

(** A successful run of the loop over the entries, on the array and on the
    deferred-free queue. *)
Lemma update_write_images_post {X : Externals} (f : Z) :
  forall todo i index (m m1 : machine X) index',
    update_write_images f todo i index m = (SUCCEED index', m1) ->
    let s := m_files m f in
    let visited := firstn todo (skipn i index) in
    (exists published,
       index' = firstn i index ++ published ++ skipn (i + todo) index /\
       Forall2 (entry_published X) visited published) /\
    m_files m1 f =
      set_shadow_defrees (deferred_images s visited ++ shadow_defrees s) s.
Proof.
  induction todo as [|todo IH]; intros i index m m1 index' H.
  - injection H as <- <-. cbn [firstn]. split.
    + exists []. rewrite Nat.add_0_r. cbn [app]. rewrite firstn_skipn.
      split; [reflexivity | constructor].
    + unfold deferred_images. cbn [filter map rev app].
      symmetry. apply set_shadow_defrees_id.
  - cbn [update_write_images] in H.
    destruct (nth_error index i) as [e|] eqn:Hn; [|discriminate].
    rewrite (skipn_nth_error_cons _ _ _ Hn). cbn [firstn].
    pose proof (nth_error_length_firstn _ _ _ Hn) as Hlen.
    destruct (entry_ptr e) as [image|] eqn:Hp.
    + unfold shadow_image_defer_free, shadow_range_defer_free in H.
      unfold_monad. break_run H.
      all: apply IH in H; cbv zeta in H; destruct H as ((pub & Hidx & Hpub) & Hfiles);
        msimpl_in Hfiles; rewrite ?upd_files_same in Hfiles; msimpl_in Hfiles;
        rewrite skipn_array_set in Hpub, Hfiles;
        rewrite (array_set_nth _ _ e _ Hn) in Hidx.
      all: split;
        [ eexists (_ :: pub); split;
          [ rewrite Hidx; rewrite firstn_app, Hlen;
            replace (S i - i)%nat with 1%nat by lia;
            rewrite firstn_all2 by lia; cbn [firstn];
            rewrite <- app_assoc; cbn [app]; f_equal; f_equal; f_equal;
            change (firstn i index ++ ?v :: ?t)
              with (firstn i index ++ [v] ++ t);
            rewrite app_assoc, skipn_app;
            rewrite length_app, Hlen; cbn [List.length];
            rewrite skipn_all2 by (rewrite length_app, Hlen; simpl; lia);
            cbn [app];
            replace (S i + todo - (i + 1))%nat with todo by lia;
            replace (i + S todo)%nat with (todo + S i)%nat by lia;
            rewrite <- skipn_skipn; reflexivity
          | constructor; [|exact Hpub];
            unfold entry_published; rewrite Hp; cbn; repeat split ]
        | rewrite Hfiles; unfold deferred_images, has_previous_image;
          cbn [filter]; rewrite Hp ].
      all: match goal with
           | E : (md_file_page_offset _ =? 0) = _ |- _ => rewrite E
           end; cbn [negb map rev].
      * reflexivity.
      * rewrite <- app_assoc. cbn [app]. unfold image_defree.
        rewrite u64_idem. reflexivity.
    + apply IH in H. cbv zeta in H.
      destruct H as ((pub & Hidx & Hpub) & Hfiles).
      split.
      * exists (e :: pub). split.
        -- rewrite Hidx, (firstn_S_snoc _ _ _ Hn), <- app_assoc. cbn [app].
           replace (S i + todo)%nat with (i + S todo)%nat by lia.
           reflexivity.
        -- constructor; [|exact Hpub]. unfold entry_published.
           rewrite Hp. reflexivity.
      * rewrite Hfiles. unfold deferred_images, has_previous_image.
        cbn [filter]. rewrite Hp. reflexivity.
Qed.

Lemma skipn_HDqsort {A} (compar : A -> A -> Z) (base : list A) (n : nat) :
  (n <= List.length base)%nat ->
  skipn n (HDqsort base n compar) = skipn n base.
Proof.
  intros H. unfold HDqsort.
  assert (Hl : List.length (qsort_list compar (firstn n base)) = n).
  { rewrite (Permutation_length (qsort_list_perm compar _)).
    rewrite length_firstn. lia. }
  rewrite skipn_app, Hl, Nat.sub_diag. cbn [skipn].
  rewrite skipn_all2 by lia. reflexivity.
Qed.

(** A successful run of the first part of
    [H5F_update_vfd_swmr_metadata_file], on the array and on the
    deferred-free queue. *)
Lemma update_sort_and_write_images_post {X : Externals}
    (f num_entries : Z) (index index' : list H5FD_vfd_swmr_idx_entry_t)
    (m m1 : machine X) :
  update_sort_and_write_images f num_entries index m = (SUCCEED index', m1) ->
  let s := m_files m f in
  let n := Z.to_nat num_entries in
  update_array_outcome X num_entries index index' /\
  m_files m1 f =
    set_shadow_defrees
      (deferred_images s (firstn n (HDqsort index n H5F__idx_entry_cmp)) ++
       shadow_defrees s) s.
Proof.
  intros H s n. unfold update_sort_and_write_images in H.
  cbv zeta in H. fold n in H.
  apply bind_SUCCEED in H. destruct H as (index1 & m0 & Hsort & Hloop).
  apply update_write_images_post in Hloop. cbv zeta in Hloop.
  rewrite skipn_O in Hloop. cbn [firstn app Nat.add] in Hloop.
  destruct Hloop as ((pub & Hidx & Hpub) & Hfiles).
  assert (Hpre : m0 = m /\
            (index1 = HDqsort index n H5F__idx_entry_cmp /\
             (n <= List.length index)%nat
             \/ n = 0%nat /\ index1 = index)).
  { destruct (Z.ltb_spec 0 num_entries) as [Hpos | Hzero].
    - unfold_monad. break_run Hsort. injection Hsort as <- <-.
      split; [reflexivity|]. left.
      match goal with
      | E : (n <=? _)%nat = true |- _ => apply Nat.leb_le in E
      end.
      split; [reflexivity | assumption].
    - injection Hsort as <- <-. split; [reflexivity|]. right.
      split; [unfold n; lia | reflexivity]. }
  destruct Hpre as (-> & [(-> & Hlen) | (Hn0 & ->)]).
  - split; [|exact Hfiles].
    unfold update_array_outcome. fold n. exists pub.
    split; [|exact Hpub].
    rewrite Hidx, (skipn_HDqsort _ _ _ Hlen). reflexivity.
  - rewrite Hn0 in *. cbn [firstn skipn] in *. split; [|exact Hfiles].
    unfold update_array_outcome. fold n. rewrite Hn0. cbn [firstn skipn].
    exists pub. split; [exact Hidx | exact Hpub].
Qed.

(** X14. A successful [H5F_update_vfd_swmr_metadata_file] pushes on the
    deferred-free queue, with the current tick, the shadow range of the
    previous image of every entry that has a new image and a nonzero
    [md_file_page_offset], in the order of the sorted index, and pushes
    nothing else; an entry published for the first time
    ([md_file_page_offset] 0) pushes nothing.  Every record pushed or
    already queued is, on return, still on the queue or has been handed to
    [H5MV_free] by this call. *)
Theorem update_defers_previous_images {X : Externals}
    (f num_entries : Z) (index index' : list H5FD_vfd_swmr_idx_entry_t)
    (m m' : machine X) :
  H5F_update_vfd_swmr_metadata_file f num_entries index m
    = (SUCCEED index', m') ->
  update_defers_images f num_entries index m m'.
Proof.
  intros H. unfold H5F_update_vfd_swmr_metadata_file in H.
  apply bind_SUCCEED in H. destruct H as (index1 & m1 & H1 & H).
  apply bind_SUCCEED in H. destruct H as ([] & m2 & H2 & H).
  injection H as <- <-.
  pose proof (images_step_sort_and_write_images f num_entries index _ _ _ H1)
    as Hstep.
  apply images_step_filters in Hstep.
  destruct Hstep as (_ & evs1 & _ & _ & Ht1 & Hfree1 & _).
  apply update_sort_and_write_images_post in H1.
  destruct H1 as (_ & Hfiles1).
  apply update_publish_and_reclaim_run in H2.
  destruct H2 as (kept & attempted & evs2 & Ht2 & Hfree2 & Hsplit & _ & Hok).
  destruct (Hok eq_refl) as (Hfiles2 & _).
  rewrite Hfiles1 in Hsplit, Hfiles2. msimpl_in Hsplit. msimpl_in Hfiles2.
  unfold update_defers_images. exists attempted, (evs1 ++ evs2).
  split; [rewrite Ht2, Ht1, app_assoc; reflexivity|].
  split; [rewrite filter_app, Hfree1, Hfree2; reflexivity|].
  rewrite Hfiles2. msimpl. exact Hsplit.
Qed.

Lemma update_defers_previous_images_witness :
  let m := test_machine [] test_writer in
  let c := H5F_update_vfd_swmr_metadata_file 1 2 test_dirty_index in
  let index' := result_value [] (run_result c m) in
  c m = (SUCCEED index', run_state c m) /\
  update_defers_images 1 2 test_dirty_index m (run_state c m) /\
  shadow_defrees (m_files (run_state c m) 1) = [mk_shadow_defree 8192 2 4].
Proof.
  intros m c index'.
  assert (Hrun : c m = (SUCCEED index', run_state c m))
    by (apply run_eq; vm_compute; reflexivity).
  split; [exact Hrun|]. split; [|vm_compute; reflexivity].
  exact (update_defers_previous_images 1 2 test_dirty_index index' m
           (run_state c m) Hrun).
Defined.

(** X15. The array that a successful [H5F_update_vfd_swmr_metadata_file]
    leaves to its caller: the first [num_entries] entries are the sorted
    entries, where an entry that had no image is unchanged and an entry
    that had one keeps its page, length and [delayed_flush], has its
    [entry_ptr] reset to NULL and carries the checksum of the image
    written; the slots from [num_entries] on are not touched. *)
Theorem update_publishes_sorted_entries {X : Externals}
    (f num_entries : Z) (index index' : list H5FD_vfd_swmr_idx_entry_t)
    (m m' : machine X) :
  H5F_update_vfd_swmr_metadata_file f num_entries index m
    = (SUCCEED index', m') ->
  update_array_outcome X num_entries index index'.
Proof.
  intros H. unfold H5F_update_vfd_swmr_metadata_file in H.
  apply bind_SUCCEED in H. destruct H as (index1 & m1 & H1 & H).
  apply bind_SUCCEED in H. destruct H as ([] & m2 & H2 & H).
  injection H as <- <-.
  apply update_sort_and_write_images_post in H1. apply H1.
Qed.

Lemma update_publishes_sorted_entries_witness :
  let m := test_machine [] test_writer in
  let c := H5F_update_vfd_swmr_metadata_file 1 2 test_dirty_index in
  let index' := result_value [] (run_result c m) in
  c m = (SUCCEED index', run_state c m) /\
  update_array_outcome test_externals 2 test_dirty_index index' /\
  map entry_ptr index' = [None; None; None; None].
Proof.
  intros m c index'.
  assert (Hrun : c m = (SUCCEED index', run_state c m))
    by (apply run_eq; vm_compute; reflexivity).
  split; [exact Hrun|]. split; [|vm_compute; reflexivity].
  exact (update_publishes_sorted_entries 1 2 test_dirty_index index' m
           (run_state c m) Hrun).
Defined.

(** ** Update of the metadata file: the queue after reclamation *)

Lemma StronglySorted_app_l {A} (R : A -> A -> Prop) (l1 l2 : list A) :
  StronglySorted R (l1 ++ l2) -> StronglySorted R l1.
Proof.
  induction l1 as [|x l1 IH]; simpl; intros H; [constructor|].
  inversion H as [|? ? Hs Hall]; subst. constructor; [apply IH; exact Hs|].
  apply Forall_app in Hall. apply Hall.
Qed.

Lemma StronglySorted_snoc_Forall {A} (R : A -> A -> Prop) (l : list A)
    (z : A) :
  StronglySorted R (l ++ [z]) -> Forall (fun x => R x z) l.
Proof.
  induction l as [|x l IH]; simpl; intros H; [constructor|].
  inversion H as [|? ? Hs Hall]; subst. constructor; [|apply IH; exact Hs].
  apply Forall_app in Hall. destruct Hall as (_ & Hz).
  inversion Hz; assumption.
Qed.

Lemma defrees_ordered_push (s : H5F_shared_t)
    (pushed : list shadow_defree_t) :
  defrees_ordered s -> 1 <= tick_num s ->
  Forall (fun sd => sd_tick_num sd = tick_num s) pushed ->
  defrees_ordered (set_shadow_defrees (pushed ++ shadow_defrees s) s).
Proof.
  intros (Hs & Hr) Ht Hp. unfold defrees_ordered. msimpl.
  induction Hp as [|sd pushed Hsd _ (IHs & IHr)]; [split; assumption|].
  split.
  - cbn [app]. constructor; [exact IHs|].
    eapply Forall_impl; [|exact IHr]. intros a Ha. cbv beta in *. lia.
  - cbn [app]. constructor; [lia | exact IHr].
Qed.

(** X16. The reclamation walk of [H5F_update_vfd_swmr_metadata_file] stops
    at the first record that is not due.  On a deferred-free queue in the
    order head insertion gives it (newest record first), that loses
    nothing: after a successful call no record left on the queue is due,
    every one of them has [tick_num + max_lag] above the current tick; and
    the queue, with the records pushed by the call, is in that order
    again. *)
Theorem update_leaves_no_due_record {X : Externals}
    (f num_entries : Z) (index index' : list H5FD_vfd_swmr_idx_entry_t)
    (m m' : machine X) :
  H5F_update_vfd_swmr_metadata_file f num_entries index m
    = (SUCCEED index', m') ->
  let s := m_files m f in
  defrees_ordered s ->
  0 <= max_lag (vfd_swmr_config s) ->
  1 <= tick_num s ->
  tick_num s + max_lag (vfd_swmr_config s) <= UINT64_MAX ->
  Forall (within_window s) (shadow_defrees (m_files m' f)) /\
  defrees_ordered (m_files m' f).
Proof.
  intros H s Hord Hlag Htick Hno.
  unfold H5F_update_vfd_swmr_metadata_file in H.
  apply bind_SUCCEED in H. destruct H as (index1 & m1 & H1 & H).
  apply bind_SUCCEED in H. destruct H as ([] & m2 & H2 & H).
  injection H as <- <-.
  apply images_step_sort_and_write_images in H1.
  apply images_step_filters in H1.
  destruct H1 as (pushed & evs1 & Hfiles1 & Hpushed & _).
  fold s in Hfiles1, Hpushed.
  pose proof (defrees_ordered_push s pushed Hord Htick Hpushed) as Hord1.
  apply update_publish_and_reclaim_run in H2.
  destruct H2 as (kept & attempted & evs2 & _ & _ & Hsplit & _ & Hok).
  destruct (Hok eq_refl) as (Hfiles2 & Hstop & _).
  rewrite Hfiles1 in Hsplit, Hfiles2, Hstop. msimpl_in Hsplit.
  msimpl_in Hfiles2. msimpl_in Hstop.
  destruct Hord1 as (Hs1 & Hr1). msimpl_in Hs1. msimpl_in Hr1.
  rewrite Hsplit in Hs1, Hr1.
  apply StronglySorted_app_l in Hs1.
  apply Forall_app in Hr1. destruct Hr1 as (Hr1 & _).
  rewrite Hfiles2. unfold defrees_ordered. msimpl.
  split; [|split; assumption].
  assert (Hsum : forall sd, 1 <= sd_tick_num sd <= tick_num s ->
            u64 (sd_tick_num sd + max_lag (vfd_swmr_config s))
            = sd_tick_num sd + max_lag (vfd_swmr_config s)).
  { intros sd Hsd. apply u64_small. unfold UINT64_MAX in Hno. lia. }
  unfold within_window in *.
  destruct Hstop as [Hearly | [-> | (kept' & last & -> & Hlast)]].
  - eapply Forall_impl; [|exact Hr1]. intros sd Hsd. cbv beta in *.
    rewrite (Hsum sd Hsd). lia.
  - constructor.
  - pose proof (StronglySorted_snoc_Forall _ _ _ Hs1) as Hle.
    apply Forall_app in Hr1. destruct Hr1 as (Hk' & Hl).
    inversion Hl as [|? ? Hlr _]; subst.
    msimpl_in Hlast. rewrite (Hsum last Hlr) in Hlast.
    apply Forall_app. split; [|constructor; [|constructor]].
    + rewrite Forall_forall in *. intros sd Hin.
      rewrite (Hsum sd (Hk' sd Hin)). specialize (Hle sd Hin).
      cbv beta in Hle. lia.
    + rewrite (Hsum last Hlr). exact Hlast.
Qed.

Lemma update_leaves_no_due_record_witness :
  let m := test_machine [] test_writer in
  let c := H5F_update_vfd_swmr_metadata_file 1 2 test_dirty_index in
  let index' := result_value [] (run_result c m) in
  c m = (SUCCEED index', run_state c m) /\
  defrees_ordered (m_files m 1) /\
  Forall (within_window (m_files m 1))
         (shadow_defrees (m_files (run_state c m) 1)) /\
  defrees_ordered (m_files (run_state c m) 1).
Proof.
  intros m c index'.
  assert (Hrun : c m = (SUCCEED index', run_state c m))
    by (apply run_eq; vm_compute; reflexivity).
  assert (Hord : defrees_ordered (m_files m 1)).
  { split; repeat constructor; vm_compute; discriminate. }
  split; [exact Hrun|]. split; [exact Hord|].
  apply (update_leaves_no_due_record 1 2 test_dirty_index index' m
           (run_state c m) Hrun Hord).
  - vm_compute. discriminate.
  - vm_compute. discriminate.
  - vm_compute. discriminate.
Defined.

(** ** The images of the index and of the header *)

Lemma length_le_bytes (n : nat) (v : Z) : List.length (le_bytes n v) = n.
Proof.
  revert v. induction n as [|n IH]; intros v; simpl; [reflexivity|].
  rewrite IH. reflexivity.
Qed.

Lemma le_bytes_all_bytes (n : nat) (v : Z) : all_bytes (le_bytes n v).
Proof.
  revert v. induction n as [|n IH]; intros v; simpl; constructor.
  - apply Z.mod_pos_bound. lia.
  - apply IH.
Qed.

(** The [n] low bytes of a value say what the value is modulo [256 ^ n],
    and nothing more. *)
Lemma le_bytes_inj (n : nat) :
  forall v v',
    le_bytes n v = le_bytes n v' <->
    v mod 256 ^ Z.of_nat n = v' mod 256 ^ Z.of_nat n.
Proof.
  induction n as [|n IH]; intros v v'.
  - simpl. rewrite !Z.mod_1_r. split; reflexivity.
  - cbn [le_bytes].
    replace (256 ^ Z.of_nat (S n)) with (256 * 256 ^ Z.of_nat n)
      by (rewrite Nat2Z.inj_succ, Z.pow_succ_r by lia; reflexivity).
    assert (Hp : 0 < 256 ^ Z.of_nat n) by (apply Z.pow_pos_nonneg; lia).
    rewrite !Z.rem_mul_r by lia.
    pose proof (Z.mod_pos_bound v 256 ltac:(lia)) as Hb.
    pose proof (Z.mod_pos_bound v' 256 ltac:(lia)) as Hb'.
    split.
    + intros H. injection H as H0 Ht. apply IH in Ht. lia.
    + intros H.
      assert (v mod 256 = v' mod 256 /\
              (v / 256) mod 256 ^ Z.of_nat n
              = (v' / 256) mod 256 ^ Z.of_nat n) as (H0 & Ht).
      { pose proof (Z.mod_pos_bound (v / 256) (256 ^ Z.of_nat n) Hp) as Hq.
        pose proof (Z.mod_pos_bound (v' / 256) (256 ^ Z.of_nat n) Hp) as Hq'.
        split; lia. }
      rewrite H0. f_equal. apply IH. exact Ht.
Qed.

Lemma UINT32ENCODE_inj (v v' : Z) :
  UINT32ENCODE v = UINT32ENCODE v' <-> u32 v = u32 v'.
Proof. unfold UINT32ENCODE, u32. apply (le_bytes_inj 4). Qed.

Lemma UINT64ENCODE_inj (v v' : Z) :
  UINT64ENCODE v = UINT64ENCODE v' <-> u64 v = u64 v'.
Proof. unfold UINT64ENCODE, u64. apply (le_bytes_inj 8). Qed.

Lemma app_inj_length {A} (a a' b b' : list A) :
  List.length a = List.length a' ->
  a ++ b = a' ++ b' <-> a = a' /\ b = b'.
Proof.
  intros Hl. split.
  - intros H. revert a' Hl H. induction a as [|x a IH]; intros [|x' a'] Hl H;
      try discriminate; [auto|].
    simpl in *. injection H as -> H. injection Hl as Hl.
    destruct (IH a' Hl H) as (-> & ->). auto.
  - intros (-> & ->). reflexivity.
Qed.

Lemma length_flat_map_encode (entries : list H5FD_vfd_swmr_idx_entry_t) :
  Z.of_nat (List.length (flat_map encode_idx_entry entries)) =
  Z.of_nat (List.length entries) * H5FD_MD_INDEX_ENTRY_SIZE.
Proof.
  induction entries as [|e l IH]; [reflexivity|].
  cbn [flat_map]. rewrite length_app, Nat2Z.inj_add, IH.
  unfold encode_idx_entry, UINT32ENCODE.
  rewrite !length_app, !length_le_bytes. cbn [List.length].
  unfold H5FD_MD_INDEX_ENTRY_SIZE. lia.
Qed.

Lemma all_bytes_app (l1 l2 : list Z) :
  all_bytes l1 -> all_bytes l2 -> all_bytes (l1 ++ l2).
Proof. intros H1 H2. apply Forall_app. split; assumption. Qed.

Lemma all_bytes_flat_map_encode (entries : list H5FD_vfd_swmr_idx_entry_t) :
  all_bytes (flat_map encode_idx_entry entries).
Proof.
  induction entries as [|e l IH]; [constructor|].
  cbn [flat_map]. apply all_bytes_app; [|exact IH].
  unfold encode_idx_entry, UINT32ENCODE.
  repeat apply all_bytes_app; apply le_bytes_all_bytes.
Qed.

Lemma md_idx_image_size (X : Externals) (s : H5F_shared_t)
    (entries : list H5FD_vfd_swmr_idx_entry_t) :
  let n := Z.of_nat (List.length entries) in
  Z.of_nat (List.length (md_idx_image X s n entries)) = H5FD_MD_INDEX_SIZE n /\
  all_bytes (md_idx_image X s n entries).
Proof.
  intros n. unfold md_idx_image. split.
  - rewrite !length_app, !Nat2Z.inj_add, length_flat_map_encode.
    unfold UINT64ENCODE, UINT32ENCODE. rewrite !length_le_bytes.
    unfold H5FD_MD_INDEX_SIZE, H5_SIZEOF_MAGIC, H5FD_MD_INDEX_MAGIC.
    cbn [List.length]. fold n. lia.
  - repeat apply all_bytes_app;
      try apply le_bytes_all_bytes; try apply all_bytes_flat_map_encode.
    unfold H5FD_MD_INDEX_MAGIC. repeat constructor; lia.
Qed.

(** X17. The image that [H5F__vfd_swmr_construct_write_md_idx] builds for
    [num_entries] entries of an array that holds as many is a sequence of
    bytes of length [H5FD_MD_INDEX_SIZE(num_entries)], 20 + 16 per entry.
    So with a shadow file descriptor that is not negative the sanity checks
    of the function hold: whatever the collaborators do, the call returns
    SUCCEED or FAIL and never stops on an assertion. *)
Theorem construct_write_md_idx_checks_hold {X : Externals}
    (f num_entries : Z) (index : option (list H5FD_vfd_swmr_idx_entry_t))
    (m m' : machine X) (r : result unit) :
  H5F__vfd_swmr_construct_write_md_idx f num_entries index m = (r, m') ->
  f <> 0 ->
  0 <= num_entries ->
  (Z.to_nat num_entries <= List.length (array_of index))%nat ->
  0 <= vfd_swmr_md_fd (m_files m f) ->
  let image :=
    md_idx_image X (m_files m f) num_entries
      (firstn (Z.to_nat num_entries) (array_of index)) in
  r <> ABORT /\
  Z.of_nat (List.length image) = H5FD_MD_INDEX_SIZE num_entries /\
  all_bytes image.
Proof.
  intros H Hf Hn Hlen Hfd image.
  assert (Hcount : Z.of_nat (List.length
                     (firstn (Z.to_nat num_entries) (array_of index)))
                   = num_entries).
  { rewrite length_firstn, Nat.min_l by exact Hlen. apply Z2Nat.id. exact Hn. }
  pose proof (md_idx_image_size X (m_files m f)
                (firstn (Z.to_nat num_entries) (array_of index))) as Himg.
  cbv zeta in Himg. rewrite Hcount in Himg. fold image in Himg.
  split; [|exact Himg]. destruct Himg as (Hsize & _).
  unfold H5F__vfd_swmr_construct_write_md_idx in H.
  unfold array_of in *. fold image in H.
  unfold_monad. apply Z.eqb_neq in Hf. rewrite Hf in H.
  apply Z.eqb_eq in Hcount. apply Z.eqb_eq in Hsize. apply Z.leb_le in Hfd.
  fold image in H. rewrite Hsize, Hfd in H.
  destruct index as [a|].
  - rewrite Hcount, Bool.orb_true_r in H. break_run H.
    all: injection H as <- <-; discriminate.
  - assert (Hz : num_entries = 0) by (simpl in Hlen; lia).
    rewrite Hcount in H. subst num_entries. cbn [Z.eqb orb] in H.
    break_run H.
    all: injection H as <- <-; discriminate.
Qed.

Lemma construct_write_md_idx_checks_hold_witness :
  let m := test_machine [] test_writer in
  let c := H5F__vfd_swmr_construct_write_md_idx 1 2
             (mdf_idx test_writer) in
  c m = (SUCCEED tt, run_state c m) /\
  SUCCEED tt <> @ABORT unit /\
  Z.of_nat (List.length
              (md_idx_image test_externals test_writer 2
                 (firstn 2 (array_of (mdf_idx test_writer)))))
    = H5FD_MD_INDEX_SIZE 2 /\
  all_bytes (md_idx_image test_externals test_writer 2
               (firstn 2 (array_of (mdf_idx test_writer)))).
Proof.
  intros m c.
  assert (Hrun : c m = (SUCCEED tt, run_state c m))
    by (apply run_eq; vm_compute; reflexivity).
  split; [exact Hrun|].
  apply (construct_write_md_idx_checks_hold 1 2 (mdf_idx test_writer) m
           (run_state c m) (SUCCEED tt) Hrun).
  - discriminate.
  - lia.
  - vm_compute. lia.
  - vm_compute. discriminate.
Defined.

(** X18. The index image holds the low 32 bits of the four encoded fields
    of an entry, and nothing else of the entry: two entries have the same
    16 bytes exactly when [hdf5_page_offset], [md_file_page_offset],
    [length] and [chksum] agree modulo 2^32.  The two page offsets are
    64-bit fields, so pages whose numbers differ by a multiple of 2^32 are
    published as the same page. *)
Theorem encode_idx_entry_keeps_low_32_bits
    (e e' : H5FD_vfd_swmr_idx_entry_t) :
  encode_idx_entry e = encode_idx_entry e' <-> same_low_32_bits e e'.
Proof.
  unfold encode_idx_entry, same_low_32_bits.
  assert (Hl : forall v v',
            List.length (UINT32ENCODE v) = List.length (UINT32ENCODE v'))
    by (intros; unfold UINT32ENCODE; rewrite !length_le_bytes; reflexivity).
  rewrite !app_inj_length by apply Hl.
  rewrite !UINT32ENCODE_inj. reflexivity.
Qed.

(** X19. The header image is a function of, and determines, the fields it
    encodes: two headers have the same 36 bytes exactly when they agree on
    the low 32 bits of the page size and on the tick number, the index
    offset and the encoded index length as 64-bit values.  Headers of
    different ticks (below 2^64) are different images. *)
Theorem md_hdr_image_determines_fields (X : Externals)
    (s s' : H5F_shared_t) (num_entries num_entries' : Z) :
  md_hdr_image X s num_entries = md_hdr_image X s' num_entries' <->
  same_header_fields s num_entries s' num_entries'.
Proof.
  unfold md_hdr_image, same_header_fields.
  assert (H4 : forall v v',
            List.length (UINT32ENCODE v) = List.length (UINT32ENCODE v'))
    by (intros; unfold UINT32ENCODE; rewrite !length_le_bytes; reflexivity).
  assert (H8 : forall v v',
            List.length (UINT64ENCODE v) = List.length (UINT64ENCODE v'))
    by (intros; unfold UINT64ENCODE; rewrite !length_le_bytes; reflexivity).
  set (body := fun (t : H5F_shared_t) (k : Z) =>
         H5FD_MD_HEADER_MAGIC ++ UINT32ENCODE (fs_page_size t) ++
         UINT64ENCODE (tick_num t) ++ UINT64ENCODE (writer_index_offset t) ++
         UINT64ENCODE (H5FD_MD_INDEX_SIZE k)).
  change (body s num_entries ++
            UINT32ENCODE (H5_checksum_metadata X (body s num_entries)
               (Z.of_nat (List.length (body s num_entries))) 0)
          = body s' num_entries' ++
            UINT32ENCODE (H5_checksum_metadata X (body s' num_entries')
               (Z.of_nat (List.length (body s' num_entries'))) 0)
          <-> u32 (fs_page_size s) = u32 (fs_page_size s') /\
              u64 (tick_num s) = u64 (tick_num s') /\
              u64 (writer_index_offset s) = u64 (writer_index_offset s') /\
              u64 (H5FD_MD_INDEX_SIZE num_entries)
              = u64 (H5FD_MD_INDEX_SIZE num_entries')).
  assert (Hbody : body s num_entries = body s' num_entries' <->
            u32 (fs_page_size s) = u32 (fs_page_size s') /\
            u64 (tick_num s) = u64 (tick_num s') /\
            u64 (writer_index_offset s) = u64 (writer_index_offset s') /\
            u64 (H5FD_MD_INDEX_SIZE num_entries)
            = u64 (H5FD_MD_INDEX_SIZE num_entries')).
  { unfold body.
    rewrite (app_inj_length H5FD_MD_HEADER_MAGIC H5FD_MD_HEADER_MAGIC)
      by reflexivity.
    rewrite (app_inj_length (UINT32ENCODE _) (UINT32ENCODE _)) by apply H4.
    rewrite !(app_inj_length (UINT64ENCODE _) (UINT64ENCODE _)) by apply H8.
    rewrite UINT32ENCODE_inj, !UINT64ENCODE_inj. tauto. }
  rewrite <- Hbody. split.
  - intros H. apply app_inj_length in H; [apply H|].
    unfold body. rewrite !length_app.
    rewrite (H4 (fs_page_size s) (fs_page_size s')).
    rewrite (H8 (tick_num s) (tick_num s')).
    rewrite (H8 (writer_index_offset s) (writer_index_offset s')).
    rewrite (H8 (H5FD_MD_INDEX_SIZE num_entries)
                (H5FD_MD_INDEX_SIZE num_entries')).
    reflexivity.
  - intros ->. reflexivity.
Qed.

(** ** Reader end of tick: the counters of the comparison *)

Lemma reader_diff_loop_counts
    (old new : list H5FD_vfd_swmr_idx_entry_t) (old_used new_used : nat) :
  forall fuel st st',
    reader_diff_loop fuel old new old_used new_used st = SUCCEED st' ->
    diff_counts_inv st -> (ds_i st <= old_used)%nat ->
    diff_counts_inv st' /\ (ds_i st' <= old_used)%nat.
Proof.
  induction fuel as [|fuel IH]; intros st st' H Hinv Hi.
  - injection H as <-. split; assumption.
  - cbn [reader_diff_loop] in H.
    destruct (Nat.ltb_spec (ds_i st) old_used) as [Hlt | Hge];
      cbn [andb] in H; [|injection H as <-; split; assumption].
    destruct (ds_j st <? new_used)%nat;
      [|injection H as <-; split; assumption].
    destruct (nth_error old (ds_i st)) as [o|]; [|discriminate].
    destruct (nth_error new (ds_j st)) as [n|]; [|discriminate].
    match type of H with
    | (if ?b then _ else _) = _ => destruct b; [|discriminate]
    end.
    apply IH in H; [exact H | |].
    + destruct Hinv as (H1 & H2 & H3 & H4 & H5). unfold diff_counts_inv.
      destruct (hdf5_page_offset o =? hdf5_page_offset n);
        [destruct (negb (md_file_page_offset o =? md_file_page_offset n))
        | destruct (hdf5_page_offset o <? hdf5_page_offset n)];
        cbn [ds_i ds_j ds_removed_page ds_entries_added ds_entries_removed
             ds_entries_changed];
        rewrite ?length_app; cbn [List.length]; lia.
    + destruct (hdf5_page_offset o =? hdf5_page_offset n);
        [destruct (negb (md_file_page_offset o =? md_file_page_offset n))
        | destruct (hdf5_page_offset o <? hdf5_page_offset n)];
        cbn [ds_i]; lia.
Qed.

Lemma reader_diff_leftovers_counts (old : list H5FD_vfd_swmr_idx_entry_t) :
  forall todo st st',
    reader_diff_leftovers todo old st = SUCCEED st' ->
    ds_i st' = (ds_i st + todo)%nat /\
    List.length (ds_removed_page st') =
      (List.length (ds_removed_page st) + todo)%nat /\
    ds_entries_removed st' = ds_entries_removed st + Z.of_nat todo /\
    ds_entries_added st' = ds_entries_added st /\
    ds_entries_changed st' = ds_entries_changed st.
Proof.
  induction todo as [|todo IH]; intros st st' H.
  - injection H as <-. repeat split; lia.
  - cbn [reader_diff_leftovers] in H.
    destruct (nth_error old (ds_i st)) as [o|]; [|discriminate].
    apply IH in H.
    cbn [ds_i ds_j ds_removed_page ds_entries_added ds_entries_removed
         ds_entries_changed] in H.
    rewrite length_app in H. cbn [List.length] in H.
    destruct H as (H1 & H2 & H3 & H4 & H5).
    repeat split; try assumption; lia.
Qed.

(** X20. The comparison of the old and the new index in
    [H5F_vfd_swmr_reader_end_of_tick] keeps its buffer and its counters
    consistent on every pair of arrays it accepts: the pages written to
    [removed_page] number [entries_removed + entries_changed] and are at
    most [old_used], so they fit the [MAX(old_used, new_used)] slots
    allocated for them; and the counters account for every entry of the
    two indices, [old_used + entries_added = new_used + entries_removed]. *)
Theorem reader_diff_counts_consistent
    (old new : list H5FD_vfd_swmr_idx_entry_t) (old_used new_used : nat)
    (st : diff_state) :
  reader_diff old new old_used new_used = SUCCEED st ->
  diff_counts_outcome old_used new_used st.
Proof.
  unfold reader_diff. intros H.
  destruct (reader_diff_loop (old_used + new_used) old new old_used new_used
              (mk_diff_state 0 0 [] 0 0 0)) as [st1| |] eqn:Hloop;
    try discriminate.
  pose proof (reader_diff_loop_terminates old new old_used new_used
                (old_used + new_used) _ _ ltac:(simpl; lia) Hloop) as Hend.
  apply reader_diff_loop_counts in Hloop.
  2:{ unfold diff_counts_inv. simpl. lia. }
  2:{ simpl. lia. }
  destruct Hloop as ((H1 & H2 & H3 & H4 & H5) & Hi).
  apply reader_diff_leftovers_counts in H.
  cbn [ds_i ds_j ds_removed_page ds_entries_added ds_entries_removed
       ds_entries_changed] in H.
  destruct H as (K1 & K2 & K3 & K4 & K5).
  unfold diff_counts_outcome. rewrite K2, K3, K4, K5.
  destruct (Nat.ltb_spec (ds_i st1) old_used);
    destruct (Nat.ltb_spec (ds_j st1) new_used);
    try discriminate Hend; lia.
Qed.

Lemma reader_diff_counts_consistent_witness :
  let old := [mk_idx_entry 3 1 4096 11 None 0;
              mk_idx_entry 5 2 4096 12 None 0] in
  let new := [mk_idx_entry 3 4 4096 21 None 0;
              mk_idx_entry 9 5 4096 22 None 0] in
  let st := result_value (mk_diff_state 0 0 [] 0 0 0)
              (reader_diff old new 2 2) in
  reader_diff old new 2 2 = SUCCEED st /\
  diff_counts_outcome 2 2 st /\
  ds_removed_page st = [3; 5].
Proof.
  intros old new st.
  assert (Hrun : reader_diff old new 2 2 = SUCCEED st) by reflexivity.
  split; [exact Hrun|]. split; [|reflexivity].
  exact (reader_diff_counts_consistent old new 2 2 st Hrun).
Defined.

(** ** Writer end of tick: successful runs *)

Lemma update_write_images_queue {X : Externals} (f : Z) :
  forall todo i index (m m1 : machine X) index',
    update_write_images f todo i index m = (SUCCEED index', m1) ->
    eot_queue_g m1 = eot_queue_g m.
Proof.
  induction todo as [|todo IH]; intros i index m m1 index' H.
  - injection H as _ <-. reflexivity.
  - cbn [update_write_images] in H.
    destruct (nth_error index i) as [e|]; [|discriminate].
    destruct (entry_ptr e) as [image|]; [|apply (IH _ _ _ _ _ H)].
    unfold shadow_image_defer_free, shadow_range_defer_free in H.
    unfold_monad. break_run H.
    all: apply IH in H; exact H.
Qed.

Lemma shadow_defrees_reclaim_queue {X : Externals} (f : Z) :
  forall k (m m1 : machine X),
    shadow_defrees_reclaim f k m = (SUCCEED tt, m1) ->
    eot_queue_g m1 = eot_queue_g m.
Proof.
  induction k as [|k IH]; intros m m1 H.
  - injection H as <-. reflexivity.
  - cbn [shadow_defrees_reclaim] in H. unfold_monad. break_run H.
    + injection H as <-. reflexivity.
    + apply IH in H. exact H.
Qed.

(** A successful [H5F_update_vfd_swmr_metadata_file] changes nothing of the
    file structure but the deferred-free queue, and leaves the EOT queue
    alone. *)
Lemma update_metadata_file_frame {X : Externals} (f num_entries : Z)
    (index index' : list H5FD_vfd_swmr_idx_entry_t) (m m' : machine X) :
  H5F_update_vfd_swmr_metadata_file f num_entries index m
    = (SUCCEED index', m') ->
  eot_queue_g m' = eot_queue_g m /\
  exists q, m_files m' f = set_shadow_defrees q (m_files m f).
Proof.
  intros H. unfold H5F_update_vfd_swmr_metadata_file in H.
  apply bind_SUCCEED in H. destruct H as (index1 & m1 & H1 & H).
  apply bind_SUCCEED in H. destruct H as ([] & m2 & H2 & H).
  injection H as <- <-.
  pose proof (images_step_sort_and_write_images f num_entries index _ _ _ H1)
    as (pushed & _ & Hfiles1 & _).
  assert (Hq1 : eot_queue_g m1 = eot_queue_g m).
  { unfold update_sort_and_write_images in H1.
    apply bind_SUCCEED in H1. destruct H1 as (index0 & m0 & Hsort & Hloop).
    apply update_write_images_queue in Hloop. rewrite Hloop.
    destruct (0 <? num_entries).
    - unfold_monad. break_run Hsort. injection Hsort as _ <-. reflexivity.
    - injection Hsort as _ <-. reflexivity. }
  pose proof H2 as H2'.
  apply update_publish_and_reclaim_run in H2'.
  destruct H2' as (kept & attempted & evs2 & _ & _ & _ & _ & Hok).
  destruct (Hok eq_refl) as (Hfiles2 & _).
  split.
  - rewrite <- Hq1. unfold update_publish_and_reclaim in H2.
    apply bind_SUCCEED in H2. destruct H2 as ([] & m3 & Hidx & H2).
    apply construct_write_md_idx_run in Hidx. destruct Hidx as (_ & Hq3 & _).
    apply bind_SUCCEED in H2. destruct H2 as ([] & m4 & Hhdr & H2).
    apply construct_write_md_hdr_run in Hhdr. destruct Hhdr as (_ & Hq4 & _).
    rewrite <- Hq3, <- Hq4.
    run_step H2.
    destruct (tick_num (m_files m4 f) <=? max_lag (vfd_swmr_config (m_files m4 f))).
    + injection H2 as Hm. rewrite <- Hm. reflexivity.
    + apply shadow_defrees_reclaim_queue in H2. exact H2.
  - exists kept. rewrite Hfiles2, Hfiles1. reflexivity.
Qed.

Lemma create_index_frame {X : Externals} (f : Z) (m m1 : machine X) :
  H5F__vfd_swmr_writer__create_index f m = (SUCCEED tt, m1) ->
  eot_queue_g m1 = eot_queue_g m /\
  tick_num (m_files m1 f) = tick_num (m_files m f).
Proof.
  unfold H5F__vfd_swmr_writer__create_index. intros H.
  do 7 run_step H. run_step_true H. run_step H.
  apply store_shared_SUCCEED in H. subst m1. msimpl.
  rewrite upd_files_same. split; reflexivity.
Qed.

(** A successful [H5F__vfd_swmr_update_end_of_tick_and_tick_num] that
    increments the tick. *)
Lemma update_end_of_tick_incr_success {X : Externals} (f : Z)
    (m m1 : machine X) :
  H5F__vfd_swmr_update_end_of_tick_and_tick_num f true m = (SUCCEED tt, m1) ->
  eot_queue_g m1 = eot_queue_g m /\
  exists t,
    m_files m1 f =
      set_end_of_tick t (set_tick_num (u64 (tick_num (m_files m f) + 1))
                           (m_files m f)).
Proof.
  unfold H5F__vfd_swmr_update_end_of_tick_and_tick_num. intros H.
  run_step_as H curr. destruct curr as [curr|]; [|discriminate].
  run_step H.
  apply bind_SUCCEED in H. destruct H as ([] & m0 & Hinc & H).
  do 2 run_step Hinc. run_step_true Hinc.
  apply ret_SUCCEED in Hinc. destruct Hinc as (_ & ->).
  do 2 run_step H.
  apply store_shared_SUCCEED in H. subst m1. msimpl.
  rewrite !upd_files_same. split; [reflexivity|]. eexists. reflexivity.
Qed.

(** The steps of a successful writer end of tick on the file [g]. *)
Lemma writer_end_of_tick_success {X : Externals} (C : Collaborators X)
    (f : Z) (m m' : machine X) :
  H5F_vfd_swmr_writer_end_of_tick C f m = (SUCCEED tt, m') ->
  let g := writer_file m f in
  exists m1 m2 m3 m4 m5 m6 m7 m8 m9 ma mb mc added index',
    H5D_flush_all C g m = (SUCCEED tt, m1) /\
    H5MF_free_aggrs C g m1 = (SUCCEED tt, m2) /\
    (if shared_cache C g m2 then H5AC_flush C g else ret tt) m2
      = (SUCCEED tt, m3) /\
    H5FD_truncate C g m3 = (SUCCEED tt, m4) /\
    (if shared_cache C g m4 then H5AC_flush C g else ret tt) m4
      = (SUCCEED tt, m5) /\
    (if tick_num (m_files m5 g) =? 1
     then H5F__vfd_swmr_writer__create_index g else ret tt) m5
      = (SUCCEED tt, m6) /\
    H5PB_vfd_swmr__update_index C g m6 = (SUCCEED added, m7) /\
    H5F_update_vfd_swmr_metadata_file g
      (u32 (mdf_idx_entries_used (m_files m7 g) + added))
      (array_of (mdf_idx (m_files m7 g))) m7 = (SUCCEED index', m8) /\
    m_files m9 g =
      set_mdf_idx_entries_used
        (u32 (mdf_idx_entries_used (m_files m7 g) + added))
        (set_mdf_idx
           match mdf_idx (m_files m7 g) with
           | Some _ => Some index'
           | None => None
           end (m_files m8 g)) /\
    eot_queue_g m9 = eot_queue_g m8 /\
    u32 (mdf_idx_entries_used (m_files m7 g) + added)
      <= mdf_idx_len (m_files m7 g) /\
    H5PB_vfd_swmr__release_tick_list C g m9 = (SUCCEED tt, ma) /\
    H5PB_vfd_swmr__release_delayed_writes C g ma = (SUCCEED tt, mb) /\
    H5F__vfd_swmr_update_end_of_tick_and_tick_num g true mb
      = (SUCCEED tt, mc) /\
    eot_queue_g m' =
      eot_queue_insert (eot_queue_remove (eot_queue_g mc) g)
        (eot_entry_of mc g) /\
    m_files m' = m_files mc.
Proof.
  intros H g. unfold H5F_vfd_swmr_writer_end_of_tick in H.
  apply bind_SUCCEED in H. destruct H as (m0 & ? & Hm & H).
  apply get_machine_SUCCEED in Hm. destruct Hm as (-> & ->).
  apply bind_SUCCEED in H. destruct H as (g' & m0 & Hg & H).
  assert (Hg' : g' = g /\ m0 = m).
  { subst g. unfold writer_file.
    destruct (f =? 0).
    - destruct (eot_queue_g m); [discriminate|].
      apply ret_SUCCEED in Hg. exact Hg.
    - apply ret_SUCCEED in Hg. exact Hg. }
  destruct Hg' as (-> & ->). clear Hg.
  do 5 run_step H.
  apply bind_SUCCEED in H. destruct H as ([] & m1 & H1 & H).
  apply bind_SUCCEED in H. destruct H as ([] & m2 & H2 & H).
  apply bind_SUCCEED in H. destruct H as (m2' & ? & Hm & H).
  apply get_machine_SUCCEED in Hm. destruct Hm as (-> & ->).
  apply bind_SUCCEED in H. destruct H as ([] & m3 & H3 & H).
  apply bind_SUCCEED in H. destruct H as ([] & m4 & H4 & H).
  apply bind_SUCCEED in H. destruct H as (m4' & ? & Hm & H).
  apply get_machine_SUCCEED in Hm. destruct Hm as (-> & ->).
  apply bind_SUCCEED in H. destruct H as ([] & m5 & H5 & H).
  run_step H.
  apply bind_SUCCEED in H. destruct H as ([] & m6 & H6 & H).
  apply bind_SUCCEED in H. destruct H as (added & m7 & H7 & H).
  run_step H.
  apply bind_SUCCEED in H. destruct H as (index' & m8 & H8 & H).
  pose proof (update_metadata_file_frame _ _ _ _ _ _ H8) as (_ & q & Hf8).
  do 6 run_step H.
  apply bind_SUCCEED in H. destruct H as ([] & ma & Ha & H).
  apply bind_SUCCEED in H. destruct H as ([] & mb & Hb' & H).
  apply bind_SUCCEED in H. destruct H as ([] & mc & Hc & H).
  apply bind_SUCCEED in H. destruct H as ([] & md & Hrem & H).
  apply remove_entry_eot_run in Hrem. destruct Hrem as (_ & Hfd & _ & Hqd).
  apply insert_entry_eot_run in H. destruct H as (_ & Hq' & Hf' & _).
  match type of Ha with
  | H5PB_vfd_swmr__release_tick_list C g ?m9 = _ =>
      exists m1, m2, m3, m4, m5, m6, m7, m8, m9, ma, mb, mc, added, index'
  end.
  repeat (split; [eassumption|]).
  split; [msimpl; rewrite ?upd_files_same; msimpl; rewrite Hf8; reflexivity|].
  split; [reflexivity|].
  split.
  { match goal with
    | Hle : (_ <=? _) = true |- _ =>
        rewrite Hf8 in Hle; msimpl_in Hle; apply Z.leb_le; exact Hle
    end. }
  repeat (split; [eassumption|]).
  split.
  - rewrite Hq', Hqd. unfold eot_entry_of. rewrite Hfd. reflexivity.
  - rewrite Hf', Hfd. reflexivity.
Qed.

Lemma same_tick_and_queue_trans {X : Externals} (f : Z)
    (m1 m2 m3 : machine X) :
  same_tick_and_queue f m1 m2 -> same_tick_and_queue f m2 m3 ->
  same_tick_and_queue f m1 m3.
Proof. intros (H1 & H2) (H3 & H4). split; congruence. Qed.

Lemma Forall_firstn_keep {A} (P : A -> Prop) (l : list A) (n : nat) :
  Forall P l -> Forall P (firstn n l).
Proof.
  intros H. revert n. induction H as [|x l Hx _ IH]; intros [|n]; simpl;
    constructor; auto.
Qed.

Lemma entry_published_no_image (X : Externals)
    (l l' : list H5FD_vfd_swmr_idx_entry_t) :
  Forall2 (entry_published X) l l' ->
  Forall (fun e => entry_ptr e = None) l'.
Proof.
  induction 1 as [|e e' l l' He _ IH]; constructor; [|exact IH].
  unfold entry_published in He.
  destruct (entry_ptr e) eqn:Hp; [apply He | subst e'; exact Hp].
Qed.

(** The entries in use after a successful
    [H5F_update_vfd_swmr_metadata_file]: sorted, without pending image. *)
Lemma update_metadata_file_entries {X : Externals} (f num_entries : Z)
    (index index' : list H5FD_vfd_swmr_idx_entry_t) (m m' : machine X) :
  H5F_update_vfd_swmr_metadata_file f num_entries index m
    = (SUCCEED index', m') ->
  let used := firstn (Z.to_nat num_entries) index' in
  Sorted idx_lt used /\ Forall (fun e => entry_ptr e = None) used.
Proof.
  intros H used. unfold H5F_update_vfd_swmr_metadata_file in H.
  apply bind_SUCCEED in H. destruct H as (index1 & m1 & H1 & H).
  apply bind_SUCCEED in H. destruct H as ([] & m2 & H2 & H).
  injection H as <- <-.
  pose proof (update_sort_and_write_images_success _ _ _ _ _ _ H1)
    as (Hsorted & Hperm & _).
  split; [exact Hsorted|].
  apply update_sort_and_write_images_post in H1.
  destruct H1 as ((published & Hidx & Hpub) & _).
  pose proof (entry_published_no_image _ _ _ Hpub) as Hnone.
  apply Forall2_length in Hpub.
  apply Permutation_length in Hperm. rewrite !length_map in Hperm.
  fold used in Hperm.
  subst used. rewrite Hidx in *. rewrite firstn_app.
  apply Forall_app. split.
  - apply Forall_firstn_keep. exact Hnone.
  - destruct (Nat.le_gt_cases (Z.to_nat num_entries) (List.length published))
      as [Hle | Hgt].
    + replace (Z.to_nat num_entries - List.length published)%nat with 0%nat
        by lia. constructor.
    + (* fewer entries published than asked for: the array was shorter *)
      rewrite <- Hpub in Hgt. rewrite length_firstn in Hgt.
      unfold HDqsort in Hgt. rewrite length_app in Hgt.
      rewrite (Permutation_length (qsort_list_perm _ _)) in Hgt.
      rewrite <- length_app, firstn_skipn in Hgt.
      rewrite skipn_all2 by lia. rewrite firstn_nil. constructor.
Qed.

(** X21. A successful [H5F_vfd_swmr_writer_end_of_tick] leaves the file one
    tick further, in 64 bits, and with its entry of the EOT queue renewed:
    the queue holds an entry with the new tick number and deadline of the
    file, the entries of the other files are as before, and a sorted queue
    is still sorted.  The functions called in other modules are taken to
    leave the tick number and the EOT queue alone. *)
Theorem writer_eot_advances_tick_and_requeues {X : Externals}
    (C : Collaborators X) (f : Z) (m m' : machine X) :
  H5F_vfd_swmr_writer_end_of_tick C f m = (SUCCEED tt, m') ->
  let g := writer_file m f in
  writer_collaborators_preserve C g (same_tick_and_queue g) ->
  tick_num (m_files m' g) = u64 (tick_num (m_files m g) + 1) /\
  eot_requeued (eot_queue_g m) g (eot_entry_of m' g) (eot_queue_g m').
Proof.
  intros H g (P1 & P2 & P3 & P4 & P5 & P6 & P7).
  apply writer_end_of_tick_success in H. fold g in H.
  destruct H as (m1 & m2 & m3 & m4 & m5 & m6 & m7 & m8 & m9 & ma & mb & mc
                 & added & index' & H1 & H2 & H3 & H4 & H5 & H6 & H7 & H8
                 & Hf9 & Hq9 & _ & Ha & Hb & Hc & Hq' & Hf').
  pose proof (@same_tick_and_queue_trans X g) as T.
  assert (Hcache : forall ma mb,
            (if shared_cache C g ma then H5AC_flush C g else ret tt) ma
              = (SUCCEED tt, mb) -> same_tick_and_queue g ma mb).
  { intros x y Hx. destruct (shared_cache C g x); [apply (P3 _ _ _ Hx)|].
    apply ret_SUCCEED in Hx. destruct Hx as (_ & ->). split; reflexivity. }
  assert (R6 : same_tick_and_queue g m5 m6).
  { destruct (tick_num (m_files m5 g) =? 1).
    - apply create_index_frame in H6. exact H6.
    - apply ret_SUCCEED in H6. destruct H6 as (_ & ->). split; reflexivity. }
  assert (R8 : same_tick_and_queue g m7 m8).
  { apply update_metadata_file_frame in H8. destruct H8 as (Hq & q & Hf).
    split; [exact Hq | rewrite Hf; reflexivity]. }
  assert (R9 : same_tick_and_queue g m8 m9).
  { split; [exact Hq9 | rewrite Hf9; reflexivity]. }
  assert (Rb : same_tick_and_queue g m mb).
  { eapply T; [apply (P1 _ _ _ H1)|].
    eapply T; [apply (P2 _ _ _ H2)|].
    eapply T; [apply (Hcache _ _ H3)|].
    eapply T; [apply (P4 _ _ _ H4)|].
    eapply T; [apply (Hcache _ _ H5)|].
    eapply T; [exact R6|].
    eapply T; [apply (P5 _ _ _ H7)|].
    eapply T; [exact R8|].
    eapply T; [exact R9|].
    eapply T; [apply (P6 _ _ _ Ha) | apply (P7 _ _ _ Hb)]. }
  destruct Rb as (Hqb & Htb).
  apply update_end_of_tick_incr_success in Hc.
  destruct Hc as (Hqc & t & Hfc).
  split.
  - rewrite Hf', Hfc. msimpl. rewrite Htb. reflexivity.
  - rewrite Hq', Hqc, Hqb.
    replace (eot_entry_of mc g) with (eot_entry_of m' g)
      by (unfold eot_entry_of; rewrite Hf'; reflexivity).
    apply eot_queue_requeued. reflexivity.
Qed.

(** X22. A successful [H5F_vfd_swmr_writer_end_of_tick] leaves the
    in-memory index published: the number of entries in use, raised by the
    number the page buffer added, is at most the length of the index; the
    entries in use are sorted strictly by [hdf5_page_offset]; and none of
    them holds an image that is still to be written.  The release of the
    tick list and of the delayed writes is taken to leave the index
    alone. *)
Theorem writer_eot_publishes_index {X : Externals}
    (C : Collaborators X) (f : Z) (m m' : machine X) :
  H5F_vfd_swmr_writer_end_of_tick C f m = (SUCCEED tt, m') ->
  let g := writer_file m f in
  preserves (same_index g) (H5PB_vfd_swmr__release_tick_list C g) ->
  preserves (same_index g) (H5PB_vfd_swmr__release_delayed_writes C g) ->
  index_published (m_files m' g).
Proof.
  intros H g P6 P7.
  apply writer_end_of_tick_success in H. fold g in H.
  destruct H as (m1 & m2 & m3 & m4 & m5 & m6 & m7 & m8 & m9 & ma & mb & mc
                 & added & index' & _ & _ & _ & _ & _ & _ & _ & H8
                 & Hf9 & _ & Hle & Ha & Hb & Hc & _ & Hf').
  pose proof (update_metadata_file_frame _ _ _ _ _ _ H8) as (_ & q & Hf8).
  apply update_metadata_file_entries in H8. cbv zeta in H8.
  destruct H8 as (Hsorted & Hnone).
  apply P6 in Ha. apply P7 in Hb.
  destruct Ha as (Ha1 & Ha2 & Ha3). destruct Hb as (Hb1 & Hb2 & Hb3).
  apply update_end_of_tick_incr_success in Hc. destruct Hc as (_ & t & Hfc).
  unfold index_published. rewrite Hf', Hfc. msimpl.
  rewrite Hb1, Hb2, Hb3, Ha1, Ha2, Ha3, Hf9. msimpl. rewrite Hf8. msimpl.
  split; [exact Hle|].
  destruct (mdf_idx (m_files m7 g)) as [a|]; cbn [array_of].
  - split; assumption.
  - rewrite firstn_nil. split; constructor.
Qed.

Lemma ret_preserves_same_tick_and_queue {X : Externals} {A} (f : Z) (a : A) :
  preserves (same_tick_and_queue f) (@ret X A a).
Proof. intros m r m1 H. injection H as _ <-. split; reflexivity. Qed.

Lemma ret_preserves_same_index {X : Externals} {A} (f : Z) (a : A) :
  preserves (same_index f) (@ret X A a).
Proof. intros m r m1 H. injection H as _ <-. repeat split. Qed.

Lemma writer_eot_advances_tick_and_requeues_witness :
  let C := test_collaborators (fun _ => ret tt) in
  let m := test_machine test_queue test_writer in
  let c := H5F_vfd_swmr_writer_end_of_tick C 1 in
  c m = (SUCCEED tt, run_state c m) /\
  writer_collaborators_preserve C 1 (same_tick_and_queue 1) /\
  tick_num (m_files (run_state c m) 1) = 5 /\
  eot_requeued (eot_queue_g m) 1 (eot_entry_of (run_state c m) 1)
    (eot_queue_g (run_state c m)).
Proof.
  intros C m c.
  assert (Hrun : c m = (SUCCEED tt, run_state c m))
    by (apply run_eq; vm_compute; reflexivity).
  assert (Hcol : writer_collaborators_preserve C 1 (same_tick_and_queue 1))
    by (unfold writer_collaborators_preserve;
        repeat (split; [apply ret_preserves_same_tick_and_queue|]);
        apply ret_preserves_same_tick_and_queue).
  split; [exact Hrun|]. split; [exact Hcol|].
  exact (writer_eot_advances_tick_and_requeues C 1 m (run_state c m) Hrun
           Hcol).
Defined.

Lemma writer_eot_publishes_index_witness :
  let C := test_collaborators (fun _ => ret tt) in
  let m := test_machine test_queue test_writer in
  let c := H5F_vfd_swmr_writer_end_of_tick C 1 in
  c m = (SUCCEED tt, run_state c m) /\
  index_published (m_files (run_state c m) 1).
Proof.
  intros C m c.
  assert (Hrun : c m = (SUCCEED tt, run_state c m))
    by (apply run_eq; vm_compute; reflexivity).
  split; [exact Hrun|].
  apply (writer_eot_publishes_index C 1 m (run_state c m) Hrun);
    apply ret_preserves_same_index.
Defined.

(** ** Preparation for flush or close: the wait for the delayed writes *)

Lemma nanosleep_restarted_monotone {X : Externals} (C : Collaborators X)
    (req : timespec) :
  fuel_monotone (fun fuel => nanosleep_restarted C fuel req).
Proof.
  unfold fuel_monotone. intros fuel. revert req.
  induction fuel as [|fuel IH]; intros req fuel' m r m' H Hr Hle.
  - injection H as <- _. contradiction.
  - destruct fuel' as [|fuel']; [lia|].
    cbn [nanosleep_restarted] in *. unfold bind, call in *.
    destruct (HDnanosleep C req (m_world m)) as [[result rem] w].
    destruct (result =? -1); [|exact H].
    apply (IH rem fuel' _ _ _ H Hr). lia.
Qed.

Lemma wait_a_tick_monotone {X : Externals} (C : Collaborators X) (f : Z) :
  fuel_monotone (fun fuel => H5F__vfd_swmr_writer__wait_a_tick C fuel f).
Proof.
  unfold fuel_monotone. intros fuel fuel' m r m' H Hr Hle.
  unfold H5F__vfd_swmr_writer__wait_a_tick in *.
  unfold bind at 1. unfold bind at 1 in H.
  destruct (HDassert (negb (f =? 0)) m) as [[[]| |] m0]; [|exact H|exact H].
  unfold bind at 1. unfold bind at 1 in H.
  destruct (shared_of f m0) as [[shared| |] m1]; [|exact H|exact H].
  unfold bind at 1. unfold bind at 1 in H.
  destruct (HDassert (vfd_swmr shared) m1) as [[[]| |] m2];
    [|exact H|exact H].
  unfold bind at 1. unfold bind at 1 in H.
  destruct (HDassert (vfd_swmr_writer shared) m2) as [[[]| |] m3];
    [|exact H|exact H].
  cbv zeta in *.
  unfold bind at 1. unfold bind at 1 in H.
  match type of H with
  | context [nanosleep_restarted C fuel ?req m3] =>
      destruct (nanosleep_restarted C fuel req m3) as [res m4] eqn:Hsleep;
      assert (Hres : res <> SUCCEED None)
  end.
  { intros ->. injection H as <- _. contradiction. }
  rewrite (nanosleep_restarted_monotone C _ fuel fuel' _ _ _ Hsleep Hres Hle).
  exact H.
Qed.

Lemma wait_until_drained_monotone {X : Externals} (C : Collaborators X)
    (f : Z) :
  fuel_monotone (fun fuel => wait_until_drained C fuel f).
Proof.
  unfold fuel_monotone. intros fuel.
  induction fuel as [|fuel IH]; intros fuel' m r m' H Hr Hle.
  - destruct fuel' as [|fuel']; [exact H|].
    cbn [wait_until_drained] in *. unfold bind at 1. unfold bind at 1 in H.
    destruct (shared_of f m) as [[shared| |] m0]; [|exact H|exact H].
    destruct (pb_ptr shared) as [pb|]; [|exact H].
    destruct (0 <? dwl_len pb); [|exact H].
    injection H as <- _. contradiction.
  - destruct fuel' as [|fuel']; [lia|].
    cbn [wait_until_drained] in *. unfold bind at 1. unfold bind at 1 in H.
    destruct (shared_of f m) as [[shared| |] m0]; [|exact H|exact H].
    destruct (pb_ptr shared) as [pb|]; [|exact H].
    destruct (0 <? dwl_len pb); [|exact H].
    unfold bind at 1. unfold bind at 1 in H.
    destruct (H5F__vfd_swmr_writer__wait_a_tick C fuel f m0)
      as [res m1] eqn:Hwait.
    assert (Hres : res <> SUCCEED None).
    { intros ->. injection H as <- _. contradiction. }
    rewrite (wait_a_tick_monotone C f fuel fuel' _ _ _ Hwait Hres
               ltac:(lia)).
    destruct res as [[[]|]| |]; try exact H.
    apply (IH fuel' _ _ _ H Hr). lia.
Qed.

Lemma wait_until_drained_success {X : Externals} (C : Collaborators X)
    (f : Z) :
  forall fuel (m m' : machine X),
    wait_until_drained C fuel f m = (SUCCEED (Some tt), m') ->
    delayed_writes_drained f m'.
Proof.
  induction fuel as [|fuel IH]; intros m m' H.
  - cbn [wait_until_drained] in H. run_step H.
    destruct (pb_ptr (m_files m f)) as [pb|] eqn:Hpb; [|discriminate].
    destruct (Z.ltb_spec 0 (dwl_len pb)); [discriminate|].
    injection H as <-. exists pb. split; [exact Hpb | lia].
  - cbn [wait_until_drained] in H. run_step H.
    destruct (pb_ptr (m_files m f)) as [pb|] eqn:Hpb; [|discriminate].
    destruct (Z.ltb_spec 0 (dwl_len pb)).
    + apply bind_SUCCEED in H. destruct H as (waited & m1 & _ & H).
      destruct waited as [[]|]; [|discriminate].
      apply (IH _ _ H).
    + injection H as <-. exists pb. split; [exact Hpb | lia].
Qed.

(** X23. [H5F_vfd_swmr_writer__prep_for_flush_or_close] returns SUCCEED
    only with the delayed write list of the page buffer empty: it forces
    one end of tick, and then waits a tick and runs an end of tick again
    for as long as the list holds a write.  The bound on the iterations is
    of the model only: a call that returns with some amount of fuel returns
    the same, in the same state, with every larger amount. *)
Theorem prep_for_flush_or_close_drains {X : Externals}
    (C : Collaborators X) (fuel : nat) (f : Z) (m m' : machine X) :
  H5F_vfd_swmr_writer__prep_for_flush_or_close C fuel f m
    = (SUCCEED (Some tt), m') ->
  delayed_writes_drained f m' /\
  forall fuel', (fuel <= fuel')%nat ->
    H5F_vfd_swmr_writer__prep_for_flush_or_close C fuel' f m
      = (SUCCEED (Some tt), m').
Proof.
  intros H. split.
  - unfold H5F_vfd_swmr_writer__prep_for_flush_or_close in H.
    do 5 run_step H.
    apply bind_SUCCEED in H. destruct H as ([] & m1 & _ & H).
    apply (wait_until_drained_success C f fuel _ _ H).
  - intros fuel' Hle.
    unfold H5F_vfd_swmr_writer__prep_for_flush_or_close in *.
    unfold bind at 1. unfold bind at 1 in H.
    destruct (HDassert (negb (f =? 0)) m) as [[[]| |] m0]; [|exact H|exact H].
    unfold bind at 1. unfold bind at 1 in H.
    destruct (shared_of f m0) as [[shared| |] m1]; [|exact H|exact H].
    unfold bind at 1. unfold bind at 1 in H.
    destruct (HDassert (vfd_swmr shared) m1) as [[[]| |] m2];
      [|exact H|exact H].
    unfold bind at 1. unfold bind at 1 in H.
    destruct (HDassert (vfd_swmr_writer shared) m2) as [[[]| |] m3];
      [|exact H|exact H].
    unfold bind at 1. unfold bind at 1 in H.
    destruct (HDassert
                match pb_ptr shared with Some _ => true | None => false end
                m3) as [[[]| |] m4]; [|exact H|exact H].
    unfold bind at 1. unfold bind at 1 in H.
    destruct (H5F_vfd_swmr_writer_end_of_tick C f m4) as [[[]| |] m5];
      [|exact H|exact H].
    apply (wait_until_drained_monotone C f fuel fuel' _ _ _ H);
      [discriminate | exact Hle].
Qed.

Lemma prep_for_flush_or_close_drains_witness :
  let C := test_collaborators release_one_delayed_write in
  let m := test_machine test_queue test_writer_delayed in
  let c := H5F_vfd_swmr_writer__prep_for_flush_or_close C 2 1 in
  c m = (SUCCEED (Some tt), run_state c m) /\
  delayed_writes_drained 1 (run_state c m) /\
  tick_num (m_files (run_state c m) 1) = 6.
Proof.
  intros C m c.
  assert (Hrun : c m = (SUCCEED (Some tt), run_state c m))
    by (apply run_eq; vm_compute; reflexivity).
  split; [exact Hrun|]. split; [|vm_compute; reflexivity].
  exact (proj1 (prep_for_flush_or_close_drains C 2 1 m (run_state c m) Hrun)).
Defined.

(** ** Initialisation *)

Ltac isimpl_in H :=
  cbn [set_vfd_swmr set_vfd_swmr_writer set_pb_ptr] in H; msimpl_in H;
  rewrite ?upd_files_same in H; msimpl_in H.

Ltac isimpl :=
  cbn [set_vfd_swmr set_vfd_swmr_writer set_pb_ptr]; msimpl;
  rewrite ?upd_files_same; msimpl.

(** A successful [H5F__vfd_swmr_update_end_of_tick_and_tick_num] that
    leaves the tick: the deadline of the file is the global one. *)
Lemma update_end_of_tick_noincr_success {X : Externals} (f : Z)
    (m m1 : machine X) :
  H5F__vfd_swmr_update_end_of_tick_and_tick_num f false m = (SUCCEED tt, m1) ->
  m_trace m1 = m_trace m /\
  m_files m1 f = set_end_of_tick (end_of_tick_g m1) (m_files m f).
Proof.
  unfold H5F__vfd_swmr_update_end_of_tick_and_tick_num. intros H.
  run_step H. destruct a as [curr|]; [|discriminate].
  do 4 run_step H.
  apply store_shared_SUCCEED in H. subst m1. msimpl.
  rewrite upd_files_same. split; reflexivity.
Qed.

(** X24. A successful [H5F_vfd_swmr_init] of a file opened for writing
    leaves the file a VFD SWMR writer in tick 1 with the shadow file open,
    and has allocated the first page of the shadow file for the header
    and the remaining reserved pages for the index: the allocations must
    have come back at offset 0 and at offset [fs_page_size], where the
    index offset is set.  When an existing HDF5 file is opened, an index
    of no entries and then the header are written, both for tick 1; when
    the file is being created, nothing is written, so the shadow file has
    no header before the first end of tick. *)
Theorem writer_init_opens_shadow_file {X : Externals} (C : Collaborators X)
    (f : Z) (file_create swmr_config : bool) (m m' : machine X) :
  H5F_vfd_swmr_init C f file_create swmr_config true m = (SUCCEED tt, m') ->
  writer_init_outcome f file_create m m'.
Proof.
  intros H. unfold H5F_vfd_swmr_init in H.
  do 3 run_step H.
  apply bind_SUCCEED in H. destruct H as ([] & m1 & Hw & H).
  apply update_end_of_tick_noincr_success in H.
  destruct H as (Htrace & Hfiles).
  isimpl_in Hw.
  do 4 run_step Hw. isimpl_in Hw. run_step_true Hw.
  run_step_as Hw md_fd. run_step Hw. isimpl_in Hw.
  destruct (Z.ltb_spec md_fd 0) as [Hneg | Hfd]; [discriminate|].
  do 2 run_step Hw. isimpl_in Hw.
  run_step_as Hw hdr_addr. run_step Hw.
  destruct hdr_addr as [hdr_addr|]; [|discriminate].
  run_step Hw. run_step_as Hw idx_addr. run_step Hw.
  destruct idx_addr as [idx_addr|]; [|discriminate].
  do 2 run_step Hw. isimpl_in Hw.
  run_step_as Hw truncated.
  destruct (truncated =? -1); [discriminate|].
  match goal with
  | Hi : (idx_addr =? _) = true |- _ => apply Z.eqb_eq in Hi; subst idx_addr
  end.
  match goal with
  | Hp : (H5FD_MD_HEADER_SIZE <=? _) = true |- _ => apply Z.leb_le in Hp;
      rename Hp into Hpage
  end.
  assert (Hs1 : exists s1 evs,
            m_files m1 f = s1 /\
            s1 = set_writer_index_offset (fs_page_size (m_files m f))
                   (set_vfd_swmr_md_fd md_fd
                      (set_tick_num 1
                         (set_vfd_swmr_writer true
                            (set_vfd_swmr true (m_files m f))))) /\
            m_trace m1 =
              m_trace m ++
              [EvMVAlloc (fs_page_size (m_files m f));
               EvMVAlloc
                 (u64 (u64 (md_pages_reserved (vfd_swmr_config (m_files m f)) *
                            fs_page_size (m_files m f)) -
                       fs_page_size (m_files m f)))] ++ evs /\
            evs =
              (if file_create then []
               else [EvWrite WIndex md_fd
                       (to_int64 (fs_page_size (m_files m f)))
                       (md_idx_image X s1 0 []) (H5FD_MD_INDEX_SIZE 0);
                     EvWrite WHeader md_fd H5FD_MD_HEADER_OFF
                       (md_hdr_image X s1 0) H5FD_MD_HEADER_SIZE])).
  { destruct file_create; cbn [negb] in Hw.
    - apply ret_SUCCEED in Hw. destruct Hw as (_ & ->). isimpl.
      eexists. exists []. split; [reflexivity|]. split; [reflexivity|].
      split; [|reflexivity]. rewrite <- app_assoc. reflexivity.
    - apply bind_SUCCEED in Hw. destruct Hw as ([] & m2 & Hidx & Hhdr).
      apply construct_write_md_idx_run in Hidx.
      destruct Hidx as (Hfi2 & _ & _ & Ht2). specialize (Ht2 eq_refl).
      apply construct_write_md_hdr_run in Hhdr.
      destruct Hhdr as (Hfi3 & _ & _ & Ht3). specialize (Ht3 eq_refl).
      rewrite Hfi2 in Ht3, Hfi3. isimpl_in Ht2. isimpl_in Ht3.
      isimpl_in Hfi3.
      eexists. eexists. split; [rewrite Hfi3; isimpl; reflexivity|].
      split; [reflexivity|]. split; [|reflexivity].
      rewrite Ht3, Ht2, <- !app_assoc. reflexivity. }
  destruct Hs1 as (s1 & evs & Hm1 & Hs1 & Ht1 & Hevs).
  unfold writer_init_outcome. rewrite Hfiles, Hm1, Htrace, Ht1, Hevs, Hs1.
  isimpl.
  repeat split; try reflexivity; try assumption.
Qed.

Lemma writer_init_opens_shadow_file_witness :
  let C := test_collaborators (fun _ => ret tt) in
  let m := mk_machine test_externals (mk_test_world 0 5 [])
             (fun _ => test_writer_closed) 0 [] false (mk_timespec 0 0) [] in
  let c := H5F_vfd_swmr_init C 1 false true true in
  c m = (SUCCEED tt, run_state c m) /\
  writer_init_outcome 1 false m (run_state c m).
Proof.
  intros C m c.
  assert (Hrun : c m = (SUCCEED tt, run_state c m))
    by (apply run_eq; vm_compute; reflexivity).
  split; [exact Hrun|].
  exact (writer_init_opens_shadow_file C 1 false true m (run_state c m) Hrun).
Defined.

(** A successful [H5F__vfd_swmr_writer__create_index]: the index created,
    the fields left alone. *)
Lemma create_index_run {X : Externals} (f : Z) (m m1 : machine X) :
  H5F__vfd_swmr_writer__create_index f m = (SUCCEED tt, m1) ->
  m_trace m1 = m_trace m /\
  exists n,
    0 < n <= UINT32_MAX /\
    m_files m1 f =
      set_mdf_idx_entries_used 0
        (set_mdf_idx_len n
           (set_mdf_idx (Some (repeat zero_idx_entry (Z.to_nat n)))
              (m_files m f))).
Proof.
  unfold H5F__vfd_swmr_writer__create_index. intros H.
  do 7 run_step H. run_step_true H. run_step H.
  apply store_shared_SUCCEED in H. subst m1. msimpl.
  rewrite upd_files_same. split; [reflexivity|].
  match goal with
  | Hmax : (?n <=? UINT32_MAX) = true |- _ =>
      match goal with
      | Hpos : (0 <? n) = true |- _ =>
          apply Z.ltb_lt in Hpos; apply Z.leb_le in Hmax;
          set (k := n) in *; exists k;
          split; [split; assumption|];
          assert (Hu : u32 k = k)
            by (unfold u32; apply Z.mod_small;
                unfold UINT32_MAX in Hmax; lia);
          rewrite Hu
      end
  end.
  reflexivity.
Qed.

(** X25. A successful [H5F_vfd_swmr_init] of a file opened for reading
    leaves the file a VFD SWMR reader at the tick found in the shadow
    file, with a newly created index that holds, in its first slots, the
    entries loaded from the shadow file, their number being the number of
    entries in use; the deadline of the file is the global one, and
    nothing has been allocated or written in the shadow file. *)
Theorem reader_init_loads_tick_and_index {X : Externals}
    (C : Collaborators X) (f : Z) (file_create swmr_config : bool)
    (m m' : machine X) :
  H5F_vfd_swmr_init C f file_create swmr_config false m = (SUCCEED tt, m') ->
  exists tick entries w w',
    H5FD_vfd_swmr_get_tick_and_idx C (mdf_idx_len (m_files m' f)) w
      = (Some (tick, entries), w') /\
    reader_init_outcome f tick entries m m'.
Proof.
  intros H. unfold H5F_vfd_swmr_init in H.
  do 3 run_step H.
  apply bind_SUCCEED in H. destruct H as ([] & m1 & Hr & H).
  apply update_end_of_tick_noincr_success in H.
  destruct H as (Htrace & Hfiles).
  isimpl_in Hr.
  do 5 run_step Hr. isimpl_in Hr.
  apply bind_SUCCEED in Hr. destruct Hr as ([] & m2 & Hcreate & Hr).
  apply create_index_run in Hcreate.
  destruct Hcreate as (Ht2 & n & Hn & Hf2). isimpl_in Hf2. isimpl_in Ht2.
  do 3 run_step Hr. rewrite Hf2 in Hr. isimpl_in Hr.
  run_step_as Hr loaded.
  destruct loaded as [[tick entries]|]; [|discriminate].
  apply store_shared_SUCCEED in Hr. subst m1.
  exists tick, entries. eexists. eexists.
  unfold reader_init_outcome. rewrite Hfiles, Htrace. isimpl.
  split; [exact Hw|].
  rewrite Ht2.
  repeat split; try reflexivity; try lia.
  unfold memcpy_idx, array_of.
  rewrite firstn_app, firstn_all, Nat.sub_diag, firstn_O, app_nil_r,
    firstn_all.
  reflexivity.
Qed.

Lemma reader_init_loads_tick_and_index_witness :
  let C := test_collaborators (fun _ => ret tt) in
  let m := mk_machine test_externals
             (mk_test_world 0 5 [mk_idx_entry 3 4 4096 21 None 0])
             (fun _ => test_reader_closed) 0 [] false (mk_timespec 0 0) [] in
  let c := H5F_vfd_swmr_init C 1 false true false in
  c m = (SUCCEED tt, run_state c m) /\
  tick_num (m_files (run_state c m) 1) = 5 /\
  exists tick entries w w',
    H5FD_vfd_swmr_get_tick_and_idx C
      (mdf_idx_len (m_files (run_state c m) 1)) w
      = (Some (tick, entries), w') /\
    reader_init_outcome 1 tick entries m (run_state c m).
Proof.
  intros C m c.
  assert (Hrun : c m = (SUCCEED tt, run_state c m))
    by (apply run_eq; vm_compute; reflexivity).
  split; [exact Hrun|]. split; [vm_compute; reflexivity|].
  exact (reader_init_loads_tick_and_index C 1 false true m (run_state c m)
           Hrun).
Defined.

(** ** The wait for a tick *)

Lemma nanosleep_restarted_result {X : Externals} (C : Collaborators X) :
  nanosleep_returns_0_or_minus_1 C ->
  forall fuel req (m m' : machine X) r,
    nanosleep_restarted C fuel req m = (r, m') ->
    r = SUCCEED None \/
    (r = SUCCEED (Some 0) /\ exists w, m' = set_world w m).
Proof.
  intros Hposix. induction fuel as [|fuel IH]; intros req m m' r H.
  - injection H as <- _. left. reflexivity.
  - cbn [nanosleep_restarted] in H. unfold bind, call in H.
    specialize (Hposix req (m_world m)).
    destruct (HDnanosleep C req (m_world m)) as [[result rem] w].
    cbn [fst] in Hposix. destruct Hposix as [-> | ->]; cbn [Z.eqb] in H.
    + injection H as <- <-. right. split; [reflexivity|].
      exists w. reflexivity.
    + apply IH in H. destruct H as [H | (H & w' & ->)]; [left; exact H|].
      right. split; [exact H|]. exists w'. reflexivity.
Qed.

(** X26. [H5F__vfd_swmr_writer__wait_a_tick] never reports a failure of
    [HDnanosleep].  The sleep is started again whenever it returns -1,
    whatever the reason, so with a [HDnanosleep] that returns 0 or -1 the
    test [result != 0] behind the loop is never true: a call that returns
    FAIL has slept the tick out and got the failure from
    [H5F_vfd_swmr_writer_end_of_tick], run in the state of the call but
    for what the sleep did to the world. *)
Theorem wait_a_tick_fails_only_in_end_of_tick {X : Externals}
    (C : Collaborators X) (fuel : nat) (f : Z) (m m' : machine X) :
  H5F__vfd_swmr_writer__wait_a_tick C fuel f m = (FAIL, m') ->
  nanosleep_returns_0_or_minus_1 C ->
  exists w,
    H5F_vfd_swmr_writer_end_of_tick C f (set_world w m) = (FAIL, m').
Proof.
  intros H Hposix. unfold H5F__vfd_swmr_writer__wait_a_tick in H.
  apply bind_outcome in H.
  destruct H as [([] & m0 & Ha & H) | [(Ha & _) | (_ & Hr)]];
    [| unfold HDassert in Ha; destruct (negb (f =? 0)); discriminate
     | discriminate].
  apply HDassert_SUCCEED in Ha. destruct Ha as (_ & ->).
  apply bind_outcome in H.
  destruct H as [(shared & m1 & Hs & H) | [(Hs & _) | (_ & Hr)]];
    [| unfold shared_of in Hs; destruct (f =? 0); discriminate
     | discriminate].
  apply shared_of_SUCCEED in Hs. destruct Hs as (_ & -> & ->).
  apply bind_outcome in H.
  destruct H as [([] & m2 & Ha1 & H) | [(Ha1 & _) | (_ & Hr)]];
    [| unfold HDassert in Ha1; destruct (vfd_swmr (m_files m f));
       discriminate
     | discriminate].
  apply HDassert_SUCCEED in Ha1. destruct Ha1 as (_ & ->).
  apply bind_outcome in H.
  destruct H as [([] & m3 & Ha2 & H) | [(Ha2 & _) | (_ & Hr)]];
    [| unfold HDassert in Ha2; destruct (vfd_swmr_writer (m_files m f));
       discriminate
     | discriminate].
  apply HDassert_SUCCEED in Ha2. destruct Ha2 as (_ & ->).
  cbv zeta in H. apply bind_outcome in H.
  destruct H as [(res & m4 & Hsleep & H) | [(Hsleep & _) | (_ & Hr)]];
    [| apply (nanosleep_restarted_result C Hposix) in Hsleep;
       destruct Hsleep as [Hsleep | (Hsleep & _)]; discriminate
     | discriminate].
  apply (nanosleep_restarted_result C Hposix) in Hsleep.
  destruct Hsleep as [Hres | (Hres & w & ->)]; injection Hres as ->;
    [discriminate|].
  cbn [Z.eqb negb] in H.
  apply bind_outcome in H.
  destruct H as [([] & m5 & _ & H) | [(Heot & _) | (_ & Hr)]];
    [discriminate | | discriminate].
  exists w. exact Heot.
Qed.

Lemma wait_a_tick_fails_only_in_end_of_tick_witness :
  let C := test_collaborators (fun _ => fail) in
  let m := test_machine test_queue test_writer in
  let c := H5F__vfd_swmr_writer__wait_a_tick C 1 1 in
  c m = (FAIL, run_state c m) /\
  nanosleep_returns_0_or_minus_1 C /\
  exists w,
    H5F_vfd_swmr_writer_end_of_tick C 1 (set_world w m)
      = (FAIL, run_state c m).
Proof.
  intros C m c.
  assert (Hrun : c m = (FAIL, run_state c m))
    by (apply run_eq; vm_compute; reflexivity).
  assert (Hposix : nanosleep_returns_0_or_minus_1 C)
    by (intros req w; left; reflexivity).
  split; [exact Hrun|]. split; [exact Hposix|].
  exact (wait_a_tick_fails_only_in_end_of_tick C 1 1 m (run_state c m)
           Hrun Hposix).
Defined.

(** ** The layout of the index image *)

Lemma length_flat_map_encode_nat (entries : list H5FD_vfd_swmr_idx_entry_t) :
  List.length (flat_map encode_idx_entry entries) =
  (16 * List.length entries)%nat.
Proof.
  pose proof (length_flat_map_encode entries) as H.
  unfold H5FD_MD_INDEX_ENTRY_SIZE in H. lia.
Qed.

Lemma length_encode_idx_entry (e : H5FD_vfd_swmr_idx_entry_t) :
  List.length (encode_idx_entry e) = 16%nat.
Proof.
  unfold encode_idx_entry, UINT32ENCODE.
  rewrite !length_app, !length_le_bytes. reflexivity.
Qed.

Lemma firstn_app_exact {A : Type} (n : nat) (l1 l2 : list A) :
  List.length l1 = n -> firstn n (l1 ++ l2) = l1.
Proof.
  intros <-. rewrite firstn_app, Nat.sub_diag, firstn_all. cbn [firstn].
  apply app_nil_r.
Qed.

Lemma skipn_app_exact {A : Type} (n : nat) (l1 l2 : list A) :
  List.length l1 = n -> skipn n (l1 ++ l2) = l2.
Proof.
  intros <-. rewrite skipn_app, Nat.sub_diag, skipn_all. reflexivity.
Qed.

Lemma skipn_add {A : Type} (a b : nat) (l : list A) :
  skipn (a + b) l = skipn b (skipn a l).
Proof.
  rewrite skipn_skipn. f_equal. lia.
Qed.

(** X27. The index image that [H5F__vfd_swmr_construct_write_md_idx]
    builds has the magic at offset 0, the tick number at offset 4, the
    number of entries at offset 12, entry [i] in the 16 bytes from offset
    [16 + 16 * i], in the order of the array, and the checksum of all the
    bytes before it in the last four bytes. *)
Theorem md_idx_image_layout (X : Externals) (s : H5F_shared_t)
    (entries : list H5FD_vfd_swmr_idx_entry_t) :
  idx_image_layout X s entries
    (md_idx_image X s (Z.of_nat (List.length entries)) entries).
Proof.
  unfold idx_image_layout, md_idx_image. cbv zeta.
  set (n := List.length entries).
  set (T := UINT64ENCODE (tick_num s)).
  set (N := UINT32ENCODE (Z.of_nat n)).
  set (E := flat_map encode_idx_entry entries).
  set (body := H5FD_MD_INDEX_MAGIC ++ T ++ N ++ E).
  set (CK := UINT32ENCODE _).
  assert (HM : List.length H5FD_MD_INDEX_MAGIC = 4%nat) by reflexivity.
  assert (HT : List.length T = 8%nat) by apply length_le_bytes.
  assert (HN : List.length N = 4%nat) by apply length_le_bytes.
  assert (HE : List.length E = (16 * n)%nat)
    by apply length_flat_map_encode_nat.
  assert (Hbody : List.length body = (16 + 16 * n)%nat)
    by (unfold body; rewrite !length_app; lia).
  split; [|split; [|split; [|split]]].
  - unfold body. rewrite <- app_assoc. apply firstn_app_exact, HM.
  - unfold body. rewrite <- app_assoc.
    rewrite (skipn_app_exact 4 _ _ HM).
    rewrite <- app_assoc. apply firstn_app_exact, HT.
  - unfold body. rewrite <- !app_assoc.
    change 12%nat with (4 + 8)%nat. rewrite skipn_add.
    rewrite (skipn_app_exact 4 _ _ HM), (skipn_app_exact 8 _ _ HT).
    apply firstn_app_exact, HN.
  - intros i e Hi.
    apply nth_error_split in Hi. destruct Hi as (pre & post & Hent & Hlen).
    unfold body. rewrite <- !app_assoc.
    change 16%nat with (4 + (8 + 4))%nat at 2.
    rewrite <- !Nat.add_assoc, !skipn_add.
    rewrite (skipn_app_exact 4 _ _ HM), (skipn_app_exact 8 _ _ HT),
      (skipn_app_exact 4 _ _ HN).
    unfold E. rewrite Hent, flat_map_app. cbn [flat_map].
    rewrite <- !app_assoc.
    rewrite (skipn_app_exact (16 * i) (flat_map encode_idx_entry pre));
      [|rewrite length_flat_map_encode_nat; lia].
    apply firstn_app_exact, length_encode_idx_entry.
  - rewrite (skipn_app_exact _ body CK Hbody).
    unfold CK. rewrite (firstn_app_exact _ body _ Hbody), Hbody.
    reflexivity.
Qed.

(** ** A reader that cannot load the index *)

(** X28. When the reader VFD reports a new tick and then cannot load the
    index, [H5F_vfd_swmr_reader_end_of_tick] fails after the swap of the
    two indexes and does not undo it: the index of the last tick is the
    old index, the current index has the length and the count of the
    former old one, and the tick number, the queue and the page buffer and
    cache (nothing is evicted) are as before the call. *)
Theorem reader_eot_load_failure_leaves_indexes_swapped {X : Externals}
    (f : Z) (m m' : machine X) (r : result unit) (tmp : Z) (w1 w2 : World X)
    (old : list H5FD_vfd_swmr_idx_entry_t) :
  H5F_vfd_swmr_reader_end_of_tick f m = (r, m') ->
  f <> 0 ->
  r <> ABORT ->
  H5FD_vfd_swmr_get_tick X (m_world m) = (Some tmp, w1) ->
  tmp <> tick_num (m_files m f) ->
  old_mdf_idx (m_files m f) = Some old ->
  H5FD_vfd_swmr_get_idx X (old_mdf_idx_len (m_files m f)) w1 = (None, w2) ->
  r = FAIL /\ reader_indexes_swapped f m m'.
Proof.
  intros H Hf Hr Htick Htmp Hold Hidx.
  apply Z.eqb_neq in Hf. apply Z.eqb_neq in Htmp.
  unfold H5F_vfd_swmr_reader_end_of_tick, reader_new_tick in H.
  unfold_monad.
  assert (Hstop : forall m0 : machine X, (ABORT, m0) = (r, m') -> False)
    by (intros m0 E; injection E as <- _; congruence).
  repeat first
    [ rewrite Hf in H | rewrite Htick in H | rewrite Htmp in H
    | rewrite Hold in H | rewrite Hidx in H
    | rewrite upd_files_same in H
    | progress cbv beta iota zeta in H
    | progress msimpl_in H
    | match type of H with
      | context [pb_ptr (m_files m f)] =>
          destruct (pb_ptr (m_files m f));
          [|exfalso; cbv beta iota zeta in H; exact (Hstop _ H)]
      | context [vfd_swmr (m_files m f)] =>
          destruct (vfd_swmr (m_files m f));
          [|exfalso; cbv beta iota zeta in H; exact (Hstop _ H)]
      | context [vfd_swmr_writer (m_files m f)] =>
          destruct (vfd_swmr_writer (m_files m f));
          [exfalso; cbv beta iota zeta in H; exact (Hstop _ H)|]
      | context [lf (m_files m f)] =>
          destruct (lf (m_files m f));
          [|exfalso; cbv beta iota zeta in H; exact (Hstop _ H)]
      end ].
  injection H as <- <-. split; [reflexivity|].
  unfold reader_indexes_swapped. msimpl. rewrite ?upd_files_same. msimpl.
  repeat split; reflexivity.
Qed.

Lemma reader_eot_load_failure_leaves_indexes_swapped_witness :
  let m :=
    mk_machine get_idx_failing_externals
      (mk_test_world 12288 5 [])
      (fun _ => test_reader) 0
      [mk_eot_entry false 2 (mk_timespec 50 0) 1] false (mk_timespec 50 0)
      [] in
  let c := H5F_vfd_swmr_reader_end_of_tick 1 in
  c m = (FAIL, run_state c m) /\
  reader_indexes_swapped 1 m (run_state c m).
Proof.
  intros m c.
  assert (Hrun : c m = (FAIL, run_state c m))
    by (apply run_eq; vm_compute; reflexivity).
  split; [exact Hrun|].
  refine (proj2 (reader_eot_load_failure_leaves_indexes_swapped 1 m
                   (run_state c m) FAIL 5 (mk_test_world 12288 5 [])
                   (mk_test_world 12288 5 [])
                   [zero_idx_entry; zero_idx_entry] Hrun _ _ _ _ _ _)).
  - discriminate.
  - discriminate.
  - reflexivity.
  - vm_compute. discriminate.
  - reflexivity.
  - reflexivity.
Defined.
